(** * The devbox reconciler of sealos, embedded in Rocq

    A shallow embedding of
    [controllers/devbox/internal/controller/devbox_controller.go]:
    the cluster store the controller talks to, the controller-runtime client
    calls with their error results, and every function of the reconciler as a
    state-passing program over that store.  Go [panic]s (index out of range,
    assignment to an entry of a nil map) are outcomes of the embedding, and
    [defer] runs on all of them.  The authentication cache of
    [service/pkg/auth/cache.go] follows the reconciler, as steps on the
    cache. *)

From Stdlib Require Import ZArith String List Bool Lia.
From stdpp Require Import base gmap strings list fin_maps pretty.

Open Scope string_scope.
Open Scope Z_scope.

(* ===================================================================== *)
(** ** Errors, as [k8s.io/apimachinery/pkg/api/errors] classifies them    *)
(* ===================================================================== *)

Inductive StatusReason :=
| StatusReasonNotFound
| StatusReasonAlreadyExists
| StatusReasonConflict
| StatusReasonForbidden
| StatusReasonInternalError.

#[global] Instance StatusReason_eq_dec : EqDecision StatusReason.
Proof. solve_decision. Defined.

(** A Go [error]: a status error of the API server, a [fmt.Errorf] without
    [%w], or a [fmt.Errorf("...: %w", err)] wrapping a cause. *)
Inductive error :=
| StatusError (reason : StatusReason) (message : string)
| Errorf (message : string)
| Wrapf (prefix : string) (cause : error).

#[global] Instance error_eq_dec : EqDecision error.
Proof. solve_decision. Defined.

(** [err.Error()] *)
Fixpoint Error (e : error) : string :=
  match e with
  | StatusError _ m => m
  | Errorf m => m
  | Wrapf p c => p +:+ ": " +:+ Error c
  end.

(** [errors.ReasonForError]: looks through wrapping. *)
Fixpoint ReasonForError (e : error) : option StatusReason :=
  match e with
  | StatusError r _ => Some r
  | Errorf _ => None
  | Wrapf _ c => ReasonForError c
  end.

Definition IsNotFound (e : error) : bool :=
  bool_decide (ReasonForError e = Some StatusReasonNotFound).

Definition IsConflict (e : error) : bool :=
  bool_decide (ReasonForError e = Some StatusReasonConflict).

(** [client.IgnoreNotFound]; [None] is Go's [nil]. *)
Definition IgnoreNotFound (err : option error) : option error :=
  match err with
  | Some e => if IsNotFound e then None else Some e
  | None => None
  end.

(** The result of a call that fills an object or returns an error. *)
Inductive result (A : Type) :=
| OK (a : A)
| Fail (e : error).
Arguments OK {A} a.
Arguments Fail {A} e.

(** Errors the API server may answer to any call whatever the store holds
    (a write conflict, an exhausted quota, an outage).  Not-found and
    already-exists only come from the store itself. *)
Inductive Fault :=
| FaultConflict
| FaultForbidden (message : string)
| FaultUnavailable (message : string).

Definition fault_error (f : Fault) : error :=
  match f with
  | FaultConflict =>
      StatusError StatusReasonConflict "the object has been modified"
  | FaultForbidden m => StatusError StatusReasonForbidden m
  | FaultUnavailable m => StatusError StatusReasonInternalError m
  end.

(* ===================================================================== *)
(** ** The data model                                                     *)
(* ===================================================================== *)

(** The key of an object in the store: its namespace and its name. *)
Abbreviation Key := (string * string)%type.

Record OwnerReference := {
  OwnerKind : string;
  OwnerName : string;
  Controller : bool
}.

Record ObjectMeta := {
  Name : string;
  Namespace : string;
  Labels : gmap string string;
  Annotations : gmap string string;
  Finalizers : list string;
  DeletionTimestamp : option Z;
  OwnerReferences : list OwnerReference
}.

Definition zeroMeta : ObjectMeta :=
  {| Name := ""; Namespace := ""; Labels := ∅; Annotations := ∅;
     Finalizers := []; DeletionTimestamp := None; OwnerReferences := [] |}.

Definition namedMeta (name ns : string) (labels : gmap string string)
  : ObjectMeta :=
  {| Name := name; Namespace := ns; Labels := labels; Annotations := ∅;
     Finalizers := []; DeletionTimestamp := None; OwnerReferences := [] |}.

Definition withFinalizers (fs : list string) (m : ObjectMeta) : ObjectMeta :=
  {| Name := Name m; Namespace := Namespace m; Labels := Labels m;
     Annotations := Annotations m; Finalizers := fs;
     DeletionTimestamp := DeletionTimestamp m;
     OwnerReferences := OwnerReferences m |}.

Definition withDeletionTimestamp (t : option Z) (m : ObjectMeta)
  : ObjectMeta :=
  {| Name := Name m; Namespace := Namespace m; Labels := Labels m;
     Annotations := Annotations m; Finalizers := Finalizers m;
     DeletionTimestamp := t; OwnerReferences := OwnerReferences m |}.

Definition withOwnerReferences (os : list OwnerReference) (m : ObjectMeta)
  : ObjectMeta :=
  {| Name := Name m; Namespace := Namespace m; Labels := Labels m;
     Annotations := Annotations m; Finalizers := Finalizers m;
     DeletionTimestamp := DeletionTimestamp m; OwnerReferences := os |}.

Definition withAnnotations (a : gmap string string) (m : ObjectMeta)
  : ObjectMeta :=
  {| Name := Name m; Namespace := Namespace m; Labels := Labels m;
     Annotations := a; Finalizers := Finalizers m;
     DeletionTimestamp := DeletionTimestamp m;
     OwnerReferences := OwnerReferences m |}.

Definition keyOf (m : ObjectMeta) : Key := (Namespace m, Name m).

(** *** Core types shared by pods, services and runtimes *)

Inductive Protocol := ProtocolTCP | ProtocolUDP | ProtocolSCTP.

Record EnvVar := { EnvName : string; EnvValue : string }.

Record ContainerPort := {
  PortName : string;
  ContainerPortNumber : Z;
  PortProtocol : Protocol
}.

Record ResourceRequirements := {
  Limits : list (string * string);
  Requests : list (string * string)
}.

Record Container := {
  ContainerName : string;
  Image : string;
  Env : list EnvVar;
  Ports : list ContainerPort;
  VolumeMounts : list string;
  WorkingDir : string;
  Command : list string;
  Args : list string;
  Resources : ResourceRequirements
}.

Inductive RestartPolicy := RestartPolicyAlways | RestartPolicyNever.

Record PodSpec := {
  TerminationGracePeriodSeconds : option Z;
  AutomountServiceAccountToken : option bool;
  PodRestartPolicy : RestartPolicy;
  Hostname : string;
  Containers : list Container;
  Volumes : list string;
  Tolerations : list string;
  Affinity : option string
}.

(** [corev1.ContainerState]: three optional members; the zero value has
    none. *)
Record ContainerState := {
  Waiting : option string;
  RunningSince : option Z;
  TerminatedExitCode : option Z
}.

Definition zeroContainerState : ContainerState :=
  {| Waiting := None; RunningSince := None; TerminatedExitCode := None |}.

Record ContainerStatus := { CState : ContainerState }.

Inductive PodPhase :=
| PodPending | PodRunning | PodSucceeded | PodFailed | PodUnknown.

Record PodStatus := {
  Phase : PodPhase;
  ContainerStatuses : list ContainerStatus
}.

Record Pod := {
  PodMeta : ObjectMeta;
  PodSpecOf : PodSpec;
  PodStatusOf : PodStatus
}.

(** *** Services *)

Inductive ServiceType := ServiceTypeClusterIP | ServiceTypeNodePort.

Inductive IntOrString := FromInt32 (n : Z) | FromString (s : string).

(** [intstr.IntOrString.String] *)
Definition IntOrString_String (v : IntOrString) : string :=
  match v with
  | FromInt32 n => pretty n
  | FromString s => s
  end.

Record ServicePort := {
  SPName : string;
  SPPort : Z;
  SPTargetPort : IntOrString;
  SPProtocol : Protocol;
  SPNodePort : Z
}.

Record ServiceSpec := {
  Selector : gmap string string;
  SType : ServiceType;
  SPorts : list ServicePort
}.

Record Service := { ServiceMeta : ObjectMeta; ServiceSpecOf : ServiceSpec }.

(** *** Secrets: [Data] is a Go map that may be [nil] *)

Record Secret := {
  SecretMeta : ObjectMeta;
  Data : option (gmap string string)
}.

(** *** Deployments and ingresses *)

Record PodTemplateSpec := { TemplateMeta : ObjectMeta; TemplateSpec : PodSpec }.

Record DeploymentSpec := {
  Replicas : Z;
  MatchLabels : gmap string string;
  Template : PodTemplateSpec
}.

Record Deployment := {
  DeploymentMeta : ObjectMeta;
  DeploymentSpecOf : DeploymentSpec
}.

Record HTTPIngressPath := {
  Path : string;
  PathTypePrefix : bool;
  BackendServiceName : string;
  BackendPortNumber : Z
}.

Record IngressRule := { Host : string; Paths : list HTTPIngressPath }.

Record IngressSpec := {
  IngressClassName : string;
  Rules : list IngressRule
}.

Record Ingress := { IngressMeta : ObjectMeta; IngressSpecOf : IngressSpec }.

(** *** Runtimes: the read-only template a devbox instantiates *)

Record RuntimeConfig := {
  RtImage : string;
  RtPorts : list ContainerPort;
  RtEnv : list EnvVar;
  RtVolumes : list string;
  RtVolumeMounts : list string
}.

Record Runtime := { RuntimeMeta : ObjectMeta; Config : RuntimeConfig }.

(** *** Devboxes *)

Inductive DevboxState :=
| DevboxStateRunning
| DevboxStateStopped
| DevboxStateOther (s : string).

Inductive NetworkType :=
| NetworkTypeNodePort
| NetworkTypeWebSocket
| NetworkTypeOther (s : string).

Inductive CommitStatus :=
| CommitStatusPending | CommitStatusSuccess | CommitStatusFailed.

Record CommitHistory := {
  CImage : string;
  CTime : Z;
  CPod : string;
  CStatus : CommitStatus;
  CPredicatedStatus : CommitStatus
}.

Record RuntimeRef := { RefName : string; RefNamespace : string }.

Record AutoShutdownSpec := { Enable : bool; ShutdownTime : string }.

Record DevboxSpec := {
  State : DevboxState;
  NetworkSpecType : NetworkType;
  RuntimeRefOf : RuntimeRef;
  AutoShutdown : AutoShutdownSpec;
  ExtraEnvs : list EnvVar;
  ExtraVolumes : list string;
  ExtraVolumeMounts : list string;
  DTolerations : list string;
  DAffinity : option string
}.

Record NetworkStatus := {
  NType : NetworkType;
  NodePort : Z;
  WebSocket : string
}.

Record DevboxStatus := {
  DevboxPhase : string;
  Network : NetworkStatus;
  DState : ContainerState;
  LastTerminationState : ContainerState;
  CommitHistoryOf : list CommitHistory
}.

Record Devbox := {
  DevboxMeta : ObjectMeta;
  Spec : DevboxSpec;
  Status : DevboxStatus
}.

Definition zeroDevbox : Devbox :=
  {| DevboxMeta := zeroMeta;
     Spec := {| State := DevboxStateOther "";
                NetworkSpecType := NetworkTypeOther "";
                RuntimeRefOf := {| RefName := ""; RefNamespace := "" |};
                AutoShutdown := {| Enable := false; ShutdownTime := "" |};
                ExtraEnvs := []; ExtraVolumes := []; ExtraVolumeMounts := [];
                DTolerations := []; DAffinity := None |};
     Status := {| DevboxPhase := "";
                  Network := {| NType := NetworkTypeOther ""; NodePort := 0;
                                WebSocket := "" |};
                  DState := zeroContainerState;
                  LastTerminationState := zeroContainerState;
                  CommitHistoryOf := [] |} |}.

Definition withSpecState (st : DevboxState) (d : Devbox) : Devbox :=
  {| DevboxMeta := DevboxMeta d;
     Spec := {| State := st;
                NetworkSpecType := NetworkSpecType (Spec d);
                RuntimeRefOf := RuntimeRefOf (Spec d);
                AutoShutdown := AutoShutdown (Spec d);
                ExtraEnvs := ExtraEnvs (Spec d);
                ExtraVolumes := ExtraVolumes (Spec d);
                ExtraVolumeMounts := ExtraVolumeMounts (Spec d);
                DTolerations := DTolerations (Spec d);
                DAffinity := DAffinity (Spec d) |};
     Status := Status d |}.

Definition withStatus (st : DevboxStatus) (d : Devbox) : Devbox :=
  {| DevboxMeta := DevboxMeta d; Spec := Spec d; Status := st |}.

Definition withNetwork (n : NetworkStatus) (d : Devbox) : Devbox :=
  withStatus {| DevboxPhase := DevboxPhase (Status d); Network := n;
                DState := DState (Status d);
                LastTerminationState := LastTerminationState (Status d);
                CommitHistoryOf := CommitHistoryOf (Status d) |} d.

Definition withNetworkType (t : NetworkType) (d : Devbox) : Devbox :=
  withNetwork {| NType := t; NodePort := NodePort (Network (Status d));
                 WebSocket := WebSocket (Network (Status d)) |} d.

Definition withNodePort (p : Z) (d : Devbox) : Devbox :=
  withNetwork {| NType := NType (Network (Status d)); NodePort := p;
                 WebSocket := WebSocket (Network (Status d)) |} d.

Definition withWebSocket (h : string) (d : Devbox) : Devbox :=
  withNetwork {| NType := NType (Network (Status d));
                 NodePort := NodePort (Network (Status d));
                 WebSocket := h |} d.

Definition withPhase (p : string) (d : Devbox) : Devbox :=
  withStatus {| DevboxPhase := p; Network := Network (Status d);
                DState := DState (Status d);
                LastTerminationState := LastTerminationState (Status d);
                CommitHistoryOf := CommitHistoryOf (Status d) |} d.

Definition withDState (c : ContainerState) (d : Devbox) : Devbox :=
  withStatus {| DevboxPhase := DevboxPhase (Status d);
                Network := Network (Status d);
                DState := c;
                LastTerminationState := LastTerminationState (Status d);
                CommitHistoryOf := CommitHistoryOf (Status d) |} d.

Definition withLastTerminationState (c : ContainerState) (d : Devbox)
  : Devbox :=
  withStatus {| DevboxPhase := DevboxPhase (Status d);
                Network := Network (Status d);
                DState := DState (Status d);
                LastTerminationState := c;
                CommitHistoryOf := CommitHistoryOf (Status d) |} d.

Definition withCommitHistory (h : list CommitHistory) (d : Devbox) : Devbox :=
  withStatus {| DevboxPhase := DevboxPhase (Status d);
                Network := Network (Status d);
                DState := DState (Status d);
                LastTerminationState := LastTerminationState (Status d);
                CommitHistoryOf := h |} d.

(** Decidable equality of every object, for [equality.Semantic.DeepEqual]
    in [CreateOrUpdate]. *)
#[global] Instance OwnerReference_eq_dec : EqDecision OwnerReference.
Proof. solve_decision. Defined.
#[global] Instance ObjectMeta_eq_dec : EqDecision ObjectMeta.
Proof. solve_decision. Defined.
#[global] Instance Protocol_eq_dec : EqDecision Protocol.
Proof. solve_decision. Defined.
#[global] Instance EnvVar_eq_dec : EqDecision EnvVar.
Proof. solve_decision. Defined.
#[global] Instance ContainerPort_eq_dec : EqDecision ContainerPort.
Proof. solve_decision. Defined.
#[global] Instance ResourceRequirements_eq_dec : EqDecision ResourceRequirements.
Proof. solve_decision. Defined.
#[global] Instance Container_eq_dec : EqDecision Container.
Proof. solve_decision. Defined.
#[global] Instance RestartPolicy_eq_dec : EqDecision RestartPolicy.
Proof. solve_decision. Defined.
#[global] Instance PodSpec_eq_dec : EqDecision PodSpec.
Proof. solve_decision. Defined.
#[global] Instance ContainerState_eq_dec : EqDecision ContainerState.
Proof. solve_decision. Defined.
#[global] Instance ContainerStatus_eq_dec : EqDecision ContainerStatus.
Proof. solve_decision. Defined.
#[global] Instance PodPhase_eq_dec : EqDecision PodPhase.
Proof. solve_decision. Defined.
#[global] Instance PodStatus_eq_dec : EqDecision PodStatus.
Proof. solve_decision. Defined.
#[global] Instance Pod_eq_dec : EqDecision Pod.
Proof. solve_decision. Defined.
#[global] Instance ServiceType_eq_dec : EqDecision ServiceType.
Proof. solve_decision. Defined.
#[global] Instance IntOrString_eq_dec : EqDecision IntOrString.
Proof. solve_decision. Defined.
#[global] Instance ServicePort_eq_dec : EqDecision ServicePort.
Proof. solve_decision. Defined.
#[global] Instance ServiceSpec_eq_dec : EqDecision ServiceSpec.
Proof. solve_decision. Defined.
#[global] Instance Service_eq_dec : EqDecision Service.
Proof. solve_decision. Defined.
#[global] Instance Secret_eq_dec : EqDecision Secret.
Proof. solve_decision. Defined.
#[global] Instance PodTemplateSpec_eq_dec : EqDecision PodTemplateSpec.
Proof. solve_decision. Defined.
#[global] Instance DeploymentSpec_eq_dec : EqDecision DeploymentSpec.
Proof. solve_decision. Defined.
#[global] Instance Deployment_eq_dec : EqDecision Deployment.
Proof. solve_decision. Defined.
#[global] Instance HTTPIngressPath_eq_dec : EqDecision HTTPIngressPath.
Proof. solve_decision. Defined.
#[global] Instance IngressRule_eq_dec : EqDecision IngressRule.
Proof. solve_decision. Defined.
#[global] Instance IngressSpec_eq_dec : EqDecision IngressSpec.
Proof. solve_decision. Defined.
#[global] Instance Ingress_eq_dec : EqDecision Ingress.
Proof. solve_decision. Defined.
#[global] Instance RuntimeConfig_eq_dec : EqDecision RuntimeConfig.
Proof. solve_decision. Defined.
#[global] Instance Runtime_eq_dec : EqDecision Runtime.
Proof. solve_decision. Defined.
#[global] Instance DevboxState_eq_dec : EqDecision DevboxState.
Proof. solve_decision. Defined.
#[global] Instance NetworkType_eq_dec : EqDecision NetworkType.
Proof. solve_decision. Defined.
#[global] Instance CommitStatus_eq_dec : EqDecision CommitStatus.
Proof. solve_decision. Defined.
#[global] Instance CommitHistory_eq_dec : EqDecision CommitHistory.
Proof. solve_decision. Defined.
#[global] Instance RuntimeRef_eq_dec : EqDecision RuntimeRef.
Proof. solve_decision. Defined.
#[global] Instance AutoShutdownSpec_eq_dec : EqDecision AutoShutdownSpec.
Proof. solve_decision. Defined.
#[global] Instance DevboxSpec_eq_dec : EqDecision DevboxSpec.
Proof. solve_decision. Defined.
#[global] Instance NetworkStatus_eq_dec : EqDecision NetworkStatus.
Proof. solve_decision. Defined.
#[global] Instance DevboxStatus_eq_dec : EqDecision DevboxStatus.
Proof. solve_decision. Defined.
#[global] Instance Devbox_eq_dec : EqDecision Devbox.
Proof. solve_decision. Defined.

(* ===================================================================== *)
(** ** The cluster store and the world the reconciler runs in            *)
(* ===================================================================== *)

Inductive Kind :=
| KDevbox | KRuntime | KSecret | KPod | KService | KDeployment | KIngress.

#[global] Instance Kind_eq_dec : EqDecision Kind.
Proof. solve_decision. Defined.

Record Cluster := {
  devboxes : gmap Key Devbox;
  runtimes : gmap Key Runtime;
  secrets : gmap Key Secret;
  pods : gmap Key Pod;
  services : gmap Key Service;
  deployments : gmap Key Deployment;
  ingresses : gmap Key Ingress
}.

Definition emptyCluster : Cluster :=
  {| devboxes := ∅; runtimes := ∅; secrets := ∅; pods := ∅; services := ∅;
     deployments := ∅; ingresses := ∅ |}.

Inductive EventType := EventTypeNormal | EventTypeWarning.

Record Event := {
  EvObject : Key;
  EvType : EventType;
  EvReason : string;
  EvMessage : string
}.

Inductive Verb :=
| VGet | VList | VCreate | VUpdate | VStatusUpdate | VDelete | VDeleteAllOf.

Record Call := { CallVerb : Verb; CallKind : Kind; CallKey : Key }.

#[global] Instance EventType_eq_dec : EqDecision EventType.
Proof. solve_decision. Defined.
#[global] Instance Event_eq_dec : EqDecision Event.
Proof. solve_decision. Defined.
#[global] Instance Verb_eq_dec : EqDecision Verb.
Proof. solve_decision. Defined.
#[global] Instance Call_eq_dec : EqDecision Call.
Proof. solve_decision. Defined.

(** The world of one reconciler: the store, the two objects the Go code
    shares by pointer between a function, its deferred closure and its
    callees ([devbox *Devbox], and the [podList] whose first item [pod]
    points into), what the reconciler emitted ([events]) and asked of the
    API server ([calls], oldest first), and the environment's answers still
    to come: [faults] (one entry per API call, [None] or absent meaning the
    store answers), [entropy] for [rand.String], [clock] for [time.Now] in
    seconds, and the node ports the platform will hand out (0 or none left:
    not assigned yet). *)
Record World := {
  cluster : Cluster;
  devbox : Devbox;
  podList : list Pod;
  events : list Event;
  calls : list Call;
  faults : list (option Fault);
  entropy : nat -> string;
  draws : nat;
  clock : nat -> Z;
  reads : nat;
  nodePortPool : list Z
}.

Definition setCluster (c : Cluster) (w : World) : World :=
  {| cluster := c; devbox := devbox w; podList := podList w;
     events := events w; calls := calls w; faults := faults w;
     entropy := entropy w; draws := draws w; clock := clock w;
     reads := reads w; nodePortPool := nodePortPool w |}.

Definition setDevboxCell (d : Devbox) (w : World) : World :=
  {| cluster := cluster w; devbox := d; podList := podList w;
     events := events w; calls := calls w; faults := faults w;
     entropy := entropy w; draws := draws w; clock := clock w;
     reads := reads w; nodePortPool := nodePortPool w |}.

Definition setPodListCell (l : list Pod) (w : World) : World :=
  {| cluster := cluster w; devbox := devbox w; podList := l;
     events := events w; calls := calls w; faults := faults w;
     entropy := entropy w; draws := draws w; clock := clock w;
     reads := reads w; nodePortPool := nodePortPool w |}.

Definition setEvents (e : list Event) (w : World) : World :=
  {| cluster := cluster w; devbox := devbox w; podList := podList w;
     events := e; calls := calls w; faults := faults w;
     entropy := entropy w; draws := draws w; clock := clock w;
     reads := reads w; nodePortPool := nodePortPool w |}.

Definition setCalls (c : list Call) (w : World) : World :=
  {| cluster := cluster w; devbox := devbox w; podList := podList w;
     events := events w; calls := c; faults := faults w;
     entropy := entropy w; draws := draws w; clock := clock w;
     reads := reads w; nodePortPool := nodePortPool w |}.

Definition setFaults (f : list (option Fault)) (w : World) : World :=
  {| cluster := cluster w; devbox := devbox w; podList := podList w;
     events := events w; calls := calls w; faults := f;
     entropy := entropy w; draws := draws w; clock := clock w;
     reads := reads w; nodePortPool := nodePortPool w |}.

Definition setDraws (n : nat) (w : World) : World :=
  {| cluster := cluster w; devbox := devbox w; podList := podList w;
     events := events w; calls := calls w; faults := faults w;
     entropy := entropy w; draws := n; clock := clock w;
     reads := reads w; nodePortPool := nodePortPool w |}.

Definition setReads (n : nat) (w : World) : World :=
  {| cluster := cluster w; devbox := devbox w; podList := podList w;
     events := events w; calls := calls w; faults := faults w;
     entropy := entropy w; draws := draws w; clock := clock w;
     reads := n; nodePortPool := nodePortPool w |}.

Definition setNodePortPool (p : list Z) (w : World) : World :=
  {| cluster := cluster w; devbox := devbox w; podList := podList w;
     events := events w; calls := calls w; faults := faults w;
     entropy := entropy w; draws := draws w; clock := clock w;
     reads := reads w; nodePortPool := p |}.

(* ===================================================================== *)
(** ** The monad of Go code: world passing, with panics                  *)
(* ===================================================================== *)

Inductive outcome (A : Type) :=
| Done (a : A)
| Panicked (msg : string).
Arguments Done {A} a.
Arguments Panicked {A} msg.

Definition M (A : Type) : Type := World -> outcome A * World.

#[global] Instance M_ret : MRet M := fun A a w => (Done a, w).

#[global] Instance M_bind : MBind M := fun A B k m w =>
  match m w with
  | (Done a, w1) => k a w1
  | (Panicked msg, w1) => (Panicked msg, w1)
  end.

Definition ret {A} (a : A) : M A := mret a.

Definition panic {A} (msg : string) : M A := fun w => (Panicked msg, w).

(** [defer d; body]: the deferred call runs when the body returns and when
    it panics; the function's result is the body's, unless the deferred call
    panics itself. *)
Definition defer {A} (d : M unit) (body : M A) : M A := fun w =>
  let '(r, w1) := body w in
  match d w1 with
  | (Done _, w2) => (r, w2)
  | (Panicked msg, w2) => (Panicked msg, w2)
  end.

(** [if err := m; err != nil { return err }; k] *)
Notation "'check!' m ; k" :=
  (mbind (fun err : option error =>
            match err with Some e => ret (Some e) | None => k end) m)
  (at level 20, m at level 100, k at level 200, only parsing) : stdpp_scope.

Definition getDevbox : M Devbox := fun w => (Done (devbox w), w).
Definition setDevbox (d : Devbox) : M unit :=
  fun w => (Done tt, setDevboxCell d w).
Definition modifyDevbox (f : Devbox -> Devbox) : M unit :=
  fun w => (Done tt, setDevboxCell (f (devbox w)) w).
Definition getPodList : M (list Pod) := fun w => (Done (podList w), w).
Definition setPodList (l : list Pod) : M unit :=
  fun w => (Done tt, setPodListCell l w).

(** [rand.String(n)]: the next draw of the entropy source. *)
Definition rand_String (n : nat) : M string :=
  fun w => (Done (entropy w (draws w)), setDraws (S (draws w)) w).

(** [time.Now()], in seconds: the next reading of the clock. *)
Definition time_Now : M Z :=
  fun w => (Done (clock w (reads w)), setReads (S (reads w)) w).

(** [r.Recorder.Eventf(obj, eventtype, reason, message)] *)
Definition Eventf (obj : Key) (t : EventType) (reason msg : string) : M unit :=
  fun w => (Done tt,
            setEvents (events w ++ [{| EvObject := obj; EvType := t;
                                       EvReason := reason;
                                       EvMessage := msg |}]) w).

(* ===================================================================== *)
(** ** The API server behind [client.Client]                             *)
(* ===================================================================== *)

(** [client.Object]: what the store needs of a kind.  [prepareForUpdate old
    new] is what the server stores on [Update] (the status of a kind with a
    status subresource stays the stored one); [allocate] is the server's
    defaulting on write (node ports of a NodePort service).  A kind has its
    own table in the store and its own metadata. *)
Class Object (T : Type) := {
  kind : Kind;
  object_eq_dec :: EqDecision T;
  objectMeta : T -> ObjectMeta;
  setObjectMeta : ObjectMeta -> T -> T;
  table : Cluster -> gmap Key T;
  setTable : gmap Key T -> Cluster -> Cluster;
  prepareForUpdate : T -> T -> T;
  allocate : T -> list Z -> T * list Z;
  table_setTable : forall t c, table (setTable t c) = t;
  objectMeta_setObjectMeta : forall m o, objectMeta (setObjectMeta m o) = m
}.

#[global] Instance Devbox_Object : Object Devbox := {|
  kind := KDevbox;
  objectMeta := DevboxMeta;
  setObjectMeta m d := {| DevboxMeta := m; Spec := Spec d; Status := Status d |};
  table := devboxes;
  setTable t c :=
    {| devboxes := t; runtimes := runtimes c; secrets := secrets c;
       pods := pods c; services := services c;
       deployments := deployments c; ingresses := ingresses c |};
  prepareForUpdate old new := withStatus (Status old) new;
  allocate d pool := (d, pool);
  table_setTable _ _ := eq_refl;
  objectMeta_setObjectMeta _ _ := eq_refl
|}.

#[global] Instance Runtime_Object : Object Runtime := {|
  kind := KRuntime;
  objectMeta := RuntimeMeta;
  setObjectMeta m r := {| RuntimeMeta := m; Config := Config r |};
  table := runtimes;
  setTable t c :=
    {| devboxes := devboxes c; runtimes := t; secrets := secrets c;
       pods := pods c; services := services c;
       deployments := deployments c; ingresses := ingresses c |};
  prepareForUpdate old new := new;
  allocate r pool := (r, pool);
  table_setTable _ _ := eq_refl;
  objectMeta_setObjectMeta _ _ := eq_refl
|}.

#[global] Instance Secret_Object : Object Secret := {|
  kind := KSecret;
  objectMeta := SecretMeta;
  setObjectMeta m s := {| SecretMeta := m; Data := Data s |};
  table := secrets;
  setTable t c :=
    {| devboxes := devboxes c; runtimes := runtimes c; secrets := t;
       pods := pods c; services := services c;
       deployments := deployments c; ingresses := ingresses c |};
  prepareForUpdate old new := new;
  allocate s pool := (s, pool);
  table_setTable _ _ := eq_refl;
  objectMeta_setObjectMeta _ _ := eq_refl
|}.

#[global] Instance Pod_Object : Object Pod := {|
  kind := KPod;
  objectMeta := PodMeta;
  setObjectMeta m p :=
    {| PodMeta := m; PodSpecOf := PodSpecOf p; PodStatusOf := PodStatusOf p |};
  table := pods;
  setTable t c :=
    {| devboxes := devboxes c; runtimes := runtimes c; secrets := secrets c;
       pods := t; services := services c;
       deployments := deployments c; ingresses := ingresses c |};
  prepareForUpdate old new :=
    {| PodMeta := PodMeta new; PodSpecOf := PodSpecOf new;
       PodStatusOf := PodStatusOf old |};
  allocate p pool := (p, pool);
  table_setTable _ _ := eq_refl;
  objectMeta_setObjectMeta _ _ := eq_refl
|}.

(** The platform assigns a node port to each port of a NodePort service
    that has none, from the ports it has left. *)
Fixpoint allocateNodePorts (ports : list ServicePort) (pool : list Z)
  : list ServicePort * list Z :=
  match ports with
  | [] => ([], pool)
  | p :: rest =>
      if bool_decide (SPNodePort p = 0) then
        match pool with
        | [] => let '(rest', pool') := allocateNodePorts rest pool in
                (p :: rest', pool')
        | n :: pool1 =>
            let '(rest', pool') := allocateNodePorts rest pool1 in
            ({| SPName := SPName p; SPPort := SPPort p;
                SPTargetPort := SPTargetPort p; SPProtocol := SPProtocol p;
                SPNodePort := n |} :: rest', pool')
        end
      else
        let '(rest', pool') := allocateNodePorts rest pool in
        (p :: rest', pool')
  end.

Definition allocateService (s : Service) (pool : list Z) : Service * list Z :=
  match SType (ServiceSpecOf s) with
  | ServiceTypeNodePort =>
      let '(ports, pool') := allocateNodePorts (SPorts (ServiceSpecOf s)) pool in
      ({| ServiceMeta := ServiceMeta s;
          ServiceSpecOf := {| Selector := Selector (ServiceSpecOf s);
                              SType := ServiceTypeNodePort;
                              SPorts := ports |} |}, pool')
  | ServiceTypeClusterIP => (s, pool)
  end.

#[global] Instance Service_Object : Object Service := {|
  kind := KService;
  objectMeta := ServiceMeta;
  setObjectMeta m s := {| ServiceMeta := m; ServiceSpecOf := ServiceSpecOf s |};
  table := services;
  setTable t c :=
    {| devboxes := devboxes c; runtimes := runtimes c; secrets := secrets c;
       pods := pods c; services := t;
       deployments := deployments c; ingresses := ingresses c |};
  prepareForUpdate old new := new;
  allocate := allocateService;
  table_setTable _ _ := eq_refl;
  objectMeta_setObjectMeta _ _ := eq_refl
|}.

#[global] Instance Deployment_Object : Object Deployment := {|
  kind := KDeployment;
  objectMeta := DeploymentMeta;
  setObjectMeta m d :=
    {| DeploymentMeta := m; DeploymentSpecOf := DeploymentSpecOf d |};
  table := deployments;
  setTable t c :=
    {| devboxes := devboxes c; runtimes := runtimes c; secrets := secrets c;
       pods := pods c; services := services c;
       deployments := t; ingresses := ingresses c |};
  prepareForUpdate old new := new;
  allocate d pool := (d, pool);
  table_setTable _ _ := eq_refl;
  objectMeta_setObjectMeta _ _ := eq_refl
|}.

#[global] Instance Ingress_Object : Object Ingress := {|
  kind := KIngress;
  objectMeta := IngressMeta;
  setObjectMeta m i := {| IngressMeta := m; IngressSpecOf := IngressSpecOf i |};
  table := ingresses;
  setTable t c :=
    {| devboxes := devboxes c; runtimes := runtimes c; secrets := secrets c;
       pods := pods c; services := services c;
       deployments := deployments c; ingresses := t |};
  prepareForUpdate old new := new;
  allocate i pool := (i, pool);
  table_setTable _ _ := eq_refl;
  objectMeta_setObjectMeta _ _ := eq_refl
|}.

Definition NewNotFound (k : Kind) (key : Key) : error :=
  StatusError StatusReasonNotFound (key.2 +:+ " not found").

Definition NewAlreadyExists (k : Kind) (key : Key) : error :=
  StatusError StatusReasonAlreadyExists (key.2 +:+ " already exists").

Definition errOf {A} (r : result A) : option error :=
  match r with
  | OK _ => None
  | Fail e => Some e
  end.

(** Every call is recorded and uses up one entry of [faults]; it is
    answered by that fault if there is one, else by the store.  The store
    keeps no resource versions: the conflict the API server answers to a
    write of a stale copy is an entry [FaultConflict] of [faults] at that
    call, and a write that meets no fault is applied.  A run of the code
    against the API server is thus the run from the world whose [faults]
    has the conflicts where the server answers them.  A pass that adds the
    finalizer goes on with the copy it read before, so that its next write
    of that copy is a stale one. *)
Definition headFault (fs : list (option Fault)) : option Fault :=
  match fs with
  | Some f :: _ => Some f
  | _ => None
  end.

Definition nextFault (w : World) : option Fault := headFault (faults w).

Definition tick (c : Call) (w : World) : World :=
  setFaults (tail (faults w)) (setCalls (calls w ++ [c]) w).

Definition serve {A} (v : Verb) (k : Kind) (key : Key)
    (handler : World -> result A * World) : M (result A) := fun w =>
  let w1 := tick {| CallVerb := v; CallKind := k; CallKey := key |} w in
  match nextFault w with
  | Some f => (Done (Fail (fault_error f)), w1)
  | None => let '(r, w2) := handler w1 in (Done r, w2)
  end.

(** [client.InNamespace(ns), client.MatchingLabels(sel)] *)
Definition selected (ns : string) (sel : gmap string string) (m : ObjectMeta)
  : bool :=
  bool_decide (Namespace m = ns)
  && bool_decide (map_Forall (fun k v => Labels m !! k = Some v) sel).

Section Client.
Context {T : Type} `{Object T}.

Definition updTable (f : gmap Key T -> gmap Key T) (w : World) : World :=
  setCluster (setTable (f (table (cluster w))) (cluster w)) w.

(** [r.Get(ctx, key, obj)] *)
Definition client_Get (key : Key) : M (result T) :=
  serve VGet kind key (fun w =>
    match table (cluster w) !! key with
    | Some o => (OK o, w)
    | None => (Fail (NewNotFound kind key), w)
    end).

(** [r.List(ctx, &list, client.InNamespace(ns), client.MatchingLabels(sel))] *)
Definition client_List (ns : string) (sel : gmap string string)
  : M (result (list T)) :=
  serve VList kind (ns, "") (fun w =>
    (OK (filter (fun o => selected ns sel (objectMeta o) = true)
                (map_to_list (table (cluster w))).*2), w)).

(** [r.Create(ctx, obj)]; the object comes back as stored. *)
Definition client_Create (obj : T) : M (result T) :=
  let key := keyOf (objectMeta obj) in
  serve VCreate kind key (fun w =>
    match table (cluster w) !! key with
    | Some _ => (Fail (NewAlreadyExists kind key), w)
    | None =>
        let '(o, pool) := allocate obj (nodePortPool w) in
        (OK o, updTable (insert key o) (setNodePortPool pool w))
    end).

(** [r.Update(ctx, obj)]: the deletion timestamp is the server's; an
    object under deletion goes away with its last finalizer. *)
Definition client_Update (obj : T) : M (result T) :=
  let key := keyOf (objectMeta obj) in
  serve VUpdate kind key (fun w =>
    match table (cluster w) !! key with
    | None => (Fail (NewNotFound kind key), w)
    | Some old =>
        let new0 := prepareForUpdate old obj in
        let new1 :=
          setObjectMeta
            (withDeletionTimestamp (DeletionTimestamp (objectMeta old))
                                   (objectMeta new0)) new0 in
        let '(o, pool) := allocate new1 (nodePortPool w) in
        let w1 := setNodePortPool pool w in
        match DeletionTimestamp (objectMeta o), Finalizers (objectMeta o) with
        | Some _, [] => (OK o, updTable (delete key) w1)
        | _, _ => (OK o, updTable (insert key o) w1)
        end
    end).

(** What a delete request does to a stored object: it goes away, or, held
    by finalizers, is marked with a deletion timestamp. *)
Definition reap (now : Z) (o : T) : option T :=
  match Finalizers (objectMeta o) with
  | [] => None
  | _ :: _ =>
      match DeletionTimestamp (objectMeta o) with
      | Some _ => Some o
      | None =>
          Some (setObjectMeta (withDeletionTimestamp (Some now) (objectMeta o)) o)
      end
  end.

(** [r.Delete(ctx, obj)] *)
Definition client_Delete (obj : T) : M (option error) :=
  let key := keyOf (objectMeta obj) in
  r ← serve VDelete kind key (fun w =>
    match table (cluster w) !! key with
    | None => (Fail (NewNotFound kind key), w)
    | Some old =>
        match reap (clock w (reads w)) old with
        | None => (OK tt, updTable (delete key) w)
        | Some o => (OK tt, updTable (insert key o) w)
        end
    end);
  ret (errOf r).

(** [r.DeleteAllOf(ctx, obj, client.InNamespace(ns), client.MatchingLabels(sel))] *)
Definition client_DeleteAllOf (ns : string) (sel : gmap string string)
  : M (option error) :=
  r ← serve VDeleteAllOf kind (ns, "") (fun w =>
    (OK tt,
     updTable (omap (fun o => if selected ns sel (objectMeta o)
                              then reap (clock w (reads w)) o
                              else Some o)) w));
  ret (errOf r).

(** [controllerutil.ContainsFinalizer], [AddFinalizer], [RemoveFinalizer]:
    the object after the call and whether its finalizers changed. *)
Definition ContainsFinalizer (o : T) (f : string) : bool :=
  bool_decide (f ∈ Finalizers (objectMeta o)).

Definition AddFinalizer (o : T) (f : string) : T * bool :=
  if ContainsFinalizer o f then (o, false)
  else (setObjectMeta
          (withFinalizers (Finalizers (objectMeta o) ++ [f]) (objectMeta o)) o,
        true).

Definition RemoveFinalizer (o : T) (f : string) : T * bool :=
  let fs := filter (fun x => x ≠ f) (Finalizers (objectMeta o)) in
  (setObjectMeta (withFinalizers fs (objectMeta o)) o,
   bool_decide (length (Finalizers (objectMeta o)) ≠ length fs)).

Definition referSameObject (a b : OwnerReference) : bool :=
  bool_decide (OwnerKind a = OwnerKind b ∧ OwnerName a = OwnerName b).

Fixpoint upsertOwnerRef (ref : OwnerReference) (owners : list OwnerReference)
  : list OwnerReference :=
  match owners with
  | [] => [ref]
  | o :: rest =>
      if referSameObject o ref then ref :: rest
      else o :: upsertOwnerRef ref rest
  end.

(** [controllerutil.SetControllerReference(devbox, obj, r.Scheme)] *)
Definition SetControllerReference (owner : Devbox) (o : T) : result T :=
  let ownerNs := Namespace (DevboxMeta owner) in
  let objNs := Namespace (objectMeta o) in
  if bool_decide (ownerNs ≠ "") && bool_decide (objNs = "") then
    Fail (Errorf "cluster-scoped resource must not have a namespace-scoped owner")
  else if bool_decide (ownerNs ≠ "") && bool_decide (ownerNs ≠ objNs) then
    Fail (Errorf "cross-namespace owner references are disallowed")
  else
    let ref := {| OwnerKind := "Devbox"; OwnerName := Name (DevboxMeta owner);
                  Controller := true |} in
    let owners := OwnerReferences (objectMeta o) in
    match List.find Controller owners with
    | Some existing =>
        if referSameObject existing ref then
          OK (setObjectMeta
                (withOwnerReferences (upsertOwnerRef ref owners) (objectMeta o)) o)
        else Fail (Errorf "Object is already owned by another controller")
    | None =>
        OK (setObjectMeta
              (withOwnerReferences (upsertOwnerRef ref owners) (objectMeta o)) o)
    end.

(** [controllerutil.CreateOrUpdate(ctx, r.Client, obj, f)].  The mutate
    function works on what [Get] left in [obj]: the caller's object when
    nothing is stored, else the stored one.  An unchanged object is not
    written. *)
Definition mutate (f : T -> outcome (result T)) (key : Key) (obj : T)
  : M (result T) := fun w =>
  match f obj with
  | Panicked msg => (Panicked msg, w)
  | Done (Fail e) => (Done (Fail e), w)
  | Done (OK o) =>
      if bool_decide (keyOf (objectMeta o) = key) then (Done (OK o), w)
      else (Done (Fail (Errorf
             "MutateFn cannot mutate object name and/or object namespace")), w)
  end.

Definition CreateOrUpdate (obj : T) (f : T -> outcome (result T))
  : M (result T) :=
  let key := keyOf (objectMeta obj) in
  got ← client_Get key;
  match got with
  | Fail err =>
      if negb (IsNotFound err) then ret (Fail err)
      else
        m ← mutate f key obj;
        match m with
        | Fail e => ret (Fail e)
        | OK obj1 => client_Create obj1
        end
  | OK existing =>
      m ← mutate f key existing;
      match m with
      | Fail e => ret (Fail e)
      | OK obj1 =>
          if bool_decide (existing = obj1) then ret (OK obj1)
          else client_Update obj1
      end
  end.
End Client.

(** [r.Status().Update(ctx, obj)] of a devbox: only the status is written. *)
Definition client_Status_Update (obj : Devbox) : M (result Devbox) :=
  let key := keyOf (DevboxMeta obj) in
  serve VStatusUpdate KDevbox key (fun w =>
    match devboxes (cluster w) !! key with
    | None => (Fail (NewNotFound KDevbox key), w)
    | Some old =>
        let o := withStatus (Status obj) old in
        (OK o, updTable (insert key o) w)
    end).

(** [r.Update(ctx, devbox)] and [r.Status().Update(ctx, devbox)] on the
    shared [devbox]: a successful call leaves the server's answer in it. *)
Definition Update_devbox : M (option error) :=
  d ← getDevbox;
  r ← client_Update d;
  match r with
  | OK d' => setDevbox d';; ret None
  | Fail e => ret (Some e)
  end.

Definition Status_Update_devbox : M (option error) :=
  d ← getDevbox;
  r ← client_Status_Update d;
  match r with
  | OK d' => setDevbox d';; ret None
  | Fail e => ret (Some e)
  end.

(** [retry.DefaultRetry.Steps] *)
Definition DefaultRetrySteps : nat := 5.

(** [retry.OnError(backoff, retriable, fn)]: [fn] runs at most [steps]
    times, again only after a retriable error; when the steps run out the
    last error is returned.  [zero] is what the variable [fn] fills holds
    when [fn] never ran. *)
Fixpoint attempts {A} (more : nat) (retriable : error -> bool)
    (fn : M (result A)) : M (result A) :=
  r ← fn;
  match r with
  | OK a => ret (OK a)
  | Fail e =>
      if retriable e then
        match more with
        | O => ret (Fail e)
        | S n => attempts n retriable fn
        end
      else ret (Fail e)
  end.

Definition OnError {A} (zero : A) (steps : nat) (retriable : error -> bool)
    (fn : M (result A)) : M (result A) :=
  match steps with
  | O => ret (OK zero)
  | S n => attempts n retriable fn
  end.

(** [retry.RetryOnConflict(backoff, fn)] *)
Definition RetryOnConflict (steps : nat) (fn : M (option error))
  : M (option error) :=
  r ← OnError tt steps IsConflict
        (e ← fn; ret (match e with Some err => Fail err | None => OK tt end));
  ret (errOf r).

(* ===================================================================== *)
(** ** What the reconciler imports                                        *)
(* ===================================================================== *)

(** [label.Recommended] *)
Record Recommended := {
  RecName : string;
  ManagedBy : string;
  PartOf : string
}.

(** The packages [helper], [label] and [api/v1alpha1] of the repository, as
    the reconciler uses them.  A function that takes [*Devbox] to update it
    returns the updated devbox; [GenerateSSHKeyPair] draws from the
    world's entropy. *)
Class Helper := {
  FinalizerName : string;
  DefaultManagedBy : string;
  DevBoxPartOf : string;
  RecommendedLabels : Recommended -> gmap string string;
  GenerateSSHKeyPair : string -> result (string * string);
  GenerateDevboxPhase : Devbox -> list Pod -> string;
  UpdateDevboxStatus : Devbox -> Devbox -> Devbox;
  IsExceededQuotaError : error -> bool;
  UpdatePredicatedCommitStatus : Devbox -> Pod -> Devbox;
  PodMatchExpectations : Pod -> Pod -> bool;
  UpdateCommitHistory : Devbox -> Pod -> bool -> Devbox;
  GenerateProxyPodLabels : Devbox -> Runtime -> gmap string string;
  GeneratePodAnnotations : Devbox -> Runtime -> gmap string string;
  GenerateProxyPodResourceRequirements : ResourceRequirements;
  GeneratePodLabels : Devbox -> Runtime -> gmap string string;
  GenerateDevboxEnvVars : Devbox -> CommitHistory -> list EnvVar;
  GetLastSuccessCommitImageName : Devbox -> Runtime -> string;
  GenerateSSHVolume : Devbox -> string;
  GenerateSSHVolumeMounts : list string;
  GenerateWorkingDir : Devbox -> Runtime -> string;
  GenerateCommand : Devbox -> Runtime -> list string;
  GenerateDevboxArgs : Devbox -> Runtime -> list string;
  GenerateResourceRequirements :
    Devbox -> string -> string -> string -> string -> ResourceRequirements
}.

(** [github.com/golang-jwt/jwt/v5] *)
Inductive SigningMethod :=
| SigningMethodHS256 | SigningMethodHS384 | SigningMethodHS512.

Record RegisteredClaims := {
  IssuedAt : Z;
  ExpiresAt : Z;
  Issuer : string
}.

(** [DevboxClaims] *)
Record DevboxClaims := {
  DevboxName : string;
  NameSpace : string;
  Registered : RegisteredClaims
}.

Record Token := { Method : SigningMethod; Claims : DevboxClaims }.

Definition NewWithClaims (m : SigningMethod) (c : DevboxClaims) : Token :=
  {| Method := m; Claims := c |}.

(** What the reconciler uses of third-party libraries beyond the client:
    [token.SignedString(key)] of the JWT library and
    [now.Format("2006-01-02-150405")]. *)
Class Libraries := {
  SignedString : Token -> string -> result string;
  FormatTime : Z -> string
}.

(** [time.Hour * 7 * 24], in seconds *)
Definition sevenDays : Z := 3600 * 7 * 24.

(** [DevboxReconciler]: the configuration read at startup.  The two rates
    are only handed to [helper.GenerateResourceRequirements]. *)
Record DevboxReconciler := {
  CommitImageRegistry : string;
  RequestCPURate : string;
  RequestMemoryRate : string;
  RequestEphemeralStorage : string;
  LimitEphemeralStorage : string;
  WebSocketImage : string;
  DebugMode : bool;
  WebsocketProxyDomain : string;
  IngressClass : string;
  EnableAutoShutdown : bool;
  ShutdownServerKey : string;
  ShutdownServerAddr : string
}.

Definition IsZero (t : option Z) : bool :=
  match t with
  | None => true
  | Some _ => false
  end.

(** [strconv.FormatBool] *)
Definition FormatBool (b : bool) : string :=
  if b then "true" else "false".

Definition indexPanic : string :=
  "runtime error: index out of range [0] with length 0".

Definition nilMapPanic : string := "assignment to entry in nil map".

(** [s[0]] *)
Definition index0 {A} (s : list A) : M A :=
  match s with
  | x :: _ => ret x
  | [] => panic indexPanic
  end.

(** What [r.Get] decodes a stored secret to: [Data] is [omitempty], so a
    secret stored with no entry comes back with a nil map. *)
Definition decodeSecret (s : Secret) : Secret :=
  match Data s with
  | Some m =>
      if decide (m = ∅) then {| SecretMeta := SecretMeta s; Data := None |}
      else s
  | None => s
  end.

(** [secret.Data[k] = v] *)
Definition setData (s : Secret) (k v : string) : M Secret :=
  match Data s with
  | Some m => ret {| SecretMeta := SecretMeta s; Data := Some (<[k:=v]> m) |}
  | None => panic nilMapPanic
  end.

(** [_, ok := secret.Data[k]] and [secret.Data[k]] *)
Definition hasData (s : Secret) (k : string) : bool :=
  match Data s with
  | Some m => bool_decide (is_Some (m !! k))
  | None => false
  end.

Definition getData (s : Secret) (k : string) : string :=
  match Data s with
  | Some m => default "" (m !! k)
  | None => ""
  end.

Definition zeroServiceSpec : ServiceSpec :=
  {| Selector := ∅; SType := ServiceTypeClusterIP; SPorts := [] |}.

Definition zeroService : Service :=
  {| ServiceMeta := zeroMeta; ServiceSpecOf := zeroServiceSpec |}.

(** [ports[0].Name = e.Name; ports[0].Port = e.Port; ...]: the four fields
    the reconciler owns of the first port; its node port stays. *)
Definition overwritePort (e p : ServicePort) : ServicePort :=
  {| SPName := SPName e; SPPort := SPPort e; SPTargetPort := SPTargetPort e;
     SPProtocol := SPProtocol e; SPNodePort := SPNodePort p |}.

(* ===================================================================== *)
(** ** The reconciler                                                     *)
(* ===================================================================== *)

Section Reconciler.
Context `{Helper} `{Libraries}.

(** [r.Recorder.Eventf(devbox, ...)] *)
Definition Recorder_Eventf (t : EventType) (reason msg : string) : M unit :=
  d ← getDevbox;
  Eventf (keyOf (DevboxMeta d)) t reason msg.

Definition getRuntime : M (result Runtime) :=
  devbox ← getDevbox;
  let runtimeNamespace :=
    if bool_decide (RefNamespace (RuntimeRefOf (Spec devbox)) = "")
    then Namespace (DevboxMeta devbox)
    else RefNamespace (RuntimeRefOf (Spec devbox)) in
  client_Get (T:=Runtime)
    (runtimeNamespace, RefName (RuntimeRefOf (Spec devbox))).

(* ------------------------------------------------------------------- *)
(** *** Credentials                                                     *)

Definition syncSecret (recLabels : gmap string string) : M (option error) :=
  devbox ← getDevbox;
  let objectMeta :=
    namedMeta (Name (DevboxMeta devbox)) (Namespace (DevboxMeta devbox))
              recLabels in
  got ← client_Get (T:=Secret)
          (Namespace (DevboxMeta devbox), Name (DevboxMeta devbox));
  match got with
  | OK stored =>
      devboxSecret ← ret (decodeSecret stored);
      first ←
        (if negb (hasData devboxSecret "SEALOS_DEVBOX_JWT_SECRET") then
           token ← rand_String 32;
           s ← setData devboxSecret "SEALOS_DEVBOX_JWT_SECRET" token;
           u ← client_Update s;
           match u with
           | OK s' => ret (OK s')
           | Fail err => ret (Fail (Wrapf "failed to update secret" err))
           end
         else ret (OK devboxSecret));
      match first with
      | Fail err => ret (Some err)
      | OK devboxSecret =>
          if negb (hasData devboxSecret "SEALOS_DEVBOX_AUTHORIZED_KEYS") then
            s ← setData devboxSecret "SEALOS_DEVBOX_AUTHORIZED_KEYS"
                  (getData devboxSecret "SEALOS_DEVBOX_PUBLIC_KEY");
            u ← client_Update s;
            match u with
            | OK _ => ret None
            | Fail err => ret (Some (Wrapf "failed to update secret" err))
            end
          else ret None
      end
  | Fail err =>
      match IgnoreNotFound (Some err) with
      | Some _ => ret (Some (Wrapf "failed to get secret" err))
      | None =>
          seed ← rand_String 0;
          match GenerateSSHKeyPair seed with
          | Fail err =>
              ret (Some (Wrapf "failed to generate SSH key pair" err))
          | OK (publicKey, privateKey) =>
              token ← rand_String 32;
              let secret :=
                {| SecretMeta := objectMeta;
                   Data := Some (<["SEALOS_DEVBOX_JWT_SECRET" := token]>
                                (<["SEALOS_DEVBOX_PUBLIC_KEY" := publicKey]>
                                (<["SEALOS_DEVBOX_PRIVATE_KEY" := privateKey]>
                                (<["SEALOS_DEVBOX_AUTHORIZED_KEYS" := publicKey]>
                                 ∅)))) |} in
              match SetControllerReference devbox secret with
              | Fail err =>
                  ret (Some (Wrapf "failed to set controller reference" err))
              | OK secret =>
                  c ← client_Create secret;
                  match c with
                  | Fail err =>
                      ret (Some (Wrapf "failed to create secret" err))
                  | OK _ => ret None
                  end
              end
          end
      end
  end.

(* ------------------------------------------------------------------- *)
(** *** Pods                                                            *)

Definition generateImageName (r : DevboxReconciler) : M string :=
  devbox ← getDevbox;
  now ← time_Now;
  tag ← rand_String 5;
  ret (CommitImageRegistry r +:+ "/" +:+ Namespace (DevboxMeta devbox)
        +:+ "/" +:+ Name (DevboxMeta devbox) +:+ ":" +:+ tag +:+ "-"
        +:+ FormatTime now).

Definition generateNextCommitHistory (r : DevboxReconciler)
  : M CommitHistory :=
  devbox ← getDevbox;
  now ← time_Now;
  image ← generateImageName r;
  suffix ← rand_String 5;
  ret {| CImage := image;
          CTime := now;
          CPod := Name (DevboxMeta devbox) +:+ "-" +:+ suffix;
          CStatus := CommitStatusPending;
          CPredicatedStatus := CommitStatusPending |}.

Definition generateDevboxPod (r : DevboxReconciler) (devbox : Devbox)
    (runtime : Runtime) (nextCommitHistory : CommitHistory) : Pod :=
  let objectMeta :=
    withAnnotations (GeneratePodAnnotations devbox runtime)
      (namedMeta (CPod nextCommitHistory) (Namespace (DevboxMeta devbox))
                 (GeneratePodLabels devbox runtime)) in
  let ports := RtPorts (Config runtime) in
  let envs := (RtEnv (Config runtime) ++ ExtraEnvs (Spec devbox)
               ++ GenerateDevboxEnvVars devbox nextCommitHistory)%list in
  let imageName :=
    if DebugMode r then RtImage (Config runtime)
    else GetLastSuccessCommitImageName devbox runtime in
  let volumes := (RtVolumes (Config runtime) ++ [GenerateSSHVolume devbox]
                  ++ ExtraVolumes (Spec devbox))%list in
  let volumeMounts := (RtVolumeMounts (Config runtime)
                       ++ GenerateSSHVolumeMounts
                       ++ ExtraVolumeMounts (Spec devbox))%list in
  let containers :=
    [{| ContainerName := Name (DevboxMeta devbox);
        Image := imageName;
        Env := envs;
        Ports := ports;
        VolumeMounts := volumeMounts;
        WorkingDir := GenerateWorkingDir devbox runtime;
        Command := GenerateCommand devbox runtime;
        Args := GenerateDevboxArgs devbox runtime;
        Resources :=
          GenerateResourceRequirements devbox (RequestCPURate r)
            (RequestMemoryRate r) (RequestEphemeralStorage r)
            (LimitEphemeralStorage r) |}] in
  let expectPod :=
    {| PodMeta := objectMeta;
       PodSpecOf :=
         {| TerminationGracePeriodSeconds := Some 300;
            AutomountServiceAccountToken := Some false;
            PodRestartPolicy := RestartPolicyNever;
            Hostname := Name (DevboxMeta devbox);
            Containers := containers;
            Volumes := volumes;
            Tolerations := DTolerations (Spec devbox);
            Affinity := DAffinity (Spec devbox) |};
       PodStatusOf := {| Phase := PodUnknown; ContainerStatuses := [] |} |} in
  let expectPod :=
    match SetControllerReference devbox expectPod with
    | OK p => p
    | Fail _ => expectPod
    end in
  (AddFinalizer expectPod FinalizerName).1.

(** [pod] points at [podList.Items[0]]: what happens to it shows in the
    list the deferred status update reads. *)
Definition setPod (pod : Pod) : M unit :=
  l ← getPodList;
  setPodList (<[0%nat := pod]> l).

Definition createPod (expectPod : Pod) (nextCommitHistory : CommitHistory)
  : M (option error) :=
  let nextCommitHistory :=
    {| CImage := CImage nextCommitHistory; CTime := CTime nextCommitHistory;
       CPod := CPod nextCommitHistory;
       CStatus := CommitStatusPending;
       CPredicatedStatus := CommitStatusPending |} in
  c ← client_Create expectPod;
  match c with
  | Fail err => ret (Some err)
  | OK _ =>
      modifyDevbox (fun d =>
        withCommitHistory
          (CommitHistoryOf (Status d) ++ [nextCommitHistory])%list d);;
      ret None
  end.

Definition deletePod (pod : Pod) : M (option error) :=
  let pod := (RemoveFinalizer pod FinalizerName).1 in
  setPod pod;;
  u ← client_Update pod;
  match u with
  | Fail err => ret (Some err)
  | OK pod =>
      setPod pod;;
      check! client_Delete pod;
      st ← index0 (ContainerStatuses (PodStatusOf pod));
      modifyDevbox (withLastTerminationState (CState st));;
      modifyDevbox (fun d => UpdateCommitHistory d pod true);;
      ret None
  end.

Definition handlePodDeleted (pod : Pod) : M (option error) :=
  let pod := (RemoveFinalizer pod FinalizerName).1 in
  setPod pod;;
  u ← client_Update pod;
  match u with
  | Fail err => ret (Some err)
  | OK pod =>
      setPod pod;;
      modifyDevbox (fun d => UpdateCommitHistory d pod true);;
      st ← index0 (ContainerStatuses (PodStatusOf pod));
      modifyDevbox (withLastTerminationState (CState st));;
      ret None
  end.

(** The closure [syncPod] defers: a retried read-modify-write of the
    devbox status, and an event for its result. *)
Definition syncPod_deferred : M unit :=
  err ← RetryOnConflict DefaultRetrySteps (
    devbox ← getDevbox;
    got ← client_Get (T:=Devbox)
            (Namespace (DevboxMeta devbox), Name (DevboxMeta devbox));
    match got with
    | Fail err => ret (Some err)
    | OK latestDevbox =>
        podList ← getPodList;
        modifyDevbox (fun d => withPhase (GenerateDevboxPhase d podList) d);;
        devbox ← getDevbox;
        u ← client_Status_Update (UpdateDevboxStatus devbox latestDevbox);
        ret (errOf u)
    end);
  match err with
  | Some err => Recorder_Eventf EventTypeWarning "Sync pod failed" (Error err)
  | None => Recorder_Eventf EventTypeNormal "Sync pod success" "Sync pod success"
  end.

Definition syncPod (r : DevboxReconciler) (recLabels : gmap string string)
  : M (option error) :=
  setPodList [];;
  devbox ← getDevbox;
  listed ← client_List (T:=Pod) (Namespace (DevboxMeta devbox)) recLabels;
  match listed with
  | Fail err => ret (Some err)
  | OK items =>
    setPodList items;;
    if bool_decide (1 < length items)%nat then
      ret (Some (Errorf "more than one pod found"))
    else
      defer syncPod_deferred (
        devbox ← getDevbox;
        match State (Spec devbox) with
        | DevboxStateRunning =>
            rt ← getRuntime;
            match rt with
            | Fail err => ret (Some err)
            | OK runtimecr =>
                nextCommitHistory ← generateNextCommitHistory r;
                let expectPod :=
                  generateDevboxPod r devbox runtimecr nextCommitHistory in
                match items with
                | [] =>
                    err ← createPod expectPod nextCommitHistory;
                    match err with
                    | Some err =>
                        if IsExceededQuotaError err then
                          Recorder_Eventf EventTypeWarning
                            "Devbox is exceeded quota"
                            "Devbox is exceeded quota";;
                          modifyDevbox (withSpecState DevboxStateStopped);;
                          _ ← Update_devbox;
                          ret None
                        else ret (Some err)
                    | None => ret None
                    end
                | [pod] =>
                    match ContainerStatuses (PodStatusOf pod) with
                    | [] => ret (Some (Errorf "pod container size is 0"))
                    | st :: _ =>
                        modifyDevbox (withDState (CState st));;
                        modifyDevbox (fun d =>
                          UpdatePredicatedCommitStatus d pod);;
                        if negb (IsZero (DeletionTimestamp (PodMeta pod)))
                        then handlePodDeleted pod
                        else if PodMatchExpectations expectPod pod then
                          match Phase (PodStatusOf pod) with
                          | PodPending | PodRunning =>
                              modifyDevbox (fun d =>
                                UpdateCommitHistory d pod false);;
                              ret None
                          | PodFailed | PodSucceeded => deletePod pod
                          | PodUnknown => ret None
                          end
                        else deletePod pod
                    end
                | _ => ret None
                end
            end
        | DevboxStateStopped =>
            match items with
            | [] => ret None
            | [pod] =>
                modifyDevbox (withDState zeroContainerState);;
                modifyDevbox (fun d => UpdatePredicatedCommitStatus d pod);;
                if negb (IsZero (DeletionTimestamp (PodMeta pod)))
                then handlePodDeleted pod
                else deletePod pod
            | _ => ret None
            end
        | DevboxStateOther _ => ret None
        end)
  end.

(* ------------------------------------------------------------------- *)
(** *** Network                                                         *)

Definition getServicePort : M (result (list ServicePort)) :=
  rt ← getRuntime;
  match rt with
  | Fail err => ret (Fail err)
  | OK runtimecr =>
      let servicePorts :=
        map (fun port =>
               {| SPName := PortName port;
                  SPPort := ContainerPortNumber port;
                  SPTargetPort := FromInt32 (ContainerPortNumber port);
                  SPProtocol := PortProtocol port;
                  SPNodePort := 0 |})
            (RtPorts (Config runtimecr)) in
      if bool_decide (length servicePorts = 0%nat) then
        ret (OK [{| SPName := "devbox-ssh-port"; SPPort := 22;
                    SPTargetPort := FromInt32 22;
                    SPProtocol := ProtocolTCP; SPNodePort := 0 |}])
      else ret (OK servicePorts)
  end.

(** The mutate closure of [syncNodePortNetwork] and of [syncPodSvc]
    ("only update some specific fields"). *)
Definition updateServiceFields (devbox : Devbox)
    (expectServiceSpec : ServiceSpec) (service : Service)
  : outcome (result Service) :=
  let ports :=
    match SPorts (ServiceSpecOf service) with
    | [] => Done (SPorts expectServiceSpec)
    | p :: rest =>
        match SPorts expectServiceSpec with
        | e :: _ => Done (overwritePort e p :: rest)
        | [] => Panicked indexPanic
        end
    end in
  match ports with
  | Panicked msg => Panicked msg
  | Done ports =>
      Done (SetControllerReference devbox
              {| ServiceMeta := ServiceMeta service;
                 ServiceSpecOf :=
                   {| Selector := Selector expectServiceSpec;
                      SType := SType expectServiceSpec;
                      SPorts := ports |} |})
  end.

(** [for _, port := range ports { if port.NodePort != 0 { ...; break } }] *)
Fixpoint firstNodePort (ports : list ServicePort) : Z :=
  match ports with
  | [] => 0
  | port :: rest =>
      if bool_decide (SPNodePort port ≠ 0) then SPNodePort port
      else firstNodePort rest
  end.

Definition syncNodePortNetwork (recLabels : gmap string string)
    (servicePorts : list ServicePort) : M (option error) :=
  devbox ← getDevbox;
  let expectServiceSpec :=
    {| Selector := recLabels; SType := ServiceTypeNodePort;
       SPorts := servicePorts |} in
  let service :=
    {| ServiceMeta := namedMeta (Name (DevboxMeta devbox) +:+ "-svc")
                                (Namespace (DevboxMeta devbox)) recLabels;
       ServiceSpecOf := zeroServiceSpec |} in
  res ← CreateOrUpdate service (updateServiceFields devbox expectServiceSpec);
  match res with
  | Fail err => ret (Some err)
  | OK _ =>
      got ← OnError zeroService DefaultRetrySteps
              (fun err => bool_decide (IgnoreNotFound (Some err) = None))
              (client_Get (T:=Service) (keyOf (ServiceMeta service)));
      match got with
      | Fail err => ret (Some (Wrapf "failed to get updated service" err))
      | OK updatedService =>
          let nodePort := firstNodePort (SPorts (ServiceSpecOf updatedService)) in
          if bool_decide (nodePort = 0) then
            ret (Some (Errorf ("NodePort not found for service "
                               +:+ Name (ServiceMeta service))))
          else
            modifyDevbox (withNetworkType NetworkTypeNodePort);;
            modifyDevbox (withNodePort nodePort);;
            Status_Update_devbox
      end
  end.

Definition generateProxyIngressHost (r : DevboxReconciler) : M string :=
  sub ← rand_String 12;
  ret (sub +:+ "." +:+ WebsocketProxyDomain r).

Definition syncProxyIngress (r : DevboxReconciler) : M (result string) :=
  devbox ← getDevbox;
  host ← generateProxyIngressHost r;
  let ingressPath :=
    [{| Path := "/"; PathTypePrefix := true;
        BackendServiceName := Name (DevboxMeta devbox) +:+ "-proxy-svc";
        BackendPortNumber := 80 |}] in
  let ingressSpec :=
    {| IngressClassName := IngressClass r;
       Rules := [{| Host := host; Paths := ingressPath |}] |} in
  let wsIngress :=
    {| IngressMeta := namedMeta (Name (DevboxMeta devbox) +:+ "-proxy-ingress")
                                (Namespace (DevboxMeta devbox)) ∅;
       IngressSpecOf := ingressSpec |} in
  res ← CreateOrUpdate wsIngress
          (fun wsIngress => Done (SetControllerReference devbox wsIngress));
  match res with
  | Fail err => ret (Fail err)
  | OK _ => ret (OK host)
  end.

Definition syncProxySvc : M (option error) :=
  devbox ← getDevbox;
  rt ← getRuntime;
  match rt with
  | Fail err => ret (Some err)
  | OK runtimecr =>
      let servicePort :=
        [{| SPName := "devbox-ssh-port"; SPPort := 80;
            SPTargetPort := FromInt32 80; SPProtocol := ProtocolTCP;
            SPNodePort := 0 |}] in
      let expectServiceSpec :=
        {| Selector := GenerateProxyPodLabels devbox runtimecr;
           SType := ServiceTypeClusterIP;
           SPorts := servicePort |} in
      let proxySvc :=
        {| ServiceMeta :=
             namedMeta (Name (DevboxMeta devbox) +:+ "-proxy-svc")
                       (Namespace (DevboxMeta devbox))
                       (GenerateProxyPodLabels devbox runtimecr);
           ServiceSpecOf := expectServiceSpec |} in
      res ← CreateOrUpdate proxySvc (fun proxySvc =>
        match SPorts (ServiceSpecOf proxySvc), SPorts expectServiceSpec with
        | p :: rest, e :: _ =>
            Done (SetControllerReference devbox
                    {| ServiceMeta := ServiceMeta proxySvc;
                       ServiceSpecOf :=
                         {| Selector := Selector expectServiceSpec;
                            SType := SType expectServiceSpec;
                            SPorts := overwritePort e p :: rest |} |})
        | _, _ => Panicked indexPanic
        end);
      ret (errOf res)
  end.

Definition generateProxyPodName (devbox : Devbox) : M string :=
  suffix ← rand_String 5;
  ret (Name (DevboxMeta devbox) +:+ "-proxy-pod" +:+ "-" +:+ suffix).

Definition generateProxyPodDeploymentName (devbox : Devbox) : string :=
  Name (DevboxMeta devbox) +:+ "-proxy-deployment".

Definition generateProxyPodJWT (r : DevboxReconciler) : M (result string) :=
  devbox ← getDevbox;
  issued ← time_Now;
  now ← time_Now;
  let claims :=
    {| DevboxName := Name (DevboxMeta devbox);
       NameSpace := Namespace (DevboxMeta devbox);
       Registered := {| IssuedAt := issued;
                        ExpiresAt := now + sevenDays;
                        Issuer := "devbox-controller" |} |} in
  let token := NewWithClaims SigningMethodHS256 claims in
  match SignedString token (ShutdownServerKey r) with
  | Fail err => ret (Fail (Wrapf "failed to sign token" err))
  | OK signedToken => ret (OK signedToken)
  end.

(** [for _, port := range servicePorts { if port.Name == ... { ...; break } }] *)
Fixpoint sshPortOf (servicePorts : list ServicePort) : string :=
  match servicePorts with
  | [] => "22"
  | port :: rest =>
      if bool_decide (SPName port = "devbox-ssh-port")
      then IntOrString_String (SPTargetPort port)
      else sshPortOf rest
  end.

Definition generateProxyPodEnv (r : DevboxReconciler)
    (servicePorts : list ServicePort) : M (result (list EnvVar)) :=
  devbox ← getDevbox;
  let envVars : list EnvVar := [] in
  let autoShutdownEnabled :=
    Enable (AutoShutdown (Spec devbox)) && EnableAutoShutdown r in
  let envVars :=
    (envVars ++ [{| EnvName := "ENABLE_AUTO_SHUTDOWN";
                    EnvValue := FormatBool autoShutdownEnabled |}])%list in
  let envVars :=
    if autoShutdownEnabled then
      (envVars ++ [{| EnvName := "AUTO_SHUTDOWN_INTERVAL";
                      EnvValue := ShutdownTime (AutoShutdown (Spec devbox)) |}])%list
    else envVars in
  signed ← generateProxyPodJWT r;
  match signed with
  | Fail err => ret (Fail err)
  | OK token =>
      let envVars :=
        (envVars ++ [{| EnvName := "JWT_TOKEN"; EnvValue := token |}])%list in
      let sshPort := sshPortOf servicePorts in
      let envVars :=
        (envVars ++ [{| EnvName := "TARGET";
                        EnvValue := Name (DevboxMeta devbox) +:+ "-pod-svc:"
                                    +:+ sshPort |}])%list in
      let envVars :=
        (envVars ++ [{| EnvName := "LISTEN"; EnvValue := "0.0.0.0:80" |}])%list in
      let envVars :=
        (envVars ++ [{| EnvName := "AUTO_SHUTDOWN_SERVICE_URL";
                        EnvValue := ShutdownServerAddr r |}])%list in
      ret (OK envVars)
  end.

Definition generateProxyPodDeployment (r : DevboxReconciler)
    (recLabels : gmap string string) (servicePorts : list ServicePort)
  : M (result Deployment) :=
  devbox ← getDevbox;
  rt ← getRuntime;
  match rt with
  | Fail err => ret (Fail err)
  | OK runtimecr =>
      env ← generateProxyPodEnv r servicePorts;
      match env with
      | Fail err => ret (Fail err)
      | OK podEnv =>
          let podSpec :=
            {| TerminationGracePeriodSeconds := None;
               AutomountServiceAccountToken := None;
               PodRestartPolicy := RestartPolicyAlways;
               Hostname := "";
               Containers :=
                 [{| ContainerName := "ws-proxy";
                     Image := WebSocketImage r;
                     Env := podEnv;
                     Ports := [];
                     VolumeMounts := [];
                     WorkingDir := "";
                     Command := [];
                     Args := [];
                     Resources := GenerateProxyPodResourceRequirements |}];
               Volumes := [];
               Tolerations := [];
               Affinity := None |} in
          podName ← generateProxyPodName devbox;
          ret (OK
            {| DeploymentMeta :=
                 withAnnotations (GeneratePodAnnotations devbox runtimecr)
                   (namedMeta (generateProxyPodDeploymentName devbox)
                              (Namespace (DevboxMeta devbox))
                              (GenerateProxyPodLabels devbox runtimecr));
               DeploymentSpecOf :=
                 {| Replicas := 1;
                    MatchLabels := GenerateProxyPodLabels devbox runtimecr;
                    Template :=
                      {| TemplateMeta :=
                           withAnnotations
                             (GeneratePodAnnotations devbox runtimecr)
                             (namedMeta podName
                                (Namespace (DevboxMeta devbox))
                                (GenerateProxyPodLabels devbox runtimecr));
                         TemplateSpec := podSpec |} |} |})
      end
  end.

Definition syncProxyPod (r : DevboxReconciler)
    (recLabels : gmap string string) (servicePorts : list ServicePort)
  : M (option error) :=
  devbox ← getDevbox;
  got ← client_Get (T:=Deployment)
          (Namespace (DevboxMeta devbox), generateProxyPodDeploymentName devbox);
  if bool_decide (State (Spec devbox) = DevboxStateRunning) then
    match got with
    | Fail err =>
        if IsNotFound err then
          gen ← generateProxyPodDeployment r recLabels servicePorts;
          match gen with
          | Fail err => ret (Some err)
          | OK wsDeployment =>
              res ← CreateOrUpdate wsDeployment (fun wsDeployment =>
                      Done (SetControllerReference devbox wsDeployment));
              ret (errOf res)
          end
        else ret (Some err)
    | OK _ => ret None
    end
  else
    match got with
    | OK wsDeployment => client_Delete wsDeployment
    | Fail err => if negb (IsNotFound err) then ret (Some err) else ret None
    end.

Definition syncPodSvc (recLabels : gmap string string)
    (servicePorts : list ServicePort) : M (option error) :=
  devbox ← getDevbox;
  rt ← getRuntime;
  match rt with
  | Fail err => ret (Some err)
  | OK runtimecr =>
      let expectServiceSpec :=
        {| Selector := recLabels; SType := ServiceTypeClusterIP;
           SPorts := servicePorts |} in
      let service :=
        {| ServiceMeta :=
             namedMeta (Name (DevboxMeta devbox) +:+ "-pod-svc")
                       (Namespace (DevboxMeta devbox))
                       (GenerateProxyPodLabels devbox runtimecr);
           ServiceSpecOf := zeroServiceSpec |} in
      res ← CreateOrUpdate service
              (updateServiceFields devbox expectServiceSpec);
      ret (errOf res)
  end.

Definition syncWebSocketNetwork (r : DevboxReconciler)
    (recLabels : gmap string string) (servicePorts : list ServicePort)
  : M (option error) :=
  modifyDevbox (withNetworkType NetworkTypeWebSocket);;
  check! Status_Update_devbox;
  check! syncPodSvc recLabels servicePorts;
  check! syncProxyPod r recLabels servicePorts;
  check! syncProxySvc;
  res ← syncProxyIngress r;
  match res with
  | Fail err => ret (Some err)
  | OK hostName =>
      modifyDevbox (withWebSocket hostName);;
      Status_Update_devbox
  end.

Definition syncNetwork (r : DevboxReconciler)
    (recLabels : gmap string string) : M (option error) :=
  ports ← getServicePort;
  match ports with
  | Fail err => ret (Some err)
  | OK servicePorts =>
      devbox ← getDevbox;
      match NetworkSpecType (Spec devbox) with
      | NetworkTypeNodePort => syncNodePortNetwork recLabels servicePorts
      | NetworkTypeWebSocket => syncWebSocketNetwork r recLabels servicePorts
      | NetworkTypeOther _ => ret None
      end
  end.

(* ------------------------------------------------------------------- *)
(** *** Cleanup                                                         *)

Definition deleteResourcesByLabels (T : Type) `{Object T}
    (namespace : string) (labels : gmap string string) : M (option error) :=
  err ← client_DeleteAllOf (T:=T) namespace labels;
  ret (IgnoreNotFound err).

(** The loop of [removeAll] over the listed pods. *)
Fixpoint stripFinalizers (items : list Pod) : M (option error) :=
  match items with
  | [] => ret None
  | pod :: rest =>
      let '(pod, removed) := RemoveFinalizer pod FinalizerName in
      if removed then
        u ← client_Update pod;
        match u with
        | Fail err => ret (Some err)
        | OK _ => stripFinalizers rest
        end
      else stripFinalizers rest
  end.

Definition removeAll (recLabels : gmap string string) : M (option error) :=
  devbox ← getDevbox;
  listed ← client_List (T:=Pod) (Namespace (DevboxMeta devbox)) recLabels;
  match listed with
  | Fail err => ret (Some err)
  | OK items =>
      check! stripFinalizers items;
      check! deleteResourcesByLabels Pod (Namespace (DevboxMeta devbox)) recLabels;
      check! deleteResourcesByLabels Service (Namespace (DevboxMeta devbox)) recLabels;
      deleteResourcesByLabels Secret (Namespace (DevboxMeta devbox)) recLabels
  end.

(* ------------------------------------------------------------------- *)
(** *** The reconciliation pass                                         *)

(** The last step of [Reconcile], "create or update pod": the retried
    closure that reads the devbox again and runs [syncPod], and the event
    for its result. *)
Definition Reconcile_syncPod (r : DevboxReconciler) (req : Key)
    (recLabels : gmap string string) : M (option error) :=
  err ← RetryOnConflict DefaultRetrySteps (
    got ← client_Get (T:=Devbox) req;
    match got with
    | Fail err => ret (Some err)
    | OK d => setDevbox d;; syncPod r recLabels
    end);
  match err with
  | Some err =>
      Recorder_Eventf EventTypeWarning "Sync pod failed" (Error err);;
      ret (Some err)
  | None =>
      Recorder_Eventf EventTypeNormal "Sync pod success" "Sync pod success";;
      ret None
  end.

Definition Reconcile (r : DevboxReconciler) (req : Key) : M (option error) :=
  setDevbox zeroDevbox;;
  got ← client_Get (T:=Devbox) req;
  match got with
  | Fail err => ret (IgnoreNotFound (Some err))
  | OK d =>
    setDevbox d;;
    let recLabels :=
      RecommendedLabels {| RecName := Name (DevboxMeta d);
                             ManagedBy := DefaultManagedBy;
                             PartOf := DevBoxPartOf |} in
    if IsZero (DeletionTimestamp (DevboxMeta d)) then
      (* retry add finalizer *)
      check! RetryOnConflict DefaultRetrySteps (
        latest ← client_Get (T:=Devbox) req;
        match latest with
        | Fail err => ret (IgnoreNotFound (Some err))
        | OK latestDevbox =>
            let '(latestDevbox, added) :=
              AddFinalizer latestDevbox FinalizerName in
            if added then
              u ← client_Update latestDevbox;
              ret (errOf u)
            else ret None
        end);
      modifyDevbox (fun d => withNetworkType (NetworkSpecType (Spec d)) d);;
      _ ← Status_Update_devbox;
      (* create or update secret *)
      err ← syncSecret recLabels;
      match err with
      | Some err =>
          Recorder_Eventf EventTypeWarning "Sync secret failed" (Error err);;
          ret (Some err)
      | None =>
        Recorder_Eventf EventTypeNormal "Sync secret success"
                        "Sync secret success";;
        err ← syncNetwork r recLabels;
        match err with
        | Some err =>
            Recorder_Eventf EventTypeWarning "Sync network failed" (Error err);;
            ret (Some err)
        | None =>
          Reconcile_syncPod r req recLabels
        end
      end
    else
      check! removeAll recLabels;
      d ← getDevbox;
      let '(d, removed) := RemoveFinalizer d FinalizerName in
      setDevbox d;;
      if removed then
        check! Update_devbox;
        ret None
      else ret None
  end.

End Reconciler.

(* ===================================================================== *)
(** ** Notions the properties are stated with                            *)
(* ===================================================================== *)

(** [lookupEnv name envs]: the value of the first variable called [name]. *)
Definition lookupEnv (name : string) (envs : list EnvVar) : option string :=
  EnvValue <$> List.find (fun e => bool_decide (EnvName e = name)) envs.

(** The claims of the token [generateProxyPodJWT] signs in world [w]. *)
Definition proxyClaims (w : World) : DevboxClaims :=
  {| DevboxName := Name (DevboxMeta (devbox w));
     NameSpace := Namespace (DevboxMeta (devbox w));
     Registered := {| IssuedAt := clock w (reads w);
                      ExpiresAt := clock w (S (reads w)) + sevenDays;
                      Issuer := "devbox-controller" |} |}.

(** Where [getRuntime] looks for the runtime of a devbox. *)
Definition runtimeKey (d : Devbox) : Key :=
  (if bool_decide (RefNamespace (RuntimeRefOf (Spec d)) = "")
   then Namespace (DevboxMeta d)
   else RefNamespace (RuntimeRefOf (Spec d)),
   RefName (RuntimeRefOf (Spec d))).

(** The pods a [List] by namespace and label set observes. *)
Definition observedPods (ns : string) (sel : gmap string string) (c : Cluster)
  : list Pod :=
  filter (fun o => selected ns sel (PodMeta o) = true) (map_to_list (pods c)).*2.

(** [quiet n w]: the API server answers the next [n] calls from the store
    (none of them meets a fault). *)
Definition quiet (n : nat) (w : World) : Prop :=
  Forall (fun f => f = None) (take n (faults w)).

(** [keeps R m]: whatever [m] does to the world, and however it ends, the
    world it leaves is related by [R] to the one it started from. *)
Definition keeps {A} (R : World -> World -> Prop) (m : M A) : Prop :=
  forall w, R w (m w).2.

(** [same f]: the observation [f] of the world is unchanged. *)
Definition same {B} (f : World -> B) : World -> World -> Prop :=
  fun w w' => f w' = f w.

(** [grows f]: the list [f] observes only gets longer at its end. *)
Definition grows {B} (f : World -> list B) : World -> World -> Prop :=
  fun w w' => exists l, f w' = (f w ++ l)%list.

(** The warning [syncPod] emits when pod creation meets the quota. *)
Definition quotaWarning (obj : Key) : Event :=
  {| EvObject := obj; EvType := EventTypeWarning;
     EvReason := "Devbox is exceeded quota";
     EvMessage := "Devbox is exceeded quota" |}.

(** What the credential sync is to make of the data of an existing
    secret: the JWT secret and the authorized keys are filled in when they
    are absent, the latter with the public key. *)
Definition backfill (token : string) (m : gmap string string)
  : gmap string string :=
  let m1 :=
    match m !! "SEALOS_DEVBOX_JWT_SECRET" with
    | Some _ => m
    | None => <["SEALOS_DEVBOX_JWT_SECRET" := token]> m
    end in
  match m1 !! "SEALOS_DEVBOX_AUTHORIZED_KEYS" with
  | Some _ => m1
  | None =>
      <["SEALOS_DEVBOX_AUTHORIZED_KEYS" :=
          default "" (m1 !! "SEALOS_DEVBOX_PUBLIC_KEY")]> m1
  end.

(** The four fields of a service port the reconciler owns. *)
Definition portFields (p : ServicePort) : string * Z * IntOrString * Protocol :=
  (SPName p, SPPort p, SPTargetPort p, SPProtocol p).

(** The ports the upsert of [syncNodePortNetwork] aims at: the expected
    ports on a service it creates or finds without ports, else the ports of
    the stored service with the first one overwritten. *)
Definition mergedPorts (stored : option Service) (servicePorts : list ServicePort)
  : list ServicePort :=
  match stored with
  | None => servicePorts
  | Some svc =>
      match SPorts (ServiceSpecOf svc), servicePorts with
      | [], _ => servicePorts
      | p :: rest, e :: _ => overwritePort e p :: rest
      | p :: rest, [] => p :: rest
      end
  end.

(** The service ports [getServicePort] derives from a runtime. *)
Definition runtimeServicePorts (rt : Runtime) : list ServicePort :=
  match RtPorts (Config rt) with
  | [] => [{| SPName := "devbox-ssh-port"; SPPort := 22;
              SPTargetPort := FromInt32 22; SPProtocol := ProtocolTCP;
              SPNodePort := 0 |}]
  | ports =>
      map (fun port => {| SPName := PortName port;
                          SPPort := ContainerPortNumber port;
                          SPTargetPort := FromInt32 (ContainerPortNumber port);
                          SPProtocol := PortProtocol port;
                          SPNodePort := 0 |}) ports
  end.

(** The world in which [Reconcile] has read the devbox [d] under [req]. *)
Definition fetched (req : Key) (d : Devbox) (w : World) : World :=
  setDevboxCell d
    (tick {| CallVerb := VGet; CallKind := KDevbox; CallKey := req |} w).

(** The calls of a cleanup that goes through, when its [List] observes
    the pods [items]: the list, an update for each pod that carries the
    finalizer, in the order of the list, and the three deletions by label. *)
Definition cleanupCalls `{Helper} (ns : string) (items : list Pod)
  : list Call :=
  ({| CallVerb := VList; CallKind := KPod; CallKey := (ns, "") |}
   :: map (fun p => {| CallVerb := VUpdate; CallKind := KPod;
                       CallKey := keyOf (PodMeta p) |})
          (filter (fun p => FinalizerName ∈ Finalizers (PodMeta p)) items)
   ++ [{| CallVerb := VDeleteAllOf; CallKind := KPod; CallKey := (ns, "") |};
       {| CallVerb := VDeleteAllOf; CallKind := KService; CallKey := (ns, "") |};
       {| CallVerb := VDeleteAllOf; CallKind := KSecret; CallKey := (ns, "") |}])%list.

(** [settled ns sel t]: every object of the table [t] in namespace [ns]
    with the labels [sel] is under deletion and held by a finalizer; a
    delete request leaves it as it is. *)
Definition settled {T} `{Object T} (ns : string) (sel : gmap string string)
    (t : gmap Key T) : Prop :=
  forall key o,
    t !! key = Some o -> selected ns sel (objectMeta o) = true ->
    DeletionTimestamp (objectMeta o) <> None /\ Finalizers (objectMeta o) <> [].

(** The call that ends a deletion pass whose cleanup went through: the
    update that takes the finalizer from the devbox, if it has it. *)
Definition releaseCalls `{Helper} (d : Devbox) : list Call :=
  if bool_decide (FinalizerName ∈ Finalizers (DevboxMeta d))
  then [{| CallVerb := VUpdate; CallKind := KDevbox;
           CallKey := keyOf (DevboxMeta d) |}]
  else [].

(** [sound t]: the table [t] as the API server keeps it: every object is
    stored under its own name, and an object no finalizer holds is not
    under deletion. *)
Definition sound {T} `{Object T} (t : gmap Key T) : Prop :=
  map_Forall (fun key o =>
                keyOf (objectMeta o) = key
                /\ (Finalizers (objectMeta o) = [] ->
                    DeletionTimestamp (objectMeta o) = None)) t.

(** What a cleanup at time [now] leaves of a stored object: one with the
    labels is deleted, so that it is gone unless a finalizer holds it; a
    pod loses the devbox's finalizer first. *)
Definition cleaned {T} `{Object T} (ns : string) (sel : gmap string string)
    (now : Z) (o : T) : option T :=
  if selected ns sel (objectMeta o) then reap now o else Some o.

Definition cleanedPod `{Helper} (ns : string) (sel : gmap string string)
    (now : Z) (p : Pod) : option Pod :=
  if selected ns sel (PodMeta p)
  then reap now (RemoveFinalizer p FinalizerName).1
  else Some p.

(** What the update that takes the finalizer from a stored pod leaves of
    it. *)
Definition releasedPod `{Helper} (p : Pod) : option Pod :=
  if bool_decide (FinalizerName ∈ Finalizers (PodMeta p)) then
    match DeletionTimestamp (PodMeta p),
          filter (fun x => x ≠ FinalizerName) (Finalizers (PodMeta p)) with
    | Some _, [] => None
    | _, _ => Some (RemoveFinalizer p FinalizerName).1
    end
  else Some p.


(** [client.IgnoreNotFound] of the answer of a call, as
    [deleteResourcesByLabels] applies it to the answer of [DeleteAllOf]. *)
Definition ignoringNotFound (call : M (option error)) : M (option error) :=
  err ← call;
  ret (IgnoreNotFound err).

(** [live o]: there is an object, and it is not under deletion. *)
Definition live {T} `{Object T} (o : option T) : Prop :=
  exists x, o = Some x /\ DeletionTimestamp (objectMeta x) = None.

(** [inSync req sp w]: the devbox the pass holds and the devbox stored
    under [req] both have the name [req] and the spec [sp]. *)
Definition inSync (req : Key) (sp : DevboxSpec) (w : World) : Prop :=
  keyOf (DevboxMeta (devbox w)) = req
  /\ Spec (devbox w) = sp
  /\ exists x, devboxes (cluster w) !! req = Some x
               /\ keyOf (DevboxMeta x) = req /\ Spec x = sp.

(** [holds P]: what is true of the world before stays true of it. *)
Definition holds (P : World -> Prop) : World -> World -> Prop :=
  fun w w' => P w -> P w'.

(** [emitsOnly P]: the events emitted in between all satisfy [P]. *)
Definition emitsOnly (P : Event -> Prop) : World -> World -> Prop :=
  fun w w' => exists l, events w' = (events w ++ l)%list /\ Forall P l.

(** The type and the reason of the events [Reconcile] and the functions it
    calls hand to the recorder. *)
Definition passEvents : list (EventType * string) :=
  [(EventTypeWarning, "Sync secret failed");
   (EventTypeNormal, "Sync secret success");
   (EventTypeWarning, "Sync network failed");
   (EventTypeWarning, "Sync pod failed");
   (EventTypeNormal, "Sync pod success");
   (EventTypeWarning, "Devbox is exceeded quota")].

(** [reported e]: the event [e] is of one of these kinds. *)
Definition reported (e : Event) : Prop :=
  (EvType e, EvReason e) ∈ passEvents.

(** [madeOnly P]: the calls made in between all satisfy [P]. *)
Definition madeOnly (P : Call -> Prop) : World -> World -> Prop :=
  fun w w' => exists l, calls w' = (calls w ++ l)%list /\ Forall P l.

(** The commit history entry [generateNextCommitHistory] makes in world
    [w]: the first clock reading is its time and the second one is in the
    image tag, the first draw is in the image tag and the second one in the
    name of the pod. *)
Definition nextCommitHistory `{Libraries} (r : DevboxReconciler) (w : World)
  : CommitHistory :=
  {| CImage := CommitImageRegistry r +:+ "/" +:+ Namespace (DevboxMeta (devbox w))
               +:+ "/" +:+ Name (DevboxMeta (devbox w)) +:+ ":"
               +:+ entropy w (draws w) +:+ "-"
               +:+ FormatTime (clock w (S (reads w)));
     CTime := clock w (reads w);
     CPod := Name (DevboxMeta (devbox w)) +:+ "-" +:+ entropy w (S (draws w));
     CStatus := CommitStatusPending;
     CPredicatedStatus := CommitStatusPending |}.
(** [guarded req w]: the devbox stored under [req] has the name [req] and
    carries the finalizer. *)
Definition guarded `{Helper} (req : Key) (w : World) : Prop :=
  exists x, devboxes (cluster w) !! req = Some x
            /\ keyOf (DevboxMeta x) = req
            /\ FinalizerName ∈ Finalizers (DevboxMeta x).

(** [guarding req w]: and so does the devbox the pass holds. *)
Definition guarding `{Helper} (req : Key) (w : World) : Prop :=
  guarded req w
  /\ keyOf (DevboxMeta (devbox w)) = req
  /\ FinalizerName ∈ Finalizers (DevboxMeta (devbox w)).

(** [filed req w]: a devbox is stored under [req], with the name [req]. *)
Definition filed (req : Key) (w : World) : Prop :=
  exists x, devboxes (cluster w) !! req = Some x
            /\ keyOf (DevboxMeta x) = req.

(** The closure [Reconcile] retries to add the finalizer. *)
Definition addFinalizer `{Helper} (req : Key) : M (option error) :=
  latest ← client_Get (T:=Devbox) req;
  match latest with
  | Fail err => ret (IgnoreNotFound (Some err))
  | OK latestDevbox =>
      let '(latestDevbox, added) :=
        AddFinalizer latestDevbox FinalizerName in
      if added then
        u ← client_Update latestDevbox;
        ret (errOf u)
      else ret None
  end.

(** [total m]: [m] returns from every world (it never panics). *)
Definition total {A} (m : M A) : Prop :=
  forall w, exists a w', m w = (Done a, w').

(* ===================================================================== *)
(** ** A concrete instance, to run the reconciler                        *)
(* ===================================================================== *)

(** An instance of the imported packages, a configuration and a small
    cluster: one devbox [box] in namespace [ns] and its runtime.  The
    theorems below hold for every instance; this one serves to evaluate the
    reconciler on concrete worlds. *)
Module Sample.
Definition podPhaseStatus (p : PodPhase) : CommitStatus :=
  match p with
  | PodSucceeded => CommitStatusSuccess
  | PodFailed => CommitStatusFailed
  | _ => CommitStatusPending
  end.

#[export] Instance helper : Helper := {|
  FinalizerName := "devbox.sealos.io/finalizer";
  DefaultManagedBy := "sealos";
  DevBoxPartOf := "devbox";
  RecommendedLabels rec :=
    {[ "app.kubernetes.io/name" := RecName rec;
       "app.kubernetes.io/managed-by" := ManagedBy rec;
       "app.kubernetes.io/part-of" := PartOf rec ]};
  GenerateSSHKeyPair seed := OK ("pub-" +:+ seed, "priv-" +:+ seed);
  GenerateDevboxPhase d l :=
    match State (Spec d), l with
    | DevboxStateRunning, [p] => "Running"
    | DevboxStateRunning, _ => "Pending"
    | _, [] => "Stopped"
    | _, _ => "Stopping"
    end;
  UpdateDevboxStatus current latest :=
    withStatus {| DevboxPhase := DevboxPhase (Status current);
                  Network := Network (Status latest);
                  DState := DState (Status current);
                  LastTerminationState := LastTerminationState (Status current);
                  CommitHistoryOf := CommitHistoryOf (Status current) |} latest;
  IsExceededQuotaError err :=
    match index 0 "exceeded quota" (Error err) with
    | Some _ => true
    | None => false
    end;
  UpdatePredicatedCommitStatus d p :=
    withCommitHistory
      (map (fun c => if bool_decide (CPod c = Name (PodMeta p))
                     then {| CImage := CImage c; CTime := CTime c; CPod := CPod c;
                             CStatus := CStatus c;
                             CPredicatedStatus := podPhaseStatus (Phase (PodStatusOf p)) |}
                     else c) (CommitHistoryOf (Status d))) d;
  PodMatchExpectations expect p :=
    bool_decide (map Image (Containers (PodSpecOf expect))
                 = map Image (Containers (PodSpecOf p)));
  UpdateCommitHistory d p updateLatest :=
    withCommitHistory
      (map (fun c => if bool_decide (CPod c = Name (PodMeta p))
                     then {| CImage := CImage c; CTime := CTime c; CPod := CPod c;
                             CStatus := if updateLatest then CPredicatedStatus c
                                        else CStatus c;
                             CPredicatedStatus := CPredicatedStatus c |}
                     else c) (CommitHistoryOf (Status d))) d;
  GenerateProxyPodLabels d rt :=
    {[ "app.kubernetes.io/name" := Name (DevboxMeta d) +:+ "-proxy" ]};
  GeneratePodAnnotations d rt := ∅;
  GenerateProxyPodResourceRequirements :=
    {| Limits := [("cpu", "100m")]; Requests := [("cpu", "10m")] |};
  GeneratePodLabels d rt :=
    {[ "app.kubernetes.io/name" := Name (DevboxMeta d);
       "app.kubernetes.io/managed-by" := "sealos";
       "app.kubernetes.io/part-of" := "devbox" ]};
  GenerateDevboxEnvVars d c := [{| EnvName := "SEALOS_COMMIT_IMAGE_NAME"; EnvValue := CImage c |}];
  GetLastSuccessCommitImageName d rt := RtImage (Config rt);
  GenerateSSHVolume d := "devbox-ssh-keys";
  GenerateSSHVolumeMounts := ["devbox-ssh-keys"];
  GenerateWorkingDir d rt := "/home/devbox/project";
  GenerateCommand d rt := ["/bin/bash"; "-c"];
  GenerateDevboxArgs d rt := ["/usr/start/entrypoint.sh"];
  GenerateResourceRequirements d cpu mem reqEph limEph :=
    {| Limits := [("ephemeral-storage", limEph)];
       Requests := [("ephemeral-storage", reqEph)] |}
|}.

#[export] Instance libraries : Libraries := {|
  SignedString t key :=
    OK ("HS256." +:+ DevboxName (Claims t) +:+ "." +:+ NameSpace (Claims t)
        +:+ "." +:+ pretty (ExpiresAt (Registered (Claims t))) +:+ "." +:+ key);
  FormatTime t := pretty t
|}.

Definition reconciler : DevboxReconciler := {|
  CommitImageRegistry := "registry.example";
  RequestCPURate := "10"; RequestMemoryRate := "10";
  RequestEphemeralStorage := "100Mi"; LimitEphemeralStorage := "2000Mi";
  WebSocketImage := "ws-proxy:latest"; DebugMode := false;
  WebsocketProxyDomain := "ws.example"; IngressClass := "nginx";
  EnableAutoShutdown := true; ShutdownServerKey := "key";
  ShutdownServerAddr := "http://shutdown"
|}.

Definition runtime : Runtime := {|
  RuntimeMeta := namedMeta "go-1-22" "ns" ∅;
  Config := {| RtImage := "golang:1.22"; RtPorts := []; RtEnv := [];
               RtVolumes := []; RtVolumeMounts := [] |}
|}.

Definition box (st : DevboxState) (nt : NetworkType) : Devbox :=
  {| DevboxMeta := namedMeta "box" "ns" ∅;
     Spec := {| State := st; NetworkSpecType := nt;
                RuntimeRefOf := {| RefName := "go-1-22"; RefNamespace := "" |};
                AutoShutdown := {| Enable := true; ShutdownTime := "1h" |};
                ExtraEnvs := []; ExtraVolumes := []; ExtraVolumeMounts := [];
                DTolerations := []; DAffinity := None |};
     Status := Status zeroDevbox |}.

Definition world (c : Cluster) (fs : list (option Fault)) : World :=
  {| cluster := c; devbox := zeroDevbox; podList := [];
     events := []; calls := []; faults := fs;
     entropy := fun n => "r" +:+ pretty n; draws := 0;
     clock := fun n => 1700000000 + Z.of_nat n; reads := 0;
     nodePortPool := [30001; 30002; 30003] |}.

Definition cluster0 (st : DevboxState) (nt : NetworkType) : Cluster :=
  {| devboxes := {[ ("ns", "box") := box st nt ]};
     runtimes := {[ ("ns", "go-1-22") := runtime ]};
     secrets := ∅; pods := ∅; services := ∅; deployments := ∅;
     ingresses := ∅ |}.

Definition pass (w : World) : outcome (option error) * World :=
  Reconcile reconciler ("ns", "box") w.

(** What the node agent does between two passes: the pods run. *)
Definition ready (p : Pod) : Pod :=
  {| PodMeta := PodMeta p; PodSpecOf := PodSpecOf p;
     PodStatusOf :=
       {| Phase := PodRunning;
          ContainerStatuses :=
            [{| CState := {| Waiting := None;
                             RunningSince := Some 1700000100;
                             TerminatedExitCode := None |} |}] |} |}.

Definition kubelet (w : World) : World :=
  setCluster (setTable (ready <$> pods (cluster w)) (cluster w)) w.

(** A new Running devbox in WebSocket mode: the first pass, the pod
    starts, and two more passes with nothing else happening. *)
Definition ws0 : World :=
  world (cluster0 DevboxStateRunning NetworkTypeWebSocket) [].
Definition ws1 : World := kubelet (pass ws0).2.
Definition ws2 : World := (pass ws1).2.
Definition ws3 : World := (pass ws2).2.

(** The same devbox, Stopped. *)
Definition stopped0 : World :=
  world (cluster0 DevboxStateStopped NetworkTypeWebSocket) [].

(** A new Running devbox in NodePort mode, and the same with an outage
    at the seventh call of the pass, the first of the network sync. *)
Definition np0 : World :=
  world (cluster0 DevboxStateRunning NetworkTypeNodePort) [].
Definition npOutage : World :=
  world (cluster0 DevboxStateRunning NetworkTypeNodePort)
        [None; None; None; None; None; None;
         Some (FaultUnavailable "etcd unavailable")].

(** The runtime has come to declare two ports, and the NodePort service
    of an earlier pass has one. *)
Definition runtimeTwoPorts : Runtime := {|
  RuntimeMeta := namedMeta "go-1-22" "ns" ∅;
  Config := {| RtImage := "golang:1.22";
               RtPorts := [{| PortName := "http"; ContainerPortNumber := 8080;
                              PortProtocol := ProtocolTCP |};
                           {| PortName := "devbox-ssh-port";
                              ContainerPortNumber := 22;
                              PortProtocol := ProtocolTCP |}];
               RtEnv := []; RtVolumes := []; RtVolumeMounts := [] |}
|}.

Definition boxLabels : gmap string string :=
  RecommendedLabels {| RecName := "box"; ManagedBy := DefaultManagedBy;
                       PartOf := DevBoxPartOf |}.

Definition serviceOnePort : Service := {|
  ServiceMeta := namedMeta "box-svc" "ns" boxLabels;
  ServiceSpecOf :=
    {| Selector := boxLabels; SType := ServiceTypeNodePort;
       SPorts := [{| SPName := "devbox-ssh-port"; SPPort := 22;
                     SPTargetPort := FromInt32 22;
                     SPProtocol := ProtocolTCP; SPNodePort := 30001 |}] |}
|}.

Definition grown : World :=
  world {| devboxes := {[ ("ns", "box") := box DevboxStateRunning
                                               NetworkTypeNodePort ]};
           runtimes := {[ ("ns", "go-1-22") := runtimeTwoPorts ]};
           secrets := ∅; pods := ∅;
           services := {[ ("ns", "box-svc") := serviceOnePort ]};
           deployments := ∅; ingresses := ∅ |} [].

Definition servicePortNumbers (w : World) : option (list Z) :=
  (fun s => map SPPort (SPorts (ServiceSpecOf s)))
    <$> services (cluster w) !! ("ns", "box-svc").

(** A pod of the devbox the node agent has not reported on yet. *)
Definition barePod (name : string) : Pod :=
  {| PodMeta := withFinalizers [FinalizerName] (namedMeta name "ns" boxLabels);
     PodSpecOf :=
       {| TerminationGracePeriodSeconds := None;
          AutomountServiceAccountToken := None;
          PodRestartPolicy := RestartPolicyNever; Hostname := "box";
          Containers := []; Volumes := []; Tolerations := [];
          Affinity := None |};
     PodStatusOf := {| Phase := PodPending; ContainerStatuses := [] |} |}.

Definition withPods (ps : list Pod) (w : World) : World :=
  setCluster
    (setTable (list_to_map (map (fun p => (keyOf (PodMeta p), p)) ps))
              (cluster w)) w.

(** The steps of a pass work on the devbox the pass has read. *)
Definition held (st : DevboxState) (nt : NetworkType) : World :=
  setDevboxCell (box st nt) (world (cluster0 st nt) []).

(** One such pod, for a Stopped and for a Running devbox; two of them. *)
Definition unreported (st : DevboxState) : World :=
  withPods [barePod "box-a"] (held st NetworkTypeNodePort).

Definition twins : World :=
  withPods [barePod "box-a"; barePod "box-b"] np0.

(** The fourth call of the pod step, the creation of the pod, meets the
    quota. *)
Definition quotaHit : World :=
  world (cluster0 DevboxStateRunning NetworkTypeNodePort)
        [None; None; None;
         Some (FaultForbidden "pods is forbidden: exceeded quota")].

(** The devbox under deletion, with its finalizer and a pod. *)
Definition doomedBox : Devbox :=
  {| DevboxMeta :=
       withDeletionTimestamp (Some 1700000050)
         (withFinalizers [FinalizerName] (namedMeta "box" "ns" ∅));
     Spec := Spec (box DevboxStateRunning NetworkTypeNodePort);
     Status := Status zeroDevbox |}.

Definition doomed : World :=
  withPods [barePod "box-a"]
    (world {| devboxes := {[ ("ns", "box") := doomedBox ]};
              runtimes := {[ ("ns", "go-1-22") := runtime ]};
              secrets := ∅; pods := ∅; services := ∅; deployments := ∅;
              ingresses := ∅ |} []).

(** The WebSocket devbox is stopped after its first pass. *)
Definition stop (w : World) : World :=
  setCluster
    (setTable (withSpecState DevboxStateStopped <$> devboxes (cluster w))
              (cluster w)) w.

Definition halted : World := stop ws1.

Definition haltedBox : Devbox :=
  default zeroDevbox (devboxes (cluster halted) !! ("ns", "box")).

(** The steps of the reconciler of the sample, for its devbox. *)
Definition podStep : M (option error) :=
  Reconcile_syncPod reconciler ("ns", "box") boxLabels.
Definition podSync : M (option error) := syncPod reconciler boxLabels.
Definition secretSync : M (option error) := syncSecret boxLabels.
Definition networkSync : M (option error) := syncNetwork reconciler boxLabels.
Definition proxyDeployment : M (result Deployment) :=
  generateProxyPodDeployment reconciler boxLabels (runtimeServicePorts runtime).
Definition cleanup : M (option error) := removeAll boxLabels.

(** A secret of the devbox's name without data. *)
Definition bareSecret : World :=
  world {| devboxes := {[ ("ns", "box") := box DevboxStateRunning
                                               NetworkTypeNodePort ]};
           runtimes := {[ ("ns", "go-1-22") := runtime ]};
           secrets := {[ ("ns", "box") :=
                           {| SecretMeta := namedMeta "box" "ns" ∅;
                              Data := None |} ]};
           pods := ∅; services := ∅; deployments := ∅; ingresses := ∅ |} [].

Definition statusHost (w : World) : option string :=
  (fun d => WebSocket (Network (Status d)))
    <$> devboxes (cluster w) !! ("ns", "box").

Definition ingressHosts (w : World) : option (list string) :=
  (fun i => map Host (Rules (IngressSpecOf i)))
    <$> ingresses (cluster w) !! ("ns", "box-proxy-ingress").

(** The devbox held by a pass whose calls meet the faults [fs]. *)
Definition heldWith (st : DevboxState) (nt : NetworkType)
    (fs : list (option Fault)) : World :=
  setDevboxCell (box st nt) (world (cluster0 st nt) fs).

(** A secret of the devbox's name with the data [m]. *)
Definition secretWith (m : gmap string string) : World :=
  setDevboxCell (box DevboxStateRunning NetworkTypeNodePort)
    (world {| devboxes := {[ ("ns", "box") := box DevboxStateRunning
                                                 NetworkTypeNodePort ]};
              runtimes := {[ ("ns", "go-1-22") := runtime ]};
              secrets := {[ ("ns", "box") :=
                              {| SecretMeta := namedMeta "box" "ns" ∅;
                                 Data := Some m |} ]};
              pods := ∅; services := ∅; deployments := ∅;
              ingresses := ∅ |} []).

Definition keysOnly : gmap string string :=
  {[ "SEALOS_DEVBOX_PUBLIC_KEY" := "pub";
     "SEALOS_DEVBOX_PRIVATE_KEY" := "priv" ]}.

Definition fullData : gmap string string :=
  {[ "SEALOS_DEVBOX_JWT_SECRET" := "jwt";
     "SEALOS_DEVBOX_PUBLIC_KEY" := "pub";
     "SEALOS_DEVBOX_PRIVATE_KEY" := "priv";
     "SEALOS_DEVBOX_AUTHORIZED_KEYS" := "pub" ]}.

(** The packages of the sample, with a key generation that fails. *)
Definition noKeys : Helper := {|
  FinalizerName := @FinalizerName helper;
  DefaultManagedBy := @DefaultManagedBy helper;
  DevBoxPartOf := @DevBoxPartOf helper;
  RecommendedLabels := @RecommendedLabels helper;
  GenerateSSHKeyPair seed := Fail (Errorf "no entropy");
  GenerateDevboxPhase := @GenerateDevboxPhase helper;
  UpdateDevboxStatus := @UpdateDevboxStatus helper;
  IsExceededQuotaError := @IsExceededQuotaError helper;
  UpdatePredicatedCommitStatus := @UpdatePredicatedCommitStatus helper;
  PodMatchExpectations := @PodMatchExpectations helper;
  UpdateCommitHistory := @UpdateCommitHistory helper;
  GenerateProxyPodLabels := @GenerateProxyPodLabels helper;
  GeneratePodAnnotations := @GeneratePodAnnotations helper;
  GenerateProxyPodResourceRequirements :=
    @GenerateProxyPodResourceRequirements helper;
  GeneratePodLabels := @GeneratePodLabels helper;
  GenerateDevboxEnvVars := @GenerateDevboxEnvVars helper;
  GetLastSuccessCommitImageName := @GetLastSuccessCommitImageName helper;
  GenerateSSHVolume := @GenerateSSHVolume helper;
  GenerateSSHVolumeMounts := @GenerateSSHVolumeMounts helper;
  GenerateWorkingDir := @GenerateWorkingDir helper;
  GenerateCommand := @GenerateCommand helper;
  GenerateDevboxArgs := @GenerateDevboxArgs helper;
  GenerateResourceRequirements := @GenerateResourceRequirements helper
|}.

(** The state the node agent reports for a running container. *)
Definition running : ContainerState :=
  {| Waiting := None; RunningSince := Some 1700000100;
     TerminatedExitCode := None |}.

(** A pod the API server has marked for deletion. *)
Definition leaving (p : Pod) : Pod :=
  {| PodMeta := withDeletionTimestamp (Some 1700000200) (PodMeta p);
     PodSpecOf := PodSpecOf p; PodStatusOf := PodStatusOf p |}.

(** The devbox held, with the one pod [p]. *)
Definition withPod (st : DevboxState) (p : Pod) : World :=
  withPods [p] (held st NetworkTypeNodePort).

(** The pod the pod sync makes for the Running devbox of the sample,
    running. *)
Definition ownPod : Pod :=
  ready (generateDevboxPod reconciler
           (box DevboxStateRunning NetworkTypeNodePort) runtime
           (nextCommitHistory reconciler
              (held DevboxStateRunning NetworkTypeNodePort))).

(** The devbox of the sample without its runtime. *)
Definition orphan : World :=
  setDevboxCell (box DevboxStateRunning NetworkTypeNodePort)
    (world {| devboxes := {[ ("ns", "box") := box DevboxStateRunning
                                                 NetworkTypeNodePort ]};
              runtimes := ∅; secrets := ∅; pods := ∅; services := ∅;
              deployments := ∅; ingresses := ∅ |} []).

(** A proxy service of the devbox that has lost its ports. *)
Definition proxyServiceNoPorts : Service := {|
  ServiceMeta := namedMeta "box-proxy-svc" "ns" ∅;
  ServiceSpecOf := {| Selector := ∅; SType := ServiceTypeClusterIP;
                      SPorts := [] |}
|}.

Definition portless : World :=
  setDevboxCell (box DevboxStateRunning NetworkTypeWebSocket)
    (world {| devboxes := {[ ("ns", "box") := box DevboxStateRunning
                                                 NetworkTypeWebSocket ]};
              runtimes := {[ ("ns", "go-1-22") := runtime ]};
              secrets := ∅; pods := ∅;
              services := {[ ("ns", "box-proxy-svc") := proxyServiceNoPorts ]};
              deployments := ∅; ingresses := ∅ |} []).

(** The live devbox of the sample with the finalizer. *)
Definition guardedBox : Devbox :=
  {| DevboxMeta := withFinalizers [FinalizerName] (namedMeta "box" "ns" ∅);
     Spec := Spec (box DevboxStateRunning NetworkTypeNodePort);
     Status := Status zeroDevbox |}.

Definition kept : World :=
  world {| devboxes := {[ ("ns", "box") := guardedBox ]};
           runtimes := {[ ("ns", "go-1-22") := runtime ]};
           secrets := ∅; pods := ∅; services := ∅; deployments := ∅;
           ingresses := ∅ |} [].

(** The token in the environment of the proxy deployment generated in
    world [w], and the token of claims issued at the first clock reading of
    [w] that expire seven days after that reading. *)
Definition proxyToken (w : World) : option string :=
  match (proxyDeployment w).1 with
  | Done (OK dep) =>
      match map Env (Containers (TemplateSpec (Template (DeploymentSpecOf dep))))
      with
      | [envs] => lookupEnv "JWT_TOKEN" envs
      | _ => None
      end
  | _ => None
  end.

Definition sevenDayToken (w : World) : option string :=
  match SignedString
          (NewWithClaims SigningMethodHS256
             {| DevboxName := Name (DevboxMeta (devbox w));
                NameSpace := Namespace (DevboxMeta (devbox w));
                Registered := {| IssuedAt := clock w (reads w);
                                 ExpiresAt := clock w (reads w) + sevenDays;
                                 Issuer := "devbox-controller" |} |})
          (ShutdownServerKey reconciler) with
  | OK token => Some token
  | Fail _ => None
  end.

(** The devbox with the finalizer where the runtime has come to declare
    two ports and the NodePort service of an earlier pass has one. *)
Definition grownKept : World :=
  world {| devboxes := {[ ("ns", "box") := guardedBox ]};
           runtimes := {[ ("ns", "go-1-22") := runtimeTwoPorts ]};
           secrets := ∅; pods := ∅;
           services := {[ ("ns", "box-svc") := serviceOnePort ]};
           deployments := ∅; ingresses := ∅ |} [].

(** The same devbox, with an outage at the sixth call of the pass, the
    first of the network sync. *)
Definition keptOutage : World :=
  world (cluster kept)
        [None; None; None; None; None;
         Some (FaultUnavailable "etcd unavailable")].

Definition eventReasons (w : World) : list (EventType * string) :=
  map (fun e => (EvType e, EvReason e)) (events w).

(** More steps of the reconciler of the sample, for its devbox. *)
Definition podService : M (option error) :=
  syncPodSvc boxLabels (runtimeServicePorts runtime).
Definition proxyService : M (option error) := syncProxySvc.
Definition proxyIngress : M (result string) := syncProxyIngress reconciler.
Definition proxyEnv : M (result (list EnvVar)) :=
  generateProxyPodEnv reconciler (runtimeServicePorts runtime).
Definition proxyPod : M (option error) :=
  syncProxyPod reconciler boxLabels (runtimeServicePorts runtime).
End Sample.

(* ===================================================================== *)
(** ** The authentication cache ([service/pkg/auth/cache.go])             *)
(* ===================================================================== *)

(** [AuthCache]: the map from a key to the time it was set, the list of
    the keys set, from the latest (front) to the oldest (back), the time to
    live and the capacity.  Times and durations are in nanoseconds.  Every
    method holds the mutex from its first line to its return, so a call is
    one step on the cache; the time a call reads from [time.Now] is an
    argument of the step. *)
Module Auth.

Record AuthCache := {
  cache : gmap string Z;
  order : list string;
  ttl : Z;
  capacity : Z
}.

Definition NewAuthCache (ttl capacity : Z) : AuthCache :=
  {| cache := ∅; order := []; ttl := ttl; capacity := capacity |}.

(** [fmt.Sprintf("%s-%s", kc, ns)] *)
Definition keyFor (ns kc : string) : string := kc +:+ "-" +:+ ns.

(** [evict]: the key at the back of the list leaves the list and the map. *)
Definition evict (ac : AuthCache) : AuthCache :=
  match last (order ac) with
  | None => ac
  | Some oldestKey =>
      {| cache := delete oldestKey (cache ac);
         order := removelast (order ac);
         ttl := ttl ac; capacity := capacity ac |}
  end.

Definition AuthCache_Set (ns kc : string) (now : Z) (ac : AuthCache)
  : AuthCache :=
  let key := keyFor ns kc in
  let ac :=
    if bool_decide (capacity ac <= Z.of_nat (size (cache ac)))
    then evict ac else ac in
  {| cache := <[key := now]> (cache ac);
     order := key :: order ac;
     ttl := ttl ac; capacity := capacity ac |}.

Definition AuthCache_Get (ns kc : string) (now : Z) (ac : AuthCache) : bool :=
  let key := keyFor ns kc in
  match cache ac !! key with
  | None => false
  | Some timestamp =>
      if bool_decide (now - timestamp > ttl ac) then false else true
  end.

(** [cleanup]: the loop reads the clock anew at each entry, in the order
    the map iteration happens to take; [now key] is the reading at the
    entry of [key]. *)
Definition cleanup (now : string -> Z) (ac : AuthCache) : AuthCache :=
  {| cache := filter (fun kt => ~ (now kt.1 - kt.2 > ttl ac)) (cache ac);
     order := order ac;
     ttl := ttl ac; capacity := capacity ac |}.

(** [in_step ac]: the list has each key once, and the keys of the list
    are the keys of the map: no key was set twice and no entry has been
    cleaned up. *)
Definition in_step (ac : AuthCache) : Prop :=
  NoDup (order ac)
  /\ forall k, k ∈ order ac <-> is_Some (cache ac !! k).

(** A cache of capacity 1 and an hour to live, and what three calls make
    of it. *)
Definition hour : Z := 3600 * 1000000000.
Definition small : AuthCache := NewAuthCache hour 1.
Definition stale : AuthCache :=
  AuthCache_Set "ns2" "kc2" (hour + 3)
    (cleanup (fun _ => hour + 2) (AuthCache_Set "ns1" "kc1" 0 small)).

End Auth.

(* ===================================================================== *)
(** ** Running the monad                                                  *)
(* ===================================================================== *)

Lemma bind_run {A B} (m : M A) (k : A -> M B) (w : World) :
  (m ≫= k) w =
  match m w with
  | (Done a, w1) => k a w1
  | (Panicked msg, w1) => (Panicked msg, w1)
  end.
Proof. reflexivity. Qed.

Lemma bind_done {A B} (m : M A) (k : A -> M B) w a w1 :
  m w = (Done a, w1) -> (m ≫= k) w = k a w1.
Proof. intros Hm. rewrite bind_run, Hm. reflexivity. Qed.

Lemma bind_panicked {A B} (m : M A) (k : A -> M B) w msg w1 :
  m w = (Panicked msg, w1) -> (m ≫= k) w = (Panicked msg, w1).
Proof. intros Hm. rewrite bind_run, Hm. reflexivity. Qed.

Lemma bind_inv {A B} (m : M A) (k : A -> M B) w b w' :
  (m ≫= k) w = (Done b, w') ->
  exists a w1, m w = (Done a, w1) /\ k a w1 = (Done b, w').
Proof.
  rewrite bind_run. destruct (m w) as [[a|msg] w1]; intros Hk.
  - exists a, w1. split; [reflexivity | exact Hk].
  - discriminate Hk.
Qed.

Lemma ret_inv {A} (a b : A) w w' : ret a w = (Done b, w') -> b = a /\ w' = w.
Proof. intros Hr. injection Hr as <- <-. split; reflexivity. Qed.

(* ===================================================================== *)
(** ** What the API server answers                                        *)
(* ===================================================================== *)

Lemma serve_run {A} v k key (handler : World -> result A * World) w :
  serve v k key handler w =
  match nextFault w with
  | Some f =>
      (Done (Fail (fault_error f)),
       tick {| CallVerb := v; CallKind := k; CallKey := key |} w)
  | None =>
      let '(r, w2) :=
        handler (tick {| CallVerb := v; CallKind := k; CallKey := key |} w) in
      (Done r, w2)
  end.
Proof. reflexivity. Qed.

Lemma fault_not_NotFound f : IsNotFound (fault_error f) = false.
Proof. destruct f; reflexivity. Qed.

Lemma defer_run {A} (d : M unit) (body : M A) w r w1 w2 :
  body w = (r, w1) -> d w1 = (Done tt, w2) -> defer d body w = (r, w2).
Proof. intros Hb Hd. unfold defer. rewrite Hb, Hd. reflexivity. Qed.

Lemma total_ret {A} (a : A) : total (ret a).
Proof. intros w. exists a, w. reflexivity. Qed.

Lemma total_bind {A B} (m : M A) (k : A -> M B) :
  total m -> (forall a, total (k a)) -> total (m ≫= k).
Proof.
  intros Hm Hk w. destruct (Hm w) as (a & w1 & Ha).
  destruct (Hk a w1) as (b & w2 & Hb).
  exists b, w2. rewrite (bind_done _ _ _ _ _ Ha). exact Hb.
Qed.

Lemma total_serve {A} v k key (handler : World -> result A * World) :
  total (serve v k key handler).
Proof.
  intros w. rewrite serve_run. destruct (nextFault w).
  - eexists _, _. reflexivity.
  - destruct (handler _) as [r w2]. eexists _, _. reflexivity.
Qed.

Lemma total_attempts {A} n retriable (fn : M (result A)) :
  total fn -> total (attempts n retriable fn).
Proof.
  intros Hfn. induction n as [|n IH]; cbn [attempts].
  - apply total_bind; [exact Hfn|]. intros [a|e]; [apply total_ret|].
    destruct (retriable e); apply total_ret.
  - apply total_bind; [exact Hfn|]. intros [a|e]; [apply total_ret|].
    destruct (retriable e); [exact IH | apply total_ret].
Qed.

Lemma total_RetryOnConflict n (fn : M (option error)) :
  total fn -> total (RetryOnConflict n fn).
Proof.
  intros Hfn. unfold RetryOnConflict. apply total_bind.
  - unfold OnError. destruct n; [apply total_ret|].
    apply total_attempts. apply total_bind; [exact Hfn|].
    intros a. apply total_ret.
  - intros a. apply total_ret.
Qed.

#[global] Instance same_reflexive {B} (f : World -> B) : Reflexive (same f).
Proof. intros w. reflexivity. Qed.

#[global] Instance same_transitive {B} (f : World -> B) : Transitive (same f).
Proof. intros w1 w2 w3 H12 H23. unfold same in *. congruence. Qed.

#[global] Instance grows_reflexive {B} (f : World -> list B) :
  Reflexive (grows f).
Proof. intros w. exists []. rewrite app_nil_r. reflexivity. Qed.

#[global] Instance grows_transitive {B} (f : World -> list B) :
  Transitive (grows f).
Proof.
  intros w1 w2 w3 [l Hl] [l' Hl']. exists (l ++ l')%list.
  rewrite Hl', Hl, app_assoc. reflexivity.
Qed.

Lemma keeps_ret {A} R `{!Reflexive R} (a : A) : keeps R (ret a).
Proof. intros w. reflexivity. Qed.

Lemma keeps_panic {A} R `{!Reflexive R} msg : keeps R (panic (A:=A) msg).
Proof. intros w. reflexivity. Qed.

Lemma keeps_bind {A B} R `{!Transitive R} (m : M A) (k : A -> M B) :
  keeps R m -> (forall a, keeps R (k a)) -> keeps R (m ≫= k).
Proof.
  intros Hm Hk w. rewrite bind_run. specialize (Hm w).
  destruct (m w) as [[a|msg] w1]; cbn in *.
  - transitivity w1; [exact Hm | apply Hk].
  - exact Hm.
Qed.

Lemma keeps_defer {A} R `{!Transitive R} (d : M unit) (body : M A) :
  keeps R body -> keeps R d -> keeps R (defer d body).
Proof.
  intros Hb Hd w. unfold defer. specialize (Hb w).
  destruct (body w) as [r w1]. specialize (Hd w1).
  destruct (d w1) as [[[]|msg] w2]; cbn in *; transitivity w1; assumption.
Qed.

Lemma keeps_serve {A} R `{!Transitive R} v k key
    (handler : World -> result A * World) :
  (forall c w, R w (tick c w)) ->
  (forall w, R w (handler w).2) ->
  keeps R (serve v k key handler).
Proof.
  intros Htick Hh w. rewrite serve_run. destruct (nextFault w).
  - apply Htick.
  - specialize (Hh (tick {| CallVerb := v; CallKind := k; CallKey := key |} w)).
    destruct (handler _) as [r w2]. cbn in *.
    transitivity (tick {| CallVerb := v; CallKind := k; CallKey := key |} w);
      [apply Htick | exact Hh].
Qed.

Lemma keeps_attempts {A} R `{!Reflexive R} `{!Transitive R} n retriable
    (fn : M (result A)) :
  keeps R fn -> keeps R (attempts n retriable fn).
Proof.
  intros Hfn. induction n as [|n IH]; cbn [attempts].
  - apply keeps_bind; [assumption | exact Hfn |].
    intros [a|e]; [apply keeps_ret; assumption|].
    destruct (retriable e); apply keeps_ret; assumption.
  - apply keeps_bind; [assumption | exact Hfn |].
    intros [a|e]; [apply keeps_ret; assumption|].
    destruct (retriable e); [exact IH | apply keeps_ret; assumption].
Qed.

Lemma keeps_OnError {A} R `{!Reflexive R} `{!Transitive R} (zero : A) n
    retriable (fn : M (result A)) :
  keeps R fn -> keeps R (OnError zero n retriable fn).
Proof.
  intros Hfn. destruct n; cbn [OnError].
  - apply keeps_ret; assumption.
  - apply keeps_attempts; assumption.
Qed.

Lemma keeps_RetryOnConflict R `{!Reflexive R} `{!Transitive R} n
    (fn : M (option error)) :
  keeps R fn -> keeps R (RetryOnConflict n fn).
Proof.
  intros Hfn. unfold RetryOnConflict.
  apply keeps_bind; [assumption| |intros a; apply keeps_ret; assumption].
  apply keeps_OnError; [assumption..|].
  apply keeps_bind; [assumption | exact Hfn |].
  intros a; apply keeps_ret; assumption.
Qed.

Lemma quiet_next n w : quiet (S n) w -> nextFault w = None.
Proof.
  unfold quiet, nextFault. destruct (faults w) as [|[f|] fs]; cbn; trivial.
  intros Hq. inversion Hq; discriminate.
Qed.

Lemma quiet_tail n fs :
  Forall (fun f : option Fault => f = None) (take (S n) fs) ->
  Forall (fun f : option Fault => f = None) (take n (tail fs)).
Proof.
  destruct fs as [|f fs]; cbn.
  - intros _. destruct n; constructor.
  - intros Hq. inversion Hq; assumption.
Qed.

Lemma quiet_tick n c w : quiet (S n) w -> quiet n (tick c w).
Proof. unfold quiet. cbn. apply quiet_tail. Qed.

(** The [i]-th call from a world that is quiet for more than [i] calls
    meets no fault. *)
Lemma quiet_nth n w i :
  quiet n w -> (i < n)%nat -> headFault (Nat.iter i tail (faults w)) = None.
Proof.
  unfold quiet. generalize (faults w) as fs. revert n.
  induction i as [|i IH]; intros n fs Hq Hlt.
  - destruct n; [lia|]. destruct fs as [|[f|] fs]; cbn; trivial.
    inversion Hq; discriminate.
  - destruct n; [lia|].
    change (Nat.iter (S i) tail fs) with (tail (Nat.iter i tail fs)).
    replace (tail (Nat.iter i tail fs)) with (Nat.iter i tail (tail fs)).
    + apply (IH n); [apply quiet_tail; exact Hq | lia].
    + clear. induction i as [|i IHi]; [reflexivity|].
      change (Nat.iter (S i) tail (tail fs))
        with (tail (Nat.iter i tail (tail fs))).
      rewrite IHi. reflexivity.
Qed.

Lemma quiet_nil n w : faults w = [] -> quiet n w.
Proof. unfold quiet. intros ->. destruct n; constructor. Qed.

Section ClientFacts.
Context {T : Type} `{Object T}.

(** A read answers from the store and changes nothing but the record of
    calls and the pending faults. *)
Lemma client_Get_run (key : Key) w :
  client_Get (T:=T) key w =
  (Done match nextFault w with
        | Some f => Fail (fault_error f)
        | None =>
            match table (cluster w) !! key with
            | Some o => OK o
            | None => Fail (NewNotFound kind key)
            end
        end,
   tick {| CallVerb := VGet; CallKind := kind; CallKey := key |} w).
Proof.
  unfold client_Get. rewrite serve_run.
  destruct (nextFault w); [reflexivity|].
  cbn. destruct (table (cluster w) !! key); reflexivity.
Qed.

Lemma client_List_run ns sel w :
  client_List (T:=T) ns sel w =
  (Done match nextFault w with
        | Some f => Fail (fault_error f)
        | None =>
            OK (filter (fun o => selected ns sel (objectMeta o) = true)
                       (map_to_list (table (cluster w))).*2)
        end,
   tick {| CallVerb := VList; CallKind := kind; CallKey := (ns, "") |} w).
Proof.
  unfold client_List. rewrite serve_run.
  destruct (nextFault w); reflexivity.
Qed.

Lemma client_Create_run (obj : T) w :
  client_Create obj w =
  (let key := keyOf (objectMeta obj) in
   let w1 := tick {| CallVerb := VCreate; CallKind := kind; CallKey := key |} w in
   match nextFault w with
   | Some f => (Done (Fail (fault_error f)), w1)
   | None =>
       match table (cluster w) !! key with
       | Some _ => (Done (Fail (NewAlreadyExists kind key)), w1)
       | None =>
           let '(o, pool) := allocate obj (nodePortPool w) in
           (Done (OK o), updTable (insert key o) (setNodePortPool pool w1))
       end
   end).
Proof.
  unfold client_Create. rewrite serve_run.
  destruct (nextFault w); [reflexivity|].
  cbn. destruct (table (cluster w) !! _); [reflexivity|].
  destruct (allocate obj _); reflexivity.
Qed.

Lemma client_Update_run (obj : T) w :
  client_Update obj w =
  (let key := keyOf (objectMeta obj) in
   let w1 := tick {| CallVerb := VUpdate; CallKind := kind; CallKey := key |} w in
   match nextFault w with
   | Some f => (Done (Fail (fault_error f)), w1)
   | None =>
       match table (cluster w) !! key with
       | None => (Done (Fail (NewNotFound kind key)), w1)
       | Some old =>
           let '(o, pool) :=
             allocate
               (setObjectMeta
                  (withDeletionTimestamp
                     (DeletionTimestamp (objectMeta old))
                     (objectMeta (prepareForUpdate old obj)))
                  (prepareForUpdate old obj))
               (nodePortPool w) in
           (Done (OK o),
            match DeletionTimestamp (objectMeta o),
                  Finalizers (objectMeta o) with
            | Some _, [] => updTable (delete key) (setNodePortPool pool w1)
            | _, _ => updTable (insert key o) (setNodePortPool pool w1)
            end)
       end
   end).
Proof.
  unfold client_Update. rewrite serve_run.
  destruct (nextFault w); [reflexivity|].
  cbn. destruct (table (cluster w) !! _); [|reflexivity].
  destruct (allocate _ _) as [o pool].
  destruct (DeletionTimestamp (objectMeta o)); [|reflexivity].
  destruct (Finalizers (objectMeta o)); reflexivity.
Qed.

Lemma client_Delete_run (obj : T) w :
  client_Delete obj w =
  (let key := keyOf (objectMeta obj) in
   let w1 := tick {| CallVerb := VDelete; CallKind := kind; CallKey := key |} w in
   match nextFault w with
   | Some f => (Done (Some (fault_error f)), w1)
   | None =>
       match table (cluster w) !! key with
       | None => (Done (Some (NewNotFound kind key)), w1)
       | Some old =>
           (Done None,
            match reap (clock w (reads w)) old with
            | None => updTable (delete key) w1
            | Some o => updTable (insert key o) w1
            end)
       end
   end).
Proof.
  unfold client_Delete. rewrite bind_run, serve_run.
  destruct (nextFault w); [reflexivity|].
  cbn. destruct (table (cluster w) !! _); [|reflexivity].
  destruct (reap _ _); reflexivity.
Qed.

Lemma client_DeleteAllOf_run ns sel w :
  client_DeleteAllOf (T:=T) ns sel w =
  (let w1 := tick {| CallVerb := VDeleteAllOf; CallKind := kind;
                     CallKey := (ns, "") |} w in
   match nextFault w with
   | Some f => (Done (Some (fault_error f)), w1)
   | None =>
       (Done None,
        updTable (omap (fun o => if selected ns sel (objectMeta o)
                                 then reap (clock w (reads w)) o
                                 else Some o)) w1)
   end).
Proof.
  unfold client_DeleteAllOf. rewrite bind_run, serve_run.
  destruct (nextFault w); reflexivity.
Qed.

Lemma total_client_Get key : total (client_Get (T:=T) key).
Proof. apply total_serve. Qed.

Lemma total_client_List ns sel : total (client_List (T:=T) ns sel).
Proof. apply total_serve. Qed.

Lemma total_client_Create (obj : T) : total (client_Create obj).
Proof. apply total_serve. Qed.

Lemma total_client_Update (obj : T) : total (client_Update obj).
Proof. apply total_serve. Qed.

Lemma total_client_Delete (obj : T) : total (client_Delete obj).
Proof.
  unfold client_Delete. apply total_bind; [apply total_serve|].
  intros a. apply total_ret.
Qed.

Lemma total_client_DeleteAllOf ns sel : total (client_DeleteAllOf (T:=T) ns sel).
Proof.
  unfold client_DeleteAllOf. apply total_bind; [apply total_serve|].
  intros a. apply total_ret.
Qed.

Lemma RemoveFinalizer_key (o : T) f :
  (forall m x, objectMeta (setObjectMeta m x) = m) ->
  keyOf (objectMeta (RemoveFinalizer o f).1) = keyOf (objectMeta o).
Proof. intros Hm. cbn. rewrite Hm. reflexivity. Qed.
End ClientFacts.

Lemma client_Status_Update_run (obj : Devbox) w :
  client_Status_Update obj w =
  (let key := keyOf (DevboxMeta obj) in
   let w1 := tick {| CallVerb := VStatusUpdate; CallKind := KDevbox;
                     CallKey := key |} w in
   match nextFault w with
   | Some f => (Done (Fail (fault_error f)), w1)
   | None =>
       match devboxes (cluster w) !! key with
       | None => (Done (Fail (NewNotFound KDevbox key)), w1)
       | Some old =>
           (Done (OK (withStatus (Status obj) old)),
            updTable (insert key (withStatus (Status obj) old)) w1)
       end
   end).
Proof.
  unfold client_Status_Update. rewrite serve_run.
  destruct (nextFault w); [reflexivity|].
  cbn. destruct (devboxes (cluster w) !! _); reflexivity.
Qed.

Lemma total_client_Status_Update obj : total (client_Status_Update obj).
Proof. apply total_serve. Qed.

Lemma total_getDevbox : total getDevbox.
Proof. intros w. eexists _, _. reflexivity. Qed.

Lemma total_setDevbox d : total (setDevbox d).
Proof. intros w. eexists _, _. reflexivity. Qed.

Lemma total_modifyDevbox f : total (modifyDevbox f).
Proof. intros w. eexists _, _. reflexivity. Qed.

Lemma total_getPodList : total getPodList.
Proof. intros w. eexists _, _. reflexivity. Qed.

Lemma total_setPodList l : total (setPodList l).
Proof. intros w. eexists _, _. reflexivity. Qed.

Lemma total_Eventf obj t reason msg : total (Eventf obj t reason msg).
Proof. intros w. eexists _, _. reflexivity. Qed.

Lemma total_rand_String n : total (rand_String n).
Proof. intros w. eexists _, _. reflexivity. Qed.

Lemma total_time_Now : total time_Now.
Proof. intros w. eexists _, _. reflexivity. Qed.

Create HintDb total.

#[global] Hint Resolve total_ret total_serve total_client_Get total_client_List
  total_client_Create total_client_Update total_client_Delete
  total_client_DeleteAllOf total_client_Status_Update total_getDevbox
  total_setDevbox total_modifyDevbox total_getPodList total_setPodList
  total_Eventf total_rand_String total_time_Now total_RetryOnConflict
  total_attempts : total.

(** Totality of a sequence of binds and case distinctions over total
    steps. *)
Ltac total_steps :=
  repeat first
    [ apply total_bind; [|intros ?]
    | solve [auto with total]
    | match goal with
      | |- total (match ?x with _ => _ end) => destruct x
      | |- total (if ?b then _ else _) => destruct b
      end ].

Section DeferredFacts.
Context `{Helper}.

Lemma total_Recorder_Eventf t reason msg : total (Recorder_Eventf t reason msg).
Proof. unfold Recorder_Eventf. total_steps. Qed.

(** The deferred status update of [syncPod] never panics. *)
Lemma total_syncPod_deferred : total syncPod_deferred.
Proof.
  unfold syncPod_deferred. apply total_bind.
  - apply total_RetryOnConflict. total_steps.
  - intros [err|]; apply total_Recorder_Eventf.
Qed.

Lemma syncPod_deferred_done w : exists w', syncPod_deferred w = (Done tt, w').
Proof. destruct (total_syncPod_deferred w) as ([] & w' & Hd). eauto. Qed.

Lemma total_Status_Update_devbox : total Status_Update_devbox.
Proof. unfold Status_Update_devbox. total_steps. Qed.

Lemma total_Update_devbox : total Update_devbox.
Proof. unfold Update_devbox. total_steps. Qed.
End DeferredFacts.

(* ===================================================================== *)
(** ** The proxy's environment (C8)                                       *)
(* ===================================================================== *)

Section ProxyEnv.
Context `{Helper} `{Libraries}.

(** The two clock readings of [generateProxyPodJWT] and its one call of
    the signing function. *)
Lemma generateProxyPodJWT_run r w :
  generateProxyPodJWT r w =
  (Done match SignedString (NewWithClaims SigningMethodHS256 (proxyClaims w))
                           (ShutdownServerKey r) with
        | OK signedToken => OK signedToken
        | Fail err => Fail (Wrapf "failed to sign token" err)
        end,
   setReads (S (S (reads w))) w).
Proof.
  unfold generateProxyPodJWT, proxyClaims.
  cbv [mbind M_bind getDevbox time_Now].
  cbn [reads clock devbox setReads].
  destruct (SignedString _ _); reflexivity.
Qed.

(** The list [generateProxyPodEnv] builds once the token is signed. *)
Lemma generateProxyPodEnv_run r servicePorts w :
  generateProxyPodEnv r servicePorts w =
  (Done match SignedString (NewWithClaims SigningMethodHS256 (proxyClaims w))
                           (ShutdownServerKey r) with
        | OK token =>
            let d := devbox w in
            let enabled :=
              Enable (AutoShutdown (Spec d)) && EnableAutoShutdown r in
            OK ([{| EnvName := "ENABLE_AUTO_SHUTDOWN";
                    EnvValue := FormatBool enabled |}]
                ++ (if enabled
                    then [{| EnvName := "AUTO_SHUTDOWN_INTERVAL";
                             EnvValue := ShutdownTime (AutoShutdown (Spec d)) |}]
                    else [])
                ++ [{| EnvName := "JWT_TOKEN"; EnvValue := token |};
                    {| EnvName := "TARGET";
                       EnvValue := Name (DevboxMeta d) +:+ "-pod-svc:"
                                   +:+ sshPortOf servicePorts |};
                    {| EnvName := "LISTEN"; EnvValue := "0.0.0.0:80" |};
                    {| EnvName := "AUTO_SHUTDOWN_SERVICE_URL";
                       EnvValue := ShutdownServerAddr r |}])%list
        | Fail err => Fail (Wrapf "failed to sign token" err)
        end,
   setReads (S (S (reads w))) w).
Proof.
  unfold generateProxyPodEnv.
  rewrite bind_run; cbv [getDevbox].
  rewrite bind_run, generateProxyPodJWT_run.
  destruct (SignedString _ _) as [token|err]; [|reflexivity].
  cbn [devbox setReads].
  destruct (Enable (AutoShutdown (Spec (devbox w))) && EnableAutoShutdown r);
    reflexivity.
Qed.
End ProxyEnv.

Section ProxyDeployment.
Context `{Helper} `{Libraries}.

(** C8, as the code has it.  The environment of the proxy deployment's
    container: the auto-shutdown toggle is "true" exactly when the devbox's
    auto-shutdown spec and the controller's configuration both enable it,
    the interval variable is there only then, and [JWT_TOKEN] is the HS256
    signature, under the configured shutdown-server key, of claims that
    carry the devbox's name and namespace.  The issue time of the claims
    is one reading of the clock and their expiry is seven days (604800 s)
    after the next reading: the token expires seven days after its issue
    time or later, by as much as the clock has moved between the two
    readings. *)
Theorem proxy_deployment_environment r recLabels servicePorts w dep w' :
  generateProxyPodDeployment r recLabels servicePorts w = (Done (OK dep), w') ->
  let d := devbox w in
  let enabled := Enable (AutoShutdown (Spec d)) && EnableAutoShutdown r in
  exists envs token,
    map Env (Containers (TemplateSpec (Template (DeploymentSpecOf dep))))
      = [envs]
    /\ lookupEnv "ENABLE_AUTO_SHUTDOWN" envs = Some (FormatBool enabled)
    /\ (lookupEnv "ENABLE_AUTO_SHUTDOWN" envs = Some "true" <->
        Enable (AutoShutdown (Spec d)) = true /\ EnableAutoShutdown r = true)
    /\ lookupEnv "AUTO_SHUTDOWN_INTERVAL" envs
       = (if enabled then Some (ShutdownTime (AutoShutdown (Spec d)))
          else None)
    /\ lookupEnv "JWT_TOKEN" envs = Some token
    /\ SignedString (NewWithClaims SigningMethodHS256 (proxyClaims w))
                    (ShutdownServerKey r) = OK token
    /\ DevboxName (proxyClaims w) = Name (DevboxMeta d)
    /\ NameSpace (proxyClaims w) = Namespace (DevboxMeta d)
    /\ IssuedAt (Registered (proxyClaims w)) = clock w (reads w)
    /\ ExpiresAt (Registered (proxyClaims w))
       = clock w (S (reads w)) + 604800
    /\ ExpiresAt (Registered (proxyClaims w))
       = IssuedAt (Registered (proxyClaims w)) + 604800
         + (clock w (S (reads w)) - clock w (reads w))
    /\ reads w' = S (S (reads w)).
Proof.
  intros Hrun d enabled.
  unfold generateProxyPodDeployment in Hrun.
  rewrite bind_run in Hrun; cbv [getDevbox] in Hrun.
  rewrite bind_run in Hrun; unfold getRuntime in Hrun.
  rewrite bind_run in Hrun; cbv [getDevbox] in Hrun.
  rewrite client_Get_run in Hrun.
  match type of Hrun with
  | context [tick ?c w] => set (w1 := tick c w) in *
  end.
  match type of Hrun with
  | (match ?a with OK _ => _ | Fail _ => _ end) _ = _ =>
      destruct a as [runtimecr|err]; [|discriminate Hrun]
  end.
  rewrite bind_run, generateProxyPodEnv_run in Hrun.
  change (proxyClaims w1) with (proxyClaims w) in Hrun.
  change (devbox w1) with d in Hrun.
  fold enabled in Hrun.
  destruct (SignedString _ _) as [token|err] eqn:Hsign;
    [|discriminate Hrun].
  cbv beta iota zeta in Hrun. rewrite bind_run in Hrun.
  cbv [generateProxyPodName mbind M_bind rand_String ret mret M_ret] in Hrun.
  injection Hrun as <- <-.
  eexists _, token. cbn [DeploymentSpecOf Template TemplateSpec Containers map Env].
  split; [reflexivity|].
  assert (Htoggle : forall b, FormatBool b = "true" <-> b = true)
    by (intros [|]; cbn; split; congruence).
  refine (conj _ (conj _ (conj _ (conj _ (conj _ (conj _ (conj _
           (conj _ (conj _ (conj _ _)))))))))).
  - reflexivity.
  - change (Some (FormatBool enabled) = Some "true" <->
            Enable (AutoShutdown (Spec d)) = true /\ EnableAutoShutdown r = true).
    unfold enabled. rewrite <- andb_true_iff, <- Htoggle.
    split; [intros Hl; injection Hl; trivial | intros ->; reflexivity].
  - unfold enabled.
    destruct (Enable (AutoShutdown (Spec d)) && EnableAutoShutdown r);
      reflexivity.
  - unfold enabled.
    destruct (Enable (AutoShutdown (Spec d)) && EnableAutoShutdown r);
      reflexivity.
  - reflexivity.
  - reflexivity.
  - reflexivity.
  - reflexivity.
  - reflexivity.
  - cbn. unfold sevenDays. lia.
  - reflexivity.
Qed.
End ProxyDeployment.

(* ===================================================================== *)
(** ** Tactics                                                            *)
(* ===================================================================== *)

(** Fields of a world built by setters. *)
Ltac wsimpl :=
  unfold nextFault;
  cbn [cluster devbox podList events calls faults entropy draws clock reads
       nodePortPool setCluster setDevboxCell setPodListCell setEvents setCalls
       setFaults setDraws setReads setNodePortPool tick updTable
       getDevbox setDevbox modifyDevbox getPodList setPodList ret mret M_ret
       rand_String time_Now Eventf panic fst snd].

(** Class methods at a concrete kind. *)
Ltac osimpl :=
  cbn [kind objectMeta setObjectMeta table setTable prepareForUpdate allocate
       Devbox_Object Runtime_Object Secret_Object Pod_Object Service_Object
       Deployment_Object Ingress_Object
       devboxes runtimes secrets pods services deployments ingresses
       PodMeta PodSpecOf PodStatusOf RemoveFinalizer fst snd].

(** One step of a run: the first bind of the goal. *)
Ltac step := rewrite bind_run; wsimpl.

(** The same in a hypothesis. *)
Ltac wsimpl_in Hyp :=
  unfold nextFault in Hyp;
  cbn [cluster devbox podList events calls faults entropy draws clock reads
       nodePortPool setCluster setDevboxCell setPodListCell setEvents setCalls
       setFaults setDraws setReads setNodePortPool tick updTable
       getDevbox setDevbox modifyDevbox getPodList setPodList ret mret M_ret
       rand_String time_Now Eventf panic fst snd] in Hyp.

Ltac osimpl_in Hyp :=
  cbn [kind objectMeta setObjectMeta table setTable prepareForUpdate allocate
       Devbox_Object Runtime_Object Secret_Object Pod_Object Service_Object
       Deployment_Object Ingress_Object
       devboxes runtimes secrets pods services deployments ingresses
       PodMeta PodSpecOf PodStatusOf RemoveFinalizer fst snd] in Hyp.

Ltac step_in Hyp := rewrite bind_run in Hyp; wsimpl_in Hyp.

(** [keeps R] of one call: run it, look at every answer, and leave what
    is to show of the resulting world to [tac]. *)
Ltac keeps_call tac :=
  let w := fresh "w" in
  intros w;
  first [ rewrite client_Get_run | rewrite client_List_run
        | rewrite client_Create_run | rewrite client_Update_run
        | rewrite client_Delete_run | rewrite client_DeleteAllOf_run
        | rewrite client_Status_Update_run ];
  cbv zeta; repeat case_match; cbn [snd]; tac.

Ltac keeps_cell tac :=
  let w := fresh "w" in
  intros w; cbn; tac.

Lemma keeps_mutate {T} `{Object T} R `{!Reflexive R}
    (f : T -> outcome (result T)) key obj :
  keeps R (mutate f key obj).
Proof.
  intros w. unfold mutate. destruct (f obj) as [[o|e]|msg]; cbn;
    [destruct (bool_decide _)|..]; reflexivity.
Qed.

Create HintDb keeps.

(** [keeps R] of a function body: along its binds and case distinctions,
    down to the calls. *)
Ltac keeps_steps tac :=
  repeat first
    [ lazymatch goal with
      | |- keeps _ (ret _) => apply keeps_ret; typeclasses eauto
      | |- keeps _ (panic _) => apply keeps_panic; typeclasses eauto
      | |- keeps _ (mbind _ _) => apply keeps_bind; [typeclasses eauto| |intros ?]
      | |- keeps _ (defer _ _) => apply keeps_defer; [typeclasses eauto| |]
      | |- keeps _ (RetryOnConflict _ _) =>
          apply keeps_RetryOnConflict; [typeclasses eauto..|]
      | |- keeps _ (OnError _ _ _ _) =>
          apply keeps_OnError; [typeclasses eauto..|]
      | |- keeps _ (mutate _ _ _) => apply keeps_mutate; typeclasses eauto
      | |- keeps _ (client_Get _) => keeps_call tac
      | |- keeps _ (client_List _ _) => keeps_call tac
      | |- keeps _ (client_Create _) => keeps_call tac
      | |- keeps _ (client_Update _) => keeps_call tac
      | |- keeps _ (client_Delete _) => keeps_call tac
      | |- keeps _ (client_DeleteAllOf _ _) => keeps_call tac
      | |- keeps _ (client_Status_Update _) => keeps_call tac
      | |- keeps _ getDevbox => keeps_cell tac
      | |- keeps _ (setDevbox _) => keeps_cell tac
      | |- keeps _ (modifyDevbox _) => keeps_cell tac
      | |- keeps _ getPodList => keeps_cell tac
      | |- keeps _ (setPodList _) => keeps_cell tac
      | |- keeps _ (rand_String _) => keeps_cell tac
      | |- keeps _ time_Now => keeps_cell tac
      | |- keeps _ (Eventf _ _ _ _) => keeps_cell tac
      | |- keeps _ (match ?x with _ => _ end) => destruct x
      end
    | solve [auto with keeps] ].

Lemma defer_total {A} (d : M unit) (body : M A) w r w1 :
  total d -> body w = (r, w1) -> exists w2, defer d body w = (r, w2).
Proof.
  intros Hd Hb. destruct (Hd w1) as ([] & w2 & Hd2).
  exists w2. exact (defer_run _ _ _ _ _ _ Hb Hd2).
Qed.

Lemma keyOf_withFinalizers fs m : keyOf (withFinalizers fs m) = keyOf m.
Proof. reflexivity. Qed.

Lemma keyOf_withDeletionTimestamp t m :
  keyOf (withDeletionTimestamp t m) = keyOf m.
Proof. reflexivity. Qed.

Lemma DeletionTimestamp_withDeletionTimestamp t m :
  DeletionTimestamp (withDeletionTimestamp t m) = t.
Proof. reflexivity. Qed.

(* ===================================================================== *)
(** ** The pod sync (C10, C6, C1)                                         *)
(* ===================================================================== *)

Section PodSync.
Context `{Helper} `{Libraries}.

Lemma getRuntime_run w :
  getRuntime w =
  (Done match nextFault w with
        | Some f => Fail (fault_error f)
        | None =>
            match runtimes (cluster w) !! runtimeKey (devbox w) with
            | Some o => OK o
            | None => Fail (NewNotFound KRuntime (runtimeKey (devbox w)))
            end
        end,
   tick {| CallVerb := VGet; CallKind := KRuntime;
           CallKey := runtimeKey (devbox w) |} w).
Proof.
  unfold getRuntime. rewrite bind_run. cbv [getDevbox].
  rewrite client_Get_run. reflexivity.
Qed.

Lemma client_List_pods_run ns sel w :
  client_List (T:=Pod) ns sel w =
  (Done match nextFault w with
        | Some f => Fail (fault_error f)
        | None => OK (observedPods ns sel (cluster w))
        end,
   tick {| CallVerb := VList; CallKind := KPod; CallKey := (ns, "") |} w).
Proof. rewrite client_List_run. reflexivity. Qed.

Lemma total_generateNextCommitHistory r : total (generateNextCommitHistory r).
Proof. unfold generateNextCommitHistory, generateImageName. total_steps. Qed.

(** What [generateNextCommitHistory] leaves of the world: two clock
    readings and two draws are used up. *)
Lemma generateNextCommitHistory_run r w :
  exists c,
    generateNextCommitHistory r w
    = (Done c, setDraws (S (S (draws w))) (setReads (S (S (reads w))) w)).
Proof.
  unfold generateNextCommitHistory, generateImageName.
  eexists. repeat step. reflexivity.
Qed.

(** C10.  A lone observed pod without container statuses.  With the
    devbox Stopped and the pod live, [syncPod] removes the finalizer,
    deletes the pod and then indexes [ContainerStatuses[0]]: the pass
    panics on the index.  With the devbox Running the same pod is caught
    by the guard: the pass returns "pod container size is 0" and indexes
    nothing. *)
Theorem stopped_path_indexes_without_guard r recLabels w pod :
  observedPods (Namespace (DevboxMeta (devbox w))) recLabels (cluster w)
    = [pod] ->
  pods (cluster w) !! keyOf (PodMeta pod) = Some pod ->
  ContainerStatuses (PodStatusOf pod) = [] ->
  (State (Spec (devbox w)) = DevboxStateStopped ->
   DeletionTimestamp (PodMeta pod) = None ->
   quiet 3 w ->
   exists w', syncPod r recLabels w = (Panicked indexPanic, w'))
  /\ (State (Spec (devbox w)) = DevboxStateRunning ->
      is_Some (runtimes (cluster w) !! runtimeKey (devbox w)) ->
      quiet 2 w ->
      exists w',
        syncPod r recLabels w
        = (Done (Some (Errorf "pod container size is 0")), w')).
Proof.
  intros Hobs Hpod Hcs. split.
  - intros Hst Hlive Hq.
    pose proof (quiet_nth 3 w 0 Hq ltac:(lia)) as Hq0.
    pose proof (quiet_nth 3 w 1 Hq ltac:(lia)) as Hq1.
    pose proof (quiet_nth 3 w 2 Hq ltac:(lia)) as Hq2.
    cbn [Nat.iter nat_rect] in Hq0, Hq1, Hq2.
    unfold syncPod.
    step. step. rewrite bind_run, client_List_pods_run; wsimpl.
    rewrite Hq0, Hobs. step.
    rewrite bool_decide_eq_false_2 by (cbn; lia).
    eapply defer_total; [apply total_syncPod_deferred|].
    step. rewrite Hst. step. step.
    rewrite Hlive. cbn [IsZero negb].
    unfold deletePod, setPod. step. step.
    rewrite bind_run, client_Update_run; wsimpl; osimpl.
    rewrite Hq1, keyOf_withFinalizers, Hpod.
    rewrite DeletionTimestamp_withDeletionTimestamp, Hlive.
    step. step.
    rewrite bind_run, client_Delete_run; wsimpl; osimpl.
    rewrite keyOf_withDeletionTimestamp, keyOf_withFinalizers.
    rewrite Hq2. osimpl. rewrite lookup_insert_eq.
    wsimpl. rewrite Hcs.
    rewrite bind_run. cbn [index0 panic]. reflexivity.
  - intros Hst [rt Hrt] Hq.
    pose proof (quiet_nth 2 w 0 Hq ltac:(lia)) as Hq0.
    pose proof (quiet_nth 2 w 1 Hq ltac:(lia)) as Hq1.
    cbn [Nat.iter nat_rect] in Hq0, Hq1.
    unfold syncPod.
    step. step. rewrite bind_run, client_List_pods_run; wsimpl.
    rewrite Hq0, Hobs. step.
    rewrite bool_decide_eq_false_2 by (cbn; lia).
    eapply defer_total; [apply total_syncPod_deferred|].
    step. rewrite Hst.
    rewrite bind_run, getRuntime_run; wsimpl.
    rewrite Hq1, Hrt.
    match goal with
    | |- (generateNextCommitHistory r ≫= _) ?W = _ =>
        destruct (generateNextCommitHistory_run r W) as [c Hc];
        rewrite (bind_done _ _ _ _ _ Hc)
    end.
    rewrite Hcs. reflexivity.
Qed.
End PodSync.

Lemma attempts_done {A} n retriable (fn : M (result A)) w a w1 :
  fn w = (Done (OK a), w1) -> attempts n retriable fn w = (Done (OK a), w1).
Proof. intros Hfn. destruct n; cbn [attempts]; rewrite (bind_done _ _ _ _ _ Hfn); reflexivity. Qed.

Lemma attempts_fail {A} n retriable (fn : M (result A)) w e w1 :
  fn w = (Done (Fail e), w1) -> retriable e = false ->
  attempts n retriable fn w = (Done (Fail e), w1).
Proof.
  intros Hfn Hr.
  destruct n; cbn [attempts]; rewrite (bind_done _ _ _ _ _ Hfn), Hr; reflexivity.
Qed.

Lemma RetryOnConflict_done n (fn : M (option error)) w w1 :
  fn w = (Done None, w1) -> RetryOnConflict (S n) fn w = (Done None, w1).
Proof.
  intros Hfn. unfold RetryOnConflict, OnError.
  rewrite (bind_done _ _ w (OK ()) w1); [reflexivity|].
  apply attempts_done. rewrite (bind_done _ _ _ _ _ Hfn). reflexivity.
Qed.

Lemma RetryOnConflict_fail n (fn : M (option error)) w e w1 :
  fn w = (Done (Some e), w1) -> IsConflict e = false ->
  RetryOnConflict (S n) fn w = (Done (Some e), w1).
Proof.
  intros Hfn Hc. unfold RetryOnConflict, OnError.
  rewrite (bind_done _ _ w (Fail e) w1); [reflexivity|].
  apply attempts_fail; [|exact Hc].
  rewrite (bind_done _ _ _ _ _ Hfn). reflexivity.
Qed.

Section PodSync2.
Context `{Helper} `{Libraries}.

(** [syncPod] on more than one observed pod: the error, and a world that
    differs by the one [List] call and the list kept in [podList]. *)
Lemma syncPod_more_than_one_pod r recLabels w :
  nextFault w = None ->
  (1 < length (observedPods (Namespace (DevboxMeta (devbox w))) recLabels
                            (cluster w)))%nat ->
  syncPod r recLabels w
  = (Done (Some (Errorf "more than one pod found")),
     setPodListCell
       (observedPods (Namespace (DevboxMeta (devbox w))) recLabels (cluster w))
       (tick {| CallVerb := VList; CallKind := KPod;
                CallKey := (Namespace (DevboxMeta (devbox w)), "") |}
             (setPodListCell [] w))).
Proof.
  intros Hq Hmany. unfold syncPod.
  step. step. rewrite bind_run, client_List_pods_run; wsimpl.
  unfold nextFault in Hq. rewrite Hq. step.
  rewrite bool_decide_eq_true_2 by exact Hmany.
  reflexivity.
Qed.

(** C6.  When the pod sync of a pass observes more than one pod with the
    devbox's labels, the step returns the error "more than one pod found"
    and reports it in a warning event; it has asked the API server for the
    devbox and for the list of pods and nothing else, so no pod is created
    or deleted, and the store is as it was. *)
Theorem more_than_one_pod_is_reported r req recLabels w d :
  devboxes (cluster w) !! req = Some d ->
  (1 < length (observedPods (Namespace (DevboxMeta d)) recLabels (cluster w)))%nat ->
  quiet 2 w ->
  exists w',
    Reconcile_syncPod r req recLabels w
    = (Done (Some (Errorf "more than one pod found")), w')
    /\ cluster w' = cluster w
    /\ calls w'
       = (calls w ++
          [{| CallVerb := VGet; CallKind := KDevbox; CallKey := req |};
           {| CallVerb := VList; CallKind := KPod;
              CallKey := (Namespace (DevboxMeta d), "") |}])%list
    /\ events w'
       = (events w ++
          [{| EvObject := keyOf (DevboxMeta d); EvType := EventTypeWarning;
              EvReason := "Sync pod failed";
              EvMessage := "more than one pod found" |}])%list.
Proof.
  intros Hd Hmany Hq.
  pose proof (quiet_nth 2 w 0 Hq ltac:(lia)) as Hq0.
  pose proof (quiet_nth 2 w 1 Hq ltac:(lia)) as Hq1.
  cbn [Nat.iter nat_rect] in Hq0, Hq1.
  unfold Reconcile_syncPod, DefaultRetrySteps.
  eexists. split; [|split; [|split]].
  - erewrite bind_done.
    2:{ apply RetryOnConflict_fail;
          [rewrite bind_run, client_Get_run; wsimpl; osimpl;
           rewrite Hq0, Hd; step;
           apply syncPod_more_than_one_pod; [exact Hq1 | exact Hmany]
          |reflexivity]. }
    unfold Recorder_Eventf. step. step. reflexivity.
  - reflexivity.
  - cbn. rewrite <- app_assoc. reflexivity.
  - reflexivity.
Qed.
End PodSync2.

Ltac grows_tac :=
  first [ reflexivity
        | (eexists; cbn; reflexivity)
        | (exists []; cbn; rewrite app_nil_r; reflexivity) ].

Ltac stored_spec_tac :=
  first
    [ reflexivity
    | (unfold same; cbn;
       rewrite fmap_insert; apply insert_id; rewrite lookup_fmap;
       match goal with
       | Hl : _ !! _ = Some _ |- _ => cbn in Hl; rewrite Hl
       end; reflexivity) ].

Section QuotaExceeded.
Context `{Helper} `{Libraries}.

Lemma deferred_keeps_pods :
  keeps (same (fun w => pods (cluster w))) syncPod_deferred.
Proof.
  unfold syncPod_deferred, Recorder_Eventf. keeps_steps ltac:(reflexivity).
Qed.

(** The deferred status update changes nothing of the shared devbox but
    its phase. *)
Lemma deferred_keeps_devbox :
  keeps (same (fun w => (DevboxMeta (devbox w), Spec (devbox w),
                         CommitHistoryOf (Status (devbox w)))))
        syncPod_deferred.
Proof.
  unfold syncPod_deferred, Recorder_Eventf. keeps_steps ltac:(reflexivity).
Qed.

(** It writes the status of the stored devbox only. *)
Lemma deferred_keeps_stored_spec :
  keeps (same (fun w => Spec <$> devboxes (cluster w))) syncPod_deferred.
Proof.
  unfold syncPod_deferred, Recorder_Eventf. keeps_steps ltac:(stored_spec_tac).
Qed.

Lemma deferred_grows_events : keeps (grows events) syncPod_deferred.
Proof.
  unfold syncPod_deferred, Recorder_Eventf. keeps_steps ltac:(grows_tac).
Qed.

(** C1.  The pod sync of a pass for a Running devbox without pod, whose
    pod creation is refused with a quota-exceeded error: the step returns
    no error, the devbox it holds has [State = Stopped] and the commit
    history it had, the quota warning is among the events, no pod was
    stored, and when the update of the devbox is not refused either, the
    stored devbox is Stopped. *)
Theorem quota_exceeded_forces_stopped r req recLabels w d rt f rest :
  devboxes (cluster w) !! req = Some d ->
  keyOf (DevboxMeta d) = req ->
  DeletionTimestamp (DevboxMeta d) = None ->
  State (Spec d) = DevboxStateRunning ->
  observedPods (Namespace (DevboxMeta d)) recLabels (cluster w) = [] ->
  runtimes (cluster w) !! runtimeKey d = Some rt ->
  faults w = None :: None :: None :: Some f :: rest ->
  IsExceededQuotaError (fault_error f) = true ->
  exists w',
    Reconcile_syncPod r req recLabels w = (Done None, w')
    /\ State (Spec (devbox w')) = DevboxStateStopped
    /\ CommitHistoryOf (Status (devbox w')) = CommitHistoryOf (Status d)
    /\ In (quotaWarning req) (events w')
    /\ pods (cluster w') = pods (cluster w)
    /\ (headFault rest = None ->
        exists d', devboxes (cluster w') !! req = Some d'
                   /\ State (Spec d') = DevboxStateStopped).
Proof.
  intros Hd Hkey Hlive Hst Hobs Hrt Hfaults Hquota.
  unfold Reconcile_syncPod, DefaultRetrySteps.
  (* the body of [syncPod], up to the deferred call *)
  assert (Hclosure : exists w2,
    (client_Get (T:=Devbox) req ≫= fun got =>
       match got with
       | Fail err => ret (Some err)
       | OK d => setDevbox d;; syncPod r recLabels
       end) w = (Done None, w2)
    /\ State (Spec (devbox w2)) = DevboxStateStopped
    /\ CommitHistoryOf (Status (devbox w2)) = CommitHistoryOf (Status d)
    /\ In (quotaWarning req) (events w2)
    /\ pods (cluster w2) = pods (cluster w)
    /\ (headFault rest = None ->
        exists d', devboxes (cluster w2) !! req = Some d'
                   /\ State (Spec d') = DevboxStateStopped)).
  { rewrite bind_run, client_Get_run; wsimpl; osimpl.
    rewrite Hfaults; cbn [headFault tail]. rewrite Hd. step.
    unfold syncPod. step. step.
    rewrite bind_run, client_List_pods_run; wsimpl.
    rewrite Hfaults; cbn [headFault tail]. rewrite Hobs. step.
    rewrite bool_decide_eq_false_2 by (cbn; lia).
    match goal with
    | |- exists w2, defer _ ?body ?W = _ /\ _ =>
        assert (Hbody : exists w1,
          body W = (Done None, w1)
          /\ State (Spec (devbox w1)) = DevboxStateStopped
          /\ CommitHistoryOf (Status (devbox w1)) = CommitHistoryOf (Status d)
          /\ In (quotaWarning req) (events w1)
          /\ pods (cluster w1) = pods (cluster w)
          /\ (headFault rest = None ->
              exists d', devboxes (cluster w1) !! req = Some d'
                         /\ State (Spec d') = DevboxStateStopped))
    end.
    { step. rewrite Hst.
      rewrite bind_run, getRuntime_run; wsimpl.
      rewrite Hfaults; cbn [headFault tail]. rewrite Hrt.
      match goal with
      | |- exists w1, (generateNextCommitHistory r ≫= _) ?W = _ /\ _ =>
          destruct (generateNextCommitHistory_run r W) as [c Hc];
          rewrite (bind_done _ _ _ _ _ Hc)
      end.
      unfold createPod. rewrite bind_run.
      rewrite bind_run, client_Create_run; wsimpl.
      rewrite Hfaults; cbn [headFault tail]. wsimpl.
      rewrite Hquota.
      unfold Recorder_Eventf. step. step. step.
      unfold Update_devbox. rewrite bind_run. step.
      rewrite bind_run, client_Update_run; wsimpl; osimpl.
      rewrite Hfaults; cbn [headFault tail].
      change (keyOf (DevboxMeta (withSpecState DevboxStateStopped d)))
        with (keyOf (DevboxMeta d)).
      rewrite Hkey.
      destruct (headFault rest) as [f'|] eqn:Hrest.
      - wsimpl. eexists. split; [reflexivity|]. wsimpl.
        split; [reflexivity|]. split; [reflexivity|].
        split; [|split; [reflexivity | discriminate]].
        apply in_or_app. right. left.
        unfold quotaWarning. rewrite <- Hkey. reflexivity.
      - rewrite Hd. cbn [withStatus withSpecState DevboxMeta].
        rewrite DeletionTimestamp_withDeletionTimestamp, Hlive.
        step. eexists. split; [reflexivity|]. wsimpl.
        split; [reflexivity|]. split; [reflexivity|].
        split; [|split; [reflexivity|]].
        + apply in_or_app. right. left.
          unfold quotaWarning. rewrite <- Hkey. reflexivity.
        + intros _. osimpl. rewrite lookup_insert_eq.
          eexists. split; reflexivity. }
    destruct Hbody as (w1 & Hbody & Hs1 & Hc1 & He1 & Hp1 & Hd1).
    destruct (syncPod_deferred_done w1) as [w2 Hdef].
    exists w2. split; [exact (defer_run _ _ _ _ _ _ Hbody Hdef)|].
    pose proof (deferred_keeps_pods w1) as Kp.
    pose proof (deferred_keeps_devbox w1) as Kd.
    pose proof (deferred_keeps_stored_spec w1) as Ks.
    pose proof (deferred_grows_events w1) as [l Ke].
    rewrite Hdef in Kp, Kd, Ks, Ke. unfold same in *. cbn [snd] in *.
    injection Kd as Kmeta Kspec Khist.
    split; [rewrite Kspec; exact Hs1|].
    split; [rewrite Khist; exact Hc1|].
    split; [rewrite Ke; apply in_or_app; left; exact He1|].
    split; [rewrite Kp; exact Hp1|].
    + intros Hrest. destruct (Hd1 Hrest) as (d1 & Hl1 & Hst1).
      assert (Hl : Spec <$> (devboxes (cluster w2) !! req) = Some (Spec d1))
        by (rewrite <- lookup_fmap, Ks, lookup_fmap, Hl1; reflexivity).
      destruct (devboxes (cluster w2) !! req) as [d2|]; [|discriminate Hl].
      injection Hl as Hl. exists d2. rewrite Hl. split; [reflexivity|exact Hst1]. }
  destruct Hclosure as (w2 & Hclosure & Hs2 & Hc2 & He2 & Hp2 & Hd2).
  rewrite (bind_done _ _ _ _ _ (RetryOnConflict_done _ _ _ _ Hclosure)).
  unfold Recorder_Eventf. step. step.
  eexists. split; [reflexivity|]. wsimpl.
  split; [exact Hs2|]. split; [exact Hc2|].
  split; [apply in_or_app; left; exact He2|].
  split; [exact Hp2 | exact Hd2].
Qed.
End QuotaExceeded.

(* ===================================================================== *)
(** ** Passes on the concrete instance (C3)                               *)
(* ===================================================================== *)

(** C3.  Idempotence fails in WebSocket mode.  On the sample devbox the
    second and the third pass both succeed with nothing happening between
    them; the ingress keeps the host of the first pass, but each pass draws a
    new host and writes it to the devbox status, so the pass writes a
    status that differs from the one before and names a host no ingress
    serves. *)
Theorem websocket_pass_rewrites_status_host :
  (Sample.pass Sample.ws1).1 = Done None
  /\ (Sample.pass Sample.ws2).1 = Done None
  /\ Sample.ingressHosts Sample.ws2 = Some ["r3.ws.example"]
  /\ Sample.ingressHosts Sample.ws3 = Some ["r3.ws.example"]
  /\ Sample.statusHost Sample.ws2 = Some "r6.ws.example"
  /\ Sample.statusHost Sample.ws3 = Some "r9.ws.example"
  /\ devboxes (cluster Sample.ws3) <> devboxes (cluster Sample.ws2).
Proof.
  assert (H2 : Sample.statusHost Sample.ws2 = Some "r6.ws.example")
    by (vm_compute; reflexivity).
  assert (H3 : Sample.statusHost Sample.ws3 = Some "r9.ws.example")
    by (vm_compute; reflexivity).
  repeat split; try (vm_compute; reflexivity).
  intros Heq. unfold Sample.statusHost in H2, H3.
  rewrite Heq, H2 in H3. discriminate H3.
Qed.


Lemma withDeletionTimestamp_same m :
  withDeletionTimestamp (DeletionTimestamp m) m = m.
Proof. destruct m; reflexivity. Qed.

Section Credentials.
Context `{Helper} `{Libraries}.

Lemma hasData_lookup s m k :
  Data s = Some m -> hasData s k = bool_decide (is_Some (m !! k)).
Proof. unfold hasData. intros ->. reflexivity. Qed.

Lemma decodeSecret_some s m :
  Data s = Some m -> m <> ∅ -> decodeSecret s = s.
Proof.
  unfold decodeSecret. intros -> Hne.
  destruct (decide (m = ∅)); [contradiction | reflexivity].
Qed.

Lemma decodeSecret_nil s : Data s = None -> decodeSecret s = s.
Proof. unfold decodeSecret. intros ->. reflexivity. Qed.

Lemma backfill_keeps_present token m k v :
  m !! k = Some v -> backfill token m !! k = Some v.
Proof.
  intros Hk. unfold backfill.
  assert (H1 : (match m !! "SEALOS_DEVBOX_JWT_SECRET" with
                | Some _ => m
                | None => <["SEALOS_DEVBOX_JWT_SECRET" := token]> m
                end) !! k = Some v).
  { destruct (m !! "SEALOS_DEVBOX_JWT_SECRET") eqn:Hj; [exact Hk|].
    rewrite lookup_insert_ne; [exact Hk|]. intros <-. congruence. }
  revert H1. generalize (match m !! "SEALOS_DEVBOX_JWT_SECRET" with
                | Some _ => m
                | None => <["SEALOS_DEVBOX_JWT_SECRET" := token]> m
                end) as m1. intros m1 H1.
  destruct (m1 !! "SEALOS_DEVBOX_AUTHORIZED_KEYS") eqn:Ha; [exact H1|].
  rewrite lookup_insert_ne; [exact H1|]. intros <-. congruence.
Qed.

Lemma backfill_keeps_others token m k :
  k <> "SEALOS_DEVBOX_JWT_SECRET" -> k <> "SEALOS_DEVBOX_AUTHORIZED_KEYS" ->
  backfill token m !! k = m !! k.
Proof.
  intros Hj Ha. unfold backfill.
  destruct (m !! "SEALOS_DEVBOX_JWT_SECRET");
    match goal with
    | |- context [match ?m1 !! "SEALOS_DEVBOX_AUTHORIZED_KEYS" with _ => _ end] =>
        destruct (m1 !! "SEALOS_DEVBOX_AUTHORIZED_KEYS")
    end;
    rewrite ?lookup_insert_ne by congruence; reflexivity.
Qed.

Lemma backfill_fills token m :
  is_Some (backfill token m !! "SEALOS_DEVBOX_JWT_SECRET")
  /\ is_Some (backfill token m !! "SEALOS_DEVBOX_AUTHORIZED_KEYS").
Proof.
  unfold backfill.
  destruct (m !! "SEALOS_DEVBOX_JWT_SECRET") eqn:Hj;
    match goal with
    | |- context [match ?m1 !! "SEALOS_DEVBOX_AUTHORIZED_KEYS" with _ => _ end] =>
        destruct (m1 !! "SEALOS_DEVBOX_AUTHORIZED_KEYS") eqn:Ha
    end; split;
    rewrite ?lookup_insert_eq, ?Ha, ?Hj;
    try (rewrite lookup_insert_ne by discriminate);
    rewrite ?lookup_insert_eq, ?Ha, ?Hj; eauto.
Qed.

(** The credential sync on an existing secret whose [Data] map is not nil:
    it never panics, and when it returns no error the stored secret has the
    labels, owners and finalizers it had and the data [backfill] gives. *)
Lemma syncSecret_backfills recLabels w s m :
  let key := (Namespace (DevboxMeta (devbox w)), Name (DevboxMeta (devbox w))) in
  secrets (cluster w) !! key = Some s ->
  keyOf (SecretMeta s) = key ->
  DeletionTimestamp (SecretMeta s) = None ->
  Data s = Some m ->
  m <> ∅ ->
  exists res w',
    syncSecret recLabels w = (Done res, w')
    /\ (quiet 3 w -> res = None)
    /\ (res = None ->
        secrets (cluster w') !! key
        = Some {| SecretMeta := SecretMeta s;
                  Data := Some (backfill (entropy w (draws w)) m) |}).
Proof.
  intros key Hs Hkey Hlive Hm Hne. subst key.
  assert (Hq0 : quiet 3 w -> headFault (faults w) = None)
    by (intros Hq; exact (quiet_nth 3 w 0 Hq ltac:(lia))).
  assert (Hq1 : quiet 3 w -> headFault (tail (faults w)) = None)
    by (intros Hq; exact (quiet_nth 3 w 1 Hq ltac:(lia))).
  assert (Hq2 : quiet 3 w -> headFault (tail (tail (faults w))) = None)
    by (intros Hq; exact (quiet_nth 3 w 2 Hq ltac:(lia))).
  unfold syncSecret.
  step. rewrite bind_run, client_Get_run; wsimpl; osimpl.
  destruct (headFault (faults w)) as [f0|] eqn:Hf0.
  { cbn [IgnoreNotFound]. rewrite fault_not_NotFound.
    eexists _, _. split; [reflexivity|].
    split; [intros Hq; specialize (Hq0 Hq); congruence | discriminate]. }
  rewrite Hs. step. rewrite (decodeSecret_some s m Hm Hne).
  rewrite bind_run.
  rewrite (hasData_lookup _ _ _ Hm).
  unfold backfill.
  destruct (m !! "SEALOS_DEVBOX_JWT_SECRET") as [jwt|] eqn:Hjwt.
  - rewrite bool_decide_eq_true_2 by eauto. cbn [negb]. wsimpl.
    rewrite (hasData_lookup _ _ _ Hm).
    destruct (m !! "SEALOS_DEVBOX_AUTHORIZED_KEYS") as [auth|] eqn:Hauth.
    + rewrite bool_decide_eq_true_2 by eauto. cbn [negb]. wsimpl.
      eexists _, _. split; [reflexivity|]. split; [reflexivity|]. intros _.
      wsimpl; osimpl. rewrite Hs. destruct s; cbn in *; subst; reflexivity.
    + rewrite bool_decide_eq_false_2 by (intros [? ?]; discriminate).
      cbn [negb]. unfold setData. rewrite Hm. step.
      rewrite bind_run, client_Update_run; wsimpl; osimpl.
      cbn [SecretMeta]. rewrite Hkey.
      destruct (headFault (tail (faults w))) as [f1|] eqn:Hf1.
      { eexists _, _. split; [reflexivity|].
        split; [intros Hq; specialize (Hq1 Hq); congruence | discriminate]. }
      rewrite Hs, withDeletionTimestamp_same, Hlive.
      wsimpl. eexists _, _. split; [reflexivity|].
      split; [reflexivity|]. intros _.
      wsimpl; osimpl. rewrite lookup_insert_eq. unfold getData. rewrite Hm.
      reflexivity.
  - rewrite bool_decide_eq_false_2 by (intros [? ?]; discriminate).
    cbn [negb]. step. unfold setData at 1. rewrite Hm. step.
    rewrite bind_run, client_Update_run; wsimpl; osimpl.
    cbn [SecretMeta]. rewrite Hkey.
    destruct (headFault (tail (faults w))) as [f1|] eqn:Hf1.
    { wsimpl. eexists _, _. split; [reflexivity|].
      split; [intros Hq; specialize (Hq1 Hq); congruence | discriminate]. }
    rewrite Hs, withDeletionTimestamp_same, Hlive.
    wsimpl. unfold hasData. cbn [Data].
    destruct (<["SEALOS_DEVBOX_JWT_SECRET":=entropy w (draws w)]> m
              !! "SEALOS_DEVBOX_AUTHORIZED_KEYS") as [auth|] eqn:Hauth.
    + rewrite bool_decide_eq_true_2 by eauto. cbn [negb]. wsimpl.
      eexists _, _. split; [reflexivity|]. split; [reflexivity|]. intros _.
      wsimpl; osimpl. rewrite lookup_insert_eq. reflexivity.
    + rewrite bool_decide_eq_false_2 by (intros [? ?]; discriminate).
      cbn [negb]. unfold setData. cbn [Data]. step.
      rewrite bind_run, client_Update_run; wsimpl; osimpl.
      cbn [SecretMeta]. rewrite Hkey.
      destruct (headFault (tail (tail (faults w)))) as [f2|] eqn:Hf2.
      { eexists _, _. split; [reflexivity|].
        split; [intros Hq; specialize (Hq2 Hq); congruence | discriminate]. }
      rewrite lookup_insert_eq. cbn [SecretMeta].
      rewrite withDeletionTimestamp_same, Hlive.
      wsimpl. eexists _, _. split; [reflexivity|].
      split; [reflexivity|]. intros _.
      wsimpl; osimpl. rewrite lookup_insert_eq. unfold getData. cbn [Data].
      reflexivity.
Qed.

(** The frame of the backfill on an existing secret, in full: what was there stays,
    what is neither of the two fields is untouched, and both fields are
    there afterwards. *)
Lemma backfill_frame token m :
  (forall k v, m !! k = Some v -> backfill token m !! k = Some v)
  /\ (forall k, k <> "SEALOS_DEVBOX_JWT_SECRET" ->
                k <> "SEALOS_DEVBOX_AUTHORIZED_KEYS" ->
                backfill token m !! k = m !! k)
  /\ is_Some (backfill token m !! "SEALOS_DEVBOX_JWT_SECRET")
  /\ is_Some (backfill token m !! "SEALOS_DEVBOX_AUTHORIZED_KEYS").
Proof.
  split; [apply backfill_keeps_present|].
  split; [apply backfill_keeps_others|].
  apply backfill_fills.
Qed.

(** When no secret is stored, the credential sync creates one under the
    devbox's name, with the recommended labels, owned by the devbox, holding
    the generated key pair (the public key also as authorized keys) and a
    drawn token. *)
Lemma syncSecret_creates recLabels w publicKey privateKey :
  let d := devbox w in
  let key := (Namespace (DevboxMeta d), Name (DevboxMeta d)) in
  secrets (cluster w) !! key = None ->
  GenerateSSHKeyPair (entropy w (draws w)) = OK (publicKey, privateKey) ->
  quiet 2 w ->
  exists w',
    syncSecret recLabels w = (Done None, w')
    /\ secrets (cluster w') !! key
       = Some {| SecretMeta :=
                   withOwnerReferences
                     [{| OwnerKind := "Devbox"; OwnerName := Name (DevboxMeta d);
                         Controller := true |}]
                     (namedMeta (Name (DevboxMeta d)) (Namespace (DevboxMeta d))
                                recLabels);
                 Data :=
                   Some (<["SEALOS_DEVBOX_JWT_SECRET" := entropy w (S (draws w))]>
                        (<["SEALOS_DEVBOX_PUBLIC_KEY" := publicKey]>
                        (<["SEALOS_DEVBOX_PRIVATE_KEY" := privateKey]>
                        (<["SEALOS_DEVBOX_AUTHORIZED_KEYS" := publicKey]> ∅)))) |}.
Proof.
  intros d key Hnone Hgen Hq. subst d key.
  pose proof (quiet_nth 2 w 0 Hq ltac:(lia)) as Hq0.
  pose proof (quiet_nth 2 w 1 Hq ltac:(lia)) as Hq1.
  cbn [Nat.iter nat_rect] in Hq0, Hq1.
  unfold syncSecret.
  step. rewrite bind_run, client_Get_run; wsimpl; osimpl.
  rewrite Hq0, Hnone.
  assert (Hnf : forall k key, IgnoreNotFound (Some (NewNotFound k key)) = None)
    by reflexivity.
  rewrite Hnf.
  step. rewrite Hgen. step.
  unfold SetControllerReference. osimpl. cbn [SecretMeta namedMeta Namespace].
  assert (Hns : forall ns : string,
             bool_decide (ns <> "") && bool_decide (ns = "") = false)
    by (intros ns; destruct (decide (ns = "")) as [->|Hne];
        [reflexivity
        |rewrite (bool_decide_eq_false_2 _ Hne), andb_false_r; reflexivity]).
  rewrite Hns.
  rewrite (bool_decide_eq_false_2 (Namespace (DevboxMeta (devbox w))
                                   <> Namespace (DevboxMeta (devbox w))))
    by congruence.
  rewrite andb_false_r.
  assert (Hown : forall n ns l, OwnerReferences (namedMeta n ns l) = [])
    by reflexivity.
  rewrite !Hown. cbn [List.find upsertOwnerRef Data].
  rewrite bind_run, client_Create_run; wsimpl; osimpl.
  cbn [SecretMeta].
  assert (Hk : forall os n ns l,
             keyOf (withOwnerReferences os (namedMeta n ns l)) = (ns, n))
    by reflexivity.
  rewrite !Hk.
  rewrite Hq1, Hnone. wsimpl.
  eexists. split; [reflexivity|].
  wsimpl; osimpl. rewrite lookup_insert_eq. reflexivity.
Qed.

(** C5.  A stored secret whose [Data] map is nil (a secret without data)
    and that the [Get] returns: the first backfill assigns to an entry of
    the nil map, and the credential sync panics instead of filling the two
    fields in. *)
Theorem syncSecret_nil_data_panics recLabels w s :
  secrets (cluster w)
    !! (Namespace (DevboxMeta (devbox w)), Name (DevboxMeta (devbox w)))
    = Some s ->
  Data s = None ->
  nextFault w = None ->
  exists w', syncSecret recLabels w = (Panicked nilMapPanic, w').
Proof.
  intros Hs Hnil Hq. unfold nextFault in Hq. unfold syncSecret.
  step. rewrite bind_run, client_Get_run; wsimpl; osimpl.
  rewrite Hq, Hs. step. rewrite (decodeSecret_nil s Hnil).
  unfold hasData. rewrite Hnil. cbn [negb].
  rewrite bind_run. step. unfold setData. rewrite Hnil.
  rewrite bind_run. cbn [panic]. eexists. reflexivity.
Qed.
End Credentials.

(* ===================================================================== *)
(** ** The NodePort network sync (C7)                                     *)
(* ===================================================================== *)

Lemma allocateNodePorts_fields ports pool :
  map portFields (allocateNodePorts ports pool).1 = map portFields ports.
Proof.
  revert pool. induction ports as [|p ports IH]; intros pool; [reflexivity|].
  cbn [allocateNodePorts].
  destruct (bool_decide (SPNodePort p = 0)).
  - destruct pool as [|n pool].
    + specialize (IH []). destruct (allocateNodePorts ports []) as [rest' pool'].
      cbn in *. rewrite IH. reflexivity.
    + specialize (IH pool).
      destruct (allocateNodePorts ports pool) as [rest' pool'].
      cbn in *. rewrite IH. reflexivity.
  - specialize (IH pool).
    destruct (allocateNodePorts ports pool) as [rest' pool'].
    cbn in *. rewrite IH. reflexivity.
Qed.

(** What the server's defaulting leaves of a service: everything but the
    node ports. *)
Lemma allocateService_keeps s pool :
  let s' := (allocateService s pool).1 in
  ServiceMeta s' = ServiceMeta s
  /\ Selector (ServiceSpecOf s') = Selector (ServiceSpecOf s)
  /\ SType (ServiceSpecOf s') = SType (ServiceSpecOf s)
  /\ map portFields (SPorts (ServiceSpecOf s'))
     = map portFields (SPorts (ServiceSpecOf s)).
Proof.
  unfold allocateService. destruct (SType (ServiceSpecOf s)) eqn:Ht; cbn.
  - rewrite Ht. auto.
  - pose proof (allocateNodePorts_fields (SPorts (ServiceSpecOf s)) pool) as Hf.
    destruct (allocateNodePorts _ _) as [ports pool']. cbn in *. auto.
Qed.

Section ClientInversion.
Context {T : Type} `{Object T}.

(** A retried [Get] that returns an object found it in the store, and left
    the store as it was. *)
Lemma attempts_Get_ok n retriable key w (o : T) w' :
  attempts n retriable (client_Get key) w = (Done (OK o), w') ->
  table (cluster w') !! key = Some o /\ cluster w' = cluster w.
Proof.
  revert w. induction n as [|n IH]; intros w; cbn [attempts];
    rewrite bind_run, client_Get_run;
    destruct (nextFault w) as [f|].
  - destruct (retriable _); intros Hr; discriminate Hr.
  - destruct (table (cluster w) !! key) as [o'|] eqn:Hl.
    + intros Hr. injection Hr as <- <-. split; [exact Hl | reflexivity].
    + destruct (retriable _); intros Hr; discriminate Hr.
  - destruct (retriable _); [|intros Hr; discriminate Hr].
    intros Hr. apply IH in Hr. exact Hr.
  - destruct (table (cluster w) !! key) as [o'|] eqn:Hl.
    + intros Hr. injection Hr as <- <-. split; [exact Hl | reflexivity].
    + destruct (retriable _); [|intros Hr; discriminate Hr].
      intros Hr. apply IH in Hr. exact Hr.
Qed.

(** A successful [CreateOrUpdate]: the object the mutate function made of
    what [Get] found (the caller's object when nothing is stored) keeps its
    key, and the store either has it created, or is unchanged because the
    mutate function changed nothing, or has it updated, or has lost it with
    its last finalizer. *)
Lemma CreateOrUpdate_ok (obj : T) f w o w' :
  CreateOrUpdate obj f w = (Done (OK o), w') ->
  let key := keyOf (objectMeta obj) in
  exists o1,
    f (default obj (table (cluster w) !! key)) = Done (OK o1)
    /\ keyOf (objectMeta o1) = key
    /\ ((table (cluster w) !! key = None
         /\ table (cluster w')
            = <[key := (allocate o1 (nodePortPool w)).1]> (table (cluster w)))
        \/ (table (cluster w) !! key = Some o1
            /\ table (cluster w') = table (cluster w))
        \/ (exists old,
              table (cluster w) !! key = Some old
              /\ let x := (allocate
                             (setObjectMeta
                                (withDeletionTimestamp
                                   (DeletionTimestamp (objectMeta old))
                                   (objectMeta (prepareForUpdate old o1)))
                                (prepareForUpdate old o1))
                             (nodePortPool w)).1 in
                 (table (cluster w') = <[key := x]> (table (cluster w))
                  \/ (DeletionTimestamp (objectMeta x) <> None
                      /\ Finalizers (objectMeta x) = []
                      /\ table (cluster w') = delete key (table (cluster w)))))).
Proof.
  intros Hrun key. subst key. revert Hrun.
  unfold CreateOrUpdate. rewrite bind_run, client_Get_run.
  destruct (nextFault w) as [f0|] eqn:Hf0.
  { rewrite fault_not_NotFound. cbn. intros Hr; discriminate Hr. }
  destruct (table (cluster w) !! keyOf (objectMeta obj)) as [existing|] eqn:Hl.
  - (* something is stored *)
    rewrite bind_run. unfold mutate at 1.
    destruct (f existing) as [[o1|e]|msg] eqn:Hf;
      try (intros Hr; discriminate Hr).
    destruct (bool_decide (keyOf (objectMeta o1) = keyOf (objectMeta obj)))
      eqn:Hk; [|intros Hr; discriminate Hr].
    apply bool_decide_eq_true_1 in Hk.
    destruct (bool_decide (existing = o1)) eqn:Heq.
    + apply bool_decide_eq_true_1 in Heq. subst o1.
      intros Hr. injection Hr as <- <-.
      exists existing. split; [exact Hf|]. split; [exact Hk|].
      right. left. split; reflexivity.
    + rewrite client_Update_run. cbv zeta.
      wsimpl. rewrite Hk.
      destruct (headFault (tail (faults w))); [intros Hr; discriminate Hr|].
      rewrite Hl.
      destruct (allocate _ _) as [x pool] eqn:Ha.
      intros Hr. injection Hr as <- <-.
      exists o1. split; [exact Hf|]. split; [exact Hk|].
      right. right. exists existing. split; [reflexivity|].
      rewrite Ha. cbn [fst].
      destruct (DeletionTimestamp (objectMeta x)) eqn:Hdt;
        [destruct (Finalizers (objectMeta x)) eqn:Hfin|].
      * right. split; [discriminate|]. split; [reflexivity|].
        wsimpl. apply table_setTable.
      * left. wsimpl. apply table_setTable.
      * left. wsimpl. apply table_setTable.
  - (* nothing is stored *)
    change (IsNotFound (NewNotFound kind (keyOf (objectMeta obj)))) with true.
    cbn [negb].
    rewrite bind_run. unfold mutate at 1.
    destruct (f obj) as [[o1|e]|msg] eqn:Hf; try (intros Hr; discriminate Hr).
    destruct (bool_decide (keyOf (objectMeta o1) = keyOf (objectMeta obj)))
      eqn:Hk; [|intros Hr; discriminate Hr].
    apply bool_decide_eq_true_1 in Hk.
    rewrite client_Create_run. cbv zeta. wsimpl. rewrite Hk.
    destruct (headFault (tail (faults w))); [intros Hr; discriminate Hr|].
    rewrite Hl.
    destruct (allocate o1 (nodePortPool w)) as [x pool] eqn:Ha.
    intros Hr. injection Hr as <- <-.
    exists o1. split; [exact Hf|]. split; [exact Hk|].
    left. split; [reflexivity|]. rewrite Ha. wsimpl. apply table_setTable.
Qed.
End ClientInversion.

Section NodePort.
Context `{Helper} `{Libraries}.

Lemma getServicePort_run w :
  getServicePort w =
  (Done match nextFault w with
        | Some f => Fail (fault_error f)
        | None =>
            match runtimes (cluster w) !! runtimeKey (devbox w) with
            | Some rt => OK (runtimeServicePorts rt)
            | None => Fail (NewNotFound KRuntime (runtimeKey (devbox w)))
            end
        end,
   tick {| CallVerb := VGet; CallKind := KRuntime;
           CallKey := runtimeKey (devbox w) |} w).
Proof.
  unfold getServicePort. rewrite bind_run, getRuntime_run.
  destruct (nextFault w); [reflexivity|].
  destruct (runtimes (cluster w) !! runtimeKey (devbox w)) as [rt|];
    [|reflexivity].
  unfold runtimeServicePorts.
  destruct (RtPorts (Config rt)); reflexivity.
Qed.

(** What the mutate closure makes of a service: selector and type as
    expected, the merged ports, and metadata that differs by the owner
    reference only. *)
Lemma updateServiceFields_ok d expect svc o1 :
  updateServiceFields d expect svc = Done (OK o1) ->
  Selector (ServiceSpecOf o1) = Selector expect
  /\ SType (ServiceSpecOf o1) = SType expect
  /\ SPorts (ServiceSpecOf o1) = mergedPorts (Some svc) (SPorts expect).
Proof.
  unfold updateServiceFields, mergedPorts.
  destruct (SPorts (ServiceSpecOf svc)) as [|p rest];
    [|destruct (SPorts expect) as [|e ports]; [discriminate|]];
    unfold SetControllerReference; osimpl;
    repeat case_match; intros Hr; try discriminate Hr;
    injection Hr as <-; cbn; auto.
Qed.

Lemma keeps_devbox_CreateOrUpdate {T} `{Object T} (obj : T) f :
  keeps (same devbox) (CreateOrUpdate obj f).
Proof. unfold CreateOrUpdate. keeps_steps ltac:(reflexivity). Qed.

Lemma keeps_devbox_attempts_Get {T} `{Object T} n retriable key :
  keeps (same devbox) (attempts n retriable (client_Get (T:=T) key)).
Proof. apply keeps_attempts; [typeclasses eauto..|]. keeps_steps ltac:(reflexivity). Qed.

Lemma total_mutate {T} `{Object T} (f : T -> outcome (result T)) key obj :
  (exists res, f obj = Done res) -> total (mutate f key obj).
Proof.
  intros [res Hf] w. unfold mutate. rewrite Hf.
  destruct res as [o|e]; [destruct (bool_decide _)|]; eexists _, _; reflexivity.
Qed.

Lemma total_CreateOrUpdate {T} `{Object T} (obj : T) f :
  (forall o, exists res, f o = Done res) -> total (CreateOrUpdate obj f).
Proof.
  intros Hf. unfold CreateOrUpdate.
  apply total_bind; [apply total_client_Get|]. intros [existing|err].
  - apply total_bind; [apply total_mutate, Hf|]. intros [o|e]; total_steps.
  - destruct (negb _); [apply total_ret|].
    apply total_bind; [apply total_mutate, Hf|]. intros [o|e]; total_steps.
Qed.

Lemma updateServiceFields_done d expect svc :
  SPorts expect <> [] -> exists res, updateServiceFields d expect svc = Done res.
Proof.
  intros Hne. unfold updateServiceFields.
  destruct (SPorts (ServiceSpecOf svc)); [eauto|].
  destruct (SPorts expect); [congruence | eauto].
Qed.

Lemma runtimeServicePorts_nonempty rt : runtimeServicePorts rt <> [].
Proof.
  unfold runtimeServicePorts. destruct (RtPorts (Config rt)); discriminate.
Qed.

(** The NodePort sync never panics on ports [getServicePort] derived. *)
Lemma total_syncNodePortNetwork recLabels servicePorts :
  servicePorts <> [] -> total (syncNodePortNetwork recLabels servicePorts).
Proof.
  intros Hne. unfold syncNodePortNetwork.
  apply total_bind; [apply total_getDevbox|]. intros d.
  apply total_bind.
  { apply total_CreateOrUpdate. intros o.
    apply updateServiceFields_done. exact Hne. }
  intros [o|e]; [|apply total_ret].
  apply total_bind.
  { unfold OnError, DefaultRetrySteps. apply total_attempts.
    apply total_client_Get. }
  intros [u|e]; [|apply total_ret].
  destruct (bool_decide _); [apply total_ret|].
  unfold Status_Update_devbox. total_steps.
Qed.

Lemma nodeport_network_sync_ok r recLabels w w' :
  NetworkSpecType (Spec (devbox w)) = NetworkTypeNodePort ->
  syncNetwork r recLabels w = (Done None, w') ->
  let d := devbox w in
  let key := (Namespace (DevboxMeta d), Name (DevboxMeta d) +:+ "-svc") in
  exists rt svc,
    runtimes (cluster w) !! runtimeKey d = Some rt
    /\ services (cluster w') !! key = Some svc
    /\ SType (ServiceSpecOf svc) = ServiceTypeNodePort
    /\ Selector (ServiceSpecOf svc) = recLabels
    /\ map portFields (SPorts (ServiceSpecOf svc))
       = map portFields (mergedPorts (services (cluster w) !! key)
                                     (runtimeServicePorts rt))
    /\ firstNodePort (SPorts (ServiceSpecOf svc)) <> 0
    /\ devboxes (cluster w') !! keyOf (DevboxMeta d) = Some (devbox w')
    /\ NType (Network (Status (devbox w'))) = NetworkTypeNodePort
    /\ NodePort (Network (Status (devbox w')))
       = firstNodePort (SPorts (ServiceSpecOf svc)).
Proof.
  intros Hmode Hrun d key. subst d key.
  unfold syncNetwork in Hrun.
  rewrite bind_run, getServicePort_run in Hrun.
  destruct (nextFault w) as [f|]; [discriminate Hrun|].
  destruct (runtimes (cluster w) !! runtimeKey (devbox w)) as [rt|] eqn:Hrt;
    [|discriminate Hrun].
  exists rt.
  step_in Hrun. rewrite Hmode in Hrun.
  unfold syncNodePortNetwork in Hrun.
  step_in Hrun.
  match type of Hrun with
  | (CreateOrUpdate ?svc ?f ≫= _) ?W = _ =>
      set (service := svc) in *; set (w0 := W) in *;
      pose proof (keeps_devbox_CreateOrUpdate service f w0) as Kd1
  end.
  apply bind_inv in Hrun as (res & w1 & Hcou & Hrun).
  rewrite Hcou in Kd1. unfold same in Kd1. cbn [snd] in Kd1.
  destruct res as [o|e]; [|discriminate Hrun].
  apply CreateOrUpdate_ok in Hcou as (o1 & Hmut & Hkey & Hstore).
  apply bind_inv in Hrun as (got & w2 & Hget & Hrun).
  unfold OnError, DefaultRetrySteps in Hget.
  pose proof (keeps_devbox_attempts_Get (T:=Service) 4
                (fun err => bool_decide (IgnoreNotFound (Some err) = None))
                (keyOf (ServiceMeta service)) w1) as Kd2.
  rewrite Hget in Kd2. unfold same in Kd2. cbn [snd] in Kd2.
  destruct got as [updatedService|e]; [|discriminate Hrun].
  apply attempts_Get_ok in Hget as [Hl2 Hc2].
  destruct (bool_decide (firstNodePort (SPorts (ServiceSpecOf updatedService)) = 0))
    eqn:Hnp; [discriminate Hrun|].
  apply bool_decide_eq_false_1 in Hnp.
  step_in Hrun.
  step_in Hrun.
  unfold Status_Update_devbox in Hrun.
  step_in Hrun.
  rewrite bind_run, client_Status_Update_run in Hrun. wsimpl_in Hrun.
  destruct (headFault (faults w2)); [discriminate Hrun|].
  rewrite Kd2, Kd1 in Hrun. change (devbox w0) with (devbox w) in Hrun.
  cbn [withNodePort withNetworkType withNetwork withStatus DevboxMeta] in Hrun.
  destruct (devboxes (cluster w2) !! keyOf (DevboxMeta (devbox w)))
    as [old|] eqn:Hold; [|discriminate Hrun].
  step_in Hrun.
  injection Hrun as <-.
  exists updatedService. wsimpl; osimpl.
  apply updateServiceFields_ok in Hmut as (Hsel & Htype & Hports).
  cbn [Selector SType SPorts] in Hsel, Htype, Hports.
  rewrite Hc2 in Hl2. osimpl_in Hl2. osimpl_in Hstore. osimpl_in Hports.
  change (services (cluster w0)) with (services (cluster w)) in *.
  change (keyOf (ServiceMeta service))
    with (Namespace (DevboxMeta (devbox w)),
          Name (DevboxMeta (devbox w)) +:+ "-svc") in *.
  (* the service read back has the fields the mutate closure set *)
  assert (Hfields :
    Selector (ServiceSpecOf updatedService) = Selector (ServiceSpecOf o1)
    /\ SType (ServiceSpecOf updatedService) = SType (ServiceSpecOf o1)
    /\ map portFields (SPorts (ServiceSpecOf updatedService))
       = map portFields (SPorts (ServiceSpecOf o1))).
  { destruct Hstore as [[_ Ht] | [[Hl Ht] | (old' & _ & [Ht | (_ & _ & Ht)])]];
      rewrite Ht in Hl2.
    - rewrite lookup_insert_eq in Hl2. injection Hl2 as <-.
      apply allocateService_keeps.
    - rewrite Hl in Hl2. injection Hl2 as <-. auto.
    - rewrite lookup_insert_eq in Hl2. injection Hl2 as <-.
      match goal with
      | |- context [allocateService ?s ?pool] =>
          pose proof (allocateService_keeps s pool) as Hk
      end.
      exact (proj2 Hk).
    - rewrite lookup_delete_eq in Hl2. discriminate Hl2. }
  destruct Hfields as (Hfsel & Hftype & Hfports).
  split; [reflexivity|].
  split; [rewrite Hc2; exact Hl2|].
  split; [rewrite Hftype; exact Htype|].
  split; [rewrite Hfsel; exact Hsel|].
  split.
  { rewrite Hfports, Hports. f_equal.
    destruct (services (cluster w) !! _) as [existing|]; reflexivity. }
  split; [exact Hnp|].
  split; [apply lookup_insert_eq|].
  split; reflexivity.
Qed.

(** The NodePort sync where no service is stored yet, the runtime and the
    devbox are, and the server answers the five calls: the service is
    created with the node ports the platform assigns, and the sync returns
    the error for a missing node port when the platform has assigned none,
    and no error otherwise. *)
Lemma nodeport_network_sync_creates r recLabels w rt x :
  NetworkSpecType (Spec (devbox w)) = NetworkTypeNodePort ->
  runtimes (cluster w) !! runtimeKey (devbox w) = Some rt ->
  services (cluster w)
    !! (Namespace (DevboxMeta (devbox w)),
        Name (DevboxMeta (devbox w)) +:+ "-svc") = None ->
  devboxes (cluster w) !! keyOf (DevboxMeta (devbox w)) = Some x ->
  quiet 5 w ->
  exists w',
    syncNetwork r recLabels w
    = (Done (if bool_decide
                  (firstNodePort
                     (allocateNodePorts (runtimeServicePorts rt)
                                        (nodePortPool w)).1 = 0)
             then Some (Errorf ("NodePort not found for service "
                                +:+ (Name (DevboxMeta (devbox w)) +:+ "-svc")))
             else None), w').
Proof.
  intros Hmode Hrt Hnone Hx Hq.
  pose proof (quiet_nth 5 w 0 Hq ltac:(lia)) as Hq0.
  pose proof (quiet_nth 5 w 1 Hq ltac:(lia)) as Hq1.
  pose proof (quiet_nth 5 w 2 Hq ltac:(lia)) as Hq2.
  pose proof (quiet_nth 5 w 3 Hq ltac:(lia)) as Hq3.
  pose proof (quiet_nth 5 w 4 Hq ltac:(lia)) as Hq4.
  cbn [Nat.iter nat_rect] in Hq0, Hq1, Hq2, Hq3, Hq4.
  unfold syncNetwork. rewrite bind_run, getServicePort_run.
  unfold nextFault. rewrite Hq0, Hrt. step. rewrite Hmode.
  unfold syncNodePortNetwork. step.
  unfold CreateOrUpdate. rewrite bind_run, bind_run, client_Get_run.
  wsimpl. osimpl. cbn [ServiceMeta].
  assert (Hk : forall n ns l, keyOf (namedMeta n ns l) = (ns, n))
    by reflexivity.
  rewrite !Hk. rewrite Hq1, Hnone.
  change (IsNotFound (NewNotFound KService ?k)) with true. cbn [negb].
  rewrite bind_run. unfold mutate at 1, updateServiceFields.
  cbn [ServiceSpecOf zeroServiceSpec SPorts Selector SType ServiceMeta].
  unfold SetControllerReference. osimpl.
  cbn [ServiceMeta namedMeta Namespace].
  assert (Hns : forall ns : string,
             bool_decide (ns <> "") && bool_decide (ns = "") = false)
    by (intros ns; destruct (decide (ns = "")) as [->|Hne];
        [reflexivity
        |rewrite (bool_decide_eq_false_2 _ Hne), andb_false_r; reflexivity]).
  rewrite Hns.
  rewrite (bool_decide_eq_false_2 (Namespace (DevboxMeta (devbox w))
                                   <> Namespace (DevboxMeta (devbox w))))
    by congruence.
  rewrite andb_false_r.
  assert (Hown : forall n ns l, OwnerReferences (namedMeta n ns l) = [])
    by reflexivity.
  rewrite !Hown. cbn [List.find upsertOwnerRef].
  cbn [ServiceMeta ServiceSpecOf].
  assert (Hk2 : forall os n ns l,
             keyOf (withOwnerReferences os (namedMeta n ns l)) = (ns, n))
    by reflexivity.
  rewrite !Hk2. rewrite bool_decide_eq_true_2 by reflexivity.
  rewrite client_Create_run. cbv zeta. osimpl. cbn [ServiceMeta].
  rewrite !Hk2. wsimpl. rewrite Hq2, Hnone.
  unfold allocateService. cbn [ServiceSpecOf SType SPorts Selector ServiceMeta].
  destruct (allocateNodePorts (runtimeServicePorts rt) (nodePortPool w))
    as [ports pool] eqn:Halloc.
  cbn [fst]. wsimpl.
  unfold OnError, DefaultRetrySteps. rewrite bind_run.
  erewrite attempts_done.
  2:{ rewrite client_Get_run. wsimpl. osimpl. rewrite Hq3.
      rewrite lookup_insert_eq. reflexivity. }
  cbn [ServiceSpecOf SPorts].
  destruct (bool_decide (firstNodePort ports = 0)) eqn:Hport.
  { eexists. reflexivity. }
  step. step. unfold Status_Update_devbox. step.
  rewrite bind_run, client_Status_Update_run. cbv zeta. wsimpl.
  rewrite Hq4. osimpl.
  change (keyOf (DevboxMeta (withNodePort ?n (withNetworkType ?t (devbox w)))))
    with (keyOf (DevboxMeta (devbox w))).
  rewrite Hx. step. eexists. reflexivity.
Qed.

(** C7, as the code has it.  In NodePort mode the network sync never
    panics, and when it returns no error: the runtime was read; the service
    [<name>-svc] is stored with type NodePort and the devbox's labels as
    selector; its ports are, field by field, the expected ports (one per
    port the runtime declares, or the single SSH port 22/TCP) when the
    service was created or had no ports, and otherwise the ports it had with
    the first overwritten by the first expected port; the service read back
    carries an assigned node port, and that port and the type NodePort are
    in the status of the stored devbox.  Where no service is stored yet,
    the runtime and the devbox are, and the server answers the five calls,
    the sync returns the error for the missing node port when the platform
    has assigned none to the ports of the service, and no error
    otherwise. *)
Theorem nodeport_network_sync r recLabels w :
  NetworkSpecType (Spec (devbox w)) = NetworkTypeNodePort ->
  exists res w',
    syncNetwork r recLabels w = (Done res, w')
    /\ (res = None ->
        let d := devbox w in
        let key := (Namespace (DevboxMeta d), Name (DevboxMeta d) +:+ "-svc") in
        exists rt svc,
          runtimes (cluster w) !! runtimeKey d = Some rt
          /\ services (cluster w') !! key = Some svc
          /\ SType (ServiceSpecOf svc) = ServiceTypeNodePort
          /\ Selector (ServiceSpecOf svc) = recLabels
          /\ map portFields (SPorts (ServiceSpecOf svc))
             = map portFields (mergedPorts (services (cluster w) !! key)
                                           (runtimeServicePorts rt))
          /\ firstNodePort (SPorts (ServiceSpecOf svc)) <> 0
          /\ devboxes (cluster w') !! keyOf (DevboxMeta d) = Some (devbox w')
          /\ NType (Network (Status (devbox w'))) = NetworkTypeNodePort
          /\ NodePort (Network (Status (devbox w')))
             = firstNodePort (SPorts (ServiceSpecOf svc)))
    /\ (forall rt x,
          runtimes (cluster w) !! runtimeKey (devbox w) = Some rt ->
          services (cluster w)
            !! (Namespace (DevboxMeta (devbox w)),
                Name (DevboxMeta (devbox w)) +:+ "-svc") = None ->
          devboxes (cluster w) !! keyOf (DevboxMeta (devbox w)) = Some x ->
          quiet 5 w ->
          res = if bool_decide
                     (firstNodePort
                        (allocateNodePorts (runtimeServicePorts rt)
                                           (nodePortPool w)).1 = 0)
                then Some (Errorf ("NodePort not found for service "
                                   +:+ (Name (DevboxMeta (devbox w))
                                        +:+ "-svc")))
                else None).
Proof.
  intros Hmode.
  assert (Htotal : exists res w', syncNetwork r recLabels w = (Done res, w')).
  { unfold syncNetwork. rewrite bind_run, getServicePort_run.
    destruct (nextFault w); [eexists _, _; reflexivity|].
    destruct (runtimes (cluster w) !! runtimeKey (devbox w)) as [rt|];
      [|eexists _, _; reflexivity].
    step. rewrite Hmode.
    apply total_syncNodePortNetwork, runtimeServicePorts_nonempty. }
  destruct Htotal as (res & w' & Hrun). exists res, w'.
  split; [exact Hrun|]. split.
  - intros ->.
    exact (nodeport_network_sync_ok r recLabels w w' Hmode Hrun).
  - intros rt x Hrt Hnone Hx Hq.
    destruct (nodeport_network_sync_creates r recLabels w rt x
                Hmode Hrt Hnone Hx Hq) as (w2 & Hrun2).
    rewrite Hrun2 in Hrun. injection Hrun as <- _. reflexivity.
Qed.
End NodePort.


(* ===================================================================== *)
(** ** The cleanup of a devbox under deletion (C9)                        *)
(* ===================================================================== *)

Lemma filter_all {A} (P : A -> Prop) `{forall x, Decision (P x)} (l : list A) :
  Forall P l -> filter P l = l.
Proof.
  induction 1 as [|x l Hx Hl IH]; [reflexivity|].
  rewrite filter_cons_True by exact Hx. rewrite IH. reflexivity.
Qed.

(** [RemoveFinalizer] reports a change exactly when the finalizer was there. *)
Lemma removed_iff_member f (l : list string) :
  bool_decide (length l ≠ length (filter (fun x => x ≠ f) l))
  = bool_decide (f ∈ l).
Proof.
  apply bool_decide_ext. split.
  - intros Hne. destruct (decide (f ∈ l)) as [Hin|Hnot]; [exact Hin|].
    exfalso. apply Hne. rewrite filter_all; [reflexivity|].
    apply Forall_forall. intros x Hx ->. exact (Hnot Hx).
  - intros Hin Heq.
    pose proof (length_filter_lt (fun x => x ≠ f) l f Hin) as Hlt.
    assert (Hff : ¬ f ≠ f) by (intros Hf; apply Hf; reflexivity).
    specialize (Hlt Hff). lia.
Qed.

Lemma IgnoreNotFound_Some err e :
  IgnoreNotFound err = Some e -> IsNotFound e = false.
Proof.
  destruct err as [e0|]; cbn; [|discriminate].
  destruct (IsNotFound e0) eqn:Hnf; [discriminate|].
  intros [= <-]. exact Hnf.
Qed.

Section DeleteByLabels.
Context {T : Type} `{Object T}.

Lemma client_Update_calls (obj : T) w :
  calls (client_Update obj w).2
  = (calls w ++ [{| CallVerb := VUpdate; CallKind := kind;
                    CallKey := keyOf (objectMeta obj) |}])%list.
Proof.
  rewrite client_Update_run. cbv zeta.
  repeat case_match; reflexivity.
Qed.

Lemma deleteResourcesByLabels_run (ns : string) (sel : gmap string string) w :
  deleteResourcesByLabels T ns sel w =
  (let w1 := tick {| CallVerb := VDeleteAllOf; CallKind := kind;
                     CallKey := (ns, "") |} w in
   match nextFault w with
   | Some f => (Done (Some (fault_error f)), w1)
   | None =>
       (Done None,
        updTable (omap (fun o => if selected ns sel (objectMeta o)
                                 then reap (clock w (reads w)) o
                                 else Some o)) w1)
   end).
Proof.
  unfold deleteResourcesByLabels. rewrite bind_run, client_DeleteAllOf_run.
  cbv zeta. destruct (nextFault w) as [f|]; [|reflexivity].
  cbn. rewrite fault_not_NotFound. reflexivity.
Qed.

(** Whatever the server answers, a not-found is not reported. *)
Lemma deleteResourcesByLabels_absent (ns : string) (sel : gmap string string) w e w' :
  deleteResourcesByLabels T ns sel w = (Done (Some e), w') ->
  IsNotFound e = false.
Proof.
  unfold deleteResourcesByLabels. intros Hrun.
  apply bind_inv in Hrun as (err & w1 & _ & Hret).
  apply ret_inv in Hret as [Herr _].
  symmetry in Herr. exact (IgnoreNotFound_Some _ _ Herr).
Qed.

(** What a deletion by label leaves of the labelled objects is settled. *)
Lemma settled_reaped (ns : string) (sel : gmap string string) (now : Z) (t : gmap Key T) :
  settled ns sel (omap (fun o => if selected ns sel (objectMeta o)
                                 then reap now o else Some o) t).
Proof.
  intros key o Hl Hsel.
  apply lookup_omap_Some in Hl as (o0 & Ho & _).
  destruct (selected ns sel (objectMeta o0)) eqn:Hs0.
  - unfold reap in Ho.
    destruct (Finalizers (objectMeta o0)) as [|f fs] eqn:Hf; [discriminate|].
    destruct (DeletionTimestamp (objectMeta o0)) as [ts|] eqn:Hd;
      injection Ho as <-.
    + rewrite Hd, Hf. split; discriminate.
    + rewrite objectMeta_setObjectMeta. cbn. rewrite Hf. split; discriminate.
  - injection Ho as <-. congruence.
Qed.

(** A deletion by label changes nothing of a settled table. *)
Lemma reaped_settled (ns : string) (sel : gmap string string) (now : Z) (t : gmap Key T) :
  settled ns sel t ->
  omap (fun o => if selected ns sel (objectMeta o)
                 then reap now o else Some o) t = t.
Proof.
  intros Hset. apply map_eq. intros key. rewrite lookup_omap.
  destruct (t !! key) as [o|] eqn:Hl; [|reflexivity]. cbn.
  destruct (selected ns sel (objectMeta o)) eqn:Hsel; [|reflexivity].
  destruct (Hset key o Hl Hsel) as [Hd Hf]. unfold reap.
  destruct (Finalizers (objectMeta o)); [contradiction|].
  destruct (DeletionTimestamp (objectMeta o)); [reflexivity|contradiction].
Qed.
End DeleteByLabels.

Section Observed.

(** The pods a [List] observes in a store that keeps each pod under its
    own name. *)
Lemma observedPods_elem ns sel c p :
  p ∈ observedPods ns sel c <->
  (exists key, pods c !! key = Some p) /\ selected ns sel (PodMeta p) = true.
Proof.
  unfold observedPods. rewrite list_elem_of_filter, list_elem_of_fmap.
  split.
  - intros [Hsel ([key q] & -> & Hin)]. split; [|exact Hsel].
    exists key. apply elem_of_map_to_list. exact Hin.
  - intros [[key Hkey] Hsel]. split; [exact Hsel|].
    exists (key, p). split; [reflexivity|].
    apply elem_of_map_to_list. exact Hkey.
Qed.

Lemma observedPods_stored ns sel c p :
  sound (pods c) -> p ∈ observedPods ns sel c ->
  pods c !! keyOf (PodMeta p) = Some p.
Proof.
  intros Hsound [[key Hkey] _]%observedPods_elem.
  destruct (Hsound key p Hkey) as [Hk _]. cbn in Hk. rewrite Hk. exact Hkey.
Qed.

Lemma observedPods_keys ns sel c key :
  sound (pods c) ->
  key ∈ map (fun p => keyOf (PodMeta p)) (observedPods ns sel c) <->
  exists p, pods c !! key = Some p /\ selected ns sel (PodMeta p) = true.
Proof.
  intros Hsound. change (map ?f ?l) with (f <$> l).
  rewrite list_elem_of_fmap. split.
  - intros (p & -> & Hin). exists p.
    split; [exact (observedPods_stored _ _ _ _ Hsound Hin)|].
    apply observedPods_elem in Hin. exact (proj2 Hin).
  - intros (p & Hkey & Hsel). exists p.
    destruct (Hsound key p Hkey) as [Hk _]. cbn in Hk.
    split; [symmetry; exact Hk|].
    apply observedPods_elem. split; [eauto | exact Hsel].
Qed.

Lemma observedPods_NoDup ns sel c :
  sound (pods c) ->
  NoDup (map (fun p => keyOf (PodMeta p)) (observedPods ns sel c)).
Proof.
  intros Hsound. unfold observedPods.
  pose proof (NoDup_fst_map_to_list (pods c)) as Hnd.
  assert (Hall : Forall (fun kp => keyOf (PodMeta kp.2) = kp.1)
                        (map_to_list (pods c))).
  { apply Forall_forall. intros [key p] Hin.
    apply elem_of_map_to_list in Hin.
    destruct (Hsound key p Hin) as [Hk _]. exact Hk. }
  induction (map_to_list (pods c)) as [|[key p] l IH]; [constructor|].
  cbn [fmap list_fmap] in *. inversion Hnd as [|? ? Hnot Hnd']; subst.
  inversion Hall as [|? ? Hk Hall']; subst. cbn in Hk.
  rewrite filter_cons. destruct (decide _) as [Hsel|Hsel]; [|exact (IH Hnd' Hall')].
  cbn [map]. constructor; [|exact (IH Hnd' Hall')].
  intros Hin. apply Hnot.
  change (map ?f ?l) with (f <$> l) in Hin.
  apply list_elem_of_fmap in Hin as (q & Hq & Hin).
  apply list_elem_of_filter in Hin as [_ Hin].
  apply list_elem_of_fmap in Hin as ([key' q'] & -> & Hin).
  apply list_elem_of_fmap. exists (key', q'). split; [|exact Hin].
  rewrite Forall_forall in Hall'. specialize (Hall' _ Hin).
  cbn in Hall', Hq |- *. congruence.
Qed.

End Observed.

Section Cleanup.
Context `{Helper} `{Libraries}.

Lemma total_stripFinalizers items : total (stripFinalizers items).
Proof.
  induction items as [|pod rest IH]; cbn [stripFinalizers].
  - apply total_ret.
  - destruct (RemoveFinalizer pod FinalizerName) as [pod' removed].
    destruct removed; [|exact IH].
    apply total_bind; [apply total_client_Update|].
    intros [o|e]; [exact IH | apply total_ret].
Qed.

Lemma total_deleteResourcesByLabels {T} `{Object T} ns sel :
  total (deleteResourcesByLabels T ns sel).
Proof. unfold deleteResourcesByLabels. total_steps. Qed.

Lemma total_removeAll recLabels : total (removeAll recLabels).
Proof.
  unfold removeAll.
  pose proof total_stripFinalizers. pose proof @total_deleteResourcesByLabels.
  total_steps.
Qed.

(** The loop writes pods only. *)
Lemma keeps_stripFinalizers {B} (f : World -> B) items :
  (forall w t, f (updTable (T:=Pod) t w) = f w) ->
  (forall w c, f (tick c w) = f w) ->
  (forall w p, f (setNodePortPool p w) = f w) ->
  keeps (same f) (stripFinalizers items).
Proof.
  intros Hupd Htick Hpool.
  induction items as [|pod rest IH]; cbn [stripFinalizers].
  - apply keeps_ret; typeclasses eauto.
  - destruct (RemoveFinalizer pod FinalizerName) as [pod' removed].
    destruct removed; [|exact IH].
    apply keeps_bind; [typeclasses eauto| |].
    + intros w. rewrite client_Update_run. cbv zeta. unfold same.
      repeat case_match; cbn [snd];
        rewrite ?Hupd, ?Hpool, ?Htick; reflexivity.
    + intros [o|e]; [exact IH | apply keeps_ret; typeclasses eauto].
Qed.

(** A loop that went through updated the pods that carried the finalizer,
    in the order of the list. *)
Lemma stripFinalizers_calls items : forall w w',
  stripFinalizers items w = (Done None, w') ->
  calls w' =
  (calls w ++ map (fun p => {| CallVerb := VUpdate; CallKind := KPod;
                               CallKey := keyOf (PodMeta p) |})
                  (filter (fun p => FinalizerName ∈ Finalizers (PodMeta p))
                          items))%list.
Proof.
  induction items as [|pod rest IH]; intros w w' Hrun;
    cbn [stripFinalizers] in Hrun.
  - apply ret_inv in Hrun as [_ ->]. rewrite app_nil_r. reflexivity.
  - unfold RemoveFinalizer in Hrun. cbv beta iota zeta in Hrun.
    rewrite removed_iff_member in Hrun. rewrite filter_cons.
    cbn [objectMeta Pod_Object] in Hrun.
    destruct (decide (FinalizerName ∈ Finalizers (PodMeta pod))) as [Hin|Hnot].
    + rewrite bool_decide_eq_true_2 in Hrun by exact Hin.
      apply bind_inv in Hrun as (u & w1 & Hupd & Hrest).
      pose proof (client_Update_calls
                    (setObjectMeta
                       (withFinalizers
                          (filter (fun x => x ≠ FinalizerName)
                                  (Finalizers (PodMeta pod)))
                          (PodMeta pod)) pod) w) as Hcalls.
      rewrite Hupd in Hcalls. cbn [snd] in Hcalls.
      destruct u as [o|e]; [|apply ret_inv in Hrest as [[=] _]].
      rewrite (IH _ _ Hrest), Hcalls. cbn [map].
      rewrite <- app_assoc. reflexivity.
    + rewrite bool_decide_eq_false_2 in Hrun by exact Hnot.
      exact (IH _ _ Hrun).
Qed.

(** Nothing is written where no pod carries the finalizer. *)
Lemma stripFinalizers_none items w :
  Forall (fun p => FinalizerName ∉ Finalizers (PodMeta p)) items ->
  stripFinalizers items w = (Done None, w).
Proof.
  induction 1 as [|pod rest Hpod Hrest IH]; cbn [stripFinalizers];
    [reflexivity|].
  unfold RemoveFinalizer. cbv beta iota zeta.
  rewrite removed_iff_member.
  cbn [objectMeta Pod_Object].
  rewrite bool_decide_eq_false_2 by exact Hpod. exact IH.
Qed.

Lemma keeps_devbox_removeAll recLabels :
  keeps (same (fun w => (devboxes (cluster w), devbox w)))
        (removeAll recLabels).
Proof.
  unfold removeAll, deleteResourcesByLabels.
  pose proof (keeps_stripFinalizers
                (fun w => (devboxes (cluster w), devbox w))) as Hstrip.
  keeps_steps ltac:(reflexivity).
  all: try (apply Hstrip; reflexivity).
Qed.

(** A cleanup that went through made the calls of [cleanupCalls], and what
    it left of the labelled pods, services and secrets is settled. *)
Lemma removeAll_ok recLabels w w2 :
  removeAll recLabels w = (Done None, w2) ->
  calls w2 =
    (calls w ++ cleanupCalls (Namespace (DevboxMeta (devbox w)))
                  (observedPods (Namespace (DevboxMeta (devbox w))) recLabels
                                (cluster w)))%list
  /\ settled (Namespace (DevboxMeta (devbox w))) recLabels (pods (cluster w2))
  /\ settled (Namespace (DevboxMeta (devbox w))) recLabels
             (services (cluster w2))
  /\ settled (Namespace (DevboxMeta (devbox w))) recLabels
             (secrets (cluster w2)).
Proof.
  unfold removeAll. intros Hrun. step_in Hrun.
  rewrite bind_run, client_List_pods_run in Hrun.
  destruct (nextFault w) as [f|] eqn:Hf0;
    [apply ret_inv in Hrun as [[=] _]|].
  apply bind_inv in Hrun as (e1 & wa & Hstrip & Hrun).
  destruct e1 as [e1|]; [apply ret_inv in Hrun as [[=] _]|].
  apply stripFinalizers_calls in Hstrip. wsimpl_in Hstrip.
  rewrite bind_run, deleteResourcesByLabels_run in Hrun. cbv zeta in Hrun.
  destruct (nextFault wa) as [f|]; cbv beta iota in Hrun;
    [apply ret_inv in Hrun as [[=] _]|].
  rewrite bind_run, deleteResourcesByLabels_run in Hrun. cbv zeta in Hrun.
  wsimpl_in Hrun.
  destruct (headFault (tail (faults wa))) as [f|]; cbv beta iota in Hrun;
    [apply ret_inv in Hrun as [[=] _]|].
  rewrite deleteResourcesByLabels_run in Hrun. cbv zeta in Hrun.
  wsimpl_in Hrun.
  destruct (headFault (tail (tail (faults wa)))) as [f|];
    [discriminate Hrun|].
  injection Hrun as <-. wsimpl. osimpl.
  split; [|split; [|split]].
  - rewrite Hstrip. unfold cleanupCalls.
    rewrite <- !app_assoc. reflexivity.
  - exact (settled_reaped (T:=Pod) _ _ _ _).
  - exact (settled_reaped (T:=Service) _ _ _ _).
  - exact (settled_reaped (T:=Secret) _ _ _ _).
Qed.

(** The deletion branch of [Reconcile]. *)
Lemma Reconcile_deleted r req w d :
  devboxes (cluster w) !! req = Some d ->
  DeletionTimestamp (DevboxMeta d) <> None ->
  nextFault w = None ->
  Reconcile r req w =
  (check! removeAll
            (RecommendedLabels {| RecName := Name (DevboxMeta d);
                                  ManagedBy := DefaultManagedBy;
                                  PartOf := DevBoxPartOf |});
   d ← getDevbox;
   let '(d, removed) := RemoveFinalizer d FinalizerName in
   setDevbox d;;
   if removed then check! Update_devbox; ret None else ret None)
    (fetched req d w).
Proof.
  intros Hd Hdel Hf. unfold Reconcile. step.
  rewrite bind_run, client_Get_run. wsimpl. osimpl.
  cbn [faults setDevboxCell]. fold (nextFault w). rewrite Hf, Hd.
  step. destruct (DeletionTimestamp (DevboxMeta d)) as [ts|] eqn:Hts;
    [|contradiction].
  reflexivity.
Qed.

(** What the update of [stripFinalizers] stores for a pod that is stored
    as it was listed. *)
Lemma strip_update pod w :
  pods (cluster w) !! keyOf (PodMeta pod) = Some pod ->
  nextFault w = None ->
  exists o w1,
    client_Update (RemoveFinalizer pod FinalizerName).1 w = (Done (OK o), w1)
    /\ pods (cluster w1)
       = match DeletionTimestamp (PodMeta pod),
               filter (fun x => x ≠ FinalizerName) (Finalizers (PodMeta pod))
         with
         | Some _, [] => delete (keyOf (PodMeta pod)) (pods (cluster w))
         | _, _ => <[keyOf (PodMeta pod) := (RemoveFinalizer pod FinalizerName).1]>
                     (pods (cluster w))
         end.
Proof.
  intros Hpod Hq. rewrite client_Update_run. cbv zeta. osimpl.
  cbn [PodMeta]. rewrite keyOf_withFinalizers, Hq, Hpod.
  rewrite DeletionTimestamp_withDeletionTimestamp.
  cbn [Finalizers withDeletionTimestamp withFinalizers DeletionTimestamp].
  eexists _, _. split; [reflexivity|].
  destruct (DeletionTimestamp (PodMeta pod)) as [ts|] eqn:Hts;
    [destruct (filter (fun x => x ≠ FinalizerName) (Finalizers (PodMeta pod)))
       as [|f fs] eqn:Hfs|];
    wsimpl; osimpl; try reflexivity.
  all: f_equal; destruct pod as [m sp st]; cbn in *; f_equal;
    destruct m; cbn in *; subst; reflexivity.
Qed.

Lemma stripFinalizers_state items : forall w w',
  NoDup (map (fun p => keyOf (PodMeta p)) items) ->
  (forall p, p ∈ items -> pods (cluster w) !! keyOf (PodMeta p) = Some p) ->
  stripFinalizers items w = (Done None, w') ->
  forall key,
    pods (cluster w') !! key
    = if bool_decide (key ∈ map (fun p => keyOf (PodMeta p)) items)
      then pods (cluster w) !! key ≫= releasedPod
      else pods (cluster w) !! key.
Proof.
  induction items as [|pod rest IH]; intros w w' Hnd Hstored Hrun key;
    cbn [stripFinalizers] in Hrun.
  - apply ret_inv in Hrun as [_ ->].
    rewrite bool_decide_eq_false_2 by apply not_elem_of_nil. reflexivity.
  - cbn [map] in Hnd |- *. apply NoDup_cons in Hnd as [Hfresh Hnd].
    assert (Hpod : pods (cluster w) !! keyOf (PodMeta pod) = Some pod)
      by (apply Hstored; left).
    assert (Hrest : forall q, q ∈ rest -> keyOf (PodMeta q) <> keyOf (PodMeta pod)).
    { intros q Hq Heq. apply Hfresh. rewrite <- Heq.
      change (map ?f ?l) with (f <$> l). apply list_elem_of_fmap.
      exists q. split; [reflexivity | exact Hq]. }
    unfold RemoveFinalizer in Hrun. cbv beta iota zeta in Hrun.
    rewrite removed_iff_member in Hrun.
    cbn [objectMeta Pod_Object] in Hrun.
    destruct (decide (FinalizerName ∈ Finalizers (PodMeta pod))) as [Hin|Hnot].
    + rewrite bool_decide_eq_true_2 in Hrun by exact Hin.
      apply bind_inv in Hrun as (u & w1 & Hupd & Hrun).
      destruct (nextFault w) as [f|] eqn:Hf.
      { rewrite client_Update_run in Hupd. cbv zeta in Hupd.
        rewrite Hf in Hupd. injection Hupd as <- <-.
        apply ret_inv in Hrun as [[=] _]. }
      destruct (strip_update pod w Hpod Hf) as (o & w1' & Hupd' & Hpods1).
      unfold RemoveFinalizer in Hupd'. cbn [fst objectMeta Pod_Object] in Hupd'.
      rewrite Hupd' in Hupd. injection Hupd as <- <-.
      assert (Hother : forall k, k <> keyOf (PodMeta pod) ->
                 pods (cluster w1') !! k = pods (cluster w) !! k).
      { intros k Hk. rewrite Hpods1.
        destruct (DeletionTimestamp (PodMeta pod));
          [destruct (filter _ _)|];
          rewrite ?lookup_delete_ne, ?lookup_insert_ne by congruence;
          reflexivity. }
      rewrite (IH w1' w' Hnd); [| |exact Hrun].
      2:{ intros q Hq. rewrite (Hother _ (Hrest q Hq)).
          apply Hstored. right. exact Hq. }
      destruct (decide (key = keyOf (PodMeta pod))) as [->|Hk].
      * rewrite (bool_decide_eq_false_2 _ Hfresh).
        rewrite bool_decide_eq_true_2 by left.
        rewrite Hpod. cbn [mbind option_bind]. unfold releasedPod.
        rewrite bool_decide_eq_true_2 by exact Hin.
        rewrite Hpods1.
        destruct (DeletionTimestamp (PodMeta pod));
          [destruct (filter _ _)|];
          rewrite ?lookup_delete_eq, ?lookup_insert_eq; reflexivity.
      * rewrite (Hother _ Hk).
        apply (f_equal (fun b : bool => if b then _ else _)).
        apply bool_decide_ext. rewrite elem_of_cons. tauto.
    + rewrite bool_decide_eq_false_2 in Hrun by exact Hnot.
      rewrite (IH w w' Hnd); [| |exact Hrun].
      2:{ intros q Hq. apply Hstored. right. exact Hq. }
      destruct (decide (key = keyOf (PodMeta pod))) as [->|Hk].
      * rewrite (bool_decide_eq_false_2 _ Hfresh).
        rewrite bool_decide_eq_true_2 by left.
        rewrite Hpod. cbn [mbind option_bind]. unfold releasedPod.
        rewrite bool_decide_eq_false_2 by exact Hnot. reflexivity.
      * apply (f_equal (fun b : bool => if b then _ else _)).
        apply bool_decide_ext. rewrite elem_of_cons. tauto.
Qed.

Lemma filter_absent (f : string) (fs : list string) :
  f ∉ fs -> filter (fun x => x ≠ f) fs = fs.
Proof.
  induction fs as [|x fs IH]; intros Hnot; [reflexivity|].
  apply not_elem_of_cons in Hnot as [Hx Hfs].
  rewrite filter_cons. destruct (decide (x ≠ f)) as [_|Hxf].
  - rewrite (IH Hfs). reflexivity.
  - exfalso. apply Hxf. congruence.
Qed.

Lemma strip_same (p : Pod) :
  FinalizerName ∉ Finalizers (PodMeta p) ->
  (RemoveFinalizer p FinalizerName).1 = p.
Proof.
  intros Hnot. unfold RemoveFinalizer. cbn [fst objectMeta setObjectMeta Pod_Object].
  rewrite (filter_absent _ _ Hnot).
  destruct p as [m sp st]. cbn. f_equal. destruct m; reflexivity.
Qed.

Lemma removeAll_state recLabels w w2 :
  sound (pods (cluster w)) ->
  removeAll recLabels w = (Done None, w2) ->
  pods (cluster w2)
  = omap (cleanedPod (Namespace (DevboxMeta (devbox w))) recLabels
                     (clock w (reads w))) (pods (cluster w))
  /\ services (cluster w2)
     = omap (cleaned (Namespace (DevboxMeta (devbox w))) recLabels
                     (clock w (reads w))) (services (cluster w))
  /\ secrets (cluster w2)
     = omap (cleaned (Namespace (DevboxMeta (devbox w))) recLabels
                     (clock w (reads w))) (secrets (cluster w)).
Proof.
  unfold removeAll. intros Hsound Hrun. step_in Hrun.
  rewrite bind_run, client_List_pods_run in Hrun.
  destruct (nextFault w) as [f|] eqn:Hf0;
    [apply ret_inv in Hrun as [[=] _]|].
  apply bind_inv in Hrun as (e1 & wa & Hstrip & Hrun).
  destruct e1 as [e1|]; [apply ret_inv in Hrun as [[=] _]|].
  pose proof (keeps_stripFinalizers
                (fun w => (services (cluster w), secrets (cluster w),
                           clock w, reads w))
                (observedPods (Namespace (DevboxMeta (devbox w))) recLabels
                              (cluster w))
                ltac:(reflexivity) ltac:(reflexivity) ltac:(reflexivity)
                (tick {| CallVerb := VList; CallKind := KPod;
                         CallKey := (Namespace (DevboxMeta (devbox w)), "") |} w))
    as Hkeep.
  rewrite Hstrip in Hkeep. unfold same in Hkeep. cbn in Hkeep.
  injection Hkeep as Hsvc Hsec Hclock Hreads.
  pose proof (stripFinalizers_state
                (observedPods (Namespace (DevboxMeta (devbox w))) recLabels
                              (cluster w))
                (tick {| CallVerb := VList; CallKind := KPod;
                         CallKey := (Namespace (DevboxMeta (devbox w)), "") |} w)
                wa
                (observedPods_NoDup _ recLabels _ Hsound)
                (fun p Hp => observedPods_stored _ _ _ p Hsound Hp)
                Hstrip) as Hpods.
  cbn [cluster tick] in Hpods.
  rewrite bind_run, deleteResourcesByLabels_run in Hrun. cbv zeta in Hrun.
  destruct (nextFault wa) as [f|]; cbv beta iota in Hrun;
    [apply ret_inv in Hrun as [[=] _]|].
  rewrite bind_run, deleteResourcesByLabels_run in Hrun. cbv zeta in Hrun.
  wsimpl_in Hrun.
  destruct (headFault (tail (faults wa))) as [f|]; cbv beta iota in Hrun;
    [apply ret_inv in Hrun as [[=] _]|].
  rewrite deleteResourcesByLabels_run in Hrun. cbv zeta in Hrun.
  wsimpl_in Hrun.
  destruct (headFault (tail (tail (faults wa)))) as [f|];
    [discriminate Hrun|].
  injection Hrun as <-. wsimpl. osimpl.
  rewrite Hclock, Hreads, Hsvc, Hsec.
  split; [|split; reflexivity].
  apply map_eq. intros key. rewrite !lookup_omap, Hpods.
  change (pods (cluster (tick _ w))) with (pods (cluster w)).
  destruct (pods (cluster w) !! key) as [p|] eqn:Hp;
    [|destruct (bool_decide _); reflexivity].
  destruct (Hsound key p Hp) as [Hk _]. cbn in Hk.
  unfold cleanedPod.
  destruct (selected (Namespace (DevboxMeta (devbox w))) recLabels (PodMeta p))
    eqn:Hsel.
  - rewrite bool_decide_eq_true_2
      by (apply (observedPods_keys _ _ _ _ Hsound); eauto).
    cbn [mbind option_bind]. unfold releasedPod.
    destruct (decide (FinalizerName ∈ Finalizers (PodMeta p))) as [Hin|Hnot].
    + rewrite bool_decide_eq_true_2 by exact Hin. rewrite Hsel.
      assert (Hsel' : selected (Namespace (DevboxMeta (devbox w))) recLabels
                        (PodMeta (RemoveFinalizer p FinalizerName).1) = true)
        by exact Hsel.
      destruct (DeletionTimestamp (PodMeta p)) as [ts|] eqn:Hd;
        [destruct (filter (fun x => x ≠ FinalizerName) (Finalizers (PodMeta p)))
           as [|fz fs] eqn:Hfs|];
        cbn [mbind option_bind]; rewrite ?Hsel'; try reflexivity.
      unfold reap, RemoveFinalizer.
      cbn [fst objectMeta setObjectMeta Pod_Object PodMeta Finalizers
           withFinalizers].
      rewrite Hfs. reflexivity.
    + rewrite bool_decide_eq_false_2 by exact Hnot.
      rewrite (strip_same p Hnot). cbn [mbind option_bind].
      rewrite Hsel. reflexivity.
  - rewrite bool_decide_eq_false_2.
    2:{ rewrite (observedPods_keys _ _ _ _ Hsound).
        intros (p' & Hp' & Hsel'). congruence. }
    cbn [mbind option_bind]. rewrite Hsel. reflexivity.
Qed.

(** No labelled pod a cleanup leaves carries the finalizer. *)
Lemma cleanedPod_released (ns : string) (sel : gmap string string) (now : Z)
    (t : gmap Key Pod) (key : Key) (p : Pod) :
  omap (cleanedPod ns sel now) t !! key = Some p ->
  selected ns sel (PodMeta p) = true ->
  FinalizerName ∉ Finalizers (PodMeta p).
Proof.
  rewrite lookup_omap. intros Hl Hsel.
  destruct (t !! key) as [p0|]; [|discriminate Hl].
  cbn [mbind option_bind] in Hl. unfold cleanedPod in Hl.
  destruct (selected ns sel (PodMeta p0)) eqn:Hsel0;
    [|injection Hl as ->; congruence].
  assert (Hfs : Finalizers (PodMeta p)
                = filter (fun x => x ≠ FinalizerName) (Finalizers (PodMeta p0))).
  { unfold reap, RemoveFinalizer in Hl.
    cbn [fst objectMeta setObjectMeta Pod_Object PodMeta Finalizers
         withFinalizers] in Hl.
    destruct (filter (fun x => x ≠ FinalizerName) (Finalizers (PodMeta p0)))
      as [|fz fs]; [discriminate Hl|].
    cbn [DeletionTimestamp withFinalizers withDeletionTimestamp] in Hl.
    destruct (DeletionTimestamp (PodMeta p0)); injection Hl as <-; reflexivity. }
  rewrite Hfs. intros [Hne _]%list_elem_of_filter. apply Hne. reflexivity.
Qed.

(** A labelled pod that no other finalizer holds is gone after a cleanup. *)
Lemma cleanedPod_gone (ns : string) (sel : gmap string string) (now : Z)
    (t : gmap Key Pod) (key : Key) (p : Pod) :
  t !! key = Some p ->
  selected ns sel (PodMeta p) = true ->
  filter (fun x => x ≠ FinalizerName) (Finalizers (PodMeta p)) = [] ->
  omap (cleanedPod ns sel now) t !! key = None.
Proof.
  intros Hl Hsel Hfs. rewrite lookup_omap, Hl. cbn [mbind option_bind].
  unfold cleanedPod. rewrite Hsel. unfold reap, RemoveFinalizer.
  cbn [fst objectMeta setObjectMeta Pod_Object PodMeta Finalizers
       withFinalizers].
  rewrite Hfs. reflexivity.
Qed.

(** A pod without the labels stays as it is. *)
Lemma cleanedPod_other (ns : string) (sel : gmap string string) (now : Z)
    (t : gmap Key Pod) (key : Key) (p : Pod) :
  t !! key = Some p ->
  selected ns sel (PodMeta p) = false ->
  omap (cleanedPod ns sel now) t !! key = Some p.
Proof.
  intros Hl Hsel. rewrite lookup_omap, Hl. cbn [mbind option_bind].
  unfold cleanedPod. rewrite Hsel. reflexivity.
Qed.

(** A cleanup of labelled objects that are settled, none of the pods
    carrying the finalizer, changes nothing when the server answers. *)
Lemma removeAll_settled recLabels w :
  quiet 4 w ->
  settled (Namespace (DevboxMeta (devbox w))) recLabels (pods (cluster w)) ->
  settled (Namespace (DevboxMeta (devbox w))) recLabels (services (cluster w)) ->
  settled (Namespace (DevboxMeta (devbox w))) recLabels (secrets (cluster w)) ->
  Forall (fun p => FinalizerName ∉ Finalizers (PodMeta p))
         (observedPods (Namespace (DevboxMeta (devbox w))) recLabels (cluster w)) ->
  (removeAll recLabels w).1 = Done None
  /\ cluster (removeAll recLabels w).2 = cluster w.
Proof.
  intros Hq Hp Hs Hk Hnone.
  pose proof (quiet_nth 4 w 0 Hq ltac:(lia)) as Hq0.
  pose proof (quiet_nth 4 w 1 Hq ltac:(lia)) as Hq1.
  pose proof (quiet_nth 4 w 2 Hq ltac:(lia)) as Hq2.
  pose proof (quiet_nth 4 w 3 Hq ltac:(lia)) as Hq3.
  cbn [Nat.iter nat_rect] in Hq0, Hq1, Hq2, Hq3.
  unfold removeAll. step.
  rewrite bind_run, client_List_pods_run. unfold nextFault. rewrite Hq0.
  rewrite bind_run, stripFinalizers_none by exact Hnone.
  rewrite bind_run, deleteResourcesByLabels_run. cbv zeta. wsimpl.
  rewrite Hq1.
  rewrite bind_run, deleteResourcesByLabels_run. cbv zeta. wsimpl.
  rewrite Hq2.
  rewrite deleteResourcesByLabels_run. cbv zeta. wsimpl.
  rewrite Hq3.
  split; [reflexivity|]. wsimpl. osimpl.
  rewrite (reaped_settled (T:=Pod) _ _ _ _ Hp),
    (reaped_settled (T:=Service) _ _ _ _ Hs),
    (reaped_settled (T:=Secret) _ _ _ _ Hk).
  destruct (cluster w); reflexivity.
Qed.

(** The end of a deletion pass that returns no error, for a devbox that
    carries the finalizer and is stored under its own name. *)
Lemma Reconcile_released r req w d w' :
  devboxes (cluster w) !! req = Some d ->
  keyOf (DevboxMeta d) = req ->
  DeletionTimestamp (DevboxMeta d) <> None ->
  FinalizerName ∈ Finalizers (DevboxMeta d) ->
  Reconcile r req w = (Done None, w') ->
  devboxes (cluster w') !! req
  = match filter (fun x => x ≠ FinalizerName) (Finalizers (DevboxMeta d)) with
    | [] => None
    | fs => Some {| DevboxMeta := withFinalizers fs (DevboxMeta d);
                    Spec := Spec d; Status := Status d |}
    end.
Proof.
  intros Hd Hkey Hdel Hin Hrun.
  destruct (DeletionTimestamp (DevboxMeta d)) as [ts|] eqn:Hts;
    [clear Hdel | contradiction].
  assert (Hq : nextFault w = None).
  { destruct (nextFault w) as [f|] eqn:Hf; [|reflexivity]. exfalso.
    unfold Reconcile in Hrun. step_in Hrun.
    rewrite bind_run, client_Get_run in Hrun. wsimpl_in Hrun.
    unfold nextFault in Hf. rewrite Hf in Hrun.
    cbn in Hrun. rewrite fault_not_NotFound in Hrun. discriminate Hrun. }
  rewrite (Reconcile_deleted r req w d Hd) in Hrun;
    [| rewrite Hts; discriminate | exact Hq].
  apply bind_inv in Hrun as (e1 & w1 & Hrm & Hrun).
  destruct e1 as [e1|]; [apply ret_inv in Hrun as [[=] _]|].
  match type of Hrm with removeAll ?l _ = _ =>
    pose proof (keeps_devbox_removeAll l (fetched req d w)) as Hkeep end.
  rewrite Hrm in Hkeep. unfold same in Hkeep. cbn in Hkeep.
  injection Hkeep as Hboxes Hcell.
  step_in Hrun. rewrite Hcell in Hrun.
  unfold RemoveFinalizer in Hrun. cbv beta iota zeta in Hrun.
  rewrite removed_iff_member in Hrun. cbn [objectMeta Devbox_Object] in Hrun.
  rewrite bool_decide_eq_true_2 in Hrun by exact Hin.
  step_in Hrun. unfold Update_devbox in Hrun.
  repeat (rewrite bind_run in Hrun; wsimpl_in Hrun).
  rewrite client_Update_run in Hrun. cbv zeta in Hrun.
  wsimpl_in Hrun. osimpl_in Hrun.
  cbn [DevboxMeta Spec Status withStatus] in Hrun.
  rewrite keyOf_withFinalizers, Hkey in Hrun.
  destruct (headFault (faults w1)) as [f|]; [discriminate Hrun|].
  rewrite Hboxes, Hd in Hrun.
  cbn [withStatus DevboxMeta Spec Status] in Hrun.
  rewrite DeletionTimestamp_withDeletionTimestamp, Hts in Hrun.
  cbn [Finalizers withDeletionTimestamp withFinalizers] in Hrun.
  destruct (filter (fun x => x ≠ FinalizerName) (Finalizers (DevboxMeta d)))
    as [|fz fs] eqn:Hfs.
  - repeat (rewrite bind_run in Hrun; wsimpl_in Hrun).
    injection Hrun as <-. wsimpl. osimpl. rewrite Hboxes.
    rewrite lookup_delete_eq. reflexivity.
  - repeat (rewrite bind_run in Hrun; wsimpl_in Hrun).
    injection Hrun as <-. wsimpl. osimpl. rewrite Hboxes.
    rewrite lookup_insert_eq.
    f_equal. destruct d as [m sp stt]; cbn in *. destruct m; cbn in *.
    rewrite Hts. reflexivity.
Qed.

(** [client.IgnoreNotFound] drops a not-found answer, whatever call gave
    it, and lets no not-found through. *)
Lemma ignoringNotFound_absent (call : M (option error)) w e w' :
  call w = (Done (Some e), w') -> IsNotFound e = true ->
  ignoringNotFound call w = (Done None, w').
Proof.
  intros Hcall Hnf. unfold ignoringNotFound. rewrite bind_run, Hcall.
  cbn [IgnoreNotFound]. rewrite Hnf. reflexivity.
Qed.

Lemma ignoringNotFound_other (call : M (option error)) w e w' :
  ignoringNotFound call w = (Done (Some e), w') -> IsNotFound e = false.
Proof.
  unfold ignoringNotFound. intros Hrun.
  apply bind_inv in Hrun as (err & w1 & _ & Hret).
  apply ret_inv in Hret as [Herr _].
  symmetry in Herr. exact (IgnoreNotFound_Some _ _ Herr).
Qed.

(** C9.  A pass for a devbox under deletion runs the cleanup on the devbox
    it has read, and the cleanup never panics and never writes devboxes.
    When the cleanup returns no error it has listed the labelled pods,
    then updated each of them that carried the finalizer, then deleted by
    label the pods, the services and the secrets, in this order, and the
    pass goes on with the one update that takes the finalizer from the
    devbox.  In a store that keeps each pod under its own name, what such a
    cleanup leaves is exactly this: every labelled pod has lost the
    finalizer and is deleted (it is gone unless another finalizer holds
    it), every labelled service and secret is deleted, and everything else
    is as it was; so no labelled pod that is left carries the finalizer, a
    labelled pod that nothing else holds is gone, and a second cleanup the
    server answers returns no error and changes nothing.  A pass that
    returns no error, for a devbox stored under its own name with the
    finalizer, has had a cleanup without error and leaves the devbox
    released: gone when the finalizer was its only one, stored without it
    otherwise.  When the cleanup returns an error the pass ends there with
    it, and the devbox is stored as it was.  [deleteResourcesByLabels] is
    [client.IgnoreNotFound] of the answer of [DeleteAllOf]: a not-found
    answer, of whatever call, becomes no error, and no not-found is let
    through. *)
Theorem cleanup_precedes_finalizer_removal r req w d :
  devboxes (cluster w) !! req = Some d ->
  DeletionTimestamp (DevboxMeta d) <> None ->
  nextFault w = None ->
  let ns := Namespace (DevboxMeta d) in
  let recLabels :=
    RecommendedLabels {| RecName := Name (DevboxMeta d);
                         ManagedBy := DefaultManagedBy;
                         PartOf := DevBoxPartOf |} in
  let now := clock w (reads w) in
  let cleanup := removeAll recLabels (fetched req d w) in
  let again := removeAll recLabels cleanup.2 in
  let pass := Reconcile r req w in
  (exists res, cleanup.1 = Done res)
  /\ devboxes (cluster cleanup.2) = devboxes (cluster w)
  /\ (cleanup.1 = Done None ->
      calls cleanup.2 =
        (calls (fetched req d w)
         ++ cleanupCalls ns (observedPods ns recLabels (cluster w)))%list
      /\ settled ns recLabels (pods (cluster cleanup.2))
      /\ settled ns recLabels (services (cluster cleanup.2))
      /\ settled ns recLabels (secrets (cluster cleanup.2))
      /\ calls pass.2 = (calls cleanup.2 ++ releaseCalls d)%list)
  /\ (sound (pods (cluster w)) -> cleanup.1 = Done None ->
      pods (cluster cleanup.2)
      = omap (cleanedPod ns recLabels now) (pods (cluster w))
      /\ services (cluster cleanup.2)
         = omap (cleaned ns recLabels now) (services (cluster w))
      /\ secrets (cluster cleanup.2)
         = omap (cleaned ns recLabels now) (secrets (cluster w))
      /\ (forall key p,
            pods (cluster cleanup.2) !! key = Some p ->
            selected ns recLabels (PodMeta p) = true ->
            FinalizerName ∉ Finalizers (PodMeta p))
      /\ (forall key p,
            pods (cluster w) !! key = Some p ->
            selected ns recLabels (PodMeta p) = true ->
            filter (fun x => x ≠ FinalizerName) (Finalizers (PodMeta p)) = [] ->
            pods (cluster cleanup.2) !! key = None)
      /\ (quiet 4 cleanup.2 ->
          again.1 = Done None /\ cluster again.2 = cluster cleanup.2))
  /\ (keyOf (DevboxMeta d) = req ->
      FinalizerName ∈ Finalizers (DevboxMeta d) ->
      pass.1 = Done None ->
      cleanup.1 = Done None
      /\ devboxes (cluster pass.2) !! req
         = match filter (fun x => x ≠ FinalizerName)
                        (Finalizers (DevboxMeta d)) with
           | [] => None
           | fs => Some {| DevboxMeta := withFinalizers fs (DevboxMeta d);
                           Spec := Spec d; Status := Status d |}
           end)
  /\ (cleanup.1 <> Done None ->
      pass = cleanup /\ devboxes (cluster pass.2) !! req = Some d)
  /\ (forall T (O : Object T) ns' sel,
        deleteResourcesByLabels T ns' sel
        = ignoringNotFound (client_DeleteAllOf (T:=T) ns' sel))
  /\ (forall call w0 e w0',
        call w0 = (Done (Some e), w0') -> IsNotFound e = true ->
        ignoringNotFound call w0 = (Done None, w0'))
  /\ (forall call w0 e w0',
        ignoringNotFound call w0 = (Done (Some e), w0') ->
        IsNotFound e = false).
Proof.
  intros Hd Hdel Hf ns recLabels now cleanup again pass.
  pose proof (Reconcile_deleted r req w d Hd Hdel Hf) as Hpass.
  fold recLabels in Hpass. fold pass in Hpass.
  pose proof (keeps_devbox_removeAll recLabels (fetched req d w)) as Hkeep.
  fold cleanup in Hkeep. unfold same in Hkeep. cbn in Hkeep.
  injection Hkeep as Hboxes Hcell.
  destruct (total_removeAll recLabels (fetched req d w)) as (res & w2 & Hrm).
  fold cleanup in Hrm.
  rewrite bind_run in Hpass. fold cleanup in Hpass.
  assert (Herr : cleanup.1 <> Done None -> pass = cleanup).
  { intros Hres. rewrite Hpass, Hrm in *. cbn [fst] in Hres.
    destruct res as [e|]; [reflexivity | contradiction]. }
  split; [exists res; rewrite Hrm; reflexivity|].
  split; [exact Hboxes|].
  split; [|split; [|split; [|split; [|split; [|split]]]]].
  - intros Hres. rewrite Hrm in Hres. injection Hres as ->.
    destruct (removeAll_ok _ _ _ Hrm) as (Hcalls & Hp & Hs & Hk).
    rewrite Hrm in *. cbn [fst snd] in *.
    refine (conj Hcalls (conj Hp (conj Hs (conj Hk _)))).
    rewrite Hpass. step. rewrite Hcell.
    unfold RemoveFinalizer, releaseCalls. cbv beta iota zeta.
    rewrite removed_iff_member. cbn [objectMeta Devbox_Object].
    destruct (decide (FinalizerName ∈ Finalizers (DevboxMeta d))) as [Hin|Hnot].
    + rewrite !bool_decide_eq_true_2 by exact Hin.
      step. unfold Update_devbox. repeat (rewrite bind_run; wsimpl).
      match goal with
      | |- context [client_Update ?o ?wx] =>
          pose proof (client_Update_calls o wx) as Hc;
          destruct (client_Update o wx) as [[[o'|e]|msg] w3]
      end; exact Hc.
    + rewrite !bool_decide_eq_false_2 by exact Hnot.
      step. rewrite app_nil_r. reflexivity.
  - intros Hsound Hres. rewrite Hrm in Hres. injection Hres as ->.
    destruct (removeAll_ok _ _ _ Hrm) as (_ & Hp & Hs & Hk).
    destruct (removeAll_state recLabels (fetched req d w) w2 Hsound Hrm)
      as (Hpods & Hsvcs & Hsecs).
    unfold again. rewrite Hrm in *. cbn [fst snd] in *.
    assert (Hfree : forall key p,
               pods (cluster w2) !! key = Some p ->
               selected ns recLabels (PodMeta p) = true ->
               FinalizerName ∉ Finalizers (PodMeta p)).
    { intros key p Hl. rewrite Hpods in Hl.
      exact (cleanedPod_released _ _ _ _ _ _ Hl). }
    refine (conj Hpods (conj Hsvcs (conj Hsecs (conj Hfree (conj _ _))))).
    + intros key p Hl Hsel Hfs. rewrite Hpods.
      exact (cleanedPod_gone _ _ _ _ _ _ Hl Hsel Hfs).
    + intros Hq. apply removeAll_settled; rewrite ?Hcell; try assumption.
      apply Forall_forall. intros p [[key Hl] Hsel]%observedPods_elem.
      exact (Hfree key p Hl Hsel).
  - intros Hkey Hin Hres.
    assert (Hclean : cleanup.1 = Done None).
    { destruct res as [e|]; [|rewrite Hrm; reflexivity].
      rewrite Herr in Hres by (rewrite Hrm; discriminate).
      rewrite Hrm in Hres. discriminate Hres. }
    split; [exact Hclean|].
    apply (Reconcile_released r req w d pass.2 Hd Hkey Hdel Hin).
    clear Hpass Herr. unfold pass in *.
    destruct (Reconcile r req w) as [o wp]. cbn in Hres |- *.
    rewrite Hres. reflexivity.
  - intros Hres. split; [exact (Herr Hres)|].
    rewrite (Herr Hres), Hboxes. exact Hd.
  - intros T O ns' sel. reflexivity.
  - intros call w0 e w0'. apply ignoringNotFound_absent.
  - intros call w0 e w0'. apply ignoringNotFound_other.
Qed.

End Cleanup.

(* ===================================================================== *)
(** ** The proxy of a WebSocket devbox (C2)                               *)
(* ===================================================================== *)

#[global] Instance holds_reflexive P : Reflexive (holds P).
Proof. intros w Hw. exact Hw. Qed.

#[global] Instance holds_transitive P : Transitive (holds P).
Proof. intros w1 w2 w3 H12 H23 Hw. exact (H23 (H12 Hw)). Qed.

(** A step that leaves the devbox held and the devboxes stored as they are
    leaves them in sync. *)
Lemma keeps_inSync {A} req sp (m : M A) :
  keeps (same (fun w => (devbox w, devboxes (cluster w)))) m ->
  keeps (holds (inSync req sp)) m.
Proof.
  intros Hm w. specialize (Hm w). unfold same in Hm.
  injection Hm as Hcell Hboxes. unfold holds, inSync.
  rewrite Hcell, Hboxes. trivial.
Qed.

Section Frames.
Context `{Helper} `{Libraries}.

Lemma keeps_proxy_Reconcile_syncPod r req recLabels :
  keeps (same (fun w => (deployments (cluster w), ingresses (cluster w))))
        (Reconcile_syncPod r req recLabels).
Proof.
  unfold Reconcile_syncPod, syncPod, syncPod_deferred, createPod, deletePod,
    handlePodDeleted, generateNextCommitHistory, generateImageName,
    getRuntime, Recorder_Eventf, setPod, Update_devbox, Status_Update_devbox,
    index0.
  keeps_steps ltac:(reflexivity).
Qed.

(** What the steps before and between leave as it is. *)
Lemma keeps_proxy_syncSecret recLabels :
  keeps (same (fun w => (devbox w, devboxes (cluster w),
                         deployments (cluster w), ingresses (cluster w))))
        (syncSecret recLabels).
Proof.
  unfold syncSecret, setData. keeps_steps ltac:(reflexivity).
Qed.

Lemma keeps_proxy_getServicePort :
  keeps (same (fun w => (devbox w, devboxes (cluster w),
                         deployments (cluster w), ingresses (cluster w))))
        getServicePort.
Proof.
  unfold getServicePort, getRuntime. keeps_steps ltac:(reflexivity).
Qed.

Lemma keeps_proxy_syncPodSvc recLabels servicePorts :
  keeps (same (fun w => (devbox w, devboxes (cluster w),
                         deployments (cluster w), ingresses (cluster w))))
        (syncPodSvc recLabels servicePorts).
Proof.
  unfold syncPodSvc, getRuntime, CreateOrUpdate.
  keeps_steps ltac:(reflexivity).
Qed.

Lemma keeps_proxy_syncProxySvc :
  keeps (same (fun w => (devbox w, devboxes (cluster w),
                         deployments (cluster w), ingresses (cluster w))))
        syncProxySvc.
Proof.
  unfold syncProxySvc, getRuntime, CreateOrUpdate.
  keeps_steps ltac:(reflexivity).
Qed.

Lemma keeps_proxy_syncProxyPod r recLabels servicePorts :
  keeps (same (fun w => (devbox w, devboxes (cluster w),
                         ingresses (cluster w))))
        (syncProxyPod r recLabels servicePorts).
Proof.
  unfold syncProxyPod, generateProxyPodDeployment, generateProxyPodEnv,
    generateProxyPodJWT, generateProxyPodName, getRuntime, CreateOrUpdate.
  keeps_steps ltac:(reflexivity).
Qed.

Lemma keeps_proxy_generateProxyPodDeployment r recLabels servicePorts :
  keeps (same (fun w => (devbox w, deployments (cluster w))))
        (generateProxyPodDeployment r recLabels servicePorts).
Proof.
  unfold generateProxyPodDeployment, generateProxyPodEnv,
    generateProxyPodJWT, generateProxyPodName, getRuntime.
  keeps_steps ltac:(reflexivity).
Qed.

Lemma keeps_proxy_syncProxyIngress r :
  keeps (same (fun w => (devbox w, devboxes (cluster w),
                         deployments (cluster w))))
        (syncProxyIngress r).
Proof.
  unfold syncProxyIngress, generateProxyIngressHost, CreateOrUpdate.
  keeps_steps ltac:(reflexivity).
Qed.

Lemma keeps_proxy_Status_Update_devbox :
  keeps (same (fun w => (deployments (cluster w), ingresses (cluster w))))
        Status_Update_devbox.
Proof. unfold Status_Update_devbox. keeps_steps ltac:(reflexivity). Qed.

(** The status update leaves the devbox held and the devbox stored in
    sync: what it leaves in the devbox held is what is stored. *)
Lemma keeps_inSync_Status_Update_devbox req sp :
  keeps (holds (inSync req sp)) Status_Update_devbox.
Proof.
  intros w (Hkey & Hsp & x & Hx & Hxkey & Hxsp).
  unfold Status_Update_devbox. step.
  rewrite bind_run, client_Status_Update_run. cbv zeta. rewrite Hkey.
  destruct (nextFault w) as [f|].
  - cbn. unfold inSync. cbn. eauto 10.
  - rewrite Hx. cbv beta iota. rewrite bind_run. wsimpl. osimpl.
    unfold inSync. cbn [devbox cluster devboxes setDevboxCell setCluster
                        setTable Devbox_Object snd updTable tick table
                        setFaults setCalls].
    rewrite lookup_insert_eq. cbn. eauto 10.
Qed.

Lemma keeps_inSync_modifyDevbox req sp f :
  (forall d, DevboxMeta (f d) = DevboxMeta d /\ Spec (f d) = Spec d) ->
  keeps (holds (inSync req sp)) (modifyDevbox f).
Proof.
  intros Hf w (Hkey & Hsp & Hx). unfold inSync. cbn.
  destruct (Hf (devbox w)) as [-> ->]. auto.
Qed.

(** The retried closure that adds the finalizer. *)
Lemma keeps_proxy_addFinalizer req n :
  keeps (same (fun w => (devbox w, deployments (cluster w),
                         ingresses (cluster w))))
        (RetryOnConflict n (
           latest ← client_Get (T:=Devbox) req;
           match latest with
           | Fail err => ret (IgnoreNotFound (Some err))
           | OK latestDevbox =>
               let '(latestDevbox, added) :=
                 AddFinalizer latestDevbox FinalizerName in
               if added then
                 u ← client_Update latestDevbox;
                 ret (errOf u)
               else ret None
           end)).
Proof. keeps_steps ltac:(reflexivity). Qed.

Lemma keeps_inSync_addFinalizer req sp n :
  keeps (holds (inSync req sp))
        (RetryOnConflict n (
           latest ← client_Get (T:=Devbox) req;
           match latest with
           | Fail err => ret (IgnoreNotFound (Some err))
           | OK latestDevbox =>
               let '(latestDevbox, added) :=
                 AddFinalizer latestDevbox FinalizerName in
               if added then
                 u ← client_Update latestDevbox;
                 ret (errOf u)
               else ret None
           end)).
Proof.
  apply keeps_RetryOnConflict; [typeclasses eauto..|].
  intros w (Hkey & Hsp & x & Hx & Hxkey & Hxsp).
  rewrite bind_run, client_Get_run. osimpl.
  destruct (nextFault w) as [f|] eqn:Hf.
  - unfold inSync. cbn. eauto 10.
  - rewrite Hx. cbv beta iota. unfold AddFinalizer.
    destruct (ContainsFinalizer x FinalizerName).
    + unfold inSync. cbn. eauto 10.
    + cbv beta iota.
      match goal with |- context [client_Update ?o] => set (x' := o) end.
      assert (Hk' : keyOf (DevboxMeta x') = req) by exact Hxkey.
      rewrite bind_run, client_Update_run. cbv zeta. osimpl. rewrite Hk'.
      wsimpl. destruct (headFault (tail (faults w))) as [f|].
      * unfold inSync. cbn. eauto 10.
      * rewrite Hx. subst x'. cbn.
        destruct (DeletionTimestamp (DevboxMeta x)) as [ts|];
          [destruct (Finalizers (DevboxMeta x) ++ [FinalizerName])%list
             eqn:Happ; [apply app_eq_nil in Happ as [_ [=]]|]|];
          unfold inSync; cbn; rewrite lookup_insert_eq; eauto 10.
Qed.

End Frames.

Section Owned.
Context {T : Type} `{Object T}.

(** The controller reference changes the owner references only. *)
Lemma SetControllerReference_meta (owner : Devbox) (o o1 : T) :
  SetControllerReference owner o = OK o1 ->
  Finalizers (objectMeta o1) = Finalizers (objectMeta o)
  /\ DeletionTimestamp (objectMeta o1) = DeletionTimestamp (objectMeta o).
Proof.
  unfold SetControllerReference.
  repeat case_match; intros Hr; try discriminate Hr;
    injection Hr as <-; rewrite objectMeta_setObjectMeta; split; reflexivity.
Qed.

(** After a successful [CreateOrUpdate] that sets the controller reference
    the object is stored, for a kind the server stores as it is given. *)
Lemma CreateOrUpdate_owned (owner : Devbox) (obj : T) w o w' :
  (forall old new : T, prepareForUpdate old new = new) ->
  (forall (x : T) pool, allocate x pool = (x, pool)) ->
  sound (table (cluster w)) ->
  CreateOrUpdate obj (fun o => Done (SetControllerReference owner o)) w
  = (Done (OK o), w') ->
  is_Some (table (cluster w') !! keyOf (objectMeta obj)).
Proof.
  intros Hprep Halloc Hsound Hrun.
  apply CreateOrUpdate_ok in Hrun. cbv zeta in Hrun.
  destruct Hrun as (o1 & Hf & Hk &
    [[Hnone ->] | [[Hsome ->] | (old & Hold & Hcase)]]).
  - rewrite lookup_insert_eq. eauto.
  - eauto.
  - rewrite Hprep, Halloc in Hcase. cbn [fst] in Hcase.
    rewrite objectMeta_setObjectMeta in Hcase.
    destruct Hcase as [-> | (Hdt & Hfin & _)].
    + rewrite lookup_insert_eq. eauto.
    + exfalso. rewrite Hold in Hf. cbn [default] in Hf.
      injection Hf as Hf. apply SetControllerReference_meta in Hf as [Hfs _].
      cbn in Hdt, Hfin. rewrite Hfs in Hfin.
      destruct (Hsound _ _ Hold) as [_ Hheld]. exact (Hdt (Hheld Hfin)).
Qed.
End Owned.

(** What the run of a step tells of the world it leaves, from what the
    step keeps. *)
Ltac kept K lemma Hrun :=
  match type of Hrun with
  | ?m ?w0 = _ =>
      pose proof (lemma w0) as K; rewrite Hrun in K;
      unfold same, holds in K; cbn [snd] in K
  end.

Section Proxy.
Context `{Helper} `{Libraries}.

Lemma generateProxyPodDeployment_key r recLabels servicePorts w dep w' :
  generateProxyPodDeployment r recLabels servicePorts w = (Done (OK dep), w') ->
  keyOf (DeploymentMeta dep)
  = (Namespace (DevboxMeta (devbox w)),
     generateProxyPodDeploymentName (devbox w)).
Proof.
  unfold generateProxyPodDeployment. intros Hrun. step_in Hrun.
  apply bind_inv in Hrun as (rt & w1 & _ & Hrun).
  destruct rt as [runtimecr|err]; [|apply ret_inv in Hrun as [[=] _]].
  apply bind_inv in Hrun as (env & w2 & _ & Hrun).
  destruct env as [podEnv|err]; [|apply ret_inv in Hrun as [[=] _]].
  cbv zeta in Hrun. apply bind_inv in Hrun as (podName & w3 & _ & Hrun).
  apply ret_inv in Hrun as [Heq _]. injection Heq as ->. reflexivity.
Qed.

(** The ingress is upserted whatever the state of the devbox. *)
Lemma syncProxyIngress_ok r w host w' :
  sound (ingresses (cluster w)) ->
  syncProxyIngress r w = (Done (OK host), w') ->
  is_Some (ingresses (cluster w')
             !! (Namespace (DevboxMeta (devbox w)),
                 Name (DevboxMeta (devbox w)) +:+ "-proxy-ingress")).
Proof.
  intros Hsound Hrun. unfold syncProxyIngress in Hrun. step_in Hrun.
  unfold generateProxyIngressHost in Hrun.
  repeat (rewrite bind_run in Hrun; wsimpl_in Hrun).
  cbv zeta in Hrun.
  match type of Hrun with
  | context [CreateOrUpdate ?obj ?f ?w0] =>
      destruct (CreateOrUpdate obj f w0) as [[[o|e]|msg] w1] eqn:Hcou
  end; try discriminate Hrun.
  apply (CreateOrUpdate_owned (T:=Ingress)) in Hcou;
    [| reflexivity | reflexivity | exact Hsound].
  injection Hrun as _ <-. exact Hcou.
Qed.

(** For a Running devbox a successful sync of the proxy leaves its
    deployment stored. *)
Lemma syncProxyPod_running r recLabels servicePorts w w' :
  State (Spec (devbox w)) = DevboxStateRunning ->
  sound (deployments (cluster w)) ->
  syncProxyPod r recLabels servicePorts w = (Done None, w') ->
  is_Some (deployments (cluster w')
             !! (Namespace (DevboxMeta (devbox w)),
                 generateProxyPodDeploymentName (devbox w))).
Proof.
  intros Hst Hsound Hrun. unfold syncProxyPod in Hrun. step_in Hrun.
  rewrite bind_run, client_Get_run in Hrun. rewrite Hst in Hrun.
  rewrite bool_decide_eq_true_2 in Hrun by reflexivity.
  osimpl_in Hrun.
  destruct (nextFault w) as [f|].
  { rewrite fault_not_NotFound in Hrun. discriminate Hrun. }
  destruct (deployments (cluster w) !! _) as [found|] eqn:Hfound.
  { injection Hrun as <-. cbn. rewrite Hfound. eauto. }
  change (IsNotFound (NewNotFound _ _)) with true in Hrun.
  cbv beta iota in Hrun.
  apply bind_inv in Hrun as (gen & w1 & Hgen & Hrun).
  destruct gen as [wsDeployment|err]; [|apply ret_inv in Hrun as [[=] _]].
  apply bind_inv in Hrun as (res & w2 & Hcou & Hrun).
  apply ret_inv in Hrun as [Hres ->].
  destruct res as [o|e]; [|discriminate Hres].
  pose proof (keeps_proxy_generateProxyPodDeployment r recLabels servicePorts
                (tick {| CallVerb := VGet; CallKind := KDeployment;
                         CallKey := (Namespace (DevboxMeta (devbox w)),
                                     generateProxyPodDeploymentName (devbox w)) |}
                      w)) as Hkeep.
  rewrite Hgen in Hkeep. unfold same in Hkeep. cbn in Hkeep.
  injection Hkeep as Hcell Hdeps.
  apply generateProxyPodDeployment_key in Hgen. cbn in Hgen.
  apply (CreateOrUpdate_owned (T:=Deployment)) in Hcou;
    [| reflexivity | reflexivity | cbn; rewrite Hdeps; exact Hsound].
  cbn in Hcou. rewrite Hgen in Hcou. exact Hcou.
Qed.

(** For a devbox that is not Running a successful sync of the proxy leaves
    no live deployment. *)
Lemma syncProxyPod_stopped r recLabels servicePorts w w' :
  State (Spec (devbox w)) <> DevboxStateRunning ->
  sound (deployments (cluster w)) ->
  syncProxyPod r recLabels servicePorts w = (Done None, w') ->
  ~ live (deployments (cluster w')
            !! (Namespace (DevboxMeta (devbox w)),
                generateProxyPodDeploymentName (devbox w))).
Proof.
  intros Hst Hsound Hrun. unfold syncProxyPod in Hrun. step_in Hrun.
  rewrite bind_run, client_Get_run in Hrun.
  rewrite bool_decide_eq_false_2 in Hrun by exact Hst.
  osimpl_in Hrun.
  destruct (nextFault w) as [f|].
  { rewrite fault_not_NotFound in Hrun. discriminate Hrun. }
  destruct (deployments (cluster w) !! _) as [found|] eqn:Hfound.
  - destruct (Hsound _ _ Hfound) as [Hkey _]. cbn in Hkey.
    cbv beta iota in Hrun. rewrite client_Delete_run in Hrun.
    cbv zeta in Hrun. osimpl_in Hrun.
    fold (keyOf (DeploymentMeta found)) in Hrun. rewrite Hkey in Hrun.
    wsimpl_in Hrun.
    destruct (headFault (tail (faults w))) as [f|]; [discriminate Hrun|].
    cbn [cluster tick setFaults setCalls deployments] in Hrun.
    rewrite Hfound in Hrun. injection Hrun as <-.
    intros (x & Hx & Hlive). revert Hx. unfold reap.
    destruct (Finalizers (objectMeta found)) as [|fz fs].
    + cbn. rewrite lookup_delete_eq. discriminate.
    + destruct (DeletionTimestamp (objectMeta found)) as [ts|] eqn:Hts;
        cbn; rewrite lookup_insert_eq; intros [= <-].
      * cbn in Hlive, Hts. congruence.
      * cbn in Hlive. discriminate Hlive.
  - change (IsNotFound (NewNotFound _ _)) with true in Hrun.
    injection Hrun as <-. cbn. rewrite Hfound.
    intros (x & Hx & _). discriminate Hx.
Qed.

Lemma inSync_same req sp w w1 :
  devbox w1 = devbox w -> devboxes (cluster w1) = devboxes (cluster w) ->
  inSync req sp w -> inSync req sp w1.
Proof. unfold inSync. intros -> ->. trivial. Qed.

(** The WebSocket network sync, when it returns no error: the proxy
    deployment is stored for a Running devbox and is not live for any
    other, and the proxy ingress is stored. *)
Lemma syncWebSocketNetwork_ok r recLabels servicePorts req sp w w' :
  inSync req sp w ->
  sound (deployments (cluster w)) ->
  sound (ingresses (cluster w)) ->
  syncWebSocketNetwork r recLabels servicePorts w = (Done None, w') ->
  (State sp <> DevboxStateRunning ->
   ~ live (deployments (cluster w') !! (req.1, req.2 +:+ "-proxy-deployment")))
  /\ (State sp = DevboxStateRunning ->
      is_Some (deployments (cluster w')
                 !! (req.1, req.2 +:+ "-proxy-deployment")))
  /\ is_Some (ingresses (cluster w') !! (req.1, req.2 +:+ "-proxy-ingress")).
Proof.
  intros Hsync Hdeps Hings Hrun. unfold syncWebSocketNetwork in Hrun.
  (* the status update *)
  apply bind_inv in Hrun as ([] & w1 & Hmod & Hrun).
  kept K1 (keeps_inSync_modifyDevbox req sp
             (withNetworkType NetworkTypeWebSocket)
             ltac:(intros d0; split; reflexivity)) Hmod.
  specialize (K1 Hsync).
  assert (Ht1 : deployments (cluster w1) = deployments (cluster w)
                /\ ingresses (cluster w1) = ingresses (cluster w))
    by (injection Hmod as <-; split; reflexivity).
  destruct Ht1 as [Hd1 Hi1]. rewrite <- Hd1 in Hdeps. rewrite <- Hi1 in Hings.
  clear Hmod Hsync Hd1 Hi1.
  apply bind_inv in Hrun as (e2 & w2 & Hst & Hrun).
  destruct e2 as [e2|]; [apply ret_inv in Hrun as [[=] _]|].
  kept K2 (keeps_inSync_Status_Update_devbox req sp) Hst. specialize (K2 K1).
  kept F2 keeps_proxy_Status_Update_devbox Hst. injection F2 as Hd2 Hi2.
  rewrite <- Hd2 in Hdeps. rewrite <- Hi2 in Hings.
  clear Hst K1 Hd2 Hi2.
  (* the service of the pod *)
  apply bind_inv in Hrun as (e3 & w3 & Hsvc & Hrun).
  destruct e3 as [e3|]; [apply ret_inv in Hrun as [[=] _]|].
  kept F3 (keeps_proxy_syncPodSvc recLabels servicePorts) Hsvc.
  injection F3 as Hc3 Hb3 Hd3 Hi3.
  pose proof (inSync_same _ _ _ _ Hc3 Hb3 K2) as K3.
  rewrite <- Hd3 in Hdeps. rewrite <- Hi3 in Hings.
  clear Hsvc K2 Hc3 Hb3 Hd3 Hi3.
  (* the proxy deployment *)
  apply bind_inv in Hrun as (e4 & w4 & Hpod & Hrun).
  destruct e4 as [e4|]; [apply ret_inv in Hrun as [[=] _]|].
  kept F4 (keeps_proxy_syncProxyPod r recLabels servicePorts) Hpod.
  injection F4 as Hc4 Hb4 Hi4.
  pose proof (inSync_same _ _ _ _ Hc4 Hb4 K3) as K4.
  rewrite <- Hi4 in Hings.
  destruct K3 as (Hkey & Hsp & _).
  assert (Hns : Namespace (DevboxMeta (devbox w3)) = req.1)
    by (rewrite <- Hkey; reflexivity).
  assert (Hname : Name (DevboxMeta (devbox w3)) = req.2)
    by (rewrite <- Hkey; reflexivity).
  assert (Hdep4 :
    (State sp <> DevboxStateRunning ->
     ~ live (deployments (cluster w4)
               !! (req.1, req.2 +:+ "-proxy-deployment")))
    /\ (State sp = DevboxStateRunning ->
        is_Some (deployments (cluster w4)
                   !! (req.1, req.2 +:+ "-proxy-deployment")))).
  { rewrite <- Hsp, <- Hns, <- Hname. split; intros Hstate.
    - exact (syncProxyPod_stopped _ _ _ _ _ Hstate Hdeps Hpod).
    - exact (syncProxyPod_running _ _ _ _ _ Hstate Hdeps Hpod). }
  clear Hpod Hdeps Hc4 Hb4 Hi4 Hkey Hsp Hns Hname.
  (* the service of the proxy *)
  apply bind_inv in Hrun as (e5 & w5 & Hpsvc & Hrun).
  destruct e5 as [e5|]; [apply ret_inv in Hrun as [[=] _]|].
  kept F5 keeps_proxy_syncProxySvc Hpsvc.
  injection F5 as Hc5 Hb5 Hd5 Hi5.
  pose proof (inSync_same _ _ _ _ Hc5 Hb5 K4) as K5.
  rewrite <- Hd5 in Hdep4. rewrite <- Hi5 in Hings.
  clear Hpsvc K4 Hc5 Hb5 Hd5 Hi5.
  (* the ingress *)
  apply bind_inv in Hrun as (res & w6 & Hing & Hrun).
  destruct res as [hostName|e6]; [|apply ret_inv in Hrun as [[=] _]].
  kept F6 (keeps_proxy_syncProxyIngress r) Hing.
  injection F6 as Hc6 Hb6 Hd6.
  rewrite <- Hd6 in Hdep4.
  apply (syncProxyIngress_ok _ _ _ _ Hings) in Hing.
  destruct K5 as (Hkey & _ & _).
  assert (Hns : Namespace (DevboxMeta (devbox w5)) = req.1)
    by (rewrite <- Hkey; reflexivity).
  assert (Hname : Name (DevboxMeta (devbox w5)) = req.2)
    by (rewrite <- Hkey; reflexivity).
  rewrite Hns, Hname in Hing.
  clear Hings Hc6 Hb6 Hd6 Hkey Hns Hname.
  (* the status update with the host *)
  apply bind_inv in Hrun as ([] & w7 & Hmod & Hrun).
  assert (Ht7 : deployments (cluster w7) = deployments (cluster w6)
                /\ ingresses (cluster w7) = ingresses (cluster w6))
    by (injection Hmod as <-; split; reflexivity).
  destruct Ht7 as [Hd7 Hi7].
  kept F8 keeps_proxy_Status_Update_devbox Hrun. injection F8 as Hd8 Hi8.
  rewrite Hd8, Hd7, Hi8, Hi7.
  destruct Hdep4 as [Hstopped Hrunning].
  split; [exact Hstopped | split; [exact Hrunning | exact Hing]].
Qed.

(** C2, as the code has it.  After a successful pass for a devbox in
    WebSocket mode that is not under deletion, on a store the server keeps:
    when the devbox is not Running its proxy deployment is not live (it is
    absent or under deletion), when it is Running the proxy deployment is
    stored, and in both cases the proxy ingress is stored. *)
Theorem proxy_deployment_follows_state r req w d w' :
  devboxes (cluster w) !! req = Some d ->
  keyOf (DevboxMeta d) = req ->
  DeletionTimestamp (DevboxMeta d) = None ->
  NetworkSpecType (Spec d) = NetworkTypeWebSocket ->
  sound (deployments (cluster w)) ->
  sound (ingresses (cluster w)) ->
  Reconcile r req w = (Done None, w') ->
  (State (Spec d) <> DevboxStateRunning ->
   ~ live (deployments (cluster w') !! (req.1, req.2 +:+ "-proxy-deployment")))
  /\ (State (Spec d) = DevboxStateRunning ->
      is_Some (deployments (cluster w')
                 !! (req.1, req.2 +:+ "-proxy-deployment")))
  /\ is_Some (ingresses (cluster w') !! (req.1, req.2 +:+ "-proxy-ingress")).
Proof.
  intros Hd Hkey Hdel Hws Hdeps Hings Hrun.
  unfold Reconcile in Hrun. step_in Hrun.
  rewrite bind_run, client_Get_run in Hrun. wsimpl_in Hrun. osimpl_in Hrun.
  destruct (headFault (faults w)) as [f|].
  { cbn in Hrun. rewrite fault_not_NotFound in Hrun. discriminate Hrun. }
  rewrite Hd in Hrun. cbv beta iota in Hrun. step_in Hrun.
  rewrite Hdel in Hrun. cbn [IsZero] in Hrun. cbv beta iota zeta in Hrun.
  match type of Hrun with
  | _ ?w0 = _ =>
      assert (Hsync : inSync req (Spec d) w0)
        by (unfold inSync; cbn; eauto 10)
  end.
  rename Hdeps into Hdeps0. rename Hings into Hings0. clear Hd.
  (* the finalizer *)
  apply bind_inv in Hrun as (e1 & w1 & Hfin & Hrun).
  destruct e1 as [e1|]; [apply ret_inv in Hrun as [[=] _]|].
  kept K1 (keeps_inSync_addFinalizer req (Spec d) DefaultRetrySteps) Hfin.
  specialize (K1 Hsync).
  kept F1 (keeps_proxy_addFinalizer req DefaultRetrySteps) Hfin.
  injection F1 as _ Hd1 Hi1.
  rewrite <- Hd1 in Hdeps0. rewrite <- Hi1 in Hings0.
  clear Hfin Hsync Hd1 Hi1.
  (* the network type in the status *)
  apply bind_inv in Hrun as ([] & w2 & Hmod & Hrun).
  match type of Hmod with
  | modifyDevbox ?f _ = _ =>
      kept K2 (keeps_inSync_modifyDevbox req (Spec d) f
                 ltac:(intros d0; split; reflexivity)) Hmod
  end.
  specialize (K2 K1).
  assert (Ht2 : deployments (cluster w2) = deployments (cluster w1)
                /\ ingresses (cluster w2) = ingresses (cluster w1))
    by (injection Hmod as <-; split; reflexivity).
  destruct Ht2 as [Hd2 Hi2].
  rewrite <- Hd2 in Hdeps0. rewrite <- Hi2 in Hings0.
  clear Hmod K1 Hd2 Hi2.
  apply bind_inv in Hrun as (e3 & w3 & Hst & Hrun).
  kept K3 (keeps_inSync_Status_Update_devbox req (Spec d)) Hst.
  specialize (K3 K2).
  kept F3 keeps_proxy_Status_Update_devbox Hst. injection F3 as Hd3 Hi3.
  rewrite <- Hd3 in Hdeps0. rewrite <- Hi3 in Hings0.
  clear Hst K2 Hd3 Hi3 e3.
  (* the secret *)
  apply bind_inv in Hrun as (e4 & w4 & Hsec & Hrun).
  destruct e4 as [e4|].
  { apply bind_inv in Hrun as (? & ? & _ & Hret).
    apply ret_inv in Hret as [[=] _]. }
  match type of Hsec with
  | syncSecret ?l _ = _ => kept F4 (keeps_proxy_syncSecret l) Hsec
  end.
  injection F4 as Hc4 Hb4 Hd4 Hi4.
  pose proof (inSync_same _ _ _ _ Hc4 Hb4 K3) as K4.
  rewrite <- Hd4 in Hdeps0. rewrite <- Hi4 in Hings0.
  clear Hsec K3 Hc4 Hb4 Hd4 Hi4.
  apply bind_inv in Hrun as ([] & w5 & Hev & Hrun).
  assert (Ht5 : devbox w5 = devbox w4 /\ cluster w5 = cluster w4)
    by (unfold Recorder_Eventf in Hev; cbn in Hev; injection Hev as <-;
        split; reflexivity).
  destruct Ht5 as [Hc5 Hcl5].
  pose proof (inSync_same _ _ w4 w5 Hc5 ltac:(rewrite Hcl5; reflexivity) K4)
    as K5.
  rewrite <- Hcl5 in Hdeps0, Hings0.
  clear Hev K4 Hc5 Hcl5.
  (* the network *)
  apply bind_inv in Hrun as (e6 & w6 & Hnet & Hrun).
  destruct e6 as [e6|].
  { apply bind_inv in Hrun as (? & ? & _ & Hret).
    apply ret_inv in Hret as [[=] _]. }
  (* the pod *)
  match type of Hrun with
  | Reconcile_syncPod _ _ ?l _ = _ =>
      kept F7 (keeps_proxy_Reconcile_syncPod r req l) Hrun
  end.
  injection F7 as Hd7 Hi7. rewrite Hd7, Hi7. clear Hrun Hd7 Hi7.
  unfold syncNetwork in Hnet.
  apply bind_inv in Hnet as (ports & w7 & Hports & Hnet).
  destruct ports as [servicePorts|e7]; [|apply ret_inv in Hnet as [[=] _]].
  kept F8 keeps_proxy_getServicePort Hports.
  injection F8 as Hc8 Hb8 Hd8 Hi8.
  pose proof (inSync_same _ _ _ _ Hc8 Hb8 K5) as K8.
  rewrite <- Hd8 in Hdeps0. rewrite <- Hi8 in Hings0.
  step_in Hnet. destruct K8 as (Hk8 & Hsp8 & Hx8).
  rewrite Hsp8, Hws in Hnet.
  exact (syncWebSocketNetwork_ok _ _ _ _ _ _ _
           (conj Hk8 (conj Hsp8 Hx8)) Hdeps0 Hings0 Hnet).
Qed.

End Proxy.

(* ===================================================================== *)
(** ** The events of a pass (C4)                                          *)
(* ===================================================================== *)

#[global] Instance emitsOnly_reflexive P : Reflexive (emitsOnly P).
Proof.
  intros w. exists []. rewrite app_nil_r. split; [reflexivity|constructor].
Qed.

#[global] Instance emitsOnly_transitive P : Transitive (emitsOnly P).
Proof.
  intros w1 w2 w3 (l & Hl & Pl) (l' & Hl' & Pl'). exists (l ++ l')%list.
  rewrite Hl', Hl, app_assoc. split; [reflexivity|].
  apply Forall_app. split; assumption.
Qed.

(** A step that emits nothing, and a step that emits one of the events of
    [passEvents]. *)
Ltac emits_tac :=
  first
    [ (exists []; split; [cbn; rewrite app_nil_r; reflexivity | constructor])
    | (eexists; split;
       [cbn; reflexivity
       |repeat constructor; unfold reported; cbn; unfold passEvents;
        repeat first [apply list_elem_of_here | apply list_elem_of_further]]) ].

Section Events.
Context `{Helper} `{Libraries}.

Lemma emits_same {A} (m : M A) :
  keeps (same events) m -> keeps (emitsOnly reported) m.
Proof.
  intros Hm w. exists []. rewrite app_nil_r. split; [apply Hm|constructor].
Qed.

Lemma emits_syncSecret recLabels :
  keeps (emitsOnly reported) (syncSecret recLabels).
Proof. unfold syncSecret, setData. keeps_steps ltac:(emits_tac). Qed.

Lemma emits_syncNetwork r recLabels :
  keeps (emitsOnly reported) (syncNetwork r recLabels).
Proof.
  unfold syncNetwork, syncNodePortNetwork, syncWebSocketNetwork,
    getServicePort, syncPodSvc, syncProxySvc, syncProxyPod, syncProxyIngress,
    generateProxyPodDeployment, generateProxyPodEnv, generateProxyPodJWT,
    generateProxyPodName, generateProxyIngressHost, getRuntime,
    CreateOrUpdate, Status_Update_devbox, Update_devbox.
  keeps_steps ltac:(emits_tac).
Qed.

Lemma emits_Reconcile_syncPod r req recLabels :
  keeps (emitsOnly reported) (Reconcile_syncPod r req recLabels).
Proof.
  unfold Reconcile_syncPod, syncPod, syncPod_deferred, createPod, deletePod,
    handlePodDeleted, generateNextCommitHistory, generateImageName,
    getRuntime, Recorder_Eventf, setPod, Update_devbox, Status_Update_devbox,
    index0.
  keeps_steps ltac:(emits_tac).
Qed.

Lemma emits_removeAll recLabels :
  keeps (emitsOnly reported) (removeAll recLabels).
Proof.
  apply emits_same. unfold removeAll, deleteResourcesByLabels.
  pose proof (keeps_stripFinalizers events) as Hstrip.
  keeps_steps ltac:(reflexivity).
  all: try (apply Hstrip; reflexivity).
Qed.

Lemma emits_Reconcile r req :
  keeps (emitsOnly reported) (Reconcile r req).
Proof.
  unfold Reconcile, Recorder_Eventf, Update_devbox, Status_Update_devbox.
  pose proof emits_syncSecret. pose proof (emits_syncNetwork r).
  pose proof (emits_Reconcile_syncPod r req). pose proof emits_removeAll.
  keeps_steps ltac:(emits_tac); auto.
Qed.

End Events.

(** C4.  Whatever the store holds and whatever the server answers, a pass
    hands the recorder only events of six kinds: the failure and the
    success of the secret sync, the failure of the network sync, the
    failure and the success of the pod sync, and the quota warning.  No
    event reports the success of the network sync.  On the devbox of the
    sample that carries the finalizer, a pass in which all three steps
    succeed (the NodePort service is stored and its port is in the status
    of the devbox) emits the success event of the secret sync and that of
    the pod sync (twice: once from [syncPod]'s deferred update and once
    from [Reconcile]), and none between them; with an outage at the first
    call of the network sync, the failure event of the network sync is
    emitted and the pass stops there with the error. *)
Theorem network_success_emits_no_event :
  (forall (helper : Helper) (libraries : Libraries) r req w,
     emitsOnly reported w (Reconcile r req w).2)
  /\ ((EventTypeNormal, "Sync network success") ∉ passEvents)
  /\ (Sample.pass Sample.kept).1 = Done None
  /\ Sample.eventReasons (Sample.pass Sample.kept).2
     = [(EventTypeNormal, "Sync secret success");
        (EventTypeNormal, "Sync pod success");
        (EventTypeNormal, "Sync pod success")]
  /\ Sample.servicePortNumbers (Sample.pass Sample.kept).2 = Some [22]
  /\ (fun d => NodePort (Network (Status d)))
       <$> devboxes (cluster (Sample.pass Sample.kept).2) !! ("ns", "box")
     = Some 30001
  /\ (Sample.pass Sample.keptOutage).1
     = Done (Some (StatusError StatusReasonInternalError "etcd unavailable"))
  /\ Sample.eventReasons (Sample.pass Sample.keptOutage).2
     = [(EventTypeNormal, "Sync secret success");
        (EventTypeWarning, "Sync network failed")].
Proof.
  split; [intros helper libraries r req w; apply emits_Reconcile|].
  split.
  { unfold passEvents. intros Hin.
    repeat (apply elem_of_cons in Hin as [[=]|Hin]).
    apply elem_of_nil in Hin. exact Hin. }
  repeat split; vm_compute; reflexivity.
Qed.

(* ===================================================================== *)
(** ** The theorems at the sample                                         *)
(* ===================================================================== *)

(** The quota case at the sample: the fourth call of the pod step of
    [Sample.quotaHit], the creation of the pod, is refused. *)
Lemma quota_exceeded_forces_stopped_witness :
  exists w',
    Sample.podStep Sample.quotaHit = (Done None, w')
    /\ State (Spec (devbox w')) = DevboxStateStopped
    /\ In (quotaWarning ("ns", "box")) (events w')
    /\ pods (cluster w') = ∅.
Proof.
  destruct (@quota_exceeded_forces_stopped Sample.helper Sample.libraries
              Sample.reconciler ("ns", "box") Sample.boxLabels Sample.quotaHit
              (Sample.box DevboxStateRunning NetworkTypeNodePort)
              Sample.runtime
              (FaultForbidden "pods is forbidden: exceeded quota") [])
    as (w' & Hrun & Hst & _ & Hev & Hpods & _);
    [reflexivity | reflexivity | reflexivity | reflexivity
    | vm_compute; reflexivity | reflexivity | reflexivity
    | vm_compute; reflexivity |].
  exists w'. repeat split; assumption.
Defined.

(** The pod step of [Sample.twins], where two pods carry the labels. *)
Lemma more_than_one_pod_is_reported_witness :
  exists w',
    Sample.podStep Sample.twins
    = (Done (Some (Errorf "more than one pod found")), w')
    /\ cluster w' = cluster Sample.twins.
Proof.
  destruct (@more_than_one_pod_is_reported Sample.helper Sample.libraries
              Sample.reconciler ("ns", "box") Sample.boxLabels Sample.twins
              (Sample.box DevboxStateRunning NetworkTypeNodePort))
    as (w' & Hrun & Hcluster & _);
    [reflexivity | vm_compute; lia | apply quiet_nil; reflexivity |].
  exists w'. split; assumption.
Defined.

(** The pod sync of [Sample.unreported], whose pod has no container
    status yet: the panic for the Stopped devbox, the error for the Running
    one. *)
Lemma stopped_path_indexes_without_guard_witness :
  (exists w', Sample.podSync (Sample.unreported DevboxStateStopped)
              = (Panicked indexPanic, w'))
  /\ (exists w', Sample.podSync (Sample.unreported DevboxStateRunning)
                 = (Done (Some (Errorf "pod container size is 0")), w')).
Proof.
  split.
  - destruct (@stopped_path_indexes_without_guard
                Sample.helper Sample.libraries Sample.reconciler
                Sample.boxLabels (Sample.unreported DevboxStateStopped)
                (Sample.barePod "box-a")) as [Hstopped _];
      [vm_compute; reflexivity | vm_compute; reflexivity | reflexivity |].
    apply Hstopped; [reflexivity | reflexivity | apply quiet_nil; reflexivity].
  - destruct (@stopped_path_indexes_without_guard
                Sample.helper Sample.libraries Sample.reconciler
                Sample.boxLabels (Sample.unreported DevboxStateRunning)
                (Sample.barePod "box-a")) as [_ Hrunning];
      [vm_compute; reflexivity | vm_compute; reflexivity | reflexivity |].
    apply Hrunning;
      [reflexivity | exists Sample.runtime; reflexivity
      | apply quiet_nil; reflexivity].
Defined.

(** The credential sync of [Sample.bareSecret]. *)
Lemma syncSecret_nil_data_panics_witness :
  exists w',
    Sample.secretSync
      (setDevboxCell (Sample.box DevboxStateRunning NetworkTypeNodePort)
                     Sample.bareSecret)
    = (Panicked nilMapPanic, w').
Proof.
  apply (@syncSecret_nil_data_panics Sample.helper Sample.boxLabels _
           {| SecretMeta := namedMeta "box" "ns" ∅; Data := None |});
    reflexivity.
Defined.

(** The network sync of the new NodePort devbox of the sample: the
    service is created and the platform assigns it the port 30001. *)
Lemma nodeport_network_sync_witness :
  exists w' svc,
    Sample.networkSync (Sample.held DevboxStateRunning NetworkTypeNodePort)
    = (Done None, w')
    /\ services (cluster w') !! ("ns", "box-svc") = Some svc
    /\ SType (ServiceSpecOf svc) = ServiceTypeNodePort
    /\ map portFields (SPorts (ServiceSpecOf svc))
       = [("devbox-ssh-port", 22, FromInt32 22, ProtocolTCP)]
    /\ firstNodePort (SPorts (ServiceSpecOf svc)) <> 0
    /\ NodePort (Network (Status (devbox w')))
       = firstNodePort (SPorts (ServiceSpecOf svc)).
Proof.
  destruct (@nodeport_network_sync Sample.helper Sample.libraries
              Sample.reconciler Sample.boxLabels
              (Sample.held DevboxStateRunning NetworkTypeNodePort))
    as (res & w' & Hrun & Hok & Hcreate); [reflexivity|].
  assert (Hres : res = None).
  { rewrite (Hcreate Sample.runtime
               (Sample.box DevboxStateRunning NetworkTypeNodePort));
      [ vm_compute; reflexivity | vm_compute; reflexivity
      | vm_compute; reflexivity | vm_compute; reflexivity
      | apply quiet_nil; reflexivity ]. }
  destruct (Hok Hres)
    as (rt & svc & Hrt & Hsvc & Htype & _ & Hports & Hnp & _ & _ & Hport).
  assert (Hsame : Some rt = Some Sample.runtime)
    by (rewrite <- Hrt; vm_compute; reflexivity).
  injection Hsame as ->.
  subst res. exists w', svc. split; [exact Hrun|]. split; [exact Hsvc|].
  split; [exact Htype|]. split; [exact Hports|].
  split; [exact Hnp | exact Hport].
Defined.

(** The proxy deployment of the WebSocket devbox of the sample: the clock
    of the sample moves by a second between two readings. *)
Lemma proxy_deployment_environment_witness :
  exists dep w' envs,
    Sample.proxyDeployment (Sample.held DevboxStateRunning NetworkTypeWebSocket)
    = (Done (OK dep), w')
    /\ map Env (Containers (TemplateSpec (Template (DeploymentSpecOf dep))))
       = [envs]
    /\ lookupEnv "ENABLE_AUTO_SHUTDOWN" envs = Some "true"
    /\ lookupEnv "AUTO_SHUTDOWN_INTERVAL" envs = Some "1h"
    /\ lookupEnv "JWT_TOKEN" envs = Some "HS256.box.ns.1700604801.key"
    /\ IssuedAt (Registered
                   (proxyClaims (Sample.held DevboxStateRunning
                                             NetworkTypeWebSocket)))
       = 1700000000
    /\ ExpiresAt (Registered
                    (proxyClaims (Sample.held DevboxStateRunning
                                              NetworkTypeWebSocket)))
       = 1700000000 + 604800 + 1.
Proof.
  assert (exists dep,
             (Sample.proxyDeployment
                (Sample.held DevboxStateRunning NetworkTypeWebSocket)).1
             = Done (OK dep)) as (dep & Hdep)
    by (eexists; vm_compute; reflexivity).
  destruct (Sample.proxyDeployment
              (Sample.held DevboxStateRunning NetworkTypeWebSocket))
    as [o w'] eqn:Hrun.
  cbn [fst] in Hdep. subst o.
  destruct (@proxy_deployment_environment Sample.helper Sample.libraries
              Sample.reconciler Sample.boxLabels
              (runtimeServicePorts Sample.runtime)
              (Sample.held DevboxStateRunning NetworkTypeWebSocket)
              dep w' Hrun)
    as (envs & token & Henvs & Htoggle & _ & Hinterval & Htoken & Hsign & _
        & _ & Hissued & _ & Hexp & _).
  exists dep, w', envs.
  split; [reflexivity|]. split; [exact Henvs|].
  split; [exact Htoggle|]. split; [exact Hinterval|].
  split; [|split; [exact Hissued|]].
  - rewrite Htoken. f_equal.
    assert (Hs : OK token = OK "HS256.box.ns.1700604801.key")
      by (rewrite <- Hsign; vm_compute; reflexivity).
    injection Hs as ->. reflexivity.
  - rewrite Hexp, Hissued. vm_compute. reflexivity.
Defined.

(** The deletion pass of [Sample.doomed], whose one pod carries the
    finalizer and nothing else: the pass returns no error, its calls are
    those of the cleanup and then the update that releases the devbox, the
    pod is gone after the cleanup, and no pod and no devbox is left. *)
Lemma cleanup_precedes_finalizer_removal_witness :
  (Sample.pass Sample.doomed).1 = Done None
  /\ calls (Sample.pass Sample.doomed).2 =
     [{| CallVerb := VGet; CallKind := KDevbox; CallKey := ("ns", "box") |};
      {| CallVerb := VList; CallKind := KPod; CallKey := ("ns", "") |};
      {| CallVerb := VUpdate; CallKind := KPod; CallKey := ("ns", "box-a") |};
      {| CallVerb := VDeleteAllOf; CallKind := KPod; CallKey := ("ns", "") |};
      {| CallVerb := VDeleteAllOf; CallKind := KService; CallKey := ("ns", "") |};
      {| CallVerb := VDeleteAllOf; CallKind := KSecret; CallKey := ("ns", "") |};
      {| CallVerb := VUpdate; CallKind := KDevbox; CallKey := ("ns", "box") |}]
  /\ pods (cluster Sample.doomed) !! ("ns", "box-a") = Some (Sample.barePod "box-a")
  /\ pods (cluster (@removeAll Sample.helper Sample.boxLabels
                      (fetched ("ns", "box") Sample.doomedBox Sample.doomed)).2)
     !! ("ns", "box-a") = None
  /\ pods (cluster (Sample.pass Sample.doomed).2) = ∅
  /\ devboxes (cluster (Sample.pass Sample.doomed).2) !! ("ns", "box") = None.
Proof.
  pose proof (@cleanup_precedes_finalizer_removal
                Sample.helper Sample.libraries Sample.reconciler ("ns", "box")
                Sample.doomed Sample.doomedBox) as Hthm.
  cbv zeta in Hthm.
  destruct Hthm as (_ & _ & Hok & Hstate & Hrel & _);
    [reflexivity | discriminate | reflexivity |].
  assert (Hpass : (Sample.pass Sample.doomed).1 = Done None)
    by (vm_compute; reflexivity).
  assert (Hpod : pods (cluster Sample.doomed) !! ("ns", "box-a")
                 = Some (Sample.barePod "box-a"))
    by (vm_compute; reflexivity).
  destruct Hok as (Hcleanup & _ & _ & _ & Hcalls); [vm_compute; reflexivity|].
  destruct Hstate as (_ & _ & _ & _ & Hgone & _);
    [unfold sound; apply (bool_decide_unpack _); vm_compute; exact I
    | vm_compute; reflexivity |].
  destruct Hrel as (_ & Hbox);
    [reflexivity | apply (bool_decide_unpack _); vm_compute; exact I
    | exact Hpass |].
  split; [exact Hpass|].
  split.
  { unfold Sample.pass. rewrite Hcalls, Hcleanup. vm_compute. reflexivity. }
  split; [exact Hpod|].
  split.
  { apply (Hgone _ _ Hpod); vm_compute; reflexivity. }
  split; [vm_compute; reflexivity|].
  refine (eq_trans Hbox _). vm_compute. reflexivity.
Defined.

(** The C7 sentence fails where a service with ports exists: the runtime of
    the sample declares the ports 8080 and 22, the stored service has one
    port, and after a successful pass for the devbox (which carries the
    finalizer, so that no write of the pass is of a stale copy) it still
    has one, the first declared port written over it. *)
Lemma nodeport_service_keeps_port_count :
  ~ ((Sample.pass Sample.grownKept).1 = Done None ->
     Sample.servicePortNumbers (Sample.pass Sample.grownKept).2
     = Some [8080; 22]).
Proof.
  intros Hclaim.
  assert (Hpass : (Sample.pass Sample.grownKept).1 = Done None)
    by (vm_compute; reflexivity).
  assert (Hports : Sample.servicePortNumbers (Sample.pass Sample.grownKept).2
                   = Some [8080])
    by (vm_compute; reflexivity).
  specialize (Hclaim Hpass). rewrite Hports in Hclaim. discriminate Hclaim.
Qed.

Lemma run_result {A} (p : outcome A * World) a : p.1 = a -> p = (a, p.2).
Proof. destruct p as [o w]. cbn. intros ->. reflexivity. Qed.

(** The pass of [Sample.halted], the WebSocket devbox stopped after its
    first pass. *)
Lemma proxy_deployment_follows_state_witness :
  ~ live (deployments (cluster (Sample.pass Sample.halted).2)
            !! ("ns", "box-proxy-deployment"))
  /\ is_Some (ingresses (cluster (Sample.pass Sample.halted).2)
                !! ("ns", "box-proxy-ingress")).
Proof.
  destruct (@proxy_deployment_follows_state
              Sample.helper Sample.libraries Sample.reconciler ("ns", "box")
              Sample.halted Sample.haltedBox (Sample.pass Sample.halted).2)
    as (Hstopped & _ & Hingress);
    [ vm_compute; reflexivity | vm_compute; reflexivity
    | vm_compute; reflexivity | vm_compute; reflexivity
    | unfold sound; apply (bool_decide_unpack _); vm_compute; exact I
    | unfold sound; apply (bool_decide_unpack _); vm_compute; exact I
    | apply run_result; vm_compute; reflexivity |].
  split; [apply Hstopped; vm_compute; discriminate | exact Hingress].
Defined.

(** The C2 sentence fails for the ingress: the pass of [Sample.halted]
    returns no error and takes the proxy deployment away, and the proxy
    ingress is stored as before. *)
Lemma stopped_devbox_keeps_proxy_ingress :
  ~ ((Sample.pass Sample.halted).1 = Done None ->
     deployments (cluster (Sample.pass Sample.halted).2)
       !! ("ns", "box-proxy-deployment") = None
     /\ ingresses (cluster (Sample.pass Sample.halted).2)
          !! ("ns", "box-proxy-ingress") = None).
Proof.
  intros Hclaim.
  assert (Hpass : (Sample.pass Sample.halted).1 = Done None)
    by (vm_compute; reflexivity).
  assert (Hhosts : Sample.ingressHosts (Sample.pass Sample.halted).2
                   = Some ["r3.ws.example"])
    by (vm_compute; reflexivity).
  destruct (Hclaim Hpass) as [_ Hnone].
  unfold Sample.ingressHosts in Hhosts. rewrite Hnone in Hhosts.
  discriminate Hhosts.
Qed.

(** The C8 sentence fails for the expiry: the deployment of the sample is
    generated with a token in its environment, and this token is not the
    one of claims that expire seven days after their issue time.  Its
    claims expire a second later, the second the clock of the sample has
    moved between the two readings [generateProxyPodJWT] takes. *)
Lemma proxy_token_expires_after_seven_days :
  ~ (is_Some (Sample.proxyToken
                (Sample.held DevboxStateRunning NetworkTypeWebSocket)) ->
     Sample.proxyToken (Sample.held DevboxStateRunning NetworkTypeWebSocket)
     = Sample.sevenDayToken
         (Sample.held DevboxStateRunning NetworkTypeWebSocket)).
Proof.
  intros Hclaim.
  assert (Htoken : Sample.proxyToken
                     (Sample.held DevboxStateRunning NetworkTypeWebSocket)
                   = Some "HS256.box.ns.1700604801.key")
    by (vm_compute; reflexivity).
  assert (Hseven : Sample.sevenDayToken
                     (Sample.held DevboxStateRunning NetworkTypeWebSocket)
                   = Some "HS256.box.ns.1700604800.key")
    by (vm_compute; reflexivity).
  rewrite Htoken, Hseven in Hclaim.
  specialize (Hclaim (mk_is_Some _ _ eq_refl)). discriminate Hclaim.
Qed.

(* ===================================================================== *)
(** ** Further properties: the first read and the credentials            *)
(* ===================================================================== *)

Section FirstRead.
Context `{Helper} `{Libraries}.

(** X1.  A pass for a name under which no devbox is stored ends with the
    first read: it returns no error when the server answers not-found (the
    devbox is gone, there is nothing to do) and the error when the server
    answers with one, and in both cases it has made the one [Get], emitted
    no event and written nothing. *)
Theorem reconcile_of_absent_devbox r req w :
  devboxes (cluster w) !! req = None ->
  exists w',
    Reconcile r req w
    = (Done match nextFault w with
            | Some f => Some (fault_error f)
            | None => None
            end, w')
    /\ cluster w' = cluster w
    /\ events w' = events w
    /\ calls w'
       = (calls w ++ [{| CallVerb := VGet; CallKind := KDevbox;
                         CallKey := req |}])%list.
Proof.
  intros Hnone. unfold Reconcile. step.
  rewrite bind_run, client_Get_run. wsimpl. osimpl.
  destruct (headFault (faults w)) as [f|].
  - cbn [IgnoreNotFound]. rewrite fault_not_NotFound.
    eexists. split; [reflexivity|]. repeat split; reflexivity.
  - rewrite Hnone.
    change (IgnoreNotFound (Some (NewNotFound KDevbox req))) with (@None error).
    eexists. split; [reflexivity|]. repeat split; reflexivity.
Qed.

End FirstRead.

Section CredentialsMore.
Context `{Helper} `{Libraries}.

(** X2.  A secret that has both fields is left alone: the credential sync
    reads it, returns no error, writes nothing and draws no random string. *)
Theorem complete_secret_is_left_alone recLabels w s m :
  secrets (cluster w)
    !! (Namespace (DevboxMeta (devbox w)), Name (DevboxMeta (devbox w)))
    = Some s ->
  Data s = Some m ->
  is_Some (m !! "SEALOS_DEVBOX_JWT_SECRET") ->
  is_Some (m !! "SEALOS_DEVBOX_AUTHORIZED_KEYS") ->
  nextFault w = None ->
  exists w',
    syncSecret recLabels w = (Done None, w')
    /\ cluster w' = cluster w
    /\ draws w' = draws w
    /\ calls w'
       = (calls w ++ [{| CallVerb := VGet; CallKind := KSecret;
                         CallKey := (Namespace (DevboxMeta (devbox w)),
                                     Name (DevboxMeta (devbox w))) |}])%list.
Proof.
  intros Hs Hm Hjwt Hauth Hq. unfold syncSecret. step.
  rewrite bind_run, client_Get_run. wsimpl. osimpl.
  unfold nextFault in Hq. rewrite Hq, Hs. cbv beta iota.
  assert (Hne : m <> ∅)
    by (intros ->; destruct Hjwt as [? Hj]; rewrite lookup_empty in Hj;
        discriminate Hj).
  step. rewrite (decodeSecret_some s m Hm Hne).
  rewrite !(hasData_lookup s m _ Hm).
  rewrite !bool_decide_eq_true_2 by assumption. cbn [negb].
  step. rewrite (hasData_lookup s m _ Hm).
  rewrite bool_decide_eq_true_2 by assumption. cbn [negb].
  eexists. split; [reflexivity|]. repeat split; reflexivity.
Qed.

(** X3.  A stored secret that has entries, under its own name and not
    under deletion: the credential sync never panics; when the server
    answers its calls it returns no error; and when it returns no error
    the secret is stored with the metadata it had and with data in which
    every entry it had is as it was, every key other than the two fields
    is as it was, and the two fields are there: the JWT secret, when it
    was missing, is the random string drawn, and the authorized keys,
    when they were missing, are the public key of the secret.  (A secret
    stored without entries is read back with a nil map.) *)
Theorem existing_secret_is_backfilled recLabels w s m :
  secrets (cluster w)
    !! (Namespace (DevboxMeta (devbox w)), Name (DevboxMeta (devbox w)))
    = Some s ->
  keyOf (SecretMeta s)
    = (Namespace (DevboxMeta (devbox w)), Name (DevboxMeta (devbox w))) ->
  DeletionTimestamp (SecretMeta s) = None ->
  Data s = Some m ->
  m <> ∅ ->
  exists res w',
    syncSecret recLabels w = (Done res, w')
    /\ (quiet 3 w -> res = None)
    /\ (res = None ->
        exists m',
          secrets (cluster w')
            !! (Namespace (DevboxMeta (devbox w)), Name (DevboxMeta (devbox w)))
          = Some {| SecretMeta := SecretMeta s; Data := Some m' |}
          /\ (forall k v, m !! k = Some v -> m' !! k = Some v)
          /\ (forall k, k <> "SEALOS_DEVBOX_JWT_SECRET" ->
                        k <> "SEALOS_DEVBOX_AUTHORIZED_KEYS" ->
                        m' !! k = m !! k)
          /\ (m !! "SEALOS_DEVBOX_JWT_SECRET" = None ->
              m' !! "SEALOS_DEVBOX_JWT_SECRET" = Some (entropy w (draws w)))
          /\ (m !! "SEALOS_DEVBOX_AUTHORIZED_KEYS" = None ->
              m' !! "SEALOS_DEVBOX_AUTHORIZED_KEYS"
              = Some (default "" (m !! "SEALOS_DEVBOX_PUBLIC_KEY")))).
Proof.
  intros Hs Hkey Hlive Hm Hne.
  destruct (syncSecret_backfills recLabels w s m Hs Hkey Hlive Hm Hne)
    as (res & w' & Hrun & Hquiet & Hok).
  exists res, w'. split; [exact Hrun|]. split; [exact Hquiet|]. intros Hres.
  exists (backfill (entropy w (draws w)) m).
  destruct (backfill_frame (entropy w (draws w)) m) as (Hkeep & Hother & _ & _).
  split; [exact (Hok Hres)|]. split; [exact Hkeep|]. split; [exact Hother|].
  split.
  - intros Hjwt. unfold backfill. rewrite Hjwt.
    destruct (<["SEALOS_DEVBOX_JWT_SECRET" := entropy w (draws w)]> m
                !! "SEALOS_DEVBOX_AUTHORIZED_KEYS");
      [|rewrite lookup_insert_ne by discriminate];
      rewrite lookup_insert_eq; reflexivity.
  - intros Hauth. unfold backfill.
    destruct (m !! "SEALOS_DEVBOX_JWT_SECRET") eqn:Hjwt.
    + rewrite Hauth, lookup_insert_eq. reflexivity.
    + rewrite (lookup_insert_ne m "SEALOS_DEVBOX_JWT_SECRET"
                 "SEALOS_DEVBOX_AUTHORIZED_KEYS") by discriminate.
      rewrite Hauth, lookup_insert_eq.
      rewrite lookup_insert_ne by discriminate. reflexivity.
Qed.

(** X4.  When no secret is stored under the devbox's name, the key pair
    is generated and the two calls go through, the credential sync creates
    the secret: named after the devbox, with the recommended labels, owned
    by the devbox, holding the key pair (the public key also as authorized
    keys) and a token drawn after the seed of the key pair. *)
Theorem absent_secret_is_created recLabels w publicKey privateKey :
  secrets (cluster w)
    !! (Namespace (DevboxMeta (devbox w)), Name (DevboxMeta (devbox w)))
    = None ->
  GenerateSSHKeyPair (entropy w (draws w)) = OK (publicKey, privateKey) ->
  quiet 2 w ->
  exists w',
    syncSecret recLabels w = (Done None, w')
    /\ secrets (cluster w')
         !! (Namespace (DevboxMeta (devbox w)), Name (DevboxMeta (devbox w)))
       = Some {| SecretMeta :=
                   withOwnerReferences
                     [{| OwnerKind := "Devbox";
                         OwnerName := Name (DevboxMeta (devbox w));
                         Controller := true |}]
                     (namedMeta (Name (DevboxMeta (devbox w)))
                                (Namespace (DevboxMeta (devbox w))) recLabels);
                 Data :=
                   Some (<["SEALOS_DEVBOX_JWT_SECRET" := entropy w (S (draws w))]>
                        (<["SEALOS_DEVBOX_PUBLIC_KEY" := publicKey]>
                        (<["SEALOS_DEVBOX_PRIVATE_KEY" := privateKey]>
                        (<["SEALOS_DEVBOX_AUTHORIZED_KEYS" := publicKey]> ∅)))) |}.
Proof.
  intros Hnone Hgen Hq.
  exact (syncSecret_creates recLabels w publicKey privateKey Hnone Hgen Hq).
Qed.

(** X5.  The credential sync writes nothing when it cannot read the
    secret: an error of the [Get] (the server never answers a fault with
    not-found) comes back wrapped as "failed to get secret", with the
    cluster as it was and no random string drawn. *)
Theorem unreadable_secret_is_reported recLabels w f :
  nextFault w = Some f ->
  exists w',
    syncSecret recLabels w
    = (Done (Some (Wrapf "failed to get secret" (fault_error f))), w')
    /\ cluster w' = cluster w /\ draws w' = draws w.
Proof.
  intros Hf. unfold syncSecret. step.
  rewrite bind_run, client_Get_run. wsimpl.
  unfold nextFault in Hf. rewrite Hf. cbv beta iota.
  cbn [IgnoreNotFound]. rewrite fault_not_NotFound.
  eexists. split; [reflexivity|]. split; reflexivity.
Qed.

(** X6.  When no secret is stored and the key pair cannot be generated,
    the credential sync returns the error wrapped as "failed to generate
    SSH key pair" and creates nothing: the cluster is as it was and the
    [Get] is its only call. *)
Theorem failed_key_generation_creates_nothing recLabels w err :
  nextFault w = None ->
  secrets (cluster w)
    !! (Namespace (DevboxMeta (devbox w)), Name (DevboxMeta (devbox w)))
    = None ->
  GenerateSSHKeyPair (entropy w (draws w)) = Fail err ->
  exists w',
    syncSecret recLabels w
    = (Done (Some (Wrapf "failed to generate SSH key pair" err)), w')
    /\ cluster w' = cluster w
    /\ calls w'
       = (calls w ++ [{| CallVerb := VGet; CallKind := KSecret;
                         CallKey := (Namespace (DevboxMeta (devbox w)),
                                     Name (DevboxMeta (devbox w))) |}])%list.
Proof.
  intros Hq Hnone Hgen. unfold syncSecret. step.
  rewrite bind_run, client_Get_run. wsimpl. osimpl.
  unfold nextFault in Hq. rewrite Hq, Hnone. cbv beta iota.
  change (IgnoreNotFound (Some (NewNotFound KSecret ?k))) with (@None error).
  cbv beta iota. step. rewrite Hgen.
  eexists. split; [reflexivity|]. split; reflexivity.
Qed.

End CredentialsMore.

(* ===================================================================== *)
(** ** Further properties: the pod of a devbox                            *)
(* ===================================================================== *)

#[global] Instance madeOnly_reflexive P : Reflexive (madeOnly P).
Proof. intros w. exists []. rewrite app_nil_r. split; [reflexivity|constructor]. Qed.

#[global] Instance madeOnly_transitive P : Transitive (madeOnly P).
Proof.
  intros w1 w2 w3 (l & Hl & Pl) (l' & Hl' & Pl'). exists (l ++ l')%list.
  rewrite Hl', Hl, app_assoc. split; [reflexivity|].
  apply Forall_app. split; assumption.
Qed.

Lemma keeps_defer_at {A} R `{!Transitive R} (d : M unit) (body : M A) w :
  R w (body w).2 -> keeps R d -> R w (defer d body w).2.
Proof.
  intros Hb Hd. unfold defer. destruct (body w) as [r w1].
  specialize (Hd w1). destruct (d w1) as [[[]|msg] w2]; cbn in *;
    transitivity w1; assumption.
Qed.

(** Calls that are no [Create]. *)
Ltac no_create_tac :=
  first
    [ (exists []; split; [cbn; rewrite app_nil_r; reflexivity | constructor])
    | (eexists; split;
       [cbn; reflexivity | repeat constructor; cbn; discriminate]) ].

Section PodNeverCreated.
Context `{Helper} `{Libraries}.

Lemma deferred_makes_no_create :
  keeps (madeOnly (fun c => CallVerb c <> VCreate)) syncPod_deferred.
Proof.
  unfold syncPod_deferred, Recorder_Eventf. keeps_steps ltac:(no_create_tac).
Qed.

Lemma deletePod_makes_no_create pod :
  keeps (madeOnly (fun c => CallVerb c <> VCreate)) (deletePod pod).
Proof.
  unfold deletePod, setPod, index0. keeps_steps ltac:(no_create_tac).
Qed.

Lemma handlePodDeleted_makes_no_create pod :
  keeps (madeOnly (fun c => CallVerb c <> VCreate)) (handlePodDeleted pod).
Proof.
  unfold handlePodDeleted, setPod, index0. keeps_steps ltac:(no_create_tac).
Qed.

(** X7.  The pod sync of a Stopped devbox sends no [Create]: whatever the
    store holds and whatever the server answers, every call it makes is a
    read, an update, a status update or a delete. *)
Theorem stopped_devbox_gets_no_pod r recLabels w :
  State (Spec (devbox w)) = DevboxStateStopped ->
  madeOnly (fun c => CallVerb c <> VCreate) w (syncPod r recLabels w).2.
Proof.
  intros Hst. unfold syncPod. step. step.
  rewrite bind_run, client_List_pods_run. wsimpl.
  destruct (headFault (faults w)) as [f|]; [no_create_tac|].
  step. destruct (bool_decide _); [no_create_tac|].
  match goal with
  | |- madeOnly _ _ (defer _ _ ?W).2 =>
      transitivity W; [no_create_tac|]
  end.
  apply keeps_defer_at; [typeclasses eauto | | apply deferred_makes_no_create].
  step. rewrite Hst.
  pose proof deletePod_makes_no_create as Hdel.
  pose proof handlePodDeleted_makes_no_create as Hgone.
  destruct (observedPods _ _ _) as [|pod [|pod' rest]];
    [reflexivity | | reflexivity].
  match goal with
  | |- madeOnly _ ?W (?m ?W).2 =>
      cut (keeps (madeOnly (fun c => CallVerb c <> VCreate)) m);
        [intros Hk; exact (Hk W)|]
  end.
  keeps_steps ltac:(no_create_tac).
  all: first [apply Hdel | apply Hgone].
Qed.

End PodNeverCreated.

Section PodPaths.
Context `{Helper} `{Libraries}.

Lemma generateNextCommitHistory_result r w :
  generateNextCommitHistory r w
  = (Done (nextCommitHistory r w),
     setDraws (S (S (draws w))) (setReads (S (S (reads w))) w)).
Proof.
  unfold generateNextCommitHistory, generateImageName.
  repeat step. reflexivity.
Qed.

(** The metadata of the pod of a devbox: the controller reference cannot
    be refused, since the pod is in the namespace of the devbox and has no
    owner yet, and the finalizer is added. *)
Lemma generateDevboxPod_meta r d rt c :
  PodMeta (generateDevboxPod r d rt c)
  = withFinalizers [FinalizerName]
      (withOwnerReferences
         [{| OwnerKind := "Devbox"; OwnerName := Name (DevboxMeta d);
             Controller := true |}]
         (withAnnotations (GeneratePodAnnotations d rt)
            (namedMeta (CPod c) (Namespace (DevboxMeta d))
                       (GeneratePodLabels d rt)))).
Proof.
  unfold generateDevboxPod, SetControllerReference, AddFinalizer,
    ContainsFinalizer.
  cbn [objectMeta Pod_Object PodMeta Namespace withAnnotations namedMeta
       OwnerReferences List.find].
  destruct (decide (Namespace (DevboxMeta d) = "")) as [Hns|Hns].
  - rewrite (bool_decide_eq_false_2 (Namespace (DevboxMeta d) ≠ ""))
      by (intros Hne; exact (Hne Hns)).
    cbn. reflexivity.
  - rewrite (bool_decide_eq_true_2 (Namespace (DevboxMeta d) ≠ "")) by exact Hns.
    rewrite (bool_decide_eq_false_2 (Namespace (DevboxMeta d) = "")) by exact Hns.
    rewrite (bool_decide_eq_false_2
               (Namespace (DevboxMeta d) ≠ Namespace (DevboxMeta d)))
      by (intros Hne; exact (Hne eq_refl)).
    cbn. reflexivity.
Qed.

Lemma generateDevboxPod_key r d rt c :
  keyOf (PodMeta (generateDevboxPod r d rt c))
  = (Namespace (DevboxMeta d), CPod c).
Proof. rewrite generateDevboxPod_meta. reflexivity. Qed.

(** The deferred status update changes nothing of the devbox held but its
    phase. *)
Lemma deferred_keeps_held :
  keeps (same (fun w => (DevboxMeta (devbox w), Spec (devbox w),
                         CommitHistoryOf (Status (devbox w)),
                         DState (Status (devbox w)),
                         LastTerminationState (Status (devbox w)))))
        syncPod_deferred.
Proof.
  unfold syncPod_deferred, Recorder_Eventf. keeps_steps ltac:(reflexivity).
Qed.

(** X8.  The pod sync of a Running devbox without pod, when the server
    answers the list, the read of the runtime and the creation: the pod
    [generateDevboxPod] makes for the next commit is stored under the name
    of that commit, no other pod is touched, the sync returns no error, and
    the commit is appended to the commit history of the devbox held. *)
Theorem running_devbox_gets_its_pod r recLabels w rt :
  State (Spec (devbox w)) = DevboxStateRunning ->
  observedPods (Namespace (DevboxMeta (devbox w))) recLabels (cluster w) = [] ->
  runtimes (cluster w) !! runtimeKey (devbox w) = Some rt ->
  pods (cluster w)
    !! (Namespace (DevboxMeta (devbox w)), CPod (nextCommitHistory r w)) = None ->
  quiet 3 w ->
  exists w',
    syncPod r recLabels w = (Done None, w')
    /\ pods (cluster w')
       = <[(Namespace (DevboxMeta (devbox w)), CPod (nextCommitHistory r w))
           := generateDevboxPod r (devbox w) rt (nextCommitHistory r w)]>
           (pods (cluster w))
    /\ CommitHistoryOf (Status (devbox w'))
       = (CommitHistoryOf (Status (devbox w)) ++ [nextCommitHistory r w])%list.
Proof.
  intros Hst Hobs Hrt Hfree Hq.
  pose proof (quiet_nth 3 w 0 Hq ltac:(lia)) as Hq0.
  pose proof (quiet_nth 3 w 1 Hq ltac:(lia)) as Hq1.
  pose proof (quiet_nth 3 w 2 Hq ltac:(lia)) as Hq2.
  cbn [Nat.iter nat_rect] in Hq0, Hq1, Hq2.
  unfold syncPod.
  step. step. rewrite bind_run, client_List_pods_run; wsimpl.
  rewrite Hq0, Hobs. step.
  rewrite bool_decide_eq_false_2 by (cbn; lia).
  match goal with
  | |- exists w', defer _ ?body ?W = _ /\ _ =>
      assert (Hbody : exists w1,
        body W = (Done None, w1)
        /\ pods (cluster w1)
           = <[(Namespace (DevboxMeta (devbox w)), CPod (nextCommitHistory r w))
               := generateDevboxPod r (devbox w) rt (nextCommitHistory r w)]>
               (pods (cluster w))
        /\ CommitHistoryOf (Status (devbox w1))
           = (CommitHistoryOf (Status (devbox w))
              ++ [nextCommitHistory r w])%list)
  end.
  { step. rewrite Hst.
    rewrite bind_run, getRuntime_run; wsimpl.
    rewrite Hq1, Hrt.
    rewrite bind_run, generateNextCommitHistory_result.
    unfold createPod. rewrite bind_run.
    rewrite bind_run, client_Create_run; wsimpl; osimpl.
    rewrite Hq2.
    change (nextCommitHistory r _) with (nextCommitHistory r w).
    rewrite generateDevboxPod_key. rewrite Hfree. step.
    eexists. split; [reflexivity|]. wsimpl. osimpl.
    split; reflexivity. }
  destruct Hbody as (w1 & Hbody & Hp1 & Hc1).
  destruct (syncPod_deferred_done w1) as [w2 Hdef].
  exists w2. split; [exact (defer_run _ _ _ _ _ _ Hbody Hdef)|].
  pose proof (deferred_keeps_pods w1) as Kp.
  pose proof (deferred_keeps_held w1) as Kd.
  rewrite Hdef in Kp, Kd. unfold same in *. cbn [snd] in *.
  injection Kd as _ _ Khist _ _.
  rewrite Kp, Khist. split; assumption.
Qed.

(** X9.  When the creation of the pod is refused with an error that is not
    a quota error, the pod sync returns that error: the devbox held stays
    Running and gets no commit, and no pod is stored. *)
Theorem refused_creation_is_reported r recLabels w rt f rest :
  State (Spec (devbox w)) = DevboxStateRunning ->
  observedPods (Namespace (DevboxMeta (devbox w))) recLabels (cluster w) = [] ->
  runtimes (cluster w) !! runtimeKey (devbox w) = Some rt ->
  faults w = None :: None :: Some f :: rest ->
  IsExceededQuotaError (fault_error f) = false ->
  exists w',
    syncPod r recLabels w = (Done (Some (fault_error f)), w')
    /\ pods (cluster w') = pods (cluster w)
    /\ State (Spec (devbox w')) = DevboxStateRunning
    /\ CommitHistoryOf (Status (devbox w'))
       = CommitHistoryOf (Status (devbox w)).
Proof.
  intros Hst Hobs Hrt Hfaults Hquota.
  unfold syncPod.
  step. step. rewrite bind_run, client_List_pods_run; wsimpl.
  rewrite Hfaults; cbn [headFault tail]. rewrite Hobs. step.
  rewrite bool_decide_eq_false_2 by (cbn; lia).
  match goal with
  | |- exists w', defer _ ?body ?W = _ /\ _ =>
      assert (Hbody : exists w1,
        body W = (Done (Some (fault_error f)), w1)
        /\ pods (cluster w1) = pods (cluster w)
        /\ State (Spec (devbox w1)) = DevboxStateRunning
        /\ CommitHistoryOf (Status (devbox w1))
           = CommitHistoryOf (Status (devbox w)))
  end.
  { step. rewrite Hst.
    rewrite bind_run, getRuntime_run; wsimpl.
    rewrite Hfaults; cbn [headFault tail]. rewrite Hrt.
    rewrite bind_run, generateNextCommitHistory_result.
    unfold createPod. rewrite bind_run.
    rewrite bind_run, client_Create_run; wsimpl.
    rewrite Hfaults; cbn [headFault tail]. wsimpl.
    rewrite Hquota.
    eexists. split; [reflexivity|]. wsimpl.
    split; [reflexivity|]. split; [exact Hst | reflexivity]. }
  destruct Hbody as (w1 & Hbody & Hp1 & Hs1 & Hc1).
  destruct (syncPod_deferred_done w1) as [w2 Hdef].
  exists w2. split; [exact (defer_run _ _ _ _ _ _ Hbody Hdef)|].
  pose proof (deferred_keeps_pods w1) as Kp.
  pose proof (deferred_keeps_held w1) as Kd.
  rewrite Hdef in Kp, Kd. unfold same in *. cbn [snd] in *.
  injection Kd as _ Kspec Khist _ _.
  rewrite Kp, Kspec, Khist. repeat split; assumption.
Qed.

(** [deletePod] of a pod that is stored as it was listed, is not under
    deletion and has a container status, with both calls answered. *)
Lemma deletePod_ok pod w st sts :
  pods (cluster w) !! keyOf (PodMeta pod) = Some pod ->
  DeletionTimestamp (PodMeta pod) = None ->
  ContainerStatuses (PodStatusOf pod) = st :: sts ->
  quiet 2 w ->
  exists w',
    deletePod pod w = (Done None, w')
    /\ ~ live (pods (cluster w') !! keyOf (PodMeta pod))
    /\ (filter (fun x => x ≠ FinalizerName) (Finalizers (PodMeta pod)) = [] ->
        pods (cluster w') !! keyOf (PodMeta pod) = None)
    /\ (forall k, k <> keyOf (PodMeta pod) ->
                  pods (cluster w') !! k = pods (cluster w) !! k)
    /\ calls w'
       = (calls w ++
          [{| CallVerb := VUpdate; CallKind := KPod;
              CallKey := keyOf (PodMeta pod) |};
           {| CallVerb := VDelete; CallKind := KPod;
              CallKey := keyOf (PodMeta pod) |}])%list
    /\ (forall p', pods (cluster w') !! keyOf (PodMeta pod) = Some p' ->
                   Finalizers (PodMeta p')
                   = filter (fun x => x ≠ FinalizerName)
                            (Finalizers (PodMeta pod))).
Proof.
  intros Hpod Hlive Hcs Hq.
  pose proof (quiet_nth 2 w 0 Hq ltac:(lia)) as Hq0.
  pose proof (quiet_nth 2 w 1 Hq ltac:(lia)) as Hq1.
  cbn [Nat.iter nat_rect] in Hq0, Hq1.
  unfold deletePod, setPod. step. step.
  rewrite bind_run, client_Update_run; wsimpl; osimpl.
  rewrite Hq0, keyOf_withFinalizers, Hpod.
  rewrite DeletionTimestamp_withDeletionTimestamp, Hlive.
  step. step.
  rewrite bind_run, client_Delete_run; wsimpl; osimpl.
  rewrite keyOf_withDeletionTimestamp, keyOf_withFinalizers.
  rewrite Hq1. osimpl. rewrite lookup_insert_eq.
  wsimpl. rewrite Hcs. cbn [index0]. step. step. step.
  eexists. split; [reflexivity|]. wsimpl. osimpl.
  unfold reap. osimpl.
  cbn [Finalizers withDeletionTimestamp withFinalizers DeletionTimestamp].
  destruct (filter (fun x => x ≠ FinalizerName) (Finalizers (PodMeta pod)))
    as [|fz fs] eqn:Hfs.
  - wsimpl. osimpl. rewrite lookup_delete_eq.
    split; [intros (x & [=] & _)|]. split; [reflexivity|].
    split; [|split; [rewrite <- app_assoc; reflexivity | intros p' [=]]].
    intros k Hk. rewrite lookup_delete_ne, lookup_insert_ne by congruence.
    reflexivity.
  - wsimpl. osimpl. rewrite lookup_insert_eq.
    split; [intros (x & [= <-] & Hx); discriminate Hx|].
    split; [discriminate|].
    split; [|split; [rewrite <- app_assoc; reflexivity
                    |intros p' [= <-]; reflexivity]].
    intros k Hk. rewrite !lookup_insert_ne by congruence. reflexivity.
Qed.

(** X10.  Stopping takes the pod away.  The pod sync of a Stopped devbox
    with one pod, stored as it is listed, not under deletion and with a
    container status, when the server answers: the finalizer is taken from
    the pod and the pod is deleted, so that it is no longer live (it is
    gone when the finalizer was its only one); no other pod is touched and
    the sync returns no error. *)
Theorem stopping_takes_the_pod_away r recLabels w pod st sts :
  State (Spec (devbox w)) = DevboxStateStopped ->
  observedPods (Namespace (DevboxMeta (devbox w))) recLabels (cluster w)
    = [pod] ->
  pods (cluster w) !! keyOf (PodMeta pod) = Some pod ->
  DeletionTimestamp (PodMeta pod) = None ->
  ContainerStatuses (PodStatusOf pod) = st :: sts ->
  quiet 3 w ->
  exists w',
    syncPod r recLabels w = (Done None, w')
    /\ ~ live (pods (cluster w') !! keyOf (PodMeta pod))
    /\ (filter (fun x => x ≠ FinalizerName) (Finalizers (PodMeta pod)) = [] ->
        pods (cluster w') !! keyOf (PodMeta pod) = None)
    /\ (forall k, k <> keyOf (PodMeta pod) ->
                  pods (cluster w') !! k = pods (cluster w) !! k).
Proof.
  intros Hst Hobs Hpod Hlive Hcs Hq.
  pose proof (quiet_nth 3 w 0 Hq ltac:(lia)) as Hq0.
  cbn [Nat.iter nat_rect] in Hq0.
  unfold syncPod.
  step. step. rewrite bind_run, client_List_pods_run; wsimpl.
  rewrite Hq0, Hobs. step.
  rewrite bool_decide_eq_false_2 by (cbn; lia).
  match goal with
  | |- exists w', defer _ ?body ?W = _ /\ _ =>
      assert (Hbody : exists w1,
        body W = (Done None, w1)
        /\ ~ live (pods (cluster w1) !! keyOf (PodMeta pod))
        /\ (filter (fun x => x ≠ FinalizerName) (Finalizers (PodMeta pod)) = [] ->
            pods (cluster w1) !! keyOf (PodMeta pod) = None)
        /\ (forall k, k <> keyOf (PodMeta pod) ->
                      pods (cluster w1) !! k = pods (cluster w) !! k))
  end.
  { step. rewrite Hst. step. step.
    rewrite Hlive. cbn [IsZero negb].
    match goal with
    | |- exists w1, deletePod pod ?W = _ /\ _ =>
        destruct (deletePod_ok pod W st sts) as (w1 & Hrun & Hgone & Hnone & Hrest & _);
          [exact Hpod | exact Hlive | exact Hcs
          | unfold quiet; cbn; apply quiet_tail; exact Hq |]
    end.
    exists w1. split; [exact Hrun|]. split; [exact Hgone|].
    split; [exact Hnone | exact Hrest]. }
  destruct Hbody as (w1 & Hbody & Hg1 & Hn1 & Hr1).
  destruct (syncPod_deferred_done w1) as [w2 Hdef].
  exists w2. split; [exact (defer_run _ _ _ _ _ _ Hbody Hdef)|].
  pose proof (deferred_keeps_pods w1) as Kp.
  rewrite Hdef in Kp. unfold same in Kp. cbn [snd] in Kp.
  rewrite Kp. split; [exact Hg1|]. split; [exact Hn1 | exact Hr1].
Qed.

(** X11.  A pod that is under deletion is released, not deleted again.
    The pod sync of a Stopped devbox with one pod, stored as it is listed,
    under deletion and with a container status, when the server answers:
    the finalizer is taken from the pod with one update, after which the
    pod is gone when the finalizer was its only one and is stored without
    it otherwise; the state of its first container is the last termination
    state of the devbox held; and the sync returns no error. *)
Theorem pod_under_deletion_is_released r recLabels w pod ts st sts :
  State (Spec (devbox w)) = DevboxStateStopped ->
  observedPods (Namespace (DevboxMeta (devbox w))) recLabels (cluster w)
    = [pod] ->
  pods (cluster w) !! keyOf (PodMeta pod) = Some pod ->
  DeletionTimestamp (PodMeta pod) = Some ts ->
  ContainerStatuses (PodStatusOf pod) = st :: sts ->
  quiet 2 w ->
  exists w',
    syncPod r recLabels w = (Done None, w')
    /\ pods (cluster w') !! keyOf (PodMeta pod)
       = match filter (fun x => x ≠ FinalizerName) (Finalizers (PodMeta pod)) with
         | [] => None
         | fs => Some {| PodMeta := withFinalizers fs (PodMeta pod);
                         PodSpecOf := PodSpecOf pod;
                         PodStatusOf := PodStatusOf pod |}
         end
    /\ (forall k, k <> keyOf (PodMeta pod) ->
                  pods (cluster w') !! k = pods (cluster w) !! k)
    /\ LastTerminationState (Status (devbox w')) = CState st.
Proof.
  intros Hst Hobs Hpod Hdel Hcs Hq.
  pose proof (quiet_nth 2 w 0 Hq ltac:(lia)) as Hq0.
  pose proof (quiet_nth 2 w 1 Hq ltac:(lia)) as Hq1.
  cbn [Nat.iter nat_rect] in Hq0, Hq1.
  unfold syncPod.
  step. step. rewrite bind_run, client_List_pods_run; wsimpl.
  rewrite Hq0, Hobs. step.
  rewrite bool_decide_eq_false_2 by (cbn; lia).
  match goal with
  | |- exists w', defer _ ?body ?W = _ /\ _ =>
      assert (Hbody : exists w1,
        body W = (Done None, w1)
        /\ pods (cluster w1) !! keyOf (PodMeta pod)
           = match filter (fun x => x ≠ FinalizerName)
                          (Finalizers (PodMeta pod)) with
             | [] => None
             | fs => Some {| PodMeta := withFinalizers fs (PodMeta pod);
                             PodSpecOf := PodSpecOf pod;
                             PodStatusOf := PodStatusOf pod |}
             end
        /\ (forall k, k <> keyOf (PodMeta pod) ->
                      pods (cluster w1) !! k = pods (cluster w) !! k)
        /\ LastTerminationState (Status (devbox w1)) = CState st)
  end.
  { step. rewrite Hst. step. step.
    rewrite Hdel. cbn [IsZero negb].
    unfold handlePodDeleted, setPod. step. step.
    rewrite bind_run, client_Update_run; wsimpl; osimpl.
    rewrite Hq1, keyOf_withFinalizers, Hpod.
    rewrite DeletionTimestamp_withDeletionTimestamp, Hdel.
    cbn [Finalizers withDeletionTimestamp withFinalizers].
    destruct (filter (fun x => x ≠ FinalizerName) (Finalizers (PodMeta pod)))
      as [|fz fs] eqn:Hfs.
    - step. step. step. wsimpl. osimpl. rewrite Hcs. cbn [index0]. step. step.
      eexists. split; [reflexivity|]. wsimpl. osimpl.
      rewrite lookup_delete_eq. split; [reflexivity|].
      split; [|reflexivity].
      intros k Hk. rewrite lookup_delete_ne by congruence. reflexivity.
    - step. step. step. wsimpl. osimpl. rewrite Hcs. cbn [index0]. step. step.
      eexists. split; [reflexivity|]. wsimpl. osimpl.
      rewrite lookup_insert_eq. split.
      { cbn. f_equal. destruct pod as [m sp stt]; cbn in *.
        destruct m; cbn in *. rewrite Hdel. reflexivity. }
      split; [|reflexivity].
      intros k Hk. rewrite lookup_insert_ne by congruence. reflexivity. }
  destruct Hbody as (w1 & Hbody & Hp1 & Hr1 & Hl1).
  destruct (syncPod_deferred_done w1) as [w2 Hdef].
  exists w2. split; [exact (defer_run _ _ _ _ _ _ Hbody Hdef)|].
  pose proof (deferred_keeps_pods w1) as Kp.
  pose proof (deferred_keeps_held w1) as Kd.
  rewrite Hdef in Kp, Kd. unfold same in *. cbn [snd] in *.
  injection Kd as _ _ _ _ Klast.
  rewrite Kp, Klast. split; [exact Hp1|]. split; [exact Hr1 | exact Hl1].
Qed.

(** X12.  The release of a pod under deletion indexes its first container
    status without a guard in the Stopped path: for a pod under deletion
    that has no container status the pod sync of a Stopped devbox panics
    on the index, after the update that took the finalizer from the pod. *)
Theorem stopped_path_release_indexes_without_guard r recLabels w pod ts :
  State (Spec (devbox w)) = DevboxStateStopped ->
  observedPods (Namespace (DevboxMeta (devbox w))) recLabels (cluster w)
    = [pod] ->
  pods (cluster w) !! keyOf (PodMeta pod) = Some pod ->
  DeletionTimestamp (PodMeta pod) = Some ts ->
  ContainerStatuses (PodStatusOf pod) = [] ->
  quiet 2 w ->
  exists w',
    syncPod r recLabels w = (Panicked indexPanic, w')
    /\ In {| CallVerb := VUpdate; CallKind := KPod;
             CallKey := keyOf (PodMeta pod) |} (calls w')
    /\ (forall p, pods (cluster w') !! keyOf (PodMeta pod) = Some p ->
                   FinalizerName ∉ Finalizers (PodMeta p)).
Proof.
  intros Hst Hobs Hpod Hdel Hcs Hq.
  pose proof (quiet_nth 2 w 0 Hq ltac:(lia)) as Hq0.
  pose proof (quiet_nth 2 w 1 Hq ltac:(lia)) as Hq1.
  cbn [Nat.iter nat_rect] in Hq0, Hq1.
  unfold syncPod.
  step. step. rewrite bind_run, client_List_pods_run; wsimpl.
  rewrite Hq0, Hobs. step.
  rewrite bool_decide_eq_false_2 by (cbn; lia).
  match goal with
  | |- exists w', defer _ ?body ?W = _ /\ _ =>
      assert (Hbody : exists w1,
        body W = (Panicked indexPanic, w1)
        /\ In {| CallVerb := VUpdate; CallKind := KPod;
                 CallKey := keyOf (PodMeta pod) |} (calls w1)
        /\ (forall p, pods (cluster w1) !! keyOf (PodMeta pod) = Some p ->
                       FinalizerName ∉ Finalizers (PodMeta p)))
  end.
  { step. rewrite Hst. step. step.
    rewrite Hdel. cbn [IsZero negb].
    unfold handlePodDeleted, setPod. step. step.
    rewrite bind_run, client_Update_run; wsimpl; osimpl.
    rewrite Hq1, keyOf_withFinalizers, Hpod.
    rewrite DeletionTimestamp_withDeletionTimestamp, Hdel.
    cbn [Finalizers withDeletionTimestamp withFinalizers].
    destruct (filter (fun x => x ≠ FinalizerName) (Finalizers (PodMeta pod)))
      as [|fz fs] eqn:Hfs.
    - step. step. step. wsimpl. osimpl. rewrite Hcs. cbn [index0].
      rewrite bind_run. cbn [panic].
      eexists. split; [reflexivity|]. wsimpl. osimpl.
      split; [apply in_or_app; right; left; reflexivity|].
      rewrite lookup_delete_eq. intros p [=].
    - step. step. step. wsimpl. osimpl. rewrite Hcs. cbn [index0].
      rewrite bind_run. cbn [panic].
      eexists. split; [reflexivity|]. wsimpl. osimpl.
      split; [apply in_or_app; right; left; reflexivity|].
      rewrite lookup_insert_eq. intros p [= <-]. cbn.
      rewrite <- Hfs. intros Hin. apply list_elem_of_filter in Hin as [Hne _].
      exact (Hne eq_refl). }
  destruct Hbody as (w1 & Hbody & Hc1 & Hp1).
  destruct (syncPod_deferred_done w1) as [w2 Hdef].
  exists w2. split; [exact (defer_run _ _ _ _ _ _ Hbody Hdef)|].
  pose proof (deferred_keeps_pods w1) as Kp.
  pose proof (deferred_makes_no_create w1) as (l & Kc & _).
  rewrite Hdef in Kp, Kc. unfold same in *. cbn [snd] in *.
  rewrite Kp, Kc. split; [apply in_or_app; left; exact Hc1 | exact Hp1].
Qed.

(** X13.  A pod that is as expected and is pending or running is left
    alone.  The pod sync of a Running devbox with one pod that has a
    container status, is not under deletion, matches the pod the devbox
    expects and is in phase Pending or Running, when the server answers the
    list and the read of the runtime: the sync returns no error and the
    pods are stored as they were. *)
Theorem expected_pod_is_left_alone r recLabels w rt pod st sts :
  State (Spec (devbox w)) = DevboxStateRunning ->
  observedPods (Namespace (DevboxMeta (devbox w))) recLabels (cluster w)
    = [pod] ->
  runtimes (cluster w) !! runtimeKey (devbox w) = Some rt ->
  ContainerStatuses (PodStatusOf pod) = st :: sts ->
  DeletionTimestamp (PodMeta pod) = None ->
  PodMatchExpectations
    (generateDevboxPod r (devbox w) rt (nextCommitHistory r w)) pod = true ->
  Phase (PodStatusOf pod) = PodPending \/ Phase (PodStatusOf pod) = PodRunning ->
  quiet 2 w ->
  exists w',
    syncPod r recLabels w = (Done None, w')
    /\ pods (cluster w') = pods (cluster w)
    /\ CommitHistoryOf (Status (devbox w'))
       = CommitHistoryOf
           (Status (UpdateCommitHistory
                      (UpdatePredicatedCommitStatus
                         (withDState (CState st) (devbox w)) pod) pod false)).
Proof.
  intros Hst Hobs Hrt Hcs Hlive Hmatch Hphase Hq.
  pose proof (quiet_nth 2 w 0 Hq ltac:(lia)) as Hq0.
  pose proof (quiet_nth 2 w 1 Hq ltac:(lia)) as Hq1.
  cbn [Nat.iter nat_rect] in Hq0, Hq1.
  unfold syncPod.
  step. step. rewrite bind_run, client_List_pods_run; wsimpl.
  rewrite Hq0, Hobs. step.
  rewrite bool_decide_eq_false_2 by (cbn; lia).
  match goal with
  | |- exists w', defer _ ?body ?W = _ /\ _ =>
      assert (Hbody : exists w1,
        body W = (Done None, w1)
        /\ pods (cluster w1) = pods (cluster w)
        /\ CommitHistoryOf (Status (devbox w1))
           = CommitHistoryOf
               (Status (UpdateCommitHistory
                          (UpdatePredicatedCommitStatus
                             (withDState (CState st) (devbox w)) pod)
                          pod false)))
  end.
  { step. rewrite Hst.
    rewrite bind_run, getRuntime_run; wsimpl.
    rewrite Hq1, Hrt.
    rewrite bind_run, generateNextCommitHistory_result.
    change (nextCommitHistory r _) with (nextCommitHistory r w).
    rewrite Hcs. step. step. rewrite Hlive. cbn [IsZero negb].
    rewrite Hmatch.
    destruct Hphase as [-> | ->]; step;
      (eexists; split; [reflexivity|]; wsimpl; split; reflexivity). }
  destruct Hbody as (w1 & Hbody & Hp1 & Hc1).
  destruct (syncPod_deferred_done w1) as [w2 Hdef].
  exists w2. split; [exact (defer_run _ _ _ _ _ _ Hbody Hdef)|].
  pose proof (deferred_keeps_pods w1) as Kp.
  pose proof (deferred_keeps_held w1) as Kd.
  rewrite Hdef in Kp, Kd. unfold same in *. cbn [snd] in *.
  injection Kd as _ _ Khist _ _.
  rewrite Kp, Khist. split; assumption.
Qed.

(** X14.  A pod that has finished, or that is not as expected, is taken
    away.  The pod sync of a Running devbox with one pod, stored as it is
    listed, with a container status and not under deletion, that is in
    phase Failed or Succeeded or does not match the pod the devbox
    expects, when the server answers: the finalizer is taken from the pod
    and the pod is deleted, so that it is gone when the finalizer was its
    only one, and is otherwise stored under deletion with the finalizers
    it had but this one; no other pod is touched (none is created in this
    pass), and the sync returns no error. *)
Theorem finished_pod_is_taken_away r recLabels w rt pod st sts :
  State (Spec (devbox w)) = DevboxStateRunning ->
  observedPods (Namespace (DevboxMeta (devbox w))) recLabels (cluster w)
    = [pod] ->
  pods (cluster w) !! keyOf (PodMeta pod) = Some pod ->
  runtimes (cluster w) !! runtimeKey (devbox w) = Some rt ->
  ContainerStatuses (PodStatusOf pod) = st :: sts ->
  DeletionTimestamp (PodMeta pod) = None ->
  PodMatchExpectations
    (generateDevboxPod r (devbox w) rt (nextCommitHistory r w)) pod = false
  \/ Phase (PodStatusOf pod) = PodFailed
  \/ Phase (PodStatusOf pod) = PodSucceeded ->
  quiet 4 w ->
  exists w',
    syncPod r recLabels w = (Done None, w')
    /\ ~ live (pods (cluster w') !! keyOf (PodMeta pod))
    /\ (filter (fun x => x ≠ FinalizerName) (Finalizers (PodMeta pod)) = [] ->
        pods (cluster w') !! keyOf (PodMeta pod) = None)
    /\ (forall p', pods (cluster w') !! keyOf (PodMeta pod) = Some p' ->
                   Finalizers (PodMeta p')
                   = filter (fun x => x ≠ FinalizerName)
                            (Finalizers (PodMeta pod)))
    /\ (forall k, k <> keyOf (PodMeta pod) ->
                  pods (cluster w') !! k = pods (cluster w) !! k).
Proof.
  intros Hst Hobs Hpod Hrt Hcs Hlive Hwhy Hq.
  pose proof (quiet_nth 4 w 0 Hq ltac:(lia)) as Hq0.
  pose proof (quiet_nth 4 w 1 Hq ltac:(lia)) as Hq1.
  cbn [Nat.iter nat_rect] in Hq0, Hq1.
  unfold syncPod.
  step. step. rewrite bind_run, client_List_pods_run; wsimpl.
  rewrite Hq0, Hobs. step.
  rewrite bool_decide_eq_false_2 by (cbn; lia).
  match goal with
  | |- exists w', defer _ ?body ?W = _ /\ _ =>
      assert (Hbody : exists w1,
        body W = (Done None, w1)
        /\ ~ live (pods (cluster w1) !! keyOf (PodMeta pod))
        /\ (filter (fun x => x ≠ FinalizerName) (Finalizers (PodMeta pod))
            = [] ->
            pods (cluster w1) !! keyOf (PodMeta pod) = None)
        /\ (forall p', pods (cluster w1) !! keyOf (PodMeta pod) = Some p' ->
                       Finalizers (PodMeta p')
                       = filter (fun x => x ≠ FinalizerName)
                                (Finalizers (PodMeta pod)))
        /\ (forall k, k <> keyOf (PodMeta pod) ->
                      pods (cluster w1) !! k = pods (cluster w) !! k))
  end.
  { step. rewrite Hst.
    rewrite bind_run, getRuntime_run; wsimpl.
    rewrite Hq1, Hrt.
    rewrite bind_run, generateNextCommitHistory_result.
    change (nextCommitHistory r _) with (nextCommitHistory r w).
    rewrite Hcs. step. step. rewrite Hlive. cbn [IsZero negb].
    assert (Hdelete : forall W,
      faults W = tail (tail (faults w)) -> cluster W = cluster w ->
      exists w1,
        deletePod pod W = (Done None, w1)
        /\ ~ live (pods (cluster w1) !! keyOf (PodMeta pod))
        /\ (filter (fun x => x ≠ FinalizerName) (Finalizers (PodMeta pod))
            = [] ->
            pods (cluster w1) !! keyOf (PodMeta pod) = None)
        /\ (forall p', pods (cluster w1) !! keyOf (PodMeta pod) = Some p' ->
                       Finalizers (PodMeta p')
                       = filter (fun x => x ≠ FinalizerName)
                                (Finalizers (PodMeta pod)))
        /\ (forall k, k <> keyOf (PodMeta pod) ->
                      pods (cluster w1) !! k = pods (cluster w) !! k)).
    { intros W Hfs Hcl.
      destruct (deletePod_ok pod W st sts)
        as (w1 & Hrun & Hgone & Honly & Hrest & _ & Hfin);
        [rewrite Hcl; exact Hpod | exact Hlive | exact Hcs
        | unfold quiet; rewrite Hfs; do 2 apply quiet_tail; exact Hq |].
      exists w1. split; [exact Hrun|]. split; [exact Hgone|].
      split; [exact Honly|]. split; [exact Hfin|].
      intros k Hk. rewrite (Hrest k Hk), Hcl. reflexivity. }
    destruct (PodMatchExpectations _ pod) eqn:Hmatch.
    - destruct Hwhy as [[=] | [-> | ->]];
        apply Hdelete; reflexivity.
    - apply Hdelete; reflexivity. }
  destruct Hbody as (w1 & Hbody & Hg1 & Ho1 & Hf1 & Hr1).
  destruct (syncPod_deferred_done w1) as [w2 Hdef].
  exists w2. split; [exact (defer_run _ _ _ _ _ _ Hbody Hdef)|].
  pose proof (deferred_keeps_pods w1) as Kp.
  rewrite Hdef in Kp. unfold same in Kp. cbn [snd] in Kp.
  rewrite Kp. split; [exact Hg1|]. split; [exact Ho1|].
  split; [exact Hf1 | exact Hr1].
Qed.

(** X15.  The pod of a devbox, whatever the devbox, the runtime and the
    commit: it is named after the commit in the namespace of the devbox, it
    carries the finalizer, and the devbox is its controller (the controller
    reference, whose error [generateDevboxPod] ignores, cannot be refused);
    it has one container, named after the devbox, whose environment is that
    of the runtime, then the extra variables of the devbox, then the
    generated ones; and it is never restarted in place. *)
Theorem generated_pod_identity r d rt c :
  let pod := generateDevboxPod r d rt c in
  keyOf (PodMeta pod) = (Namespace (DevboxMeta d), CPod c)
  /\ Finalizers (PodMeta pod) = [FinalizerName]
  /\ OwnerReferences (PodMeta pod)
     = [{| OwnerKind := "Devbox"; OwnerName := Name (DevboxMeta d);
           Controller := true |}]
  /\ Labels (PodMeta pod) = GeneratePodLabels d rt
  /\ map ContainerName (Containers (PodSpecOf pod)) = [Name (DevboxMeta d)]
  /\ map Env (Containers (PodSpecOf pod))
     = [(RtEnv (Config rt) ++ ExtraEnvs (Spec d)
         ++ GenerateDevboxEnvVars d c)%list]
  /\ PodRestartPolicy (PodSpecOf pod) = RestartPolicyNever.
Proof.
  intros pod. subst pod.
  rewrite !generateDevboxPod_meta.
  split; [reflexivity|]. split; [reflexivity|]. split; [reflexivity|].
  split; [reflexivity|].
  unfold generateDevboxPod, AddFinalizer.
  destruct (ContainsFinalizer _ _);
    destruct (SetControllerReference _ _) as [p|e] eqn:Hset; cbn;
    try (split; [|split]; reflexivity);
    revert Hset; unfold SetControllerReference;
    repeat case_match; intros [= <-]; cbn;
    (split; [|split]; reflexivity).
Qed.

End PodPaths.

(* ===================================================================== *)
(** ** Further properties: the network of a devbox                        *)
(* ===================================================================== *)

(** What a successful [CreateOrUpdate] of a service leaves in the store,
    on a store the server keeps and for a mutate function that leaves the
    finalizers alone: the service is stored with the selector, the type and
    the port fields the mutate function gave it. *)
Lemma service_upsert (obj : Service) f w o w' :
  sound (services (cluster w)) ->
  (forall x o1, f x = Done (OK o1) ->
                Finalizers (ServiceMeta o1) = Finalizers (ServiceMeta x)) ->
  CreateOrUpdate obj f w = (Done (OK o), w') ->
  exists o1 stored,
    f (default obj (services (cluster w) !! keyOf (ServiceMeta obj)))
    = Done (OK o1)
    /\ services (cluster w') !! keyOf (ServiceMeta obj) = Some stored
    /\ Selector (ServiceSpecOf stored) = Selector (ServiceSpecOf o1)
    /\ SType (ServiceSpecOf stored) = SType (ServiceSpecOf o1)
    /\ map portFields (SPorts (ServiceSpecOf stored))
       = map portFields (SPorts (ServiceSpecOf o1)).
Proof.
  intros Hsound Hfin Hrun.
  apply CreateOrUpdate_ok in Hrun. cbv zeta in Hrun. osimpl_in Hrun.
  destruct Hrun as (o1 & Hf & Hk &
    [[Hnone Ht] | [[Hsome Ht] | (old & Hold & Hcase)]]).
  - exists o1. eexists. split; [exact Hf|].
    rewrite Ht, lookup_insert_eq. split; [reflexivity|].
    exact (proj2 (allocateService_keeps o1 (nodePortPool w))).
  - exists o1, o1. split; [exact Hf|]. rewrite Ht.
    split; [exact Hsome|]. auto.
  - exists o1.
    match type of Hcase with
    | context [allocateService ?s ?pool] =>
        pose proof (allocateService_keeps s pool) as (Hmeta & Hkeep);
        set (x := (allocateService s pool).1) in *
    end.
    exists x. split; [exact Hf|].
    destruct Hcase as [Ht | (Hdt & Hfs & _)].
    + rewrite Ht, lookup_insert_eq. split; [reflexivity|]. exact Hkeep.
    + exfalso. rewrite Hmeta in Hdt, Hfs. cbn in Hdt, Hfs.
      rewrite Hold in Hf. cbn [default] in Hf.
      rewrite (Hfin _ _ Hf) in Hfs.
      destruct (Hsound _ _ Hold) as [_ Hheld]. exact (Hdt (Hheld Hfs)).
Qed.

Lemma updateServiceFields_finalizers d expect x o1 :
  updateServiceFields d expect x = Done (OK o1) ->
  Finalizers (ServiceMeta o1) = Finalizers (ServiceMeta x).
Proof.
  unfold updateServiceFields.
  destruct (SPorts (ServiceSpecOf x)) as [|p rest];
    [|destruct (SPorts expect) as [|e ports]; [discriminate|]];
    intros [= Hset];
    apply (SetControllerReference_meta (T:=Service)) in Hset as [Hfs _];
    exact Hfs.
Qed.

Lemma keyOf_namedMeta name ns labels : keyOf (namedMeta name ns labels) = (ns, name).
Proof. reflexivity. Qed.

Section NetworkMore.
Context `{Helper} `{Libraries}.

(** X16.  The network sync needs the runtime: when no runtime is stored
    under the name the devbox refers to (in the namespace of the devbox
    when the reference names none), the sync returns an error, which is
    not-found when the server answers, whatever the network type; it has
    made the one read, and has written nothing. *)
Theorem network_sync_needs_the_runtime r recLabels w :
  runtimes (cluster w) !! runtimeKey (devbox w) = None ->
  exists e w',
    syncNetwork r recLabels w = (Done (Some e), w')
    /\ (nextFault w = None -> IsNotFound e = true)
    /\ cluster w' = cluster w
    /\ devbox w' = devbox w
    /\ calls w'
       = (calls w ++ [{| CallVerb := VGet; CallKind := KRuntime;
                         CallKey := runtimeKey (devbox w) |}])%list.
Proof.
  intros Hnone. unfold syncNetwork.
  rewrite bind_run, getServicePort_run, Hnone.
  destruct (nextFault w) as [f|].
  - eexists _, _. split; [reflexivity|].
    split; [discriminate|]. repeat split; reflexivity.
  - eexists _, _. split; [reflexivity|].
    split; [reflexivity|]. repeat split; reflexivity.
Qed.

(** X17.  A network type that is neither NodePort nor WebSocket is
    ignored: the network sync reads the runtime and, when that succeeds,
    returns no error; it writes nothing and publishes nothing in the status
    of the devbox. *)
Theorem unknown_network_type_is_ignored r recLabels w other rt :
  NetworkSpecType (Spec (devbox w)) = NetworkTypeOther other ->
  runtimes (cluster w) !! runtimeKey (devbox w) = Some rt ->
  nextFault w = None ->
  exists w',
    syncNetwork r recLabels w = (Done None, w')
    /\ cluster w' = cluster w
    /\ devbox w' = devbox w
    /\ calls w'
       = (calls w ++ [{| CallVerb := VGet; CallKind := KRuntime;
                         CallKey := runtimeKey (devbox w) |}])%list.
Proof.
  intros Hmode Hrt Hq. unfold syncNetwork.
  rewrite bind_run, getServicePort_run, Hq, Hrt. step. rewrite Hmode.
  eexists. split; [reflexivity|]. repeat split; reflexivity.
Qed.

(** X18.  The service of the pod.  When [syncPodSvc] returns no error, on
    a store the server keeps: the runtime was read, and the service
    [<name>-pod-svc] is stored with type ClusterIP, the given labels as
    selector and, field by field, the given ports when it was created or
    had none, and otherwise the ports it had with the first overwritten by
    the first given port. *)
Theorem pod_service_is_upserted recLabels servicePorts w w' :
  sound (services (cluster w)) ->
  syncPodSvc recLabels servicePorts w = (Done None, w') ->
  let d := devbox w in
  let key := (Namespace (DevboxMeta d), Name (DevboxMeta d) +:+ "-pod-svc") in
  exists rt svc,
    runtimes (cluster w) !! runtimeKey d = Some rt
    /\ services (cluster w') !! key = Some svc
    /\ SType (ServiceSpecOf svc) = ServiceTypeClusterIP
    /\ Selector (ServiceSpecOf svc) = recLabels
    /\ map portFields (SPorts (ServiceSpecOf svc))
       = map portFields (mergedPorts (services (cluster w) !! key)
                                     servicePorts).
Proof.
  intros Hsound Hrun d key. subst d key.
  unfold syncPodSvc in Hrun. step_in Hrun.
  rewrite bind_run, getRuntime_run in Hrun.
  destruct (nextFault w) as [f|]; [discriminate Hrun|].
  destruct (runtimes (cluster w) !! runtimeKey (devbox w)) as [rt|] eqn:Hrt;
    [|discriminate Hrun].
  cbv beta iota zeta in Hrun.
  apply bind_inv in Hrun as (res & w1 & Hcou & Hret).
  apply ret_inv in Hret as [Hres ->].
  destruct res as [o|e]; [|discriminate Hres].
  apply service_upsert in Hcou as (o1 & svc & Hmut & Hsvc & Hsel & Htype & Hports);
    [| exact Hsound | intros x o1; apply updateServiceFields_finalizers].
  exists rt, svc. split; [reflexivity|].
  cbn in Hsvc. split; [exact Hsvc|].
  cbn [keyOf ServiceMeta namedMeta Namespace Name cluster tick setFaults
       setCalls] in Hmut.
  destruct (services (cluster w) !! _) as [existing|] eqn:Hex;
    cbn [default] in Hmut;
    apply updateServiceFields_ok in Hmut as (Hs1 & Ht1 & Hp1);
    cbn [Selector SType SPorts] in Hs1, Ht1, Hp1;
    rewrite Hsel, Htype, Hports, Hs1, Ht1, Hp1;
    (split; [reflexivity|]; split; [reflexivity|]); reflexivity.
Qed.

(** X19.  The service of the proxy.  When [syncProxySvc] returns no
    error, on a store the server keeps: the service [<name>-proxy-svc] is
    stored with type ClusterIP, the labels of the proxy pod as selector,
    and a first port named devbox-ssh-port that maps port 80 to port 80
    over TCP; the ports a stored service had after the first one are as
    they were. *)
Theorem proxy_service_is_upserted w w' :
  sound (services (cluster w)) ->
  syncProxySvc w = (Done None, w') ->
  let d := devbox w in
  let key := (Namespace (DevboxMeta d), Name (DevboxMeta d) +:+ "-proxy-svc") in
  exists rt svc,
    runtimes (cluster w) !! runtimeKey d = Some rt
    /\ services (cluster w') !! key = Some svc
    /\ SType (ServiceSpecOf svc) = ServiceTypeClusterIP
    /\ Selector (ServiceSpecOf svc) = GenerateProxyPodLabels d rt
    /\ map portFields (SPorts (ServiceSpecOf svc))
       = ("devbox-ssh-port", 80, FromInt32 80, ProtocolTCP)
         :: map portFields
              (tail (default [] (fmap (fun s => SPorts (ServiceSpecOf s))
                                      (services (cluster w) !! key)))).
Proof.
  intros Hsound Hrun d key. subst d key.
  unfold syncProxySvc in Hrun. step_in Hrun.
  rewrite bind_run, getRuntime_run in Hrun.
  destruct (nextFault w) as [f|]; [discriminate Hrun|].
  destruct (runtimes (cluster w) !! runtimeKey (devbox w)) as [rt|] eqn:Hrt;
    [|discriminate Hrun].
  cbv beta iota zeta in Hrun.
  apply bind_inv in Hrun as (res & w1 & Hcou & Hret).
  apply ret_inv in Hret as [Hres ->].
  destruct res as [o|e]; [|discriminate Hres].
  apply service_upsert in Hcou as (o1 & svc & Hmut & Hsvc & Hsel & Htype & Hports);
    [| exact Hsound |].
  2:{ intros x o1. destruct (SPorts (ServiceSpecOf x)); [discriminate|].
      cbn. intros [= Hset].
      apply (SetControllerReference_meta (T:=Service)) in Hset as [Hfs _].
      exact Hfs. }
  exists rt, svc. split; [reflexivity|].
  cbn in Hsvc. split; [exact Hsvc|].
  cbn [keyOf ServiceMeta namedMeta Namespace Name cluster tick setFaults
       setCalls] in Hmut.
  rewrite Hsel, Htype, Hports.
  destruct (services (cluster w) !! _) as [existing|] eqn:Hex;
    cbn [default fmap option_fmap option_map] in Hmut |- *.
  - cbn in Hmut.
    destruct (SPorts (ServiceSpecOf existing)) as [|p rest] eqn:Hps;
      [discriminate Hmut|].
    injection Hmut as Hset.
    unfold SetControllerReference in Hset. revert Hset.
    repeat case_match; intros [= <-]; cbn; auto.
  - cbn in Hmut. injection Hmut as Hset.
    unfold SetControllerReference in Hset. revert Hset.
    repeat case_match; intros [= <-]; cbn; auto.
Qed.

(** X20.  The mutate closure of [syncProxySvc] indexes the first port of
    the service without the guard its siblings have: when the stored
    proxy service has no port, the sync panics on the index, and nothing
    is written. *)
Theorem proxy_service_indexes_without_guard w rt svc :
  runtimes (cluster w) !! runtimeKey (devbox w) = Some rt ->
  services (cluster w)
    !! (Namespace (DevboxMeta (devbox w)),
        Name (DevboxMeta (devbox w)) +:+ "-proxy-svc") = Some svc ->
  SPorts (ServiceSpecOf svc) = [] ->
  quiet 2 w ->
  exists w',
    syncProxySvc w = (Panicked indexPanic, w') /\ cluster w' = cluster w.
Proof.
  intros Hrt Hsvc Hports Hq.
  pose proof (quiet_nth 2 w 0 Hq ltac:(lia)) as Hq0.
  pose proof (quiet_nth 2 w 1 Hq ltac:(lia)) as Hq1.
  cbn [Nat.iter nat_rect] in Hq0, Hq1.
  unfold syncProxySvc. step.
  rewrite bind_run, getRuntime_run. wsimpl. rewrite Hq0, Hrt.
  cbv beta iota zeta. rewrite bind_run. unfold CreateOrUpdate.
  rewrite bind_run, client_Get_run. wsimpl. osimpl.
  cbn [ServiceMeta]. rewrite !keyOf_namedMeta. rewrite Hq1, Hsvc.
  cbv beta iota. rewrite bind_run. unfold mutate. rewrite Hports.
  eexists. split; reflexivity.
Qed.

(** X21.  The host of the proxy ingress.  When [syncProxyIngress] returns
    a host, on a store the server keeps: the host is the random string
    just drawn, followed by the proxy domain; the ingress
    [<name>-proxy-ingress] is stored; and when an ingress was stored under
    that name already, its rules are as they were, whatever host is
    returned. *)
Theorem proxy_ingress_keeps_its_rules r w host w' :
  sound (ingresses (cluster w)) ->
  syncProxyIngress r w = (Done (OK host), w') ->
  let key := (Namespace (DevboxMeta (devbox w)),
              Name (DevboxMeta (devbox w)) +:+ "-proxy-ingress") in
  host = entropy w (draws w) +:+ "." +:+ WebsocketProxyDomain r
  /\ exists stored,
       ingresses (cluster w') !! key = Some stored
       /\ match ingresses (cluster w) !! key with
          | Some old => IngressSpecOf stored = IngressSpecOf old
          | None => map Host (Rules (IngressSpecOf stored)) = [host]
          end.
Proof.
  intros Hsound Hrun key. subst key.
  unfold syncProxyIngress in Hrun. step_in Hrun.
  unfold generateProxyIngressHost in Hrun.
  repeat (rewrite bind_run in Hrun; wsimpl_in Hrun).
  cbv zeta in Hrun.
  match type of Hrun with
  | context [CreateOrUpdate ?obj ?f ?w0] =>
      destruct (CreateOrUpdate obj f w0) as [[[o|e]|msg] w1] eqn:Hcou
  end; try discriminate Hrun.
  injection Hrun as <- <-. split; [reflexivity|].
  apply CreateOrUpdate_ok in Hcou. cbv zeta in Hcou. osimpl_in Hcou.
  cbn [IngressMeta cluster setDraws] in Hcou.
  rewrite ?keyOf_namedMeta in Hcou.
  destruct Hcou as (o1 & Hf & Hk &
    [[Hnone Ht] | [[Hsome Ht] | (old & Hold & Hcase)]]).
  - rewrite Hnone in Hf |- *. cbn [default] in Hf. injection Hf as Hset.
    rewrite Ht, lookup_insert_eq. eexists. split; [reflexivity|].
    unfold SetControllerReference in Hset. revert Hset.
    repeat case_match; intros [= <-]; reflexivity.
  - rewrite Hsome in Hf |- *. cbn [default] in Hf. injection Hf as Hset.
    rewrite Ht. exists o1. split; [exact Hsome | reflexivity].
  - rewrite Hold in Hf |- *. cbn [default] in Hf. injection Hf as Hset.
    pose proof Hset as Hmeta.
    apply (SetControllerReference_meta (T:=Ingress)) in Hmeta as [Hfs _].
    assert (Hspec : IngressSpecOf o1 = IngressSpecOf old).
    { unfold SetControllerReference in Hset. revert Hset.
      repeat case_match; intros [= <-]; reflexivity. }
    destruct Hcase as [Ht | (Hdt & Hfin & _)].
    + rewrite Ht, lookup_insert_eq. eexists. split; [reflexivity|].
      exact Hspec.
    + exfalso. cbn in Hdt, Hfin. cbn in Hfs. rewrite Hfs in Hfin.
      destruct (Hsound _ _ Hold) as [_ Hheld]. exact (Hdt (Hheld Hfin)).
Qed.

(** The port the proxy is pointed at: the target of the first port named
    devbox-ssh-port, or 22. *)
Lemma sshPortOf_ports servicePorts :
  sshPortOf servicePorts
  = match List.find (fun p => bool_decide (SPName p = "devbox-ssh-port"))
                    servicePorts with
    | Some p => IntOrString_String (SPTargetPort p)
    | None => "22"
    end.
Proof.
  induction servicePorts as [|p rest IH]; [reflexivity|].
  cbn [sshPortOf List.find]. destruct (bool_decide _); [reflexivity | exact IH].
Qed.

(** X22.  Where the proxy connects.  In the environment
    [generateProxyPodEnv] returns, [TARGET] is the service of the pod,
    [<name>-pod-svc], at the target port of the first given port named
    devbox-ssh-port, or at port 22 when no port has that name; [LISTEN] is
    0.0.0.0:80 and [AUTO_SHUTDOWN_SERVICE_URL] the configured address; and
    every variable is there once. *)
Theorem proxy_environment_targets r servicePorts w envs w' :
  generateProxyPodEnv r servicePorts w = (Done (OK envs), w') ->
  lookupEnv "TARGET" envs
  = Some (Name (DevboxMeta (devbox w)) +:+ "-pod-svc:" +:+
          match List.find (fun p => bool_decide (SPName p = "devbox-ssh-port"))
                          servicePorts with
          | Some p => IntOrString_String (SPTargetPort p)
          | None => "22"
          end)
  /\ lookupEnv "LISTEN" envs = Some "0.0.0.0:80"
  /\ lookupEnv "AUTO_SHUTDOWN_SERVICE_URL" envs = Some (ShutdownServerAddr r)
  /\ NoDup (map EnvName envs).
Proof.
  rewrite generateProxyPodEnv_run. intros Hrun.
  destruct (SignedString _ _) as [token|err]; [|discriminate Hrun].
  injection Hrun as <- _. rewrite <- sshPortOf_ports. cbv zeta.
  destruct (Enable (AutoShutdown (Spec (devbox w))) && EnableAutoShutdown r);
    (split; [reflexivity|]; split; [reflexivity|]; split; [reflexivity|]);
    cbn [map app EnvName]; apply (bool_decide_unpack _); vm_compute; exact I.
Qed.

(** X23.  A stored proxy deployment is never rewritten.  For a Running
    devbox whose proxy deployment is stored, [syncProxyPod] reads it and
    returns no error: it writes nothing, reads no clock and draws no random
    string, so the token in the environment of the deployment is the one it
    was created with. *)
Theorem stored_proxy_is_not_rewritten r recLabels servicePorts w dep :
  State (Spec (devbox w)) = DevboxStateRunning ->
  deployments (cluster w)
    !! (Namespace (DevboxMeta (devbox w)),
        generateProxyPodDeploymentName (devbox w)) = Some dep ->
  nextFault w = None ->
  exists w',
    syncProxyPod r recLabels servicePorts w = (Done None, w')
    /\ cluster w' = cluster w
    /\ reads w' = reads w
    /\ draws w' = draws w
    /\ calls w'
       = (calls w ++ [{| CallVerb := VGet; CallKind := KDeployment;
                         CallKey :=
                           (Namespace (DevboxMeta (devbox w)),
                            generateProxyPodDeploymentName (devbox w)) |}])%list.
Proof.
  intros Hst Hdep Hq. unfold syncProxyPod. step.
  rewrite bind_run, client_Get_run. wsimpl. osimpl.
  unfold nextFault in Hq. rewrite Hq, Hdep, Hst.
  rewrite bool_decide_eq_true_2 by reflexivity.
  eexists. split; [reflexivity|]. repeat split; reflexivity.
Qed.

End NetworkMore.

(* ===================================================================== *)
(** ** Further properties: the end of a devbox                            *)
(* ===================================================================== *)

Section Erasure.
Context `{Helper} `{Libraries}.

(** X24.  A pass that returns no error for a devbox under deletion that
    carries the finalizer and is stored under its own name releases it:
    the devbox is gone from the store when the finalizer was its only one,
    and is stored without the finalizer, and otherwise as it was, when
    other finalizers hold it. *)
Theorem deletion_pass_releases_the_devbox r req w d ts w' :
  devboxes (cluster w) !! req = Some d ->
  keyOf (DevboxMeta d) = req ->
  DeletionTimestamp (DevboxMeta d) = Some ts ->
  FinalizerName ∈ Finalizers (DevboxMeta d) ->
  Reconcile r req w = (Done None, w') ->
  devboxes (cluster w') !! req
  = match filter (fun x => x ≠ FinalizerName) (Finalizers (DevboxMeta d)) with
    | [] => None
    | fs => Some {| DevboxMeta := withFinalizers fs (DevboxMeta d);
                    Spec := Spec d; Status := Status d |}
    end
  /\ (forall k, k <> req -> devboxes (cluster w') !! k = devboxes (cluster w) !! k).
Proof.
  intros Hd Hkey Hdel Hin Hrun.
  assert (Hq : nextFault w = None).
  { destruct (nextFault w) as [f|] eqn:Hf; [|reflexivity]. exfalso.
    unfold Reconcile in Hrun. step_in Hrun.
    rewrite bind_run, client_Get_run in Hrun. wsimpl_in Hrun.
    unfold nextFault in Hf. rewrite Hf in Hrun.
    cbn in Hrun. rewrite fault_not_NotFound in Hrun. discriminate Hrun. }
  rewrite (Reconcile_deleted r req w d Hd) in Hrun;
    [| rewrite Hdel; discriminate | exact Hq].
  apply bind_inv in Hrun as (e1 & w1 & Hrm & Hrun).
  destruct e1 as [e1|]; [apply ret_inv in Hrun as [[=] _]|].
  match type of Hrm with removeAll ?l _ = _ =>
    pose proof (keeps_devbox_removeAll l (fetched req d w)) as Hkeep end.
  rewrite Hrm in Hkeep. unfold same in Hkeep. cbn in Hkeep.
  injection Hkeep as Hboxes Hcell.
  step_in Hrun. rewrite Hcell in Hrun.
  unfold RemoveFinalizer in Hrun. cbv beta iota zeta in Hrun.
  rewrite removed_iff_member in Hrun. cbn [objectMeta Devbox_Object] in Hrun.
  rewrite bool_decide_eq_true_2 in Hrun by exact Hin.
  step_in Hrun. unfold Update_devbox in Hrun.
  repeat (rewrite bind_run in Hrun; wsimpl_in Hrun).
  rewrite client_Update_run in Hrun. cbv zeta in Hrun.
  wsimpl_in Hrun. osimpl_in Hrun.
  cbn [DevboxMeta Spec Status withStatus] in Hrun.
  rewrite keyOf_withFinalizers, Hkey in Hrun.
  destruct (headFault (faults w1)) as [f|]; [discriminate Hrun|].
  rewrite Hboxes, Hd in Hrun.
  cbn [withStatus DevboxMeta Spec Status] in Hrun.
  rewrite DeletionTimestamp_withDeletionTimestamp, Hdel in Hrun.
  cbn [Finalizers withDeletionTimestamp withFinalizers] in Hrun.
  destruct (filter (fun x => x ≠ FinalizerName) (Finalizers (DevboxMeta d)))
    as [|fz fs] eqn:Hfs.
  - repeat (rewrite bind_run in Hrun; wsimpl_in Hrun).
    injection Hrun as <-. wsimpl. osimpl. rewrite Hboxes.
    rewrite lookup_delete_eq. split; [reflexivity|].
    intros k Hk. rewrite lookup_delete_ne by congruence. reflexivity.
  - repeat (rewrite bind_run in Hrun; wsimpl_in Hrun).
    injection Hrun as <-. wsimpl. osimpl. rewrite Hboxes.
    rewrite lookup_insert_eq. split.
    + f_equal. destruct d as [m sp stt]; cbn in *. destruct m; cbn in *.
      rewrite Hdel. reflexivity.
    + intros k Hk. rewrite lookup_insert_ne by congruence. reflexivity.
Qed.

End Erasure.

(* ===================================================================== *)
(** ** Further properties: the finalizer of a live devbox                 *)
(* ===================================================================== *)

Lemma defer_world {A} (d : M unit) (body : M A) w :
  (defer d body w).2 = (d (body w).2).2.
Proof.
  unfold defer. destruct (body w) as [r w1]. cbn.
  destruct (d w1) as [[[]|msg] w2]; reflexivity.
Qed.

(** The run of a retried closure that ends well ends with a run of the
    closure that ends well. *)
Lemma attempts_last {A} (I : World -> Prop) n retriable (fn : M (result A))
    w a w' :
  keeps (holds I) fn -> I w ->
  attempts n retriable fn w = (Done (OK a), w') ->
  exists w0, I w0 /\ fn w0 = (Done (OK a), w').
Proof.
  intros Hfn. revert w. induction n as [|n IH]; intros w Hw Hrun;
    cbn [attempts] in Hrun; apply bind_inv in Hrun as (res & w1 & Hone & Hrun);
    pose proof (Hfn w Hw) as Hw1; rewrite Hone in Hw1; cbn in Hw1;
    destruct res as [a'|e].
  - apply ret_inv in Hrun as [[= ->] ->]. eauto.
  - destruct (retriable e); apply ret_inv in Hrun as [[=] _].
  - apply ret_inv in Hrun as [[= ->] ->]. eauto.
  - destruct (retriable e); [eauto | apply ret_inv in Hrun as [[=] _]].
Qed.

Lemma RetryOnConflict_last (I : World -> Prop) n (fn : M (option error))
    w w' :
  keeps (holds I) fn -> I w ->
  RetryOnConflict (S n) fn w = (Done None, w') ->
  exists w0, I w0 /\ fn w0 = (Done None, w').
Proof.
  intros Hfn Hw Hrun. unfold RetryOnConflict, OnError in Hrun.
  apply bind_inv in Hrun as (res & w1 & Hatt & Hrun).
  apply ret_inv in Hrun as [Hres ->].
  destruct res as [[]|e]; [|discriminate Hres].
  apply (attempts_last I) in Hatt as (w0 & Hw0 & Hone); [| |exact Hw].
  - exists w0. split; [exact Hw0|].
    apply bind_inv in Hone as (e & w2 & Hfn0 & Hret).
    apply ret_inv in Hret as [Hres' ->].
    destruct e as [e|]; [discriminate Hres'|exact Hfn0].
  - intros wx Hx. rewrite bind_run. specialize (Hfn wx Hx).
    destruct (fn wx) as [[e|msg] w2]; [destruct e|]; exact Hfn.
Qed.

Section Finalizer.
Context `{Helper} `{Libraries}.

(** What is stored of the metadata of the devboxes decides. *)
Lemma guarded_same_meta req w w' :
  same (fun w => DevboxMeta <$> devboxes (cluster w)) w w' ->
  holds (guarded req) w w'.
Proof.
  unfold same. intros Hsame (x & Hx & Hkey & Hin).
  assert (Hm : (DevboxMeta <$> devboxes (cluster w')) !! req
               = Some (DevboxMeta x)) by (rewrite Hsame, lookup_fmap, Hx; reflexivity).
  rewrite lookup_fmap in Hm.
  destruct (devboxes (cluster w') !! req) as [x'|] eqn:Hx'; [|discriminate Hm].
  injection Hm as Hm. exists x'. rewrite Hm. auto.
Qed.

Lemma keeps_guarded {A} req (m : M A) :
  keeps (same (fun w => DevboxMeta <$> devboxes (cluster w))) m ->
  keeps (holds (guarded req)) m.
Proof. intros Hm w. apply guarded_same_meta, Hm. Qed.

Lemma deferred_keeps_stored_meta :
  keeps (same (fun w => DevboxMeta <$> devboxes (cluster w))) syncPod_deferred.
Proof.
  unfold syncPod_deferred, Recorder_Eventf. keeps_steps ltac:(stored_spec_tac).
Qed.

Lemma syncSecret_keeps_stored_meta recLabels :
  keeps (same (fun w => DevboxMeta <$> devboxes (cluster w)))
        (syncSecret recLabels).
Proof. unfold syncSecret, setData. keeps_steps ltac:(stored_spec_tac). Qed.

Lemma syncNetwork_keeps_stored_meta r recLabels :
  keeps (same (fun w => DevboxMeta <$> devboxes (cluster w)))
        (syncNetwork r recLabels).
Proof.
  unfold syncNetwork, syncNodePortNetwork, syncWebSocketNetwork,
    getServicePort, syncPodSvc, syncProxySvc, syncProxyPod, syncProxyIngress,
    generateProxyPodDeployment, generateProxyPodEnv, generateProxyPodJWT,
    generateProxyPodName, generateProxyIngressHost, getRuntime,
    CreateOrUpdate, Status_Update_devbox, Update_devbox.
  keeps_steps ltac:(stored_spec_tac).
Qed.

(** The update of the devbox the pass holds, when that devbox carries the
    finalizer under the name [req]. *)
Lemma Update_devbox_guarding req :
  keeps (holds (guarding req)) Update_devbox.
Proof.
  intros w ((x & Hx & Hxkey & Hxin) & Hkey & Hin).
  unfold Update_devbox. step.
  rewrite bind_run, client_Update_run. cbv zeta. osimpl. rewrite Hkey.
  wsimpl. destruct (headFault (faults w)) as [f|].
  - cbn. unfold guarding, guarded. cbn. eauto 10.
  - rewrite Hx. cbn [withStatus DevboxMeta Spec Status].
    rewrite DeletionTimestamp_withDeletionTimestamp.
    cbn [Finalizers withDeletionTimestamp withFinalizers].
    destruct (DeletionTimestamp (DevboxMeta x)) as [ts|];
      [destruct (Finalizers (DevboxMeta (devbox w))) as [|f0 fs] eqn:Hfs;
       [apply elem_of_nil in Hin; destruct Hin|]|];
      repeat (rewrite bind_run; wsimpl); osimpl;
      unfold guarding, guarded; cbn; rewrite lookup_insert_eq;
      (split; [eexists; split; [reflexivity|]|]); cbn;
      rewrite ?keyOf_withDeletionTimestamp, ?Hfs; auto.
Qed.

Ltac guarding_tac :=
  unfold holds, guarding, guarded; cbn; try (intros Hg; exact Hg).

(** The pod sync, from a world in which the devbox held is the stored
    one: the only update of the devbox is the one of the quota path, where
    the devbox held has only had its state and its history changed. *)
Lemma syncPod_guarded r recLabels req w :
  guarding req w -> guarded req (syncPod r recLabels w).2.
Proof.
  intros Hg. unfold syncPod. step. step.
  rewrite bind_run, client_List_pods_run. wsimpl.
  destruct (headFault (faults w)) as [f|]; [cbn; exact (proj1 Hg)|].
  cbv beta iota. step.
  destruct (bool_decide _); [cbn; exact (proj1 Hg)|].
  rewrite defer_world.
  apply (keeps_guarded req _ deferred_keeps_stored_meta).
  match goal with |- guarded _ (_ ?W).2 => set (w1 := W) end.
  assert (Hg1 : guarding req w1) by exact Hg.
  clearbody w1.
  destruct (observedPods _ _ _) as [|pod [|pod2 rest]]; cbv beta iota.
  - match goal with |- guarded _ (?body _).2 =>
      assert (Hk : keeps (holds (guarding req)) body) end.
    { unfold getRuntime, generateNextCommitHistory, generateImageName,
        Recorder_Eventf, createPod.
      keeps_steps ltac:(guarding_tac); try apply Update_devbox_guarding. }
    exact (proj1 (Hk w1 Hg1)).
  - match goal with |- guarded _ (?body _).2 =>
      assert (Hk : keeps (same (fun w => devboxes (cluster w))) body) end.
    { unfold getRuntime, generateNextCommitHistory, generateImageName,
        deletePod, handlePodDeleted, setPod, index0.
      keeps_steps ltac:(reflexivity). }
    destruct Hg1 as [(x & Hx & Hrest) _]. exists x.
    rewrite (Hk w1). auto.
  - match goal with |- guarded _ (?body _).2 =>
      assert (Hk : keeps (same (fun w => devboxes (cluster w))) body) end.
    { unfold getRuntime, generateNextCommitHistory, generateImageName.
      keeps_steps ltac:(reflexivity). }
    destruct Hg1 as [(x & Hx & Hrest) _]. exists x.
    rewrite (Hk w1). auto.
Qed.

Lemma Reconcile_syncPod_guarded r req recLabels :
  keeps (holds (guarded req)) (Reconcile_syncPod r req recLabels).
Proof.
  unfold Reconcile_syncPod.
  apply keeps_bind; [typeclasses eauto| |].
  - apply keeps_RetryOnConflict; [typeclasses eauto..|].
    intros w Hg. rewrite bind_run, client_Get_run. osimpl.
    destruct (nextFault w) as [f|]; [exact Hg|].
    destruct Hg as (x & Hx & Hkey & Hin). rewrite Hx. cbv beta iota.
    step. apply syncPod_guarded. split; [exists x; auto | split; assumption].
  - intros [e|]; unfold Recorder_Eventf; apply keeps_guarded;
      keeps_steps ltac:(reflexivity).
Qed.

(** One run of the closure that adds the finalizer. *)
Lemma addFinalizer_run req w x :
  devboxes (cluster w) !! req = Some x ->
  keyOf (DevboxMeta x) = req ->
  filed req (addFinalizer req w).2
  /\ (FinalizerName ∈ Finalizers (DevboxMeta x) ->
      guarded req (addFinalizer req w).2)
  /\ (forall w', addFinalizer req w = (Done None, w') -> guarded req w').
Proof.
  intros Hx Hkey. unfold addFinalizer.
  rewrite bind_run, client_Get_run. osimpl.
  destruct (nextFault w) as [f|] eqn:Hf.
  - cbn [IgnoreNotFound]. rewrite fault_not_NotFound.
    split; [exists x; auto|]. split; [intros Hin; exists x; auto|].
    intros w' [=].
  - rewrite Hx. cbv beta iota. unfold AddFinalizer, ContainsFinalizer.
    cbn [objectMeta Devbox_Object].
    destruct (decide (FinalizerName ∈ Finalizers (DevboxMeta x))) as [Hin|Hnot].
    + rewrite bool_decide_eq_true_2 by exact Hin.
      split; [exists x; auto|]. split; [intros _; exists x; auto|].
      intros w' [= <-]. exists x. auto.
    + rewrite bool_decide_eq_false_2 by exact Hnot. cbv beta iota.
      split; [|split; [intros Hin; destruct (Hnot Hin)|]].
      * rewrite bind_run, client_Update_run. cbv zeta. osimpl.
        cbn [DevboxMeta Spec Status withStatus].
        rewrite keyOf_withFinalizers, Hkey. wsimpl.
        destruct (headFault (tail (faults w))) as [f|]; [exists x; auto|].
        rewrite Hx. cbn.
        destruct (DeletionTimestamp (DevboxMeta x)) as [ts|];
          [destruct (Finalizers (DevboxMeta x) ++ [FinalizerName])%list
             eqn:Happ; [apply app_eq_nil in Happ as [_ [=]]|]|];
          unfold filed; cbn; rewrite lookup_insert_eq; eauto.
      * intros w'. rewrite bind_run, client_Update_run. cbv zeta. osimpl.
        cbn [DevboxMeta Spec Status withStatus].
        rewrite keyOf_withFinalizers, Hkey. wsimpl.
        destruct (headFault (tail (faults w))) as [f|]; [intros [=]|].
        rewrite Hx. cbn.
        destruct (DeletionTimestamp (DevboxMeta x)) as [ts|];
          [destruct (Finalizers (DevboxMeta x) ++ [FinalizerName])%list
             eqn:Happ; [apply app_eq_nil in Happ as [_ [=]]|]|];
          intros [= <-]; unfold guarded; cbn; rewrite lookup_insert_eq;
          eexists; (split; [reflexivity|]); cbn; rewrite ?Happ;
          (split; [exact Hkey|]); rewrite <- ?Happ;
          apply elem_of_app; right; apply list_elem_of_singleton; reflexivity.
Qed.

(** What follows the finalizer in a pass for a live devbox leaves the
    metadata of the stored devbox, or updates it from a copy that carries
    the finalizer. *)
Lemma Reconcile_guard r req w d :
  devboxes (cluster w) !! req = Some d ->
  keyOf (DevboxMeta d) = req ->
  DeletionTimestamp (DevboxMeta d) = None ->
  (FinalizerName ∈ Finalizers (DevboxMeta d) ->
   guarded req (Reconcile r req w).2)
  /\ (forall w', Reconcile r req w = (Done None, w') -> guarded req w').
Proof.
  intros Hd Hkey Hdel. unfold Reconcile. step.
  rewrite bind_run, client_Get_run. wsimpl. osimpl.
  destruct (headFault (faults w)) as [f|].
  { cbn [IgnoreNotFound]. rewrite fault_not_NotFound.
    split; [intros Hin; exists d; auto | intros w' [=]]. }
  rewrite Hd. cbv beta iota. step. rewrite Hdel. cbn [IsZero].
  change (RetryOnConflict DefaultRetrySteps _)
    with (RetryOnConflict DefaultRetrySteps (addFinalizer req)).
  rewrite bind_run.
  match goal with |- context [RetryOnConflict _ _ ?W] => set (w0 := W) end.
  assert (Hd0 : devboxes (cluster w0) !! req = Some d) by exact Hd.
  clearbody w0.
  assert (Hfiled : keeps (holds (filed req)) (addFinalizer req)).
  { intros wx (x & Hx & Hxkey).
    exact (proj1 (addFinalizer_run req wx x Hx Hxkey)). }
  assert (Hguard : keeps (holds (guarded req))
                     (RetryOnConflict DefaultRetrySteps (addFinalizer req))).
  { apply keeps_RetryOnConflict; [typeclasses eauto..|].
    intros wx (x & Hx & Hxkey & Hxin).
    exact (proj1 (proj2 (addFinalizer_run req wx x Hx Hxkey)) Hxin). }
  specialize (Hguard w0).
  destruct (RetryOnConflict DefaultRetrySteps (addFinalizer req) w0)
    as [[[e|]|msg] w1] eqn:Hfin; cbn [snd] in Hguard.
  - split; [intros Hin; apply Hguard; exists d; auto | intros w' [=]].
  - assert (Hg1 : guarded req w1).
    { apply (RetryOnConflict_last (filed req)) in Hfin
        as (wx & (x & Hx & Hxkey) & Hone);
        [|exact Hfiled|exists d; auto].
      exact (proj2 (proj2 (addFinalizer_run req wx x Hx Hxkey)) w1 Hone). }
    match goal with |- context [guarded req (?rest w1).2] =>
      assert (Hrest : keeps (holds (guarded req)) rest) end.
    { apply keeps_bind; [typeclasses eauto|intros wx Hx; exact Hx|intros _].
      apply keeps_bind; [typeclasses eauto| |intros _].
      { apply keeps_guarded. unfold Status_Update_devbox.
        keeps_steps ltac:(stored_spec_tac). }
      apply keeps_bind;
        [typeclasses eauto
        |apply keeps_guarded, syncSecret_keeps_stored_meta|].
      intros [e|].
      { unfold Recorder_Eventf. apply keeps_guarded.
        keeps_steps ltac:(reflexivity). }
      apply keeps_bind; [typeclasses eauto| |intros _].
      { unfold Recorder_Eventf. apply keeps_guarded.
        keeps_steps ltac:(reflexivity). }
      apply keeps_bind;
        [typeclasses eauto
        |apply keeps_guarded, syncNetwork_keeps_stored_meta|].
      intros [e|]; [|apply Reconcile_syncPod_guarded].
      unfold Recorder_Eventf. apply keeps_guarded.
      keeps_steps ltac:(reflexivity). }
    specialize (Hrest w1 Hg1).
    split; [intros _; exact Hrest|].
    intros w' Hrun. rewrite Hrun in Hrest. exact Hrest.
  - split; [intros Hin; apply Hguard; exists d; auto | intros w' [=]].
Qed.

(** X25.  No pass takes the finalizer from a live devbox: when the devbox
    stored under its own name is not under deletion and carries the
    finalizer, then however the pass ends (with no error, with an error or
    in a panic) the devbox stored carries it. *)
Theorem finalizer_stays_on_a_live_devbox r req w d :
  devboxes (cluster w) !! req = Some d ->
  keyOf (DevboxMeta d) = req ->
  DeletionTimestamp (DevboxMeta d) = None ->
  FinalizerName ∈ Finalizers (DevboxMeta d) ->
  guarded req (Reconcile r req w).2.
Proof.
  intros Hd Hkey Hdel Hin.
  exact (proj1 (Reconcile_guard r req w d Hd Hkey Hdel) Hin).
Qed.

(** X26.  A pass that returns no error for a live devbox stored under its
    own name leaves it with the finalizer: the cleanup of a later deletion
    is never skipped for a devbox the controller has handled. *)
Theorem handled_devbox_carries_the_finalizer r req w d w' :
  devboxes (cluster w) !! req = Some d ->
  keyOf (DevboxMeta d) = req ->
  DeletionTimestamp (DevboxMeta d) = None ->
  Reconcile r req w = (Done None, w') ->
  guarded req w'.
Proof.
  intros Hd Hkey Hdel Hrun.
  exact (proj2 (Reconcile_guard r req w d Hd Hkey Hdel) w' Hrun).
Qed.

End Finalizer.

(* ===================================================================== *)
(** ** Further properties: the authentication cache                       *)
(* ===================================================================== *)

(** X27.  The cache knows a pair by the string [kc-ns] only: what is set
    for one pair answers every pair that makes the same string, [true]
    until the time to live has passed and [false] after it.  This holds
    whatever the capacity is: the eviction comes before the entry is
    written. *)
Theorem set_answers_every_pair_of_the_key ns kc ns' kc' now later ac :
  Auth.keyFor ns' kc' = Auth.keyFor ns kc ->
  Auth.AuthCache_Get ns' kc' later (Auth.AuthCache_Set ns kc now ac)
  = bool_decide (later - now <= Auth.ttl ac).
Proof.
  intros Hkey. unfold Auth.AuthCache_Get, Auth.AuthCache_Set.
  cbv zeta. cbn [Auth.cache Auth.ttl]. rewrite Hkey, lookup_insert_eq.
  assert (Httl : Auth.ttl (if bool_decide (Auth.capacity ac
                                           <= Z.of_nat (size (Auth.cache ac)))
                           then Auth.evict ac else ac) = Auth.ttl ac).
  { destruct (bool_decide _); [|reflexivity].
    unfold Auth.evict. destruct (last _); reflexivity. }
  rewrite Httl.
  destruct (decide (later - now > Auth.ttl ac)) as [Hgt|Hle].
  - rewrite bool_decide_eq_true_2 by exact Hgt.
    rewrite bool_decide_eq_false_2 by lia. reflexivity.
  - rewrite bool_decide_eq_false_2 by exact Hle.
    rewrite bool_decide_eq_true_2 by lia. reflexivity.
Qed.

Lemma evict_in_step ac :
  Auth.in_step ac ->
  Auth.in_step (Auth.evict ac)
  /\ (forall k, k ∈ Auth.order (Auth.evict ac) -> k ∈ Auth.order ac)
  /\ size (Auth.cache (Auth.evict ac)) = Nat.pred (size (Auth.cache ac)).
Proof.
  intros [Hnd Hsync]. unfold Auth.evict.
  destruct (last (Auth.order ac)) as [k|] eqn:Hlast.
  - apply last_Some in Hlast as [l Hl].
    unfold Auth.in_step. cbn [Auth.cache Auth.order].
    rewrite Hl in Hnd, Hsync |- *. rewrite removelast_last.
    apply NoDup_app in Hnd as (Hndl & Hdisj & _).
    assert (Hk : k ∉ l).
    { intros Hin. apply (Hdisj k Hin), list_elem_of_singleton. reflexivity. }
    split; [split; [exact Hndl|]|split].
    + intros k'. split.
      * intros Hin. rewrite lookup_delete_ne by (intros ->; exact (Hk Hin)).
        apply Hsync, elem_of_app. left. exact Hin.
      * intros Hsome. destruct (decide (k = k')) as [->|Hne].
        { rewrite lookup_delete_eq in Hsome. destruct Hsome as [? [=]]. }
        rewrite lookup_delete_ne in Hsome by exact Hne.
        apply Hsync, elem_of_app in Hsome as [Hin|Hin]; [exact Hin|].
        apply list_elem_of_singleton in Hin. congruence.
    + intros k' Hin. apply elem_of_app. left. exact Hin.
    + apply map_size_delete_Some, Hsync, elem_of_app. right.
      apply list_elem_of_singleton. reflexivity.
  - split; [split; assumption|]. split; [auto|].
    assert (Hempty : Auth.cache ac = ∅).
    { apply map_empty. intros k.
      destruct (Auth.cache ac !! k) eqn:Hk; [|reflexivity].
      assert (Hin : k ∈ Auth.order ac) by (apply Hsync; eauto).
      apply last_None in Hlast. rewrite Hlast in Hin.
      apply elem_of_nil in Hin. destruct Hin. }
    rewrite Hempty, map_size_empty. reflexivity.
Qed.

(** X28.  As long as each key is set once and nothing has been cleaned
    up, the capacity bounds the cache: setting a key that is not in the
    list keeps the list and the map in step and the map within the
    capacity (within one entry, when the capacity is not positive). *)
Theorem capacity_bounds_keys_set_once ns kc now ac :
  Auth.in_step ac ->
  Z.of_nat (size (Auth.cache ac)) <= Z.max 1 (Auth.capacity ac) ->
  Auth.keyFor ns kc ∉ Auth.order ac ->
  Auth.in_step (Auth.AuthCache_Set ns kc now ac)
  /\ Z.of_nat (size (Auth.cache (Auth.AuthCache_Set ns kc now ac)))
     <= Z.max 1 (Auth.capacity ac).
Proof.
  intros Hstep Hsize Hfresh. unfold Auth.AuthCache_Set. cbv zeta.
  set (ac1 := if bool_decide _ then Auth.evict ac else ac).
  assert (H1 : Auth.in_step ac1
               /\ (Auth.keyFor ns kc ∉ Auth.order ac1)
               /\ Z.of_nat (S (size (Auth.cache ac1)))
                  <= Z.max 1 (Auth.capacity ac)).
  { subst ac1. destruct (decide (Auth.capacity ac
                                 <= Z.of_nat (size (Auth.cache ac))))
      as [Hfull|Hroom].
    - rewrite bool_decide_eq_true_2 by exact Hfull.
      destruct (evict_in_step ac Hstep) as (Hstep' & Hsub & Hless).
      split; [exact Hstep'|]. split; [intros Hin; exact (Hfresh (Hsub _ Hin))|].
      rewrite Hless. lia.
    - rewrite bool_decide_eq_false_2 by exact Hroom.
      split; [exact Hstep|]. split; [exact Hfresh|]. lia. }
  clearbody ac1. destruct H1 as ([Hnd Hsync] & Hfresh1 & Hsize1).
  unfold Auth.in_step.
  assert (Hnone : Auth.cache ac1 !! Auth.keyFor ns kc = None).
  { destruct (Auth.cache ac1 !! Auth.keyFor ns kc) eqn:Hk; [|reflexivity].
    exfalso. apply Hfresh1, Hsync. eauto. }
  cbn [Auth.cache Auth.order]. split; [split|].
  - apply NoDup_cons. split; assumption.
  - intros k. rewrite elem_of_cons. destruct (decide (k = Auth.keyFor ns kc))
      as [->|Hne].
    + rewrite lookup_insert_eq. split; [eauto | left; reflexivity].
    + rewrite lookup_insert_ne by congruence. rewrite <- Hsync.
      split; [intros [?|?]; [contradiction|assumption] | right; assumption].
  - rewrite (map_size_insert_None _ _ _ Hnone). exact Hsize1.
Qed.

(** X29.  Once the key at the back of the list is no longer in the map
    (it was cleaned up, or set again and evicted before), a full cache
    outgrows its capacity: the eviction takes the stale key from the list
    and nothing from the map, and the new key is one more entry. *)
Theorem stale_key_lets_the_cache_outgrow ns kc now ac oldest :
  last (Auth.order ac) = Some oldest ->
  Auth.cache ac !! oldest = None ->
  Auth.capacity ac <= Z.of_nat (size (Auth.cache ac)) ->
  Auth.cache ac !! Auth.keyFor ns kc = None ->
  Z.of_nat (size (Auth.cache (Auth.AuthCache_Set ns kc now ac)))
  = Z.of_nat (size (Auth.cache ac)) + 1
  /\ forall k, is_Some (Auth.cache ac !! k) ->
               is_Some (Auth.cache (Auth.AuthCache_Set ns kc now ac) !! k).
Proof.
  intros Hlast Hstale Hfull Hnew. unfold Auth.AuthCache_Set. cbv zeta.
  rewrite bool_decide_eq_true_2 by exact Hfull.
  unfold Auth.evict. rewrite Hlast. cbn [Auth.cache].
  rewrite (delete_id _ _ Hstale). split.
  - rewrite (map_size_insert_None _ _ _ Hnew). lia.
  - intros k Hk. destruct (decide (k = Auth.keyFor ns kc)) as [->|Hne].
    + rewrite lookup_insert_eq. eauto.
    + rewrite lookup_insert_ne by congruence. exact Hk.
Qed.

(* ===================================================================== *)
(** ** The further properties at the sample                               *)
(* ===================================================================== *)

(** A pass for a name no devbox has. *)
Lemma reconcile_of_absent_devbox_witness :
  exists w',
    @Reconcile Sample.helper Sample.libraries Sample.reconciler
      ("ns", "nobody") Sample.np0 = (Done None, w')
    /\ cluster w' = cluster Sample.np0.
Proof.
  destruct (@reconcile_of_absent_devbox Sample.helper Sample.libraries
              Sample.reconciler ("ns", "nobody") Sample.np0)
    as (w' & Hrun & Hcluster & _); [vm_compute; reflexivity|].
  exists w'. split; [exact Hrun | exact Hcluster].
Defined.

(** The credential sync where the secret has all its fields. *)
Lemma complete_secret_is_left_alone_witness :
  exists w',
    Sample.secretSync (Sample.secretWith Sample.fullData) = (Done None, w')
    /\ cluster w' = cluster (Sample.secretWith Sample.fullData).
Proof.
  destruct (@complete_secret_is_left_alone Sample.helper Sample.boxLabels
              (Sample.secretWith Sample.fullData)
              {| SecretMeta := namedMeta "box" "ns" ∅;
                 Data := Some Sample.fullData |} Sample.fullData)
    as (w' & Hrun & Hcluster & _);
    [ vm_compute; reflexivity | reflexivity
    | eexists; vm_compute; reflexivity | eexists; vm_compute; reflexivity
    | reflexivity |].
  exists w'. split; [exact Hrun | exact Hcluster].
Defined.

(** The credential sync where the secret holds the key pair only: both
    fields are filled in. *)
Lemma existing_secret_is_backfilled_witness :
  exists w' m',
    Sample.secretSync (Sample.secretWith Sample.keysOnly) = (Done None, w')
    /\ secrets (cluster w') !! ("ns", "box")
       = Some {| SecretMeta := namedMeta "box" "ns" ∅; Data := Some m' |}
    /\ m' !! "SEALOS_DEVBOX_JWT_SECRET" = Some "r0"
    /\ m' !! "SEALOS_DEVBOX_AUTHORIZED_KEYS" = Some "pub"
    /\ m' !! "SEALOS_DEVBOX_PRIVATE_KEY" = Some "priv".
Proof.
  destruct (@existing_secret_is_backfilled Sample.helper Sample.boxLabels
              (Sample.secretWith Sample.keysOnly)
              {| SecretMeta := namedMeta "box" "ns" ∅;
                 Data := Some Sample.keysOnly |} Sample.keysOnly)
    as (res & w' & Hrun & Hquiet & Hok);
    [ vm_compute; reflexivity | reflexivity | reflexivity | reflexivity
    | intros Hempty;
      assert (Hk : Sample.keysOnly !! "SEALOS_DEVBOX_PUBLIC_KEY" = Some "pub")
        by (vm_compute; reflexivity);
      rewrite Hempty, lookup_empty in Hk; discriminate Hk |].
  assert (Hres : res = None) by (apply Hquiet, quiet_nil; reflexivity).
  destruct (Hok Hres) as (m' & Hstored & Hkeep & _ & Hjwt & Hauth).
  subst res. exists w', m'. split; [exact Hrun|]. split; [exact Hstored|].
  split; [|split].
  - rewrite Hjwt; [vm_compute; reflexivity | vm_compute; reflexivity].
  - rewrite Hauth; [vm_compute; reflexivity | vm_compute; reflexivity].
  - apply Hkeep. vm_compute. reflexivity.
Defined.

(** The credential sync of the new devbox of the sample. *)
Lemma absent_secret_is_created_witness :
  exists w',
    Sample.secretSync (Sample.held DevboxStateRunning NetworkTypeNodePort)
    = (Done None, w')
    /\ is_Some (secrets (cluster w') !! ("ns", "box")).
Proof.
  destruct (@absent_secret_is_created Sample.helper Sample.boxLabels
              (Sample.held DevboxStateRunning NetworkTypeNodePort)
              "pub-r0" "priv-r0")
    as (w' & Hrun & Hsecret);
    [ vm_compute; reflexivity | vm_compute; reflexivity
    | apply quiet_nil; reflexivity |].
  exists w'. split; [exact Hrun | eexists; exact Hsecret].
Defined.

(** The credential sync during an outage. *)
Lemma unreadable_secret_is_reported_witness :
  exists e w',
    Sample.secretSync
      (Sample.heldWith DevboxStateRunning NetworkTypeNodePort
         [Some (FaultUnavailable "etcd unavailable")])
    = (Done (Some e), w').
Proof.
  destruct (@unreadable_secret_is_reported Sample.helper Sample.boxLabels
              (Sample.heldWith DevboxStateRunning NetworkTypeNodePort
                 [Some (FaultUnavailable "etcd unavailable")])
              (FaultUnavailable "etcd unavailable"))
    as (w' & Hrun & _); [reflexivity|].
  eexists. exists w'. exact Hrun.
Defined.

(** The credential sync where no key pair can be generated. *)
Lemma failed_key_generation_creates_nothing_witness :
  exists e w',
    @syncSecret Sample.noKeys Sample.boxLabels
      (Sample.held DevboxStateRunning NetworkTypeNodePort)
    = (Done (Some e), w')
    /\ secrets (cluster w') = ∅.
Proof.
  destruct (@failed_key_generation_creates_nothing Sample.noKeys
              Sample.boxLabels
              (Sample.held DevboxStateRunning NetworkTypeNodePort)
              (Errorf "no entropy"))
    as (w' & Hrun & Hcluster & _);
    [reflexivity | vm_compute; reflexivity | reflexivity |].
  eexists. exists w'. split; [exact Hrun|]. rewrite Hcluster. reflexivity.
Defined.

(** The pod sync of the Stopped devbox with a pod. *)
Lemma stopped_devbox_gets_no_pod_witness :
  madeOnly (fun c => CallVerb c <> VCreate)
    (Sample.withPod DevboxStateStopped (Sample.ready (Sample.barePod "box-a")))
    (Sample.podSync
       (Sample.withPod DevboxStateStopped
          (Sample.ready (Sample.barePod "box-a")))).2.
Proof.
  apply (@stopped_devbox_gets_no_pod Sample.helper Sample.libraries
           Sample.reconciler Sample.boxLabels). reflexivity.
Defined.

(** The pod sync of the new Running devbox of the sample. *)
Lemma running_devbox_gets_its_pod_witness :
  exists w',
    Sample.podSync (Sample.held DevboxStateRunning NetworkTypeNodePort)
    = (Done None, w')
    /\ is_Some (pods (cluster w') !! ("ns", "box-r1")).
Proof.
  destruct (@running_devbox_gets_its_pod Sample.helper Sample.libraries
              Sample.reconciler Sample.boxLabels
              (Sample.held DevboxStateRunning NetworkTypeNodePort)
              Sample.runtime)
    as (w' & Hrun & Hpods & _);
    [ reflexivity | vm_compute; reflexivity | vm_compute; reflexivity
    | vm_compute; reflexivity | apply quiet_nil; reflexivity |].
  exists w'. split; [exact Hrun|]. rewrite Hpods.
  eexists. vm_compute. reflexivity.
Defined.

(** The pod sync whose creation of the pod meets an outage. *)
Lemma refused_creation_is_reported_witness :
  exists e w',
    Sample.podSync
      (Sample.heldWith DevboxStateRunning NetworkTypeNodePort
         [None; None; Some (FaultUnavailable "etcd unavailable")])
    = (Done (Some e), w')
    /\ pods (cluster w') = ∅.
Proof.
  destruct (@refused_creation_is_reported Sample.helper Sample.libraries
              Sample.reconciler Sample.boxLabels
              (Sample.heldWith DevboxStateRunning NetworkTypeNodePort
                 [None; None; Some (FaultUnavailable "etcd unavailable")])
              Sample.runtime (FaultUnavailable "etcd unavailable") [])
    as (w' & Hrun & Hpods & _);
    [ reflexivity | vm_compute; reflexivity | vm_compute; reflexivity
    | reflexivity | vm_compute; reflexivity |].
  eexists. exists w'. split; [exact Hrun | exact Hpods].
Defined.

(** The pod sync of the Stopped devbox whose pod runs. *)
Lemma stopping_takes_the_pod_away_witness :
  exists w',
    Sample.podSync
      (Sample.withPod DevboxStateStopped (Sample.ready (Sample.barePod "box-a")))
    = (Done None, w')
    /\ pods (cluster w') !! ("ns", "box-a") = None.
Proof.
  destruct (@stopping_takes_the_pod_away Sample.helper Sample.libraries
              Sample.reconciler Sample.boxLabels
              (Sample.withPod DevboxStateStopped
                 (Sample.ready (Sample.barePod "box-a")))
              (Sample.ready (Sample.barePod "box-a"))
              {| CState := Sample.running |} [])
    as (w' & Hrun & _ & Hgone & _);
    [ reflexivity | vm_compute; reflexivity | vm_compute; reflexivity
    | reflexivity | reflexivity | apply quiet_nil; reflexivity |].
  exists w'. split; [exact Hrun|]. apply Hgone. vm_compute. reflexivity.
Defined.

(** The pod sync of the Stopped devbox whose pod is under deletion. *)
Lemma pod_under_deletion_is_released_witness :
  exists w',
    Sample.podSync
      (Sample.withPod DevboxStateStopped
         (Sample.leaving (Sample.ready (Sample.barePod "box-a"))))
    = (Done None, w')
    /\ pods (cluster w') !! ("ns", "box-a") = None
    /\ LastTerminationState (Status (devbox w')) = Sample.running.
Proof.
  destruct (@pod_under_deletion_is_released Sample.helper Sample.libraries
              Sample.reconciler Sample.boxLabels
              (Sample.withPod DevboxStateStopped
                 (Sample.leaving (Sample.ready (Sample.barePod "box-a"))))
              (Sample.leaving (Sample.ready (Sample.barePod "box-a")))
              1700000200 {| CState := Sample.running |} [])
    as (w' & Hrun & Hpod & _ & Hlast);
    [ reflexivity | vm_compute; reflexivity | vm_compute; reflexivity
    | reflexivity | reflexivity | apply quiet_nil; reflexivity |].
  exists w'. split; [exact Hrun|]. split; [|exact Hlast].
  refine (eq_trans Hpod _). vm_compute. reflexivity.
Defined.

(** The same where the node agent has not reported on the pod. *)
Lemma stopped_path_release_indexes_without_guard_witness :
  exists w',
    Sample.podSync
      (Sample.withPod DevboxStateStopped (Sample.leaving (Sample.barePod "box-a")))
    = (Panicked indexPanic, w').
Proof.
  destruct (@stopped_path_release_indexes_without_guard
              Sample.helper Sample.libraries
              Sample.reconciler Sample.boxLabels
              (Sample.withPod DevboxStateStopped
                 (Sample.leaving (Sample.barePod "box-a")))
              (Sample.leaving (Sample.barePod "box-a")) 1700000200)
    as (w' & Hrun & _);
    [ reflexivity | vm_compute; reflexivity | vm_compute; reflexivity
    | reflexivity | reflexivity | apply quiet_nil; reflexivity |].
  exists w'. exact Hrun.
Defined.

(** The pod sync of the Running devbox whose own pod runs. *)
Lemma expected_pod_is_left_alone_witness :
  exists w',
    Sample.podSync (Sample.withPod DevboxStateRunning Sample.ownPod)
    = (Done None, w')
    /\ pods (cluster w')
       = pods (cluster (Sample.withPod DevboxStateRunning Sample.ownPod)).
Proof.
  destruct (@expected_pod_is_left_alone Sample.helper Sample.libraries
              Sample.reconciler Sample.boxLabels
              (Sample.withPod DevboxStateRunning Sample.ownPod)
              Sample.runtime Sample.ownPod {| CState := Sample.running |} [])
    as (w' & Hrun & Hpods & _);
    [ reflexivity | vm_compute; reflexivity | vm_compute; reflexivity
    | reflexivity | reflexivity | vm_compute; reflexivity
    | right; reflexivity | apply quiet_nil; reflexivity |].
  exists w'. split; [exact Hrun | exact Hpods].
Defined.

(** The pod sync of the Running devbox with a pod that is not its own. *)
Lemma finished_pod_is_taken_away_witness :
  exists w',
    Sample.podSync
      (Sample.withPod DevboxStateRunning (Sample.ready (Sample.barePod "box-a")))
    = (Done None, w')
    /\ pods (cluster w') = ∅.
Proof.
  destruct (@finished_pod_is_taken_away Sample.helper Sample.libraries
              Sample.reconciler Sample.boxLabels
              (Sample.withPod DevboxStateRunning
                 (Sample.ready (Sample.barePod "box-a")))
              Sample.runtime (Sample.ready (Sample.barePod "box-a"))
              {| CState := Sample.running |} [])
    as (w' & Hrun & _ & Hgone & _ & Hrest);
    [ reflexivity | vm_compute; reflexivity | vm_compute; reflexivity
    | vm_compute; reflexivity | reflexivity | reflexivity
    | left; vm_compute; reflexivity | apply quiet_nil; reflexivity |].
  exists w'. split; [exact Hrun|]. apply map_empty. intros k.
  destruct (decide (k = ("ns", "box-a"))) as [->|Hk].
  - apply Hgone. vm_compute. reflexivity.
  - rewrite (Hrest k Hk). apply lookup_singleton_ne.
    intros Heq. apply Hk. rewrite <- Heq. reflexivity.
Defined.

(** The network sync of the devbox whose runtime is gone. *)
Lemma network_sync_needs_the_runtime_witness :
  exists e w',
    Sample.networkSync Sample.orphan = (Done (Some e), w')
    /\ IsNotFound e = true
    /\ cluster w' = cluster Sample.orphan.
Proof.
  destruct (@network_sync_needs_the_runtime Sample.helper Sample.libraries
              Sample.reconciler Sample.boxLabels Sample.orphan)
    as (e & w' & Hrun & Hnf & Hcluster & _); [vm_compute; reflexivity|].
  exists e, w'. split; [exact Hrun|].
  split; [apply Hnf; reflexivity | exact Hcluster].
Defined.

(** The network sync of a devbox with a network type of its own. *)
Lemma unknown_network_type_is_ignored_witness :
  exists w',
    Sample.networkSync
      (Sample.held DevboxStateRunning (NetworkTypeOther "Tailnet"))
    = (Done None, w')
    /\ cluster w'
       = cluster (Sample.held DevboxStateRunning (NetworkTypeOther "Tailnet")).
Proof.
  destruct (@unknown_network_type_is_ignored Sample.helper Sample.libraries
              Sample.reconciler Sample.boxLabels
              (Sample.held DevboxStateRunning (NetworkTypeOther "Tailnet"))
              "Tailnet" Sample.runtime)
    as (w' & Hrun & Hcluster & _);
    [reflexivity | vm_compute; reflexivity | reflexivity |].
  exists w'. split; [exact Hrun | exact Hcluster].
Defined.

(** The pod service of the WebSocket devbox of the sample. *)
Lemma pod_service_is_upserted_witness :
  exists svc,
    services
      (cluster (Sample.podService
                  (Sample.held DevboxStateRunning NetworkTypeWebSocket)).2)
      !! ("ns", "box-pod-svc") = Some svc
    /\ SType (ServiceSpecOf svc) = ServiceTypeClusterIP
    /\ map portFields (SPorts (ServiceSpecOf svc))
       = [("devbox-ssh-port", 22, FromInt32 22, ProtocolTCP)].
Proof.
  destruct (@pod_service_is_upserted Sample.helper Sample.boxLabels
              (runtimeServicePorts Sample.runtime)
              (Sample.held DevboxStateRunning NetworkTypeWebSocket)
              (Sample.podService
                 (Sample.held DevboxStateRunning NetworkTypeWebSocket)).2)
    as (rt & svc & _ & Hsvc & Htype & _ & Hports);
    [ unfold sound; apply (bool_decide_unpack _); vm_compute; exact I
    | apply run_result; vm_compute; reflexivity |].
  exists svc. split; [exact Hsvc|]. split; [exact Htype | exact Hports].
Defined.

(** Its proxy service. *)
Lemma proxy_service_is_upserted_witness :
  exists svc,
    services
      (cluster (Sample.proxyService
                  (Sample.held DevboxStateRunning NetworkTypeWebSocket)).2)
      !! ("ns", "box-proxy-svc") = Some svc
    /\ map portFields (SPorts (ServiceSpecOf svc))
       = [("devbox-ssh-port", 80, FromInt32 80, ProtocolTCP)].
Proof.
  destruct (@proxy_service_is_upserted Sample.helper
              (Sample.held DevboxStateRunning NetworkTypeWebSocket)
              (Sample.proxyService
                 (Sample.held DevboxStateRunning NetworkTypeWebSocket)).2)
    as (rt & svc & _ & Hsvc & _ & _ & Hports);
    [ unfold sound; apply (bool_decide_unpack _); vm_compute; exact I
    | apply run_result; vm_compute; reflexivity |].
  exists svc. split; [exact Hsvc | exact Hports].
Defined.

(** The proxy service sync where the stored service has no port. *)
Lemma proxy_service_indexes_without_guard_witness :
  exists w',
    Sample.proxyService Sample.portless = (Panicked indexPanic, w').
Proof.
  destruct (@proxy_service_indexes_without_guard Sample.helper
              Sample.portless Sample.runtime Sample.proxyServiceNoPorts)
    as (w' & Hrun & _);
    [ vm_compute; reflexivity | vm_compute; reflexivity | reflexivity
    | apply quiet_nil; reflexivity |].
  exists w'. exact Hrun.
Defined.

(** The proxy ingress of the WebSocket devbox of the sample. *)
Lemma proxy_ingress_keeps_its_rules_witness :
  exists stored,
    ingresses
      (cluster (Sample.proxyIngress
                  (Sample.held DevboxStateRunning NetworkTypeWebSocket)).2)
      !! ("ns", "box-proxy-ingress") = Some stored
    /\ map Host (Rules (IngressSpecOf stored)) = ["r0.ws.example"].
Proof.
  destruct (@proxy_ingress_keeps_its_rules Sample.reconciler
              (Sample.held DevboxStateRunning NetworkTypeWebSocket)
              "r0.ws.example"
              (Sample.proxyIngress
                 (Sample.held DevboxStateRunning NetworkTypeWebSocket)).2)
    as (_ & stored & Hstored & Hrules);
    [ unfold sound; apply (bool_decide_unpack _); vm_compute; exact I
    | apply run_result; vm_compute; reflexivity |].
  exists stored. split; [exact Hstored | exact Hrules].
Defined.

(** The environment of the proxy of the sample. *)
Lemma proxy_environment_targets_witness :
  exists envs,
    (Sample.proxyEnv (Sample.held DevboxStateRunning NetworkTypeWebSocket)).1
    = Done (OK envs)
    /\ lookupEnv "TARGET" envs = Some "box-pod-svc:22"
    /\ lookupEnv "LISTEN" envs = Some "0.0.0.0:80".
Proof.
  assert (exists envs,
             (Sample.proxyEnv
                (Sample.held DevboxStateRunning NetworkTypeWebSocket)).1
             = Done (OK envs)) as (envs & Henvs)
    by (eexists; vm_compute; reflexivity).
  destruct (@proxy_environment_targets Sample.libraries
              Sample.reconciler (runtimeServicePorts Sample.runtime)
              (Sample.held DevboxStateRunning NetworkTypeWebSocket) envs
              (Sample.proxyEnv
                 (Sample.held DevboxStateRunning NetworkTypeWebSocket)).2)
    as (Htarget & Hlisten & _);
    [apply run_result; exact Henvs|].
  exists envs. split; [exact Henvs|]. split; [exact Htarget | exact Hlisten].
Defined.

(** The proxy sync of the second pass of the WebSocket devbox. *)
Lemma stored_proxy_is_not_rewritten_witness :
  exists w',
    Sample.proxyPod Sample.ws1 = (Done None, w')
    /\ cluster w' = cluster Sample.ws1.
Proof.
  destruct (deployments (cluster Sample.ws1) !! ("ns", "box-proxy-deployment"))
    as [dep|] eqn:Hdep; [|vm_compute in Hdep; discriminate Hdep].
  destruct (@stored_proxy_is_not_rewritten Sample.helper Sample.libraries
              Sample.reconciler Sample.boxLabels
              (runtimeServicePorts Sample.runtime) Sample.ws1 dep)
    as (w' & Hrun & Hcluster & _);
    [ vm_compute; reflexivity
    | refine (eq_trans _ Hdep); vm_compute; reflexivity
    | vm_compute; reflexivity |].
  exists w'. split; [exact Hrun | exact Hcluster].
Defined.

(** The deletion pass of [Sample.doomed]. *)
Lemma deletion_pass_releases_the_devbox_witness :
  devboxes (cluster (Sample.pass Sample.doomed).2) !! ("ns", "box") = None.
Proof.
  destruct (@deletion_pass_releases_the_devbox
              Sample.helper Sample.libraries Sample.reconciler ("ns", "box")
              Sample.doomed Sample.doomedBox 1700000050
              (Sample.pass Sample.doomed).2)
    as (Hgone & _);
    [ reflexivity | reflexivity | reflexivity
    | apply (bool_decide_unpack _); vm_compute; exact I
    | apply run_result; vm_compute; reflexivity |].
  refine (eq_trans Hgone _). vm_compute. reflexivity.
Defined.

(** A pass for the live devbox of the sample that has the finalizer. *)
Lemma finalizer_stays_on_a_live_devbox_witness :
  @guarded Sample.helper ("ns", "box") (Sample.pass Sample.kept).2.
Proof.
  apply (@finalizer_stays_on_a_live_devbox
           Sample.helper Sample.libraries Sample.reconciler ("ns", "box")
           Sample.kept Sample.guardedBox);
    [ reflexivity | reflexivity | reflexivity
    | apply (bool_decide_unpack _); vm_compute; exact I ].
Defined.

(** The first pass for the new devbox of the sample. *)
Lemma handled_devbox_carries_the_finalizer_witness :
  @guarded Sample.helper ("ns", "box") (Sample.pass Sample.np0).2.
Proof.
  apply (@handled_devbox_carries_the_finalizer
           Sample.helper Sample.libraries Sample.reconciler ("ns", "box")
           Sample.np0 (Sample.box DevboxStateRunning NetworkTypeNodePort));
    [ reflexivity | reflexivity | reflexivity
    | apply run_result; vm_compute; reflexivity ].
Defined.

(** Two pairs with the key [a-b-c]. *)
Lemma set_answers_every_pair_of_the_key_witness :
  Auth.AuthCache_Get "b-c" "a" 5 (Auth.AuthCache_Set "c" "a-b" 0 Auth.small)
  = true.
Proof.
  rewrite (set_answers_every_pair_of_the_key "c" "a-b" "b-c" "a" 0 5
             Auth.small); reflexivity.
Defined.

(** The first key of the small cache. *)
Lemma capacity_bounds_keys_set_once_witness :
  Z.of_nat (size (Auth.cache (Auth.AuthCache_Set "ns1" "kc1" 0 Auth.small)))
  <= 1.
Proof.
  apply (capacity_bounds_keys_set_once "ns1" "kc1" 0 Auth.small).
  - split; [constructor|]. intros k. split.
    + intros Hin. apply elem_of_nil in Hin. destruct Hin.
    + intros [t Ht]. cbn in Ht. rewrite lookup_empty in Ht. discriminate Ht.
  - vm_compute. discriminate.
  - apply not_elem_of_nil.
Defined.

(** The small cache after its only entry was cleaned up and a second key
    was set: the third key makes two entries, with a capacity of one. *)
Lemma stale_key_lets_the_cache_outgrow_witness :
  Z.of_nat (size (Auth.cache
                    (Auth.AuthCache_Set "ns3" "kc3" (Auth.hour + 4) Auth.stale)))
  = 2
  /\ Auth.capacity Auth.stale = 1.
Proof.
  destruct (stale_key_lets_the_cache_outgrow "ns3" "kc3" (Auth.hour + 4)
              Auth.stale "kc1-ns1") as [Hsize _];
    [ vm_compute; reflexivity | vm_compute; reflexivity
    | vm_compute; discriminate | vm_compute; reflexivity |].
  split; [|reflexivity].
  rewrite Hsize. vm_compute. reflexivity.
Defined.
